(** * Pharmacy Invoice Generator: inventory, invoice and session logic

    A shallow embedding of the Python sources

    - [app/data_store.py]   (module [DataStore])
    - [app/models.py]       (module [Models])
    - [app/ui_main.py]      (module [UiMain])
    - [app/models/medicine.py], [app/data/excel_repo.py],
      [app/printing/receipt_printer.py], [app/ui/main_window.py]
      (modules [Medicine], [ExcelRepo], [Printing], [UiWindow])

    followed by the properties of the inventory / invoice consistency logic.

    Python [int] is [Z]; Python [float] is IEEE binary64, taken from the
    Standard Library's executable specification [SpecFloat]; [str] is
    [string]; a [dict] is a [gmap]; an exception is a value of [exn] carried
    next to the state it left behind. *)

From Stdlib Require Import ZArith String Ascii List Bool Lia.
From Stdlib Require Import Floats.SpecFloat.
From stdpp Require Import gmap strings list fin_maps pretty.

Local Open Scope string_scope.
Local Open Scope list_scope.
Local Open Scope Z_scope.

(* ===================================================================== *)
(** * The Python layer *)
(* ===================================================================== *)

Module Py.

(** ** Text: [str.strip] and [str.lower]

    The model covers ASCII text: a character is a code point below 128,
    anything above is kept as it is (neither white space nor cased). *)

(** The ASCII characters for which [str.isspace] holds: TAB, LF, VT, FF, CR,
    the four separators 28..31 and the space. *)
Definition isspace (c : ascii) : bool :=
  let n := nat_of_ascii c in
  ((9 <=? n)%nat && (n <=? 13)%nat) || ((28 <=? n)%nat && (n <=? 32)%nat).

Fixpoint lstrip (s : string) : string :=
  match s with
  | String c s' => if isspace c then lstrip s' else s
  | EmptyString => EmptyString
  end.

(** [rstrip] keeps a character when something that is not white space
    follows it or when it is itself not white space. *)
Fixpoint rstrip (s : string) : string :=
  match s with
  | String c s' =>
      match rstrip s' with
      | EmptyString => if isspace c then EmptyString else String c EmptyString
      | t => String c t
      end
  | EmptyString => EmptyString
  end.

Definition strip (s : string) : string := rstrip (lstrip s).

Definition lower_char (c : ascii) : ascii :=
  let n := nat_of_ascii c in
  if ((65 <=? n)%nat && (n <=? 90)%nat) then ascii_of_nat (n + 32) else c.

Fixpoint lower (s : string) : string :=
  match s with
  | String c s' => String (lower_char c) (lower s')
  | EmptyString => EmptyString
  end.

(** ** Floats: IEEE binary64 with round-to-nearest-even *)

Definition float := spec_float.

Definition prec : Z := 53.
Definition emax : Z := 1024.

Definition fmul : float -> float -> float := SFmul prec emax.
Definition fadd : float -> float -> float := SFadd prec emax.
Definition fsub : float -> float -> float := SFsub prec emax.
Definition fdiv : float -> float -> float := SFdiv prec emax.
(** Python's [==] on floats: [nan] equals nothing, [-0.0 == 0.0]. *)
Definition feqb : float -> float -> bool := SFeqb.

(** A value that binary64 can hold. *)
Definition is_binary64 (x : float) : bool := valid_binary prec emax x.

Definition is_finite (x : float) : bool :=
  match x with
  | S754_zero _ | S754_finite _ _ _ => true
  | _ => false
  end.

(** The float nearest to an integer ([inf] past the largest float). *)
Definition float_of_Z (z : Z) : float := binary_normalize prec emax z 0 false.

(** The float nearest to the decimal [m / 10^k], for [m] and [10^k] that
    are themselves floats (as in [0.01 = dec 1 2]); this is what the literal
    denotes in Python. *)
Definition dec (m : Z) (k : nat) : float :=
  fdiv (float_of_Z m) (float_of_Z (10 ^ Z.of_nat k)).

Definition zero : float := S754_zero false.
Definition one : float := S754_finite false 4503599627370496 (-52).

(** The float nearest to [m1 / m2]. *)
Definition round_ratio (neg : bool) (m1 m2 : positive) : float :=
  let '(q, e, l) := SFdiv_core_binary prec emax (Z.pos m1) 0 (Z.pos m2) 0 in
  binary_round_aux prec emax neg q e l.

(** The float nearest to [m * 10^e]: what [float] makes of a decimal
    numeral. *)
Definition scaled (neg : bool) (m : Z) (e : Z) : float :=
  match m with
  | Z.pos p =>
      if 0 <=? e
      then binary_normalize prec emax
             (if neg then - (m * 10 ^ e) else m * 10 ^ e) 0 false
      else round_ratio neg p (Z.to_pos (10 ^ (- e)))
  | _ => S754_zero neg
  end.

(** ** Exceptions and results *)

Inductive value_error :=
  | BadLiteral                         (* int("abc"), float("x"), int(nan) *)
  | SheetNotFound (sheet : string)     (* "Sheet '...' not found in Excel file." *)
  | MissingColumns (cols : list string) (* "Missing required columns: ..." *)
  | SheetMissingColumns                (* "Excel sheet missing required columns." *)
  | QuantityNotPositive                (* "Quantity must be positive." *)
  | InsufficientStock (name : string) (available requested : Z).

Inductive exn :=
  | TypeError
  | ValueError (why : value_error)
  | OverflowError
  | KeyError (key : string)
  | FileNotFoundError
  | OSError           (* the workbook could not be written *)
  | RuntimeError.     (* "Inventory repository is not initialized." *)

Inductive result (A : Type) :=
  | Ok (a : A)
  | Raise (e : exn).
Arguments Ok {A} a.
Arguments Raise {A} e.

Definition bind {A B} (r : result A) (k : A -> result B) : result B :=
  match r with
  | Ok a => k a
  | Raise e => Raise e
  end.

Definition is_ok {A} (r : result A) : bool :=
  match r with Ok _ => true | Raise _ => false end.

(** ** Cell values

    What [openpyxl] hands out as [cell.value]. *)
Inductive cell :=
  | CNone                     (* empty cell *)
  | CStr (s : string)
  | CInt (z : Z)
  | CFloat (f : float)
  | CBool (b : bool)
  | COther (shown : string).  (* a date, a time, ...: carries its [str()] *)

Global Instance float_eq_dec : EqDecision float.
Proof. solve_decision. Defined.

Global Instance cell_eq_dec : EqDecision cell.
Proof. solve_decision. Defined.

(** The conversions of text to numbers and of floats to text belong to the
    Python runtime, and so does what is raised when an archive is opened
    that was left unfinished. They are an interface here; every statement
    below holds for every runtime. *)
Class Runtime := {
  int_of_str : string -> option Z;        (* [int(s)];   [None]: ValueError *)
  float_of_str : string -> option float;  (* [float(s)]; [None]: ValueError *)
  str_of_float : float -> string;         (* [str(x)] *)
  unfinished_archive : exn;               (* [load_workbook] on a file whose
                                             writing was interrupted *)
}.

Section Builtins.
Context `{Runtime}.

Definition from_option {A} (o : option A) : result A :=
  match o with
  | Some a => Ok a
  | None => Raise (ValueError BadLiteral)
  end.

(** [int(float)] truncates toward zero. *)
Definition int_of_float (f : float) : result Z :=
  match f with
  | S754_zero _ => Ok 0
  | S754_nan => Raise (ValueError BadLiteral)
  | S754_infinity _ => Raise OverflowError
  | S754_finite s m e =>
      let a := if 0 <=? e then Z.pos m * 2 ^ e else Z.pos m / 2 ^ (- e) in
      Ok (if s then - a else a)
  end.

(** [float(int)] rounds to nearest; too large an integer overflows. *)
Definition float_of_int (z : Z) : result float :=
  match float_of_Z z with
  | S754_infinity _ => Raise OverflowError
  | f => Ok f
  end.

Definition py_int (v : cell) : result Z :=
  match v with
  | CNone => Raise TypeError
  | CStr s => from_option (int_of_str s)
  | CInt z => Ok z
  | CFloat f => int_of_float f
  | CBool b => Ok (if b then 1 else 0)
  | COther _ => Raise TypeError
  end.

Definition py_float (v : cell) : result float :=
  match v with
  | CNone => Raise TypeError
  | CStr s => from_option (float_of_str s)
  | CInt z => float_of_int z
  | CFloat f => Ok f
  | CBool b => Ok (if b then one else zero)
  | COther _ => Raise TypeError
  end.

Definition py_str (v : cell) : string :=
  match v with
  | CNone => "None"
  | CStr s => s
  | CInt z => pretty z
  | CFloat f => str_of_float f
  | CBool b => if b then "True" else "False"
  | COther shown => shown
  end.
End Builtins.

(** Truth value of a cell ([if v], [v or ""]). *)
Definition truthy (v : cell) : bool :=
  match v with
  | CNone => false
  | CStr s => negb (String.eqb s "")
  | CInt z => negb (z =? 0)
  | CFloat (S754_zero _) => false
  | CFloat _ => true
  | CBool b => b
  | COther _ => true
  end.

(** [v in (None, "")]. *)
Definition is_blank (v : cell) : bool :=
  match v with
  | CNone => true
  | CStr s => String.eqb s ""
  | _ => false
  end.

(** [v or ""]. *)
Definition or_empty (v : cell) : cell := if truthy v then v else CStr "".

End Py.

Import Py.


(* ===================================================================== *)
(** * app/models.py *)
(* ===================================================================== *)

Module Models.

Record InvoiceItem := {
  name : string;
  mg : string;
  rack : string;
  unit_price : float;
  qty : Z;
}.

(** [existing.qty += amount]. *)
Definition add_qty (existing : InvoiceItem) (amount : Z) : InvoiceItem :=
  {| name := name existing; mg := mg existing; rack := rack existing;
     unit_price := unit_price existing; qty := qty existing + amount |}.

(** [line_total = unit_price * qty]: the quantity is converted to a float
    first. (Quantities stay far below the range where that conversion would
    overflow.) *)
Definition line_total (item : InvoiceItem) : float :=
  fmul (unit_price item) (float_of_Z (qty item)).

Record Invoice := { items : list InvoiceItem }.

Definition empty : Invoice := {| items := [] |}.

(** The loop of [add_item]: the first item of the same name takes the
    quantity and the method returns; when the loop runs off the end the new
    item is appended. *)
Fixpoint add_item_to (its : list InvoiceItem) (item : InvoiceItem)
  : list InvoiceItem :=
  match its with
  | existing :: rest =>
      if String.eqb (name existing) (name item)
      then add_qty existing (qty item) :: rest
      else existing :: add_item_to rest item
  | [] => [item]
  end.

Definition add_item (self : Invoice) (item : InvoiceItem) : Invoice :=
  {| items := add_item_to (items self) item |}.

(** [sum(...)] starts from [0] and adds from left to right. (CPython 3.12
    and later carry a compensation term along; nothing below depends on how
    the sum is rounded.) *)
Definition subtotal (self : Invoice) : float :=
  fold_left fadd (map line_total (items self)) zero.

Definition discount_amount (self : Invoice) (percent : float) : float :=
  fmul (subtotal self) (fdiv percent (float_of_Z 100)).

Definition net_total (self : Invoice) (percent : float) : float :=
  fsub (subtotal self) (discount_amount self percent).

Definition total_qty (self : Invoice) : Z :=
  fold_left Z.add (map qty (items self)) 0.

End Models.

(* ===================================================================== *)
(** * app/models/medicine.py *)
(* ===================================================================== *)

Module Medicine.

Record Medicine := {
  name : string;
  mg : string;
  rack_number : string;
  stock : Z;
  price : float;
  actual_price : option float;
}.

(** [actual_price if actual_price not in (None, "") else price]: a float is
    never equal to [""]. *)
Definition effective_price (self : Medicine) : float :=
  match actual_price self with
  | Some p => p
  | None => price self
  end.

Record InvoiceItem := {
  medicine : Medicine;
  quantity : Z;
}.

Definition line_total (self : InvoiceItem) : float :=
  fmul (float_of_Z (quantity self)) (effective_price (medicine self)).

End Medicine.

(** The result type is a monad: [x ← e; k] stops at the first exception. *)
Global Instance result_ret : MRet result := @Ok.
Global Instance result_bind : MBind result := fun A B k r => bind r k.
Global Instance result_fmap : FMap result :=
  fun A B f r => bind r (fun a => Ok (f a)).

(* ===================================================================== *)
(** * The workbook and the file it is read from *)
(* ===================================================================== *)

Module Xlsx.

(** A worksheet: the values of its cells by (row, column), both counted
    from 1, and its extent. A cell that was never written reads as empty. *)
Record Worksheet := {
  cells : gmap (nat * nat) cell;
  max_row : nat;
  max_column : nat;
}.

Definition value (ws : Worksheet) (r c : nat) : cell :=
  default CNone (cells ws !! (r, c)).

(** [ws[ref].value = v], for a cell inside the sheet's extent. *)
Definition set_value (ws : Worksheet) (ref : nat * nat) (v : cell) : Worksheet :=
  {| cells := <[ref := v]> (cells ws);
     max_row := max_row ws; max_column := max_column ws |}.

Definition blank : Worksheet := {| cells := ∅; max_row := 1; max_column := 1 |}.

(** A workbook: its sheets by name. *)
Abbreviation Workbook := (gmap string Worksheet).

(** ** Numbers in the file

    [openpyxl] writes the number of a cell as ["%.16g" % value]: an [int]
    is made a float first, which raises [OverflowError] when it is too
    large, and the float is printed with 16 significant digits, rounded to
    nearest, ties to even, without exponent when the decimal exponent is
    between -4 and 15, and without trailing zeros. It reads the text with
    [int] when there is no ".", "e" or "E" in it and with [float]
    otherwise; [int] cannot read "inf" or "nan". The definitions follow the
    digits of that text. *)

(** The finite float of mantissa [m] and exponent [e] as a fraction. *)
Definition fraction (m : positive) (e : Z) : Z * Z :=
  if 0 <=? e then (Z.pos m * 2 ^ e, 1) else (Z.pos m, 2 ^ (- e)).

(** For [d <= n]: the largest [x] with [d * 10^x <= n]. *)
Fixpoint log10_up (fuel : nat) (n d : Z) : Z :=
  match fuel with
  | O => 0
  | S fuel' => if d * 10 <=? n then 1 + log10_up fuel' n (d * 10) else 0
  end.

(** For [n < d]: the least [x] with [d <= n * 10^x]. *)
Fixpoint log10_down (fuel : nat) (n d : Z) : Z :=
  match fuel with
  | O => 0
  | S fuel' => if d <=? n * 10 then 1 else 1 + log10_down fuel' (n * 10) d
  end.

(** The decimal exponent of [n / d], for positive [n] and [d]. *)
Definition exponent10 (n d : Z) : Z :=
  if d <=? n then log10_up (S (Z.to_nat (Z.log2 n))) n d
  else - log10_down (S (Z.to_nat (Z.log2 d))) n d.

(** [n / d] rounded to an integer, ties to even. *)
Definition round_half_even (n d : Z) : Z :=
  let q := n / d in
  match 2 * (n mod d) ?= d with
  | Lt => q
  | Gt => q + 1
  | Eq => if Z.even q then q else q + 1
  end.

(** The 16 significant digits [D] of [n / d] and the exponent [k] of the
    last of them: [D * 10^k] is the decimal nearest to [n / d]. *)
Definition digits16 (n d : Z) : Z * Z :=
  let k := exponent10 n d - 15 in
  let D := if 0 <=? k then round_half_even n (d * 10 ^ k)
           else round_half_even (n * 10 ^ (- k)) d in
  if D =? 10 ^ 16 then (10 ^ 15, k + 1) else (D, k).

(** What is read back of a float that was written. The text has neither
    exponent nor point when the decimal exponent [k + 15] is between -4
    and 15 and no digit is left behind the point. *)
Definition reread (x : float) : option cell :=
  match x with
  | S754_zero _ => Some (CInt 0)
  | S754_finite s m e =>
      let '(D, k) := digits16 (fraction m e).1 (fraction m e).2 in
      if (- 4 <=? k + 15) && (k + 15 <? 16) &&
         ((0 <=? k) || (D mod 10 ^ (- k) =? 0))
      then
        let z := if 0 <=? k then D * 10 ^ k else D / 10 ^ (- k) in
        Some (CInt (if s then - z else z))
      else Some (CFloat (scaled s D k))
  | S754_infinity _ | S754_nan => None
  end.

(** A cell that can be written: only an [int] beyond the floats cannot. *)
Definition formats (c : cell) : bool :=
  match c with
  | CInt z => is_ok (float_of_int z)
  | _ => true
  end.

(** What a cell that was written reads as; [None] when its text cannot be
    read. An empty text is written as an empty cell; other text, truth
    values and dates come back as they are. *)
Definition stored (c : cell) : option cell :=
  match c with
  | CNone => Some CNone
  | CStr s => Some (if String.eqb s "" then CNone else CStr s)
  | CInt z =>
      match float_of_int z with
      | Ok x => reread x
      | Raise _ => None
      end
  | CFloat x => reread x
  | CBool b => Some (CBool b)
  | COther shown => Some (COther shown)
  end.

(** Every cell of every sheet satisfies [P]. *)
Definition every (P : cell -> bool) (wb : Workbook) : Prop :=
  map_Forall (fun _ ws => map_Forall (fun _ c => P c = true) (cells ws)) wb.

Definition reread_sheet (ws : Worksheet) : Worksheet :=
  {| cells := (fun c => default c (stored c)) <$> cells ws;
     max_row := max_row ws; max_column := max_column ws |}.

(** What loading gives of a workbook that was written: the workbook read
    back, or the [ValueError] of a number that cannot be read. *)
Definition read_back (wb : Workbook) : result Workbook :=
  if decide (every (fun c => bool_decide (is_Some (stored c))) wb)
  then Ok (reread_sheet <$> wb)
  else Raise (ValueError BadLiteral).

(** A workbook that the file keeps as it is: every cell is read back as
    it was written. *)
Definition kept (wb : Workbook) : Prop :=
  map_Forall (fun _ ws => map_Forall (fun _ c => stored c = Some c) (cells ws))
    wb.

Global Instance kept_dec (wb : Workbook) : Decision (kept wb).
Proof. unfold kept. apply _. Defined.

(** The workbook file at [config.EXCEL_PATH]: absent, or what loading it
    gives (a workbook or an exception), and whether it can be written at
    the moment. *)
Record Disk := {
  file : option (result Workbook);
  writable : bool;
}.

Definition load_workbook (d : Disk) : result Workbook :=
  match file d with
  | Some r => r
  | None => Raise FileNotFoundError
  end.

Section WithRuntime.
Context `{Runtime}.

(** [workbook.save(path)]: the file is opened for writing, then the cells
    are written; a number that cannot be written leaves the archive
    unfinished. *)
Definition save_workbook (d : Disk) (wb : Workbook) : Disk * result unit :=
  if writable d
  then
    if decide (every formats wb)
    then ({| file := Some (read_back wb); writable := writable d |}, Ok tt)
    else ({| file := Some (Raise unfinished_archive);
             writable := writable d |}, Raise OverflowError)
  else (d, Raise OSError).

End WithRuntime.

End Xlsx.

(* ===================================================================== *)
(** * app/config.py *)
(* ===================================================================== *)

Module Config.
Definition EXCEL_SHEET_NAME : string := "Medicines".
End Config.

(* ===================================================================== *)
(** * app/data_store.py *)
(* ===================================================================== *)

Module DataStore.
Import Xlsx.

Definition REQUIRED_COLUMNS : list string :=
  ["Medicine_Name"; "Price"; "Stock"; "MG"; "Rack_Number"; "Actual_Price"].

(** A record of the inventory (a [dict] with these five keys). *)
Record record := {
  name : string;
  mg : string;
  rack : string;
  stock : Z;
  price : float;
}.

(** [record["stock"] = new_stock]. *)
Definition set_stock (r : record) (new_stock : Z) : record :=
  {| name := name r; mg := mg r; rack := rack r;
     stock := new_stock; price := price r |}.

(** [stock_cell_ref] is the cell's coordinate, kept here as (row, column). *)
Record _RowRef := {
  row_index : nat;
  stock_cell_ref : nat * nat;
}.

(** The object. [self._sheet] is not a field of its own: it is the sheet
    [sheet_name] inside [self._workbook], so writing a cell of it writes the
    workbook that [save] stores. *)
Record ExcelDataStore := {
  sheet_name : string;
  _workbook : Workbook;
  _col_map : gmap string nat;
  _names : list string;
  _records : gmap string record;
  _row_refs : gmap string _RowRef;
}.

Definition _sheet (self : ExcelDataStore) : Worksheet :=
  default blank (_workbook self !! sheet_name self).

(** The three tables that [_read_rows] fills. *)
Abbreviation tables :=
  (list string * gmap string record * gmap string _RowRef)%type.

Section WithRuntime.
Context `{Runtime}.

(** [str(name).strip().lower()] *)
Definition _normalize_name (name : cell) : string :=
  lower (strip (py_str name)).

Definition _detect_columns (sheet : Worksheet) : result (gmap string nat) :=
  let headers :=
    fold_left
      (fun (headers : gmap string nat) idx =>
         match value sheet 1 idx with
         | CNone => headers
         | v => <[strip (py_str v) := idx]> headers
         end)
      (seq 1 (max_column sheet)) ∅ in
  let missing := filter (fun col => headers !! col = None) REQUIRED_COLUMNS in
  match missing with
  | [] => Ok headers
  | _ => Raise (ValueError (MissingColumns missing))
  end.

Definition _to_int (value : cell) (default : Z) : result Z :=
  if is_blank value then Ok default
  else match py_int value with
       | Ok z => Ok z
       | Raise TypeError | Raise (ValueError _) => Ok default
       | Raise e => Raise e
       end.

Definition _to_float (value : cell) (default : option float)
  : result (option float) :=
  if is_blank value then Ok default
  else match py_float value with
       | Ok f => Ok (Some f)
       | Raise TypeError | Raise (ValueError _) => Ok default
       | Raise e => Raise e
       end.

(** [self._col_map[key]] *)
Definition col (col_map : gmap string nat) (key : string) : result nat :=
  match col_map !! key with
  | Some i => Ok i
  | None => Raise (KeyError key)
  end.

(** What one row yields: nothing when its name is blank ([continue]),
    else the key, the record and the row reference. A row is the tuple of
    the cells of columns 1..max_column, so [row[c - 1]] is the cell of
    column [c]. *)
Definition read_row (col_map : gmap string nat) (sheet : Worksheet)
    (row_idx : nat) : result (option (string * record * _RowRef)) :=
  c_name ← col col_map "Medicine_Name";
  let name_val := value sheet row_idx c_name in
  if is_blank name_val then Ok None else
  c_mg ← col col_map "MG";
  let mg := or_empty (value sheet row_idx c_mg) in
  c_rack ← col col_map "Rack_Number";
  let rack := or_empty (value sheet row_idx c_rack) in
  c_stock ← col col_map "Stock";
  stock ← _to_int (value sheet row_idx c_stock) 0;
  c_price ← col col_map "Price";
  price_val ← _to_float (value sheet row_idx c_price) (Some zero);
  c_actual ← col col_map "Actual_Price";
  actual_price_val ←
    _to_float (value sheet row_idx c_actual) None;
  (* a float is never in (None, ""); price_val is never None, its default
     being 0.0 *)
  let effective_price :=
    match actual_price_val, price_val with
    | Some p, _ => p
    | None, Some p => p
    | None, None => zero
    end in
  let norm_name := _normalize_name name_val in
  let record :=
    {| name := py_str name_val; mg := py_str mg; rack := py_str rack;
       stock := stock; price := effective_price |} in
  Ok (Some (norm_name, record,
            {| row_index := row_idx;
               stock_cell_ref := (row_idx, c_stock) |})).

Definition read_step (col_map : gmap string nat) (sheet : Worksheet)
    (acc : result tables) (row_idx : nat) : result tables :=
  '(names, records, row_refs) ← acc;
  row ← read_row col_map sheet row_idx;
  match row with
  | None => Ok (names, records, row_refs)
  | Some (norm_name, record, ref) =>
      Ok ((names ++ [name record])%list,
          <[norm_name := record]> records,
          <[norm_name := ref]> row_refs)
  end.

(** [_read_rows]: the tables are cleared, then filled from rows
    2..max_row. An exception leaves the constructor, and with it the
    half-filled object is gone. *)
Definition _read_rows (col_map : gmap string nat) (sheet : Worksheet)
  : result tables :=
  fold_left (read_step col_map sheet)
    (seq 2 (max_row sheet - 1)%nat) (Ok ([], ∅, ∅)).

(** [ExcelDataStore(path, sheet_name)]: [__init__] and [_load]. *)
Definition __init__ (d : Disk) (sheet : string) : result ExcelDataStore :=
  wb ← load_workbook d;
  match wb !! sheet with
  | None => Raise (ValueError (SheetNotFound sheet))
  | Some ws =>
      col_map ← _detect_columns ws;
      '(names, records, row_refs) ← _read_rows col_map ws;
      Ok {| sheet_name := sheet; _workbook := wb; _col_map := col_map;
            _names := names; _records := records; _row_refs := row_refs |}
  end.

Definition get_all_names (self : ExcelDataStore) : list string :=
  _names self.

Definition get_medicine (self : ExcelDataStore) (name : string)
  : option record :=
  _records self !! _normalize_name (CStr name).

(** [reduce_stock]: the object as the call leaves it, and how the call
    ended. *)
Definition reduce_stock (self : ExcelDataStore) (name : string) (qty : Z)
  : ExcelDataStore * result unit :=
  if qty <=? 0 then (self, Raise (ValueError QuantityNotPositive)) else
  let norm := _normalize_name (CStr name) in
  match _records self !! norm with
  | None => (self, Raise (KeyError name))
  | Some record =>
      let new_stock := stock record - qty in
      if new_stock <? 0
      then (self, Raise (ValueError
              (InsufficientStock (DataStore.name record) (stock record) qty)))
      else
        let self1 :=
          {| sheet_name := sheet_name self; _workbook := _workbook self;
             _col_map := _col_map self; _names := _names self;
             _records := <[norm := set_stock record new_stock]> (_records self);
             _row_refs := _row_refs self |} in
        match _row_refs self !! norm with
        | None => (self1, Raise (KeyError norm))
        | Some ref =>
            ({| sheet_name := sheet_name self;
                _workbook :=
                  <[sheet_name self :=
                      set_value (_sheet self) (stock_cell_ref ref)
                                (CInt new_stock)]> (_workbook self);
                _col_map := _col_map self; _names := _names self;
                _records := _records self1;
                _row_refs := _row_refs self |}, Ok tt)
        end
  end.

Definition save (d : Disk) (self : ExcelDataStore) : Disk * result unit :=
  save_workbook d (_workbook self).

Definition self_check (self : ExcelDataStore) : bool :=
  forallb (fun col => bool_decide (is_Some (_col_map self !! col)))
          REQUIRED_COLUMNS.

End WithRuntime.
End DataStore.

(* ===================================================================== *)
(** * A runtime to evaluate the model with *)
(* ===================================================================== *)

(** Decimal literals, as CPython reads and prints them: [int(s)] and
    [float(s)] for an optional sign and decimal digits (single underscores
    between digits, a fraction and an exponent for floats, [inf], [nan]),
    white space around them stripped. [str(x)] prints a float in positional
    notation with all its digits, which is what CPython prints when the
    float has at most 15 significant decimal digits and lies in
    [1e-4, 1e16); CPython shortens or switches to exponent notation
    elsewhere. An archive that was not finished lacks its table of
    contents. The theorems do not depend on this runtime. *)
Module DecimalRuntime.

Definition digit (c : ascii) : option Z :=
  let n := nat_of_ascii c in
  if ((48 <=? n)%nat && (n <=? 57)%nat) then Some (Z.of_nat (n - 48)) else None.

(** Digits with single underscores between them: the number read and how
    many digits it has. *)
Fixpoint digits_from (acc : Z) (count : nat) (after_digit : bool) (s : string)
  : option (Z * nat) :=
  match s with
  | EmptyString => if after_digit then Some (acc, count) else None
  | String c s' =>
      if Ascii.eqb c "_"
      then if after_digit then digits_from acc count false s' else None
      else match digit c with
           | Some d => digits_from (10 * acc + d) (S count) true s'
           | None => None
           end
  end.

Definition digits (s : string) : option (Z * nat) := digits_from 0 0 false s.

(** An optional sign in front. *)
Definition signed (s : string) : bool * string :=
  match s with
  | String "-" r => (true, r)
  | String "+" r => (false, r)
  | _ => (false, s)
  end.

Definition int_of_str (s : string) : option Z :=
  let '(neg, body) := signed (strip s) in
  match digits body with
  | Some (n, _) => Some (if neg then - n else n)
  | None => None
  end.

(** Splits at the first occurrence of one of two characters. *)
Fixpoint split_at (c1 c2 : ascii) (s : string) : string * option string :=
  match s with
  | EmptyString => (EmptyString, None)
  | String c s' =>
      if Ascii.eqb c c1 || Ascii.eqb c c2 then (EmptyString, Some s')
      else let '(a, b) := split_at c1 c2 s' in (String c a, b)
  end.

(** The mantissa [int.frac], [int.], [.frac] or [int]: its digits as an
    integer and the number of digits after the point. *)
Definition mantissa (s : string) : option (Z * nat) :=
  match split_at "." "." s with
  | (i, None) => match digits i with Some (n, _) => Some (n, O) | None => None end
  | (i, Some f) =>
      match i, f with
      | EmptyString, EmptyString => None
      | EmptyString, _ => digits f
      | _, EmptyString =>
          match digits i with Some (n, _) => Some (n, O) | None => None end
      | _, _ =>
          match digits i, digits f with
          | Some (n, _), Some (m, k) => Some (n * 10 ^ Z.of_nat k + m, k)
          | _, _ => None
          end
      end
  end.

Definition float_of_str (s : string) : option float :=
  let '(neg, body) := signed (strip s) in
  let word := lower body in
  if String.eqb word "inf" || String.eqb word "infinity"
  then Some (S754_infinity neg)
  else if String.eqb word "nan" then Some S754_nan
  else
    let '(m, e) := split_at "e" "E" body in
    match mantissa m with
    | None => None
    | Some (n, k) =>
        match e with
        | None => Some (scaled neg n (- Z.of_nat k))
        | Some e =>
            let '(eneg, ebody) := signed e in
            match digits ebody with
            | Some (x, _) =>
                Some (scaled neg n ((if eneg then - x else x) - Z.of_nat k))
            | None => None
            end
        end
    end.

(** [n] written with [k] digits after the point, without trailing zeros
    but with at least one digit there. *)
Fixpoint frac_digits (k : nat) (n : Z) : string :=
  match k with
  | O => ""
  | S k' =>
      if n =? 0 then ""
      else pretty (n / 10 ^ Z.of_nat k') +:+
           frac_digits k' (n mod 10 ^ Z.of_nat k')
  end.

Definition positional (neg : bool) (num : Z) (k : nat) : string :=
  let whole := num / 10 ^ Z.of_nat k in
  let part := num mod 10 ^ Z.of_nat k in
  (if neg then "-" else "") +:+ pretty whole +:+ "." +:+
  (if part =? 0 then "0" else frac_digits k part).

Definition str_of_float (x : float) : string :=
  match x with
  | S754_nan => "nan"
  | S754_infinity s => if s then "-inf" else "inf"
  | S754_zero s => if s then "-0.0" else "0.0"
  | S754_finite s m e =>
      if 0 <=? e then positional s (Z.pos m * 2 ^ e) 0
      else positional s (Z.pos m * 5 ^ (- e)) (Z.to_nat (- e))
  end.

Definition runtime : Runtime :=
  {| Py.int_of_str := int_of_str;
     Py.float_of_str := float_of_str;
     Py.str_of_float := str_of_float;
     Py.unfinished_archive :=
       KeyError "There is no item named '[Content_Types].xml' in the archive" |}.

End DecimalRuntime.

(* ===================================================================== *)
(** * What the user sees: message boxes and print jobs *)
(* ===================================================================== *)

Module Gui.

Inductive icon := Warning | Information | Critical.

(** The text of a message box; the variable parts of a formatted text are
    kept as they are. *)
Inductive message :=
  | Text (s : string)
  | OnlyUnits (available : Z) (name : string)
      (* "Only {available} units available for {name}." *)
  | Failed (what : string) (e : exn).
      (* "Failed to load Excel: {exc}" and the like *)

(** What goes to the printer: the receipt's lines and figures, before they
    are formatted into HTML. *)
Record receipt (item : Type) := {
  customer_line : string;
  lines : list item;
  r_subtotal : float;
  r_discount_pct : float;
  r_discount_amt : float;
  r_net : float;
}.
Arguments customer_line {item} _.
Arguments lines {item} _.
Arguments r_subtotal {item} _.
Arguments r_discount_pct {item} _.
Arguments r_discount_amt {item} _.
Arguments r_net {item} _.

Inductive output (item : Type) :=
  | MessageBox (i : icon) (title : string) (m : message)
  | PrintJob (r : receipt item).
Arguments MessageBox {item} i title m.
Arguments PrintJob {item} r.

(** A [QSpinBox]: [setValue] keeps the value inside the range. *)
Definition spin_set (minimum maximum v : Z) : Z :=
  Z.max minimum (Z.min maximum v).

End Gui.

(* ===================================================================== *)
(** * app/ui_main.py *)
(* ===================================================================== *)

Module UiMain.
Import Xlsx Gui.
Import DataStore(ExcelDataStore, record).

(** The four detail labels; they are set together and cleared together
    (all four showing "-"). [stock_label] and [price_label] hold the value
    that the label shows. *)
Record Details := {
  mg_label : string;
  rack_label : string;
  stock_label : Z;
  price_label : float;
}.

(** The widgets, as far as the handlers read or write them. *)
Record Widgets := {
  search_input : string;
  details : option Details;           (* [None]: the labels show "-" *)
  qty_spin : Z;                       (* range 1..1_000_000 *)
  discount_spin : float;              (* range 0..100, one decimal *)
  total_label : float;
  table : list Models.InvoiceItem;    (* the rows of the invoice table *)
  add_button : bool;                  (* enabled? *)
  print_button : bool;                (* enabled? *)
  name_model : list string;           (* what the completer offers *)
  customer_name : string;
  customer_phone : string;
}.

Record MainWindow := {
  store : option ExcelDataStore;
  invoice : Models.Invoice;
  added_qty : gmap string Z;
  selected_name : option string;
  ui : Widgets;
}.

Definition QTY_MIN : Z := 1.
Definition QTY_MAX : Z := 1000000.

(** *** Field updates *)

Definition with_search_input x '(Build_Widgets _ b c d e f g h i j k) :=
  Build_Widgets x b c d e f g h i j k.
Definition with_details x '(Build_Widgets a _ c d e f g h i j k) :=
  Build_Widgets a x c d e f g h i j k.
Definition with_qty_spin x '(Build_Widgets a b _ d e f g h i j k) :=
  Build_Widgets a b x d e f g h i j k.
Definition with_discount_spin x '(Build_Widgets a b c _ e f g h i j k) :=
  Build_Widgets a b c x e f g h i j k.
Definition with_total_label x '(Build_Widgets a b c d _ f g h i j k) :=
  Build_Widgets a b c d x f g h i j k.
Definition with_table x '(Build_Widgets a b c d e _ g h i j k) :=
  Build_Widgets a b c d e x g h i j k.
Definition with_add_button x '(Build_Widgets a b c d e f _ h i j k) :=
  Build_Widgets a b c d e f x h i j k.
Definition with_print_button x '(Build_Widgets a b c d e f g _ i j k) :=
  Build_Widgets a b c d e f g x i j k.
Definition with_name_model x '(Build_Widgets a b c d e f g h _ j k) :=
  Build_Widgets a b c d e f g h x j k.
Definition with_customer_name x '(Build_Widgets a b c d e f g h i _ k) :=
  Build_Widgets a b c d e f g h i x k.
Definition with_customer_phone x '(Build_Widgets a b c d e f g h i j _) :=
  Build_Widgets a b c d e f g h i j x.

Definition with_store x '(Build_MainWindow _ b c d e) := Build_MainWindow x b c d e.
Definition with_invoice x '(Build_MainWindow a _ c d e) := Build_MainWindow a x c d e.
Definition with_added_qty x '(Build_MainWindow a b _ d e) := Build_MainWindow a b x d e.
Definition with_selected_name x '(Build_MainWindow a b c _ e) := Build_MainWindow a b c x e.
Definition with_ui x '(Build_MainWindow a b c d _) := Build_MainWindow a b c d x.
Definition on_ui (f : Widgets -> Widgets) (self : MainWindow) : MainWindow :=
  with_ui (f (ui self)) self.

Abbreviation outputs := (list (output Models.InvoiceItem)).

Section WithRuntime.
Context `{Runtime}.

(** [_load_store]: a store that fails to load leaves [self.store] as it
    was and disables both buttons. *)
Definition _load_store (self : MainWindow) (d : Disk)
  : MainWindow * outputs :=
  let loaded :=
    match DataStore.__init__ d Config.EXCEL_SHEET_NAME with
    | Raise e => (self, Raise e)
    | Ok st =>
        let self := with_store (Some st) self in
        if DataStore.self_check st
        then (self, Ok (DataStore.get_all_names st))
        else (self, Raise (ValueError SheetMissingColumns))
    end in
  match loaded with
  | (self, Ok names) => (on_ui (with_name_model names) self, [])
  | (self, Raise exc) =>
      (on_ui (fun w => with_name_model []
                (with_print_button false (with_add_button false w))) self,
       [MessageBox Critical "Excel Error" (Failed "Failed to load Excel" exc)])
  end.

Definition _clear_selection (self : MainWindow) : MainWindow :=
  on_ui (with_details None) (with_selected_name None self).

Definition _available_stock (self : MainWindow) (name : string) : Z :=
  match store self with
  | None => 0
  | Some st =>
      match DataStore.get_medicine st name with
      | None => 0
      | Some record =>
          let used := default 0 (added_qty self !! DataStore.name record) in
          Z.max (DataStore.stock record - used) 0
      end
  end.

Definition _select_medicine (self : MainWindow) (name : string) : MainWindow :=
  match store self with
  | None => self
  | Some st =>
      match DataStore.get_medicine st name with
      | None => _clear_selection self
      | Some record =>
          let self := with_selected_name (Some (DataStore.name record)) self in
          on_ui (with_details (Some
              {| mg_label := DataStore.mg record;
                 rack_label := DataStore.rack record;
                 stock_label := _available_stock self (DataStore.name record);
                 price_label := DataStore.price record |})) self
      end
  end.

(** [textChanged]: the completer is refreshed (not modelled) and an exact
    match is selected. *)
Definition _on_search_text (self : MainWindow) (text : string) : MainWindow :=
  if String.eqb text "" then _clear_selection self else
  match store self with
  | None => self
  | Some st =>
      match DataStore.get_medicine st text with
      | Some record => _select_medicine self (DataStore.name record)
      | None => self
      end
  end.

Definition _on_search_enter (self : MainWindow) : MainWindow * outputs :=
  let text := strip (search_input (ui self)) in
  match String.eqb text "", store self with
  | true, _ | _, None => (self, [])
  | false, Some st =>
      match DataStore.get_medicine st text with
      | Some record => (_select_medicine self (DataStore.name record), [])
      | None =>
          (_clear_selection self,
           [MessageBox Information "Not found"
              (Text "Medicine not found in Excel.")])
      end
  end.

Definition _refresh_table (self : MainWindow) : MainWindow :=
  on_ui (with_table (Models.items (invoice self))) self.

Definition _update_totals (self : MainWindow) : MainWindow :=
  on_ui (with_total_label
           (Models.net_total (invoice self) (discount_spin (ui self)))) self.

(** [if not self.selected_name]: [None] and the empty string count as no
    selection. *)
Definition selected (self : MainWindow) : option string :=
  match selected_name self with
  | Some n => if String.eqb n "" then None else Some n
  | None => None
  end.

Definition _add_to_invoice (self : MainWindow) : MainWindow * outputs :=
  match store self, selected self with
  | None, _ | _, None =>
      (self, [MessageBox Warning "Select medicine"
                (Text "Please select a medicine first.")])
  | Some st, Some selected_name =>
      match DataStore.get_medicine st selected_name with
      | None =>
          (self, [MessageBox Warning "Missing"
                    (Text "Selected medicine not found.")])
      | Some record =>
          let qty := qty_spin (ui self) in
          let available := _available_stock self (DataStore.name record) in
          if available <? qty
          then (self, [MessageBox Warning "Insufficient stock"
                         (OnlyUnits available (DataStore.name record))])
          else
            let item :=
              {| Models.name := DataStore.name record;
                 Models.mg := DataStore.mg record;
                 Models.rack := DataStore.rack record;
                 Models.unit_price := DataStore.price record;
                 Models.qty := qty |} in
            let self := with_invoice (Models.add_item (invoice self) item) self in
            let self :=
              with_added_qty
                (<[DataStore.name record :=
                     default 0 (added_qty self !! DataStore.name record) + qty]>
                   (added_qty self)) self in
            let self := _refresh_table self in
            let self := _update_totals self in
            (_select_medicine self (DataStore.name record), [])
      end
  end.

Definition _build_receipt (self : MainWindow) : receipt Models.InvoiceItem :=
  let discount_pct := discount_spin (ui self) in
  let customer := strip (customer_name (ui self)) in
  let phone := strip (customer_phone (ui self)) in
  let customer_line :=
    if String.eqb customer "" then "Walk-in Customer" else customer in
  let customer_line :=
    if String.eqb phone "" then customer_line
    else customer_line +:+ " (" +:+ phone +:+ ")" in
  {| customer_line := customer_line;
     lines := Models.items (invoice self);
     r_subtotal := Models.subtotal (invoice self);
     r_discount_pct := discount_pct;
     r_discount_amt := Models.discount_amount (invoice self) discount_pct;
     r_net := Models.net_total (invoice self) discount_pct |}.

(** [_clear_invoice]; the store is read again from the file. *)
Definition _clear_invoice (self : MainWindow) (d : Disk)
  : MainWindow * outputs :=
  let self := with_invoice Models.empty self in
  let self := with_added_qty ∅ self in
  let self := on_ui (with_table []) self in
  let self := on_ui (with_discount_spin zero) self in
  let self := _update_totals self in
  let self := _clear_selection self in
  match store self with
  | Some _ => _load_store self d
  | None => (self, [])
  end.

(** [for item in self.invoice.items: self.store.reduce_stock(...)]: the
    store as the loop leaves it. *)
Fixpoint reduce_all (st : ExcelDataStore) (its : list Models.InvoiceItem)
  : ExcelDataStore * result unit :=
  match its with
  | [] => (st, Ok tt)
  | item :: rest =>
      match DataStore.reduce_stock st (Models.name item) (Models.qty item) with
      | (st, Ok _) => reduce_all st rest
      | (st, Raise e) => (st, Raise e)
      end
  end.

(** [_on_print]; [printer_valid] is what [printer.isValid()] answers. *)
Definition _on_print (self : MainWindow) (d : Disk) (printer_valid : bool)
  : MainWindow * Disk * outputs :=
  match store self with
  | None =>
      (self, d, [MessageBox Warning "Excel not loaded"
                   (Text "Cannot print without Excel data.")])
  | Some st =>
      match Models.items (invoice self) with
      | [] =>
          (self, d, [MessageBox Information "No items"
                       (Text "Add at least one item to print.")])
      | _ =>
          if negb printer_valid
          then (self, d, [MessageBox Critical "Printer Error"
                            (Text "Printer not available.")])
          else
            let job := PrintJob (_build_receipt self) in
            let '(st, r) := reduce_all st (Models.items (invoice self)) in
            let self := with_store (Some st) self in
            let '(d, r) :=
              match r with
              | Ok _ => DataStore.save d st
              | Raise e => (d, Raise e)
              end in
            match r with
            | Raise exc =>
                (self, d,
                 [job; MessageBox Critical "Excel Error"
                         (Failed "Failed to update stock" exc)])
            | Ok _ =>
                let '(self, out) := _clear_invoice self d in
                (self, d,
                 [job; MessageBox Information "Printed"
                         (Text "Receipt sent to printer and stock updated.")]
                 ++ out)%list
            end
      end
  end.

(** The window as [__init__] leaves it. *)
Definition __init__ (d : Disk) : MainWindow * outputs :=
  _load_store
    {| store := None; invoice := Models.empty; added_qty := ∅;
       selected_name := None;
       ui := {| search_input := ""; details := None;
                qty_spin := QTY_MIN; discount_spin := zero;
                total_label := zero; table := [];
                add_button := true; print_button := true;
                name_model := [];
                customer_name := ""; customer_phone := "" |} |} d.

(** *** What the user does *)

Inductive event :=
  | TextChanged (text : string)       (* typing in the search box *)
  | ReturnPressed                     (* Enter in the search box *)
  | Activated (name : string)         (* a completion is chosen *)
  | QtyChanged (v : Z)                (* the quantity box is set *)
  | DiscountChanged (v : float)       (* the discount box is set *)
  | CustomerNameChanged (s : string)
  | CustomerPhoneChanged (s : string)
  | AddClicked
  | PrintClicked (printer_valid : bool)
  | ClearClicked.

Definition handle (self : MainWindow) (d : Disk) (ev : event)
  : MainWindow * Disk * outputs :=
  match ev with
  | TextChanged text =>
      (_on_search_text (on_ui (with_search_input text) self) text, d, [])
  | ReturnPressed => let '(self, out) := _on_search_enter self in (self, d, out)
  | Activated name => (_select_medicine self name, d, [])
  | QtyChanged v =>
      (on_ui (with_qty_spin (spin_set QTY_MIN QTY_MAX v)) self, d, [])
  | DiscountChanged v =>
      (_update_totals (on_ui (with_discount_spin v) self), d, [])
  | CustomerNameChanged s => (on_ui (with_customer_name s) self, d, [])
  | CustomerPhoneChanged s => (on_ui (with_customer_phone s) self, d, [])
  | AddClicked =>
      if add_button (ui self)
      then let '(self, out) := _add_to_invoice self in (self, d, out)
      else (self, d, [])
  | PrintClicked printer_valid =>
      if print_button (ui self) then _on_print self d printer_valid
      else (self, d, [])
  | ClearClicked => let '(self, out) := _clear_invoice self d in (self, d, out)
  end.

(** A run of the window over a list of events. *)
Fixpoint run (self : MainWindow) (d : Disk) (evs : list event)
  : MainWindow * Disk * outputs :=
  match evs with
  | [] => (self, d, [])
  | ev :: rest =>
      let '(self, d, out) := handle self d ev in
      let '(self, d, out') := run self d rest in
      (self, d, (out ++ out')%list)
  end.

End WithRuntime.
End UiMain.

(* ===================================================================== *)
(** * app/data/excel_repo.py *)
(* ===================================================================== *)

Module ExcelRepo.
Import Xlsx.

(** Column indexes of the required fields. *)
Record ExcelColumnMap := {
  name : nat;
  mg : nat;
  rack_number : nat;
  stock : nat;
  price : nat;
  actual_price : nat;
}.

Record ExcelRepository := {
  sheet_name : string;
  _workbook : Workbook;
  _columns : ExcelColumnMap;
}.

Definition _sheet (self : ExcelRepository) : Worksheet :=
  default blank (_workbook self !! sheet_name self).

Definition required : list string :=
  ["Medicine_Name"; "MG"; "Rack_Number"; "Stock"; "Price"; "Actual_Price"].

Section WithRuntime.
Context `{Runtime}.

Definition _detect_columns (sheet : Worksheet) : result ExcelColumnMap :=
  let headers :=
    fold_left
      (fun (headers : gmap string nat) idx =>
         <[strip (py_str (value sheet 1 idx)) := idx]> headers)
      (seq 1 (max_column sheet)) ∅ in
  let missing := filter (fun col => headers !! col = None) required in
  match missing with
  | [] =>
      let at_ key := default O (headers !! key) in
      Ok {| name := at_ "Medicine_Name"; mg := at_ "MG";
            rack_number := at_ "Rack_Number"; stock := at_ "Stock";
            price := at_ "Price"; actual_price := at_ "Actual_Price" |}
  | _ => Raise (ValueError (MissingColumns missing))
  end.

(** [ExcelRepository()]: a missing file and a missing sheet raise. *)
Definition __init__ (d : Disk) (sheet : string) : result ExcelRepository :=
  wb ← load_workbook d;
  match wb !! sheet with
  | None => Raise (KeyError sheet)
  | Some ws =>
      columns ← _detect_columns ws;
      Ok {| sheet_name := sheet; _workbook := wb; _columns := columns |}
  end.

Definition _to_float (value : cell) (default : option float)
  : result (option float) :=
  if is_blank value then Ok default
  else match py_float value with
       | Ok f => Ok (Some f)
       | Raise TypeError | Raise (ValueError _) => Ok default
       | Raise e => Raise e
       end.

Definition _to_int (value : cell) (default : Z) : result Z :=
  if is_blank value then Ok default
  else match py_int value with
       | Ok z => Ok z
       | Raise TypeError | Raise (ValueError _) => Ok default
       | Raise e => Raise e
       end.

(** One row of [list_medicines]: nothing when the name is falsy. *)
Definition medicine_of_row (columns : ExcelColumnMap) (sheet : Worksheet)
    (row : nat) : result (option Medicine.Medicine) :=
  let name := value sheet row (name columns) in
  if negb (truthy name) then Ok None else
  let mg := or_empty (value sheet row (mg columns)) in
  let rack_number := or_empty (value sheet row (rack_number columns)) in
  stock ← _to_int (value sheet row (stock columns)) 0;
  price ← _to_float (value sheet row (price columns)) (Some zero);
  actual_price ← _to_float (value sheet row (actual_price columns)) None;
  Ok (Some {| Medicine.name := py_str name;
              Medicine.mg := py_str mg;
              Medicine.rack_number := py_str rack_number;
              Medicine.stock := stock;
              (* never None: the default is 0.0 *)
              Medicine.price := default zero price;
              Medicine.actual_price := actual_price |}).

Definition list_medicines (self : ExcelRepository)
  : result (list Medicine.Medicine) :=
  fold_left
    (fun acc row =>
       medicines ← acc;
       m ← medicine_of_row (_columns self) (_sheet self) row;
       match m with
       | Some m => Ok (medicines ++ [m])%list
       | None => Ok medicines
       end)
    (seq 2 (max_row (_sheet self) - 1)%nat) (Ok []).

(** [name_cell.value in updated_stocks]: the keys are strings, so only a
    text cell can be among them. *)
Definition updated_stock (updated_stocks : gmap string Z) (v : cell)
  : option Z :=
  match v with
  | CStr s => updated_stocks !! s
  | _ => None
  end.

(** [save_stock_updates]: the stock cells are written, then the workbook
    is saved. *)
Definition save_stock_updates (self : ExcelRepository) (d : Disk)
    (updated_stocks : gmap string Z) : ExcelRepository * Disk * result unit :=
  let sheet :=
    fold_left
      (fun sheet row =>
         match updated_stock updated_stocks
                 (value sheet row (name (_columns self))) with
         | Some v => set_value sheet (row, stock (_columns self)) (CInt v)
         | None => sheet
         end)
      (seq 2 (max_row (_sheet self) - 1)%nat) (_sheet self) in
  let self :=
    {| sheet_name := sheet_name self;
       _workbook := <[sheet_name self := sheet]> (_workbook self);
       _columns := _columns self |} in
  let '(d, r) := save_workbook d (_workbook self) in
  (self, d, r).

End WithRuntime.
End ExcelRepo.

(* ===================================================================== *)
(** * app/printing/receipt_printer.py *)
(* ===================================================================== *)

Module Printing.
Import Gui.

(** What [_build_html] formats. *)
Definition _build (items : list Medicine.InvoiceItem)
    (subtotal discount_pct : float) : receipt Medicine.InvoiceItem :=
  let discount_amount := fmul subtotal (fdiv discount_pct (float_of_Z 100)) in
  {| customer_line := ""; lines := items;
     r_subtotal := subtotal; r_discount_pct := discount_pct;
     r_discount_amt := discount_amount;
     r_net := fsub subtotal discount_amount |}.

(** [print_receipt]: [valid] and [valid_after] are the two answers of
    [printer.isValid()], before and after the document is sent. *)
Definition print_receipt (valid valid_after : bool)
    (items : list Medicine.InvoiceItem) (subtotal discount_pct : float)
  : list (output Medicine.InvoiceItem) * bool :=
  if negb valid then ([], false)
  else ([PrintJob (_build items subtotal discount_pct)], valid_after).

End Printing.

(* ===================================================================== *)
(** * app/ui/main_window.py *)
(* ===================================================================== *)

Module UiWindow.
Import Xlsx Gui.
Import Medicine(Medicine, InvoiceItem).
Import ExcelRepo(ExcelRepository).

Record Details := {
  mg_label : string;
  rack_label : string;
  stock_label : Z;
  price_label : float;
}.

Record Widgets := {
  details : option Details;      (* [None]: the labels show "-" *)
  qty_spin : Z;                  (* range 1..100000 *)
  discount_spin : float;
  subtotal_value : float;
  net_total_value : float;
  table : list InvoiceItem;
}.

Record MainWindow := {
  repo : option ExcelRepository;
  medicines_by_name : gmap string Medicine;
  invoice_items : list InvoiceItem;
  invoice_quantities : gmap string Z;
  selected_medicine : option Medicine;
  ui : Widgets;
}.

Definition QTY_MIN : Z := 1.
Definition QTY_MAX : Z := 100000.

Definition with_details x '(Build_Widgets _ b c d e f) := Build_Widgets x b c d e f.
Definition with_qty_spin x '(Build_Widgets a _ c d e f) := Build_Widgets a x c d e f.
Definition with_discount_spin x '(Build_Widgets a b _ d e f) := Build_Widgets a b x d e f.
Definition with_subtotal_value x '(Build_Widgets a b c _ e f) := Build_Widgets a b c x e f.
Definition with_net_total_value x '(Build_Widgets a b c d _ f) := Build_Widgets a b c d x f.
Definition with_table x '(Build_Widgets a b c d e _) := Build_Widgets a b c d e x.

Definition with_repo x '(Build_MainWindow _ b c d e f) := Build_MainWindow x b c d e f.
Definition with_medicines_by_name x '(Build_MainWindow a _ c d e f) :=
  Build_MainWindow a x c d e f.
Definition with_invoice_items x '(Build_MainWindow a b _ d e f) :=
  Build_MainWindow a b x d e f.
Definition with_invoice_quantities x '(Build_MainWindow a b c _ e f) :=
  Build_MainWindow a b c x e f.
Definition with_selected_medicine x '(Build_MainWindow a b c d _ f) :=
  Build_MainWindow a b c d x f.
Definition with_ui x '(Build_MainWindow a b c d e _) := Build_MainWindow a b c d e x.
Definition on_ui (f : Widgets -> Widgets) (self : MainWindow) : MainWindow :=
  with_ui (f (ui self)) self.

Abbreviation outputs := (list (output InvoiceItem)).

(** [item.quantity += qty] *)
Definition add_quantity (item : InvoiceItem) (qty : Z) : InvoiceItem :=
  {| Medicine.medicine := Medicine.medicine item;
     Medicine.quantity := Medicine.quantity item + qty |}.

(** The [for ... else] of [_add_or_update_item]: the first item of the same
    medicine name takes the quantity ([break]); when the loop runs off the
    end a new item is appended. *)
Fixpoint add_or_update (its : list InvoiceItem) (medicine : Medicine) (qty : Z)
  : list InvoiceItem :=
  match its with
  | item :: rest =>
      if String.eqb (Medicine.name (Medicine.medicine item)) (Medicine.name medicine)
      then add_quantity item qty :: rest
      else item :: add_or_update rest medicine qty
  | [] => [{| Medicine.medicine := medicine; Medicine.quantity := qty |}]
  end.

Definition _add_or_update_item (self : MainWindow) (medicine : Medicine) (qty : Z)
  : MainWindow :=
  let self :=
    with_invoice_items (add_or_update (invoice_items self) medicine qty) self in
  with_invoice_quantities
    (<[Medicine.name medicine :=
         default 0 (invoice_quantities self !! Medicine.name medicine) + qty]>
       (invoice_quantities self)) self.

Definition _clear_selection (self : MainWindow) : MainWindow :=
  on_ui (with_details None) (with_selected_medicine None self).

(** Stock considering items already added to the invoice. *)
Definition _available_stock (self : MainWindow) (medicine : Medicine) : Z :=
  let used := default 0 (invoice_quantities self !! Medicine.name medicine) in
  Z.max (Medicine.stock medicine - used) 0.

Definition _on_medicine_selected (self : MainWindow) (name : string)
  : MainWindow :=
  match medicines_by_name self !! name with
  | None => _clear_selection self
  | Some medicine =>
      let self := with_selected_medicine (Some medicine) self in
      on_ui (with_details (Some
          {| mg_label := Medicine.mg medicine;
             rack_label := Medicine.rack_number medicine;
             stock_label := _available_stock self medicine;
             price_label := Medicine.effective_price medicine |})) self
  end.

Definition _on_search_text_changed (self : MainWindow) (text : string)
  : MainWindow :=
  match medicines_by_name self !! text with
  | Some _ => _on_medicine_selected self text
  | None => self
  end.

Definition subtotal_of (its : list InvoiceItem) : float :=
  fold_left fadd (map Medicine.line_total its) zero.

Definition _refresh_table (self : MainWindow) : MainWindow :=
  on_ui (with_table (invoice_items self)) self.

Definition _update_totals (self : MainWindow) : MainWindow :=
  let subtotal := subtotal_of (invoice_items self) in
  let discount_pct := discount_spin (ui self) in
  let net_total :=
    fmul subtotal (fsub (float_of_Z 1) (fdiv discount_pct (float_of_Z 100))) in
  on_ui (fun w => with_net_total_value net_total (with_subtotal_value subtotal w))
        self.

Definition _on_add_clicked (self : MainWindow) : MainWindow * outputs :=
  match selected_medicine self with
  | None =>
      (self, [MessageBox Warning "Select Medicine"
                (Text "Please choose a medicine first.")])
  | Some medicine =>
      let qty := qty_spin (ui self) in
      let available := _available_stock self medicine in
      if available <? qty
      then (self, [MessageBox Warning "Insufficient Stock"
                     (OnlyUnits available (Medicine.name medicine))])
      else
        let self := _add_or_update_item self medicine qty in
        let self := _refresh_table self in
        let self := _update_totals self in
        (_on_medicine_selected self (Medicine.name medicine), [])
  end.

Section WithRuntime.
Context `{Runtime}.

(** Load medicines from Excel. *)
Definition _load_inventory (self : MainWindow) (d : Disk)
  : MainWindow * outputs :=
  let self := with_repo None self in
  let '(self, medicines, out) :=
    match ExcelRepo.__init__ d Config.EXCEL_SHEET_NAME with
    | Raise exc =>
        (self, [],
         [MessageBox Critical "Error" (Failed "Failed to load Excel inventory" exc)])
    | Ok repo =>
        let self := with_repo (Some repo) self in
        match ExcelRepo.list_medicines repo with
        | Ok medicines => (self, medicines, [])
        | Raise exc =>
            (self, [],
             [MessageBox Critical "Error"
                (Failed "Failed to load Excel inventory" exc)])
        end
    end in
  let by_name :=
    fold_left (fun (m : gmap string Medicine) med => <[Medicine.name med := med]> m)
              medicines ∅ in
  (_clear_selection (with_medicines_by_name by_name self), out).

(** Write new stock levels back to Excel. *)
Definition _persist_stock_changes (self : MainWindow) (d : Disk)
  : MainWindow * Disk * result unit :=
  match repo self with
  | None => (self, d, Raise RuntimeError)
  | Some repo =>
      let new_levels : gmap string Z :=
        map_fold
          (fun _ (med : Medicine) (new_levels : gmap string Z) =>
             let used :=
               default 0 (invoice_quantities self !! Medicine.name med) in
             <[Medicine.name med := Z.max (Medicine.stock med - used) 0]>
               new_levels)
          ∅ (medicines_by_name self) in
      let '(repo, d, r) := ExcelRepo.save_stock_updates repo d new_levels in
      (with_repo (Some repo) self, d, r)
  end.

Definition _reset_invoice (self : MainWindow) (d : Disk)
  : MainWindow * outputs :=
  let self := with_invoice_items [] self in
  let self := with_invoice_quantities ∅ self in
  let self := on_ui (with_table []) self in
  let self := on_ui (with_discount_spin zero) self in
  let self := _update_totals self in
  _load_inventory self d.

(** [_on_print_clicked]; [valid] and [valid_after] are the printer's two
    answers inside [print_receipt]. *)
Definition _on_print_clicked (self : MainWindow) (d : Disk)
    (valid valid_after : bool) : MainWindow * Disk * outputs :=
  match invoice_items self with
  | [] =>
      (self, d, [MessageBox Information "Nothing to print"
                   (Text "Add at least one item to the invoice.")])
  | _ =>
      let subtotal := subtotal_of (invoice_items self) in
      let discount_pct := discount_spin (ui self) in
      let '(jobs, success) :=
        Printing.print_receipt valid valid_after (invoice_items self)
          subtotal discount_pct in
      if negb success
      then (self, d,
            jobs ++ [MessageBox Critical "Print Failed"
                       (Text "Printer is not available or failed to print.")])%list
      else
        match _persist_stock_changes self d with
        | (self, d, Raise exc) =>
            (self, d,
             jobs ++ [MessageBox Critical "Excel Error"
                        (Failed "Could not update Excel stock" exc)])%list
        | (self, d, Ok _) =>
            let '(self, out) := _reset_invoice self d in
            (self, d,
             jobs ++ [MessageBox Information "Printed"
                        (Text "Receipt sent to printer and stock updated.")]
                  ++ out)%list
        end
  end.

Definition __init__ (d : Disk) : MainWindow * outputs :=
  _load_inventory
    {| repo := None; medicines_by_name := ∅; invoice_items := [];
       invoice_quantities := ∅; selected_medicine := None;
       ui := {| details := None; qty_spin := QTY_MIN; discount_spin := zero;
                subtotal_value := zero; net_total_value := zero;
                table := [] |} |} d.

End WithRuntime.
End UiWindow.

(* ===================================================================== *)
(** * Vocabulary of the properties *)
(* ===================================================================== *)

Module Spec.

(** The sum of a list of integers. *)
Definition total (l : list Z) : Z := foldr Z.add 0 l.

(** The invoice after a sequence of adds, from the empty invoice. *)
Definition add_all (adds : list Models.InvoiceItem) : Models.Invoice :=
  fold_left Models.add_item adds Models.empty.

(** The sum of the quantities of the adds made under a name. *)
Definition added_for (n : string) (adds : list Models.InvoiceItem) : Z :=
  total (map Models.qty (filter (fun a => Models.name a = n) adds)).

(** The quantity an invoice shows for a name: that of the first line of
    that name. *)
Fixpoint qty_of (n : string) (its : list Models.InvoiceItem) : option Z :=
  match its with
  | x :: rest =>
      if String.eqb (Models.name x) n then Some (Models.qty x) else qty_of n rest
  | [] => None
  end.

(** Two names that differ at most in letter case. *)
Definition same_ignoring_case (a b : string) : Prop := lower a = lower b.

(** A discount percentage inside the range 0..100 of the discount box. *)
Definition in_percent_range (p : float) : bool :=
  SFleb zero p && SFleb p (float_of_Z 100).

(** The invoice lines of the second window after a sequence of adds. *)
Definition update_all (adds : list (Medicine.Medicine * Z))
  : list Medicine.InvoiceItem :=
  UiWindow.invoice_items
    (fold_left (fun w a => UiWindow._add_or_update_item w a.1 a.2) adds
       {| UiWindow.repo := None; UiWindow.medicines_by_name := ∅;
          UiWindow.invoice_items := []; UiWindow.invoice_quantities := ∅;
          UiWindow.selected_medicine := None;
          UiWindow.ui :=
            {| UiWindow.details := None; UiWindow.qty_spin := 1;
               UiWindow.discount_spin := zero;
               UiWindow.subtotal_value := zero;
               UiWindow.net_total_value := zero; UiWindow.table := [] |} |}).

(** What a line shows of the merge: the name and the quantity. *)
Definition line1 (it : Models.InvoiceItem) : string * Z :=
  (Models.name it, Models.qty it).
Definition line2 (it : Medicine.InvoiceItem) : string * Z :=
  (Medicine.name (Medicine.medicine it), Medicine.quantity it).

(** An add of the first implementation and an add of the second that carry
    the same medicine name and quantity. *)
Definition same_add (a : Models.InvoiceItem) (b : Medicine.Medicine * Z) : Prop :=
  Models.name a = Medicine.name b.1 /\ Models.qty a = b.2.

(** *** The store and the file *)

(** What the rows of a sheet yield, in order: the keys, records and row
    references of the rows that carry a name. *)
Abbreviation entry := (string * DataStore.record * DataStore._RowRef)%type.

Fixpoint collect `{Runtime} (col_map : gmap string nat) (sheet : Xlsx.Worksheet)
    (rows : list nat) : result (list entry) :=
  match rows with
  | [] => Ok []
  | row :: rest =>
      r ← DataStore.read_row col_map sheet row;
      rs ← collect col_map sheet rest;
      Ok (match r with Some e => e :: rs | None => rs end)
  end.

Definition insert_records (es : list entry) (m : gmap string DataStore.record)
  : gmap string DataStore.record :=
  fold_left (fun m (e : entry) => <[e.1.1 := e.1.2]> m) es m.

Definition insert_refs (es : list entry) (m : gmap string DataStore._RowRef)
  : gmap string DataStore._RowRef :=
  fold_left (fun m (e : entry) => <[e.1.1 := e.2]> m) es m.

(** The entry of row [r0] with its stock replaced. *)
Definition restock (r0 : nat) (z : Z) (e : entry) : entry :=
  if decide (DataStore.row_index e.2 = r0)
  then (e.1.1, DataStore.set_stock e.1.2 z, e.2) else e.

(** The six columns that a loaded store knows. *)
Record columns (cm : gmap string nat) (cN cMG cR cS cP cA : nat) : Prop := {
  col_name : cm !! "Medicine_Name" = Some cN;
  col_mg : cm !! "MG" = Some cMG;
  col_rack : cm !! "Rack_Number" = Some cR;
  col_stock : cm !! "Stock" = Some cS;
  col_price : cm !! "Price" = Some cP;
  col_actual : cm !! "Actual_Price" = Some cA;
}.

(** A store that is what loading its own workbook gives: its column map,
    names, records and row references are those read from the sheet it
    holds. A fresh store is so, and [reduce_stock] keeps it so. *)
Definition consistent `{Runtime} (st : DataStore.ExcelDataStore) : Prop :=
  DataStore.__init__
    {| Xlsx.file := Some (Ok (DataStore._workbook st));
       Xlsx.writable := true |}
    (DataStore.sheet_name st) = Ok st.

(** A field that is empty or not a number: the conversion is not tried or
    raises [TypeError] or [ValueError]. *)
Definition no_int `{Runtime} (v : cell) : Prop :=
  is_blank v = true \/ py_int v = Raise TypeError \/
  exists why, py_int v = Raise (ValueError why).

Definition no_float `{Runtime} (v : cell) : Prop :=
  is_blank v = true \/ py_float v = Raise TypeError \/
  exists why, py_float v = Raise (ValueError why).

(** The cell of a row under a header. *)
Definition field (cm : gmap string nat) (ws : Xlsx.Worksheet) (row : nat)
    (header : string) : cell :=
  match cm !! header with
  | Some c => Xlsx.value ws row c
  | None => CNone
  end.

(** A row none of whose numeric fields is beyond the range of a float or
    infinite (the one thing the conversions do not catch). *)
Definition no_overflow `{Runtime} (cm : gmap string nat) (ws : Xlsx.Worksheet)
    (row : nat) : Prop :=
  py_int (field cm ws row "Stock") <> Raise OverflowError /\
  py_float (field cm ws row "Price") <> Raise OverflowError /\
  py_float (field cm ws row "Actual_Price") <> Raise OverflowError.

(** The rows below the header. *)
Definition data_rows (ws : Xlsx.Worksheet) : list nat :=
  seq 2 (Xlsx.max_row ws - 1).

(** *** The session *)

(** A sequence of add-to-cart operations: the quantity box is set, then
    "Add to Invoice" is clicked. *)
Definition add_attempts (qs : list Z) : list UiMain.event :=
  flat_map (fun q => [UiMain.QtyChanged q; UiMain.AddClicked]) qs.

(** What the ledger holds for a medicine ([added_qty.get(name, 0)]). *)
Definition reserved (w : UiMain.MainWindow) (name : string) : Z :=
  default 0 (UiMain.added_qty w !! name).

(** No entry of the ledger is above the stock of its record. *)
Definition ledger_within_stock (st : DataStore.ExcelDataStore)
    (w : UiMain.MainWindow) : Prop :=
  forall k r v,
    DataStore._records st !! k = Some r ->
    UiMain.added_qty w !! DataStore.name r = Some v ->
    v <= DataStore.stock r.

(** The store of a window, when there is one, is consistent. *)
Definition store_consistent `{Runtime} (w : UiMain.MainWindow) : Prop :=
  forall st, UiMain.store w = Some st -> consistent st.

(** The lines of the invoice are distinct by name and each carries the
    name of a record of the store. *)
Definition invoice_of_store (w : UiMain.MainWindow) : Prop :=
  NoDup (map Models.name (Models.items (UiMain.invoice w))) /\
  (Models.items (UiMain.invoice w) = [] \/
   exists st, UiMain.store w = Some st /\
     forall n, n ∈ map Models.name (Models.items (UiMain.invoice w)) ->
       exists k r, DataStore._records st !! k = Some r /\ DataStore.name r = n).

End Spec.

(* ===================================================================== *)
(** * Sample data *)
(* ===================================================================== *)

Module Sample.

Definition para : Medicine.Medicine :=
  {| Medicine.name := "Paracetamol"; Medicine.mg := "500";
     Medicine.rack_number := "A1"; Medicine.stock := 100;
     Medicine.price := dec 500 2; Medicine.actual_price := None |}.

Definition ibu : Medicine.Medicine :=
  {| Medicine.name := "Ibuprofen"; Medicine.mg := "200";
     Medicine.rack_number := "B2"; Medicine.stock := 40;
     Medicine.price := dec 750 2; Medicine.actual_price := Some (dec 700 2) |}.

(** The invoice line that the first window makes of a medicine. *)
Definition item (m : Medicine.Medicine) (q : Z) : Models.InvoiceItem :=
  {| Models.name := Medicine.name m; Models.mg := Medicine.mg m;
     Models.rack := Medicine.rack_number m;
     Models.unit_price := Medicine.effective_price m; Models.qty := q |}.

(** A workbook: the header row and five rows, one of them without a name,
    one with a blank stock and a price that is not a number and a name
    that ends in a space, one with text in the stock field. *)
Definition sheet : Xlsx.Worksheet :=
  {| Xlsx.cells := list_to_map
       [ ((1, 1)%nat, CStr "Medicine_Name"); ((1, 2)%nat, CStr "MG");
         ((1, 3)%nat, CStr "Rack_Number"); ((1, 4)%nat, CStr "Stock");
         ((1, 5)%nat, CStr "Price"); ((1, 6)%nat, CStr "Actual_Price");
         ((2, 1)%nat, CStr "Paracetamol"); ((2, 2)%nat, CInt 500);
         ((2, 3)%nat, CStr "A1"); ((2, 4)%nat, CInt 100);
         ((2, 5)%nat, CFloat (dec 500 2));
         ((3, 1)%nat, CStr "Ibuprofen"); ((3, 2)%nat, CStr "200");
         ((3, 3)%nat, CStr "B2"); ((3, 4)%nat, CInt 40);
         ((3, 5)%nat, CFloat (dec 750 2)); ((3, 6)%nat, CFloat (dec 700 2));
         ((4, 1)%nat, CStr "Aspirin "); ((4, 2)%nat, CInt 300);
         ((4, 3)%nat, CStr "C3"); ((4, 5)%nat, CStr "n/a");
         ((5, 2)%nat, CInt 10);
         ((6, 1)%nat, CStr "Amoxicillin"); ((6, 2)%nat, CInt 250);
         ((6, 3)%nat, CStr "D4"); ((6, 4)%nat, CStr "abc");
         ((6, 5)%nat, CInt 12) ];
     Xlsx.max_row := 6; Xlsx.max_column := 6 |}.

Definition disk : Xlsx.Disk :=
  {| Xlsx.file := Some (Ok {[ Config.EXCEL_SHEET_NAME := sheet ]});
     Xlsx.writable := true |}.

(** The store and the window that this file gives. *)
Definition loaded : result DataStore.ExcelDataStore :=
  DataStore.__init__ (H := DecimalRuntime.runtime) disk Config.EXCEL_SHEET_NAME.

Definition store : DataStore.ExcelDataStore :=
  match loaded with
  | Ok st => st
  | Raise _ =>
      {| DataStore.sheet_name := ""; DataStore._workbook := ∅;
         DataStore._col_map := ∅; DataStore._names := [];
         DataStore._records := ∅; DataStore._row_refs := ∅ |}
  end.

Definition window : UiMain.MainWindow :=
  (UiMain.__init__ (H := DecimalRuntime.runtime) disk).1.

(** The window after Paracetamol was chosen from the completer. *)
Definition window_selected : UiMain.MainWindow :=
  (UiMain.run (H := DecimalRuntime.runtime) window disk
     [UiMain.Activated "Paracetamol"]).1.1.

(** The window after "Aspirin" (loaded with a blank stock) was typed and
    Enter was pressed. *)
Definition window_aspirin : UiMain.MainWindow :=
  (UiMain.run (H := DecimalRuntime.runtime) window disk
     [UiMain.TextChanged "aspirin"; UiMain.ReturnPressed]).1.1.

(** The same file when it cannot be written (open in another program). *)
Definition locked_disk : Xlsx.Disk :=
  {| Xlsx.file := Xlsx.file disk; Xlsx.writable := false |}.

(** The window after Paracetamol was chosen and 10 units were added. *)
Definition window_with_item : UiMain.MainWindow :=
  (UiMain.run (H := DecimalRuntime.runtime) window disk
     [UiMain.Activated "Paracetamol"; UiMain.QtyChanged 10;
      UiMain.AddClicked]).1.1.

(** The window with an item after " Panadol " was typed into the search
    box. *)
Definition window_typed : UiMain.MainWindow :=
  (UiMain.handle (H := DecimalRuntime.runtime) window_with_item disk
     (UiMain.TextChanged " Panadol ")).1.1.

(** The window after 30 units of Ibuprofen were added and the checkout
    could not save (the file being locked), and the store it holds. *)
Definition window_unsaved : UiMain.MainWindow :=
  (UiMain.run (H := DecimalRuntime.runtime) window locked_disk
     [UiMain.Activated "Ibuprofen"; UiMain.QtyChanged 30; UiMain.AddClicked;
      UiMain.PrintClicked true]).1.1.

Definition store_unsaved : DataStore.ExcelDataStore :=
  default store (UiMain.store window_unsaved).

(** The second window on the same file, Paracetamol chosen and 10 units
    added. *)
Definition window2 : UiWindow.MainWindow :=
  (UiWindow.__init__ (H := DecimalRuntime.runtime) disk).1.

Definition window2_with_item : UiWindow.MainWindow :=
  (UiWindow._on_add_clicked
     (UiWindow.on_ui (UiWindow.with_qty_spin 10)
        (UiWindow._on_medicine_selected window2 "Paracetamol"))).1.

(** A workbook of whole numbers and short decimals, which the file keeps
    as it is, and the store that it gives. *)
Definition plain_sheet : Xlsx.Worksheet :=
  {| Xlsx.cells := list_to_map
       [ ((1, 1)%nat, CStr "Medicine_Name"); ((1, 2)%nat, CStr "MG");
         ((1, 3)%nat, CStr "Rack_Number"); ((1, 4)%nat, CStr "Stock");
         ((1, 5)%nat, CStr "Price"); ((1, 6)%nat, CStr "Actual_Price");
         ((2, 1)%nat, CStr "Paracetamol"); ((2, 2)%nat, CInt 500);
         ((2, 3)%nat, CStr "A1"); ((2, 4)%nat, CInt 100);
         ((2, 5)%nat, CFloat (dec 525 2));
         ((3, 1)%nat, CStr "Ibuprofen"); ((3, 2)%nat, CStr "200");
         ((3, 3)%nat, CStr "B2"); ((3, 4)%nat, CInt 40);
         ((3, 5)%nat, CFloat (dec 75 1)); ((3, 6)%nat, CInt 7) ];
     Xlsx.max_row := 3; Xlsx.max_column := 6 |}.

Definition plain_disk : Xlsx.Disk :=
  {| Xlsx.file := Some (Ok {[ Config.EXCEL_SHEET_NAME := plain_sheet ]});
     Xlsx.writable := true |}.


(** A workbook with a stock of seventeen digits, and its store. *)
Definition wide_sheet : Xlsx.Worksheet :=
  {| Xlsx.cells := list_to_map
       [ ((1, 1)%nat, CStr "Medicine_Name"); ((1, 2)%nat, CStr "MG");
         ((1, 3)%nat, CStr "Rack_Number"); ((1, 4)%nat, CStr "Stock");
         ((1, 5)%nat, CStr "Price"); ((1, 6)%nat, CStr "Actual_Price");
         ((2, 1)%nat, CStr "Paracetamol"); ((2, 2)%nat, CInt 500);
         ((2, 3)%nat, CStr "A1"); ((2, 4)%nat, CInt 12345678901234570);
         ((2, 5)%nat, CInt 5) ];
     Xlsx.max_row := 2; Xlsx.max_column := 6 |}.

Definition wide_disk : Xlsx.Disk :=
  {| Xlsx.file := Some (Ok {[ Config.EXCEL_SHEET_NAME := wide_sheet ]});
     Xlsx.writable := true |}.

Definition wide_store : DataStore.ExcelDataStore :=
  match DataStore.__init__ (H := DecimalRuntime.runtime) wide_disk
          Config.EXCEL_SHEET_NAME with
  | Ok st => st
  | Raise _ => store
  end.

End Sample.

(* ===================================================================== *)
(** * Further vocabulary *)
(* ===================================================================== *)

Module Vocab.

(** *** Invoice lines *)

(** The names of a list, each once, in the order of their first
    occurrence. *)
Fixpoint firsts (l : list string) : list string :=
  match l with
  | [] => []
  | x :: rest => x :: filter (fun y => y <> x) (firsts rest)
  end.

(** The first add made under a name. *)
Definition first_add (n : string) (adds : list Models.InvoiceItem)
  : option Models.InvoiceItem :=
  find (fun a => String.eqb (Models.name a) n) adds.

(** The line a name should end with: the first add made under it, with
    the quantity of all the adds made under it. *)
Definition merged_line (adds : list Models.InvoiceItem) (n : string)
  : option Models.InvoiceItem :=
  a ← first_add n adds;
  Some {| Models.name := Models.name a; Models.mg := Models.mg a;
          Models.rack := Models.rack a;
          Models.unit_price := Models.unit_price a;
          Models.qty := Spec.added_for n adds |}.

(** *** The sheet *)

Section Sheet.
Context `{Runtime}.

(** The header that a column carries: the stripped text of its cell in
    row 1; an empty cell is no header. *)
Definition header (ws : Xlsx.Worksheet) (i : nat) : option string :=
  match Xlsx.value ws 1 i with
  | CNone => None
  | v => Some (strip (py_str v))
  end.

(** The headers of a sheet, from left to right. *)
Definition headers (ws : Xlsx.Worksheet) : list string :=
  omap (header ws) (seq 1 (Xlsx.max_column ws)).

(** The required columns that a sheet lacks. *)
Definition missing_columns (ws : Xlsx.Worksheet) : list string :=
  filter (fun c => c ∉ headers ws) DataStore.REQUIRED_COLUMNS.

(** A row below the header that carries a name, and the key under which
    the name is filed. *)
Definition named (cm : gmap string nat) (ws : Xlsx.Worksheet) (row : nat)
  : Prop :=
  row ∈ Spec.data_rows ws /\
  is_blank (Spec.field cm ws row "Medicine_Name") = false.

Definition key_of (cm : gmap string nat) (ws : Xlsx.Worksheet) (row : nat)
  : string :=
  DataStore._normalize_name (Spec.field cm ws row "Medicine_Name").

(** The store after a sequence of [reduce_stock] calls, whether they
    succeed or raise. *)
Definition reduce_many (st : DataStore.ExcelDataStore) (ops : list (string * Z))
  : DataStore.ExcelDataStore :=
  fold_left (fun st (op : string * Z) => (DataStore.reduce_stock st op.1 op.2).1)
            ops st.

End Sheet.

(** *** The window *)

Section Window.
Context `{Runtime}.

(** The ledger holds, name for name, the quantities of the invoice lines. *)
Definition ledger_matches (w : UiMain.MainWindow) : Prop :=
  forall n,
    UiMain.added_qty w !! n = Spec.qty_of n (Models.items (UiMain.invoice w)).

(** The selected name is the name of a record that the store finds. *)
Definition selection_found (w : UiMain.MainWindow) : Prop :=
  forall n, UiMain.selected_name w = Some n ->
    exists st r, UiMain.store w = Some st /\
      DataStore.get_medicine st n = Some r /\ DataStore.name r = n.

(** What holds of the window whatever the user does. *)
Record sound (w : UiMain.MainWindow) : Prop := {
  sound_store : Spec.store_consistent w;
  sound_sheet : forall st, UiMain.store w = Some st ->
                  DataStore.sheet_name st = Config.EXCEL_SHEET_NAME;
  sound_invoice : Spec.invoice_of_store w;
  sound_ledger : ledger_matches w;
  sound_entries : forall n q, UiMain.added_qty w !! n = Some q -> 1 <= q;
  sound_spin :
    UiMain.QTY_MIN <= UiMain.qty_spin (UiMain.ui w) <= UiMain.QTY_MAX;
  sound_selection : selection_found w;
  sound_no_store :
    UiMain.store w = None ->
    Models.items (UiMain.invoice w) = [] /\
    UiMain.add_button (UiMain.ui w) = false /\
    UiMain.print_button (UiMain.ui w) = false;
}.




End Window.

(** *** The second loader *)

Section Repository.
Context `{Runtime}.

(** A medicine of the repository and a record of the store that say the
    same: name, strength, rack, stock, and the price that is charged. *)
Definition same_medicine (m : Medicine.Medicine) (r : DataStore.record)
  : Prop :=
  Medicine.name m = DataStore.name r /\
  Medicine.mg m = DataStore.mg r /\
  Medicine.rack_number m = DataStore.rack r /\
  Medicine.stock m = DataStore.stock r /\
  Medicine.effective_price m = DataStore.price r.

(** The medicines of a list of rows, in order. *)
Fixpoint medicines_of (cols : ExcelRepo.ExcelColumnMap) (ws : Xlsx.Worksheet)
    (rows : list nat) : result (list Medicine.Medicine) :=
  match rows with
  | [] => Ok []
  | row :: rest =>
      m ← ExcelRepo.medicine_of_row cols ws row;
      ms ← medicines_of cols ws rest;
      Ok (match m with Some m => m :: ms | None => ms end)
  end.

(** The dictionary that [_load_inventory] builds from the medicines. *)
Definition by_name (medicines : list Medicine.Medicine)
  : gmap string Medicine.Medicine :=
  fold_left (fun (m : gmap string Medicine.Medicine) med =>
               <[Medicine.name med := med]> m) medicines ∅.

End Repository.

End Vocab.

(* ===================================================================== *)
(** * More sample data *)
(* ===================================================================== *)

Module Shelf.

(** A sheet with the header "Stock" over two columns (the right one
    counts) and with two rows for Paracetamol. *)
Definition doubled : Xlsx.Worksheet :=
  {| Xlsx.cells := list_to_map
       [ ((1, 1)%nat, CStr "Medicine_Name"); ((1, 2)%nat, CStr " MG ");
         ((1, 3)%nat, CStr "Rack_Number"); ((1, 4)%nat, CStr "Stock");
         ((1, 5)%nat, CStr "Price"); ((1, 6)%nat, CStr "Actual_Price");
         ((1, 7)%nat, CStr "Stock");
         ((2, 1)%nat, CStr "Paracetamol"); ((2, 2)%nat, CInt 500);
         ((2, 3)%nat, CStr "A1"); ((2, 4)%nat, CInt 1);
         ((2, 5)%nat, CFloat (dec 500 2)); ((2, 7)%nat, CInt 100);
         ((3, 1)%nat, CStr "Ibuprofen"); ((3, 2)%nat, CInt 200);
         ((3, 3)%nat, CStr "B2"); ((3, 4)%nat, CInt 2);
         ((3, 5)%nat, CFloat (dec 750 2)); ((3, 7)%nat, CInt 40);
         ((4, 1)%nat, CStr " PARACETAMOL"); ((4, 2)%nat, CInt 650);
         ((4, 3)%nat, CStr "A2"); ((4, 4)%nat, CInt 3);
         ((4, 5)%nat, CFloat (dec 600 2)); ((4, 7)%nat, CInt 30) ];
     Xlsx.max_row := 4; Xlsx.max_column := 7 |}.

Definition doubled_disk : Xlsx.Disk :=
  {| Xlsx.file := Some (Ok {[ Config.EXCEL_SHEET_NAME := doubled ]});
     Xlsx.writable := true |}.

Definition doubled_store : DataStore.ExcelDataStore :=
  match DataStore.__init__ (H := DecimalRuntime.runtime) doubled_disk
          Config.EXCEL_SHEET_NAME with
  | Ok st => st
  | Raise _ => Sample.store
  end.

(** A sheet that lacks three of the required columns. *)
Definition incomplete : Xlsx.Worksheet :=
  {| Xlsx.cells := list_to_map
       [ ((1, 1)%nat, CStr "Medicine_Name"); ((1, 2)%nat, CStr "Price");
         ((1, 3)%nat, CStr "Stock");
         ((2, 1)%nat, CStr "Paracetamol"); ((2, 2)%nat, CInt 5);
         ((2, 3)%nat, CInt 100) ];
     Xlsx.max_row := 2; Xlsx.max_column := 3 |}.

(** The sample sheet with an infinite stock in row 3. *)
Definition overflowing : Xlsx.Worksheet :=
  Xlsx.set_value Sample.sheet (3, 4)%nat (CFloat (S754_infinity false)).

(** No workbook file at all. *)
Definition no_file : Xlsx.Disk :=
  {| Xlsx.file := None; Xlsx.writable := true |}.

(** What the user does in the examples: Ibuprofen is chosen and 30 units
    are added. *)
Definition thirty_ibuprofen : list UiMain.event :=
  [UiMain.Activated "Ibuprofen"; UiMain.QtyChanged 30; UiMain.AddClicked].

Definition window_thirty : UiMain.MainWindow :=
  (UiMain.run (H := DecimalRuntime.runtime)
     (UiMain.__init__ (H := DecimalRuntime.runtime) Sample.disk).1
     Sample.disk thirty_ibuprofen).1.1.

(** The repository of the second window on the sample file. *)
Definition repo : ExcelRepo.ExcelRepository :=
  match ExcelRepo.__init__ (H := DecimalRuntime.runtime) Sample.disk
          Config.EXCEL_SHEET_NAME with
  | Ok r => r
  | Raise _ =>
      {| ExcelRepo.sheet_name := ""; ExcelRepo._workbook := ∅;
         ExcelRepo._columns :=
           {| ExcelRepo.name := 0; ExcelRepo.mg := 0;
              ExcelRepo.rack_number := 0; ExcelRepo.stock := 0;
              ExcelRepo.price := 0; ExcelRepo.actual_price := 0 |} |}
  end.

(** The sample sheet with the number 0 as the name of row 5. *)
Definition zero_named : Xlsx.Worksheet :=
  Xlsx.set_value Sample.sheet (5, 1)%nat (CInt 0).



Definition plain_repo : ExcelRepo.ExcelRepository :=
  match ExcelRepo.__init__ (H := DecimalRuntime.runtime) Sample.plain_disk
          Config.EXCEL_SHEET_NAME with
  | Ok r => r
  | Raise _ => repo
  end.

Definition plain_window2_with_item : UiWindow.MainWindow :=
  (UiWindow._on_add_clicked
     (UiWindow.on_ui (UiWindow.with_qty_spin 10)
        (UiWindow._on_medicine_selected
           (UiWindow.__init__ (H := DecimalRuntime.runtime) Sample.plain_disk).1
           "Paracetamol"))).1.

(** That workbook with a whole number in the MG field of row 2 that no
    float can hold. *)
Definition huge : Xlsx.Workbook :=
  {[ Config.EXCEL_SHEET_NAME :=
       Xlsx.set_value Sample.plain_sheet (2, 2)%nat (CInt (2 ^ 1024)) ]}.

Definition huge_disk : Xlsx.Disk :=
  {| Xlsx.file := Some (Ok huge); Xlsx.writable := true |}.

(** The sample workbook with an infinite price in row 2. *)
Definition endless : Xlsx.Workbook :=
  {[ Config.EXCEL_SHEET_NAME :=
       Xlsx.set_value Sample.sheet (2, 5)%nat (CFloat (S754_infinity false)) ]}.

End Shelf.

(* ===================================================================== *)
(** * app/ui/main_window.py: what the user does *)
(* ===================================================================== *)

Module UiWindowEvents.
Import Xlsx Gui UiWindow.

(** The signals that [_build_ui] and [_load_inventory] connect. The two
    answers of the printer belong to the click on "PRINT". *)
Inductive event :=
  | TextChanged (text : string)       (* [_on_search_text_changed] *)
  | Activated (name : string)         (* [_on_medicine_selected] *)
  | QtyChanged (v : Z)
  | DiscountChanged (v : float)       (* [_update_totals] *)
  | AddClicked                        (* [_on_add_clicked] *)
  | PrintClicked (valid valid_after : bool).  (* [_on_print_clicked] *)

Section WithRuntime.
Context `{Runtime}.

Definition handle (self : MainWindow) (d : Disk) (ev : event)
  : MainWindow * Disk * outputs :=
  match ev with
  | TextChanged text => (_on_search_text_changed self text, d, [])
  | Activated name => (_on_medicine_selected self name, d, [])
  | QtyChanged v =>
      (on_ui (with_qty_spin (spin_set QTY_MIN QTY_MAX v)) self, d, [])
  | DiscountChanged v =>
      (_update_totals (on_ui (with_discount_spin v) self), d, [])
  | AddClicked => let '(self, out) := _on_add_clicked self in (self, d, out)
  | PrintClicked valid valid_after =>
      _on_print_clicked self d valid valid_after
  end.

Fixpoint run (self : MainWindow) (d : Disk) (evs : list event)
  : MainWindow * Disk * outputs :=
  match evs with
  | [] => (self, d, [])
  | ev :: rest =>
      let '(self, d, out) := handle self d ev in
      let '(self, d, out') := run self d rest in
      (self, d, (out ++ out')%list)
  end.

End WithRuntime.

(** *** Vocabulary *)

(** The quantity that the invoice shows for a name. *)
Fixpoint qty_of (n : string) (its : list Medicine.InvoiceItem) : option Z :=
  match its with
  | x :: rest =>
      if String.eqb (Medicine.name (Medicine.medicine x)) n
      then Some (Medicine.quantity x) else qty_of n rest
  | [] => None
  end.

(** What the ledger holds for a name ([invoice_quantities.get(name, 0)]). *)
Definition reserved (w : MainWindow) (n : string) : Z :=
  default 0 (invoice_quantities w !! n).

(** What holds of the second window whatever the user does. *)
Record sound (w : MainWindow) : Prop := {
  sound_keys : forall n m, medicines_by_name w !! n = Some m ->
                 Medicine.name m = n;
  sound_selected : forall m, selected_medicine w = Some m ->
                     medicines_by_name w !! Medicine.name m = Some m;
  sound_ledger : forall n, invoice_quantities w !! n = qty_of n (invoice_items w);
  sound_entries : forall n v, invoice_quantities w !! n = Some v ->
                    exists m, medicines_by_name w !! n = Some m /\
                              1 <= v <= Medicine.stock m;
  sound_spin : QTY_MIN <= qty_spin (ui w) <= QTY_MAX;
}.

End UiWindowEvents.
(* ===================================================================== *)
(** * Properties *)
(* ===================================================================== *)

(** ** The Python layer on examples *)

Example strip_ex : strip "  Para cetamol	 " = "Para cetamol".
Proof. reflexivity. Qed.
Example lower_ex : lower "ParaCetamol 500MG" = "paracetamol 500mg".
Proof. reflexivity. Qed.
Example dec_ex : dec 1 2 = S754_finite false 5764607523034235 (-59).
Proof. vm_compute. reflexivity. Qed.
Example int_of_float_ex : int_of_float (fsub zero (dec 37 1)) = Ok (-3).
Proof. vm_compute. reflexivity. Qed.

Example int_of_str_ex :
  map DecimalRuntime.int_of_str [" 42 "; "-7"; "1_000"; "3.5"; ""; "abc"; "_1"; "+0012"]
  = [Some 42; Some (-7); Some 1000; None; None; None; None; Some 12].
Proof. vm_compute. reflexivity. Qed.

Example float_of_str_ex :
  map DecimalRuntime.float_of_str ["0.01"; " 1.2"; "5"; "abc"; "1e2"; ".5"; "2.5E-1"]
  = [Some (dec 1 2); Some (dec 12 1); Some (float_of_Z 5); None;
     Some (float_of_Z 100); Some (dec 5 1); Some (dec 25 2)].
Proof. vm_compute. reflexivity. Qed.

Example str_of_float_ex :
  map DecimalRuntime.str_of_float
    [dec 5 1; float_of_Z 100; dec 125 2; fsub zero (dec 25 1); dec 3125 5]
  = ["0.5"; "100.0"; "1.25"; "-2.5"; "0.03125"].
Proof. vm_compute. reflexivity. Qed.

(** ** Invoice: add or merge *)

Section InvoiceMerge.
Import Models Spec.

Lemma add_all_snoc adds a :
  add_all (adds ++ [a]) = add_item (add_all adds) a.
Proof. unfold add_all. by rewrite fold_left_app. Qed.

(** The names of the lines after an add: unchanged when the name is
    there, one more at the end when it is not. *)
Lemma add_item_to_names its item :
  map name (add_item_to its item) =
  if bool_decide (name item ∈ map name its)
  then map name its else map name its ++ [name item].
Proof.
  induction its as [|x its IH]; cbn [add_item_to map].
  - by rewrite bool_decide_eq_false_2; [|set_solver].
  - destruct (String.eqb_spec (name x) (name item)) as [E|NE];
      cbn [map].
    + rewrite bool_decide_eq_true_2; [done|]. rewrite E. set_solver.
    + rewrite IH. case_bool_decide as Hin.
      * rewrite bool_decide_eq_true_2; [done|set_solver].
      * rewrite bool_decide_eq_false_2; [done|].
        intros [?|?]%elem_of_cons; congruence.
Qed.

Lemma qty_of_add_item_to n its item :
  qty_of n (add_item_to its item) =
  if String.eqb (name item) n
  then Some (default 0 (qty_of n its) + qty item)
  else qty_of n its.
Proof.
  induction its as [|x its IH]; simpl.
  - destruct (String.eqb_spec (name item) n); simpl; [f_equal; lia|done].
  - destruct (String.eqb_spec (name x) (name item)) as [E|NE]; simpl.
    + rewrite E. destruct (String.eqb_spec (name item) n); simpl; done.
    + rewrite IH.
      destruct (String.eqb_spec (name x) n) as [E1|NE1],
               (String.eqb_spec (name item) n) as [E2|NE2]; simpl;
        try done; congruence.
Qed.

Lemma qty_of_None n its : qty_of n its = None <-> n ∉ map name its.
Proof.
  induction its as [|x its IH]; simpl; [set_solver|].
  destruct (String.eqb_spec (name x) n); [set_solver|].
  rewrite IH. set_solver.
Qed.

Lemma qty_of_elem its it :
  NoDup (map name its) -> it ∈ its -> qty_of (name it) its = Some (qty it).
Proof.
  induction its as [|x its IH]; simpl; [set_solver|].
  intros [Hx Hnd]%NoDup_cons [->|Hin]%elem_of_cons.
  - by rewrite String.eqb_refl.
  - destruct (String.eqb_spec (name x) (name it)) as [E|NE]; [|by apply IH].
    exfalso. apply Hx. rewrite E. by apply list_elem_of_fmap_2.
Qed.

Lemma added_for_snoc n adds a :
  added_for n (adds ++ [a]) =
  added_for n adds + (if String.eqb (name a) n then qty a else 0).
Proof.
  unfold added_for. rewrite filter_app, map_app.
  assert (Hsum : forall l1 l2, total (l1 ++ l2) = total l1 + total l2).
  { induction l1; intros; simpl; [lia|]. unfold total in *. simpl.
    rewrite IHl1. lia. }
  rewrite Hsum. f_equal.
  destruct (String.eqb_spec (name a) n) as [E|NE].
  - rewrite filter_cons_True by done. unfold total. simpl. lia.
  - by rewrite filter_cons_False.
Qed.

(** The state of an invoice after a sequence of adds. *)
Lemma add_all_invariant adds :
  NoDup (map name (items (add_all adds))) /\
  (forall n, n ∈ map name (items (add_all adds)) <-> n ∈ map name adds) /\
  (forall n, n ∈ map name adds ->
             qty_of n (items (add_all adds)) = Some (added_for n adds)).
Proof.
  induction adds as [|a adds IH] using rev_ind.
  - split; [constructor|]. split; set_solver.
  - destruct IH as (Hnd & Hdom & Hq). rewrite add_all_snoc. simpl.
    assert (Hnames := add_item_to_names (items (add_all adds)) a).
    split; [|split].
    + rewrite Hnames. case_bool_decide as Hin; [done|].
      apply NoDup_app. split; [done|]. split; [|apply NoDup_singleton].
      intros x Hx ->%list_elem_of_singleton. done.
    + intros n. rewrite Hnames, map_app. simpl.
      case_bool_decide as Hin; rewrite ?elem_of_app, ?list_elem_of_singleton.
      * rewrite Hdom. split; [tauto|]. intros [?| ->]; [done|].
        by apply Hdom.
      * by rewrite Hdom.
    + intros n Hn. rewrite qty_of_add_item_to, added_for_snoc.
      rewrite map_app, elem_of_app in Hn. simpl in Hn.
      destruct (String.eqb_spec (name a) n) as [E|NE].
      * destruct (decide (n ∈ map name adds)) as [Hin|Hout].
        -- by rewrite (Hq n Hin).
        -- assert (qty_of n (items (add_all adds)) = None) as ->.
           { apply qty_of_None. by rewrite Hdom. }
           assert (added_for n adds = 0) as ->; [|done].
           unfold added_for.
           assert (filter (fun x => name x = n) adds = []) as ->; [|done].
           clear -Hout. induction adds as [|x adds IH]; [done|].
           rewrite filter_cons_False; [apply IH|]; set_solver.
      * rewrite Z.add_0_r. apply Hq.
        destruct Hn as [?|Hn%list_elem_of_singleton]; [done|congruence].
Qed.

(** C3, as stated, at a concrete input: after the adds "Aspirin" and
    "aspirin" the invoice holds two lines whose names are the same key
    once letter case is ignored, so "at most one line per name, names
    being case-insensitive keys" does not hold of [add_item]. *)
Lemma merge_ignoring_case_counterexample :
  ~ (forall adds i j a b,
       items (add_all adds) !! i = Some a ->
       items (add_all adds) !! j = Some b ->
       same_ignoring_case (name a) (name b) -> i = j).
Proof.
  intros Hclaim.
  pose (a := {| name := "Aspirin"; mg := "300"; rack := "A1";
                unit_price := dec 500 2; qty := 1 |}).
  pose (b := {| name := "aspirin"; mg := "300"; rack := "A1";
                unit_price := dec 500 2; qty := 2 |}).
  specialize (Hclaim [a; b] 0%nat 1%nat a b eq_refl eq_refl eq_refl).
  discriminate Hclaim.
Qed.

(** C3, amended: after any sequence of adds the invoice holds at most one
    line per medicine name, names compared as exact strings; the line's
    quantity is the sum of the quantities of all adds made under exactly
    that name; every added name has its line; and an add whose name is
    present leaves the lines' names as they are and raises that line's
    quantity by the added one, instead of appending. *)
Theorem invoice_merge_by_exact_name adds :
  let inv := add_all adds in
  NoDup (map name (items inv)) /\
  (forall it, it ∈ items inv -> qty it = added_for (name it) adds) /\
  (forall a, a ∈ adds -> exists it, it ∈ items inv /\ name it = name a) /\
  (forall item, name item ∈ map name (items inv) ->
     map name (items (add_item inv item)) = map name (items inv) /\
     qty_of (name item) (items (add_item inv item))
     = Some (added_for (name item) adds + qty item)).
Proof.
  destruct (add_all_invariant adds) as (Hnd & Hdom & Hq). cbn zeta.
  split; [done|]. split; [|split].
  - intros it Hit.
    assert (Hn : name it ∈ map name adds).
    { apply Hdom. by apply list_elem_of_fmap_2. }
    pose proof (qty_of_elem _ _ Hnd Hit) as Hq1.
    rewrite (Hq _ Hn) in Hq1. congruence.
  - intros a Ha.
    assert (Hn : name a ∈ map name (items (add_all adds))).
    { apply Hdom. by apply list_elem_of_fmap_2. }
    apply list_elem_of_fmap in Hn as (it & Heq & Hit). eauto.
  - intros item Hin. simpl. split.
    + rewrite add_item_to_names. by rewrite bool_decide_eq_true_2.
    + rewrite qty_of_add_item_to, String.eqb_refl.
      rewrite (Hq (name item)); [done|]. by apply Hdom.
Qed.

(** An add whose name is absent is appended behind the other lines. *)
Lemma add_item_absent inv item :
  name item ∉ map name (items inv) ->
  items (add_item inv item) = items inv ++ [item].
Proof.
  destruct inv as [its]. simpl.
  induction its as [|x its IH]; simpl; [done|].
  intros Hout. destruct (String.eqb_spec (name x) (name item)) as [E|NE].
  - exfalso. apply Hout. rewrite E. set_solver.
  - rewrite IH; [done|set_solver].
Qed.

End InvoiceMerge.

(** ** The two merge implementations *)

Section TwoMerges.
Import Spec.

Lemma update_all_fold adds w :
  UiWindow.invoice_items
    (fold_left (fun w a => UiWindow._add_or_update_item w a.1 a.2) adds w)
  = fold_left (fun its a => UiWindow.add_or_update its a.1 a.2) adds
      (UiWindow.invoice_items w).
Proof.
  revert w. induction adds as [|a adds IH]; intros w; simpl; [done|].
  rewrite IH. by destruct w.
Qed.

(** One add keeps the two invoices in step. *)
Lemma merge_step its1 its2 a b :
  map line1 its1 = map line2 its2 -> same_add a b ->
  map line1 (Models.add_item_to its1 a)
  = map line2 (UiWindow.add_or_update its2 b.1 b.2).
Proof.
  intros Hsame [Hname Hqty]. revert its2 Hsame.
  induction its1 as [|x its1 IH]; intros [|y its2] Hsame;
    try discriminate Hsame; simpl.
  - unfold line1, line2. simpl. by rewrite Hname, Hqty.
  - injection Hsame as Hxn Hxq Hrest. rewrite <- Hxn, <- Hname.
    destruct (String.eqb (Models.name x) (Models.name a)); simpl.
    + unfold line1 at 1, line2 at 1. simpl.
      rewrite Hxn, Hxq, Hqty. by f_equal.
    + unfold line1 at 1, line2 at 1. rewrite Hxn, Hxq. f_equal.
      by apply IH.
Qed.

Lemma merge_steps adds1 adds2 its1 its2 :
  Forall2 same_add adds1 adds2 ->
  map line1 its1 = map line2 its2 ->
  map line1 (fold_left Models.add_item_to adds1 its1)
  = map line2
      (fold_left (fun its a => UiWindow.add_or_update its a.1 a.2) adds2 its2).
Proof.
  intros Hadds. revert its1 its2.
  induction Hadds as [|a b adds1 adds2 Hab _ IH]; intros its1 its2 Hsame;
    simpl; [done|].
  apply IH. by apply merge_step.
Qed.

Lemma add_all_items adds inv :
  Models.items (fold_left Models.add_item adds inv)
  = fold_left Models.add_item_to adds (Models.items inv).
Proof.
  revert inv. induction adds as [|a adds IH]; intros inv; simpl; [done|].
  by rewrite IH.
Qed.

(** C10: fed adds that carry the same medicine names and quantities,
    [Invoice.add_item] and [MainWindow._add_or_update_item] end with
    lines of the same names, in the same order, with the same
    quantities. *)
Theorem merge_implementations_agree adds1 adds2 :
  Forall2 same_add adds1 adds2 ->
  map line1 (Models.items (add_all adds1)) = map line2 (update_all adds2).
Proof.
  intros Hadds. unfold add_all, update_all.
  rewrite add_all_items, update_all_fold. by apply merge_steps.
Qed.

Lemma merge_implementations_agree_witness :
  let adds1 := [Sample.item Sample.para 10; Sample.item Sample.ibu 3;
                Sample.item Sample.para 10] in
  let adds2 := [(Sample.para, 10); (Sample.ibu, 3); (Sample.para, 10)] in
  Forall2 same_add adds1 adds2 /\
  map line1 (Models.items (add_all adds1)) = map line2 (update_all adds2).
Proof.
  cbn zeta. split.
  - repeat constructor.
  - apply merge_implementations_agree. repeat constructor.
Defined.

Example merge_implementations_scenario :
  map line2 (update_all [(Sample.para, 10); (Sample.ibu, 3); (Sample.para, 10)])
  = [("Paracetamol", 20); ("Ibuprofen", 3)].
Proof. reflexivity. Qed.

End TwoMerges.

(** ** Discount arithmetic on binary64 *)

Section FloatFacts.

Lemma percent_0 : fdiv zero (float_of_Z 100) = zero.
Proof. reflexivity. Qed.

Lemma percent_100 : fdiv (float_of_Z 100) (float_of_Z 100) = one.
Proof. vm_compute. reflexivity. Qed.

Lemma feqb_refl_finite x : is_finite x = true -> feqb x x = true.
Proof.
  destruct x as [s|s| |s m e]; try done; intros _.
  unfold feqb, SFeqb, SFcompare.
  rewrite Z.compare_refl, Pos.compare_cont_refl. by destruct s.
Qed.

(** Multiplying a finite float by [1.0] gives the float back. *)
Lemma fmul_one x :
  is_finite x = true -> is_binary64 x = true -> fmul x one = x.
Proof.
  destruct x as [s|s| |s m e]; try done.
  - intros _ _. by destruct s.
  - intros _ Hb. unfold is_binary64, valid_binary, bounded in Hb.
    apply andb_true_iff in Hb as [Hc He].
    unfold canonical_mantissa in Hc. apply Z.eqb_eq in Hc.
    apply Z.leb_le in He.
    unfold fmul, one, SFmul. rewrite Pos.mul_comm.
    assert (Hd : Z.pos (digits2_pos (4503599627370496 * m))
                 = Z.pos (digits2_pos m) + 52).
    { change (4503599627370496 * m)%positive with (Pos.iter xO m 52).
      cbn [Pos.iter digits2_pos]. lia. }
    unfold binary_round_aux, shr_fexp. cbn [Zdigits2]. rewrite Hd.
    replace (Z.pos (digits2_pos m) + 52 + (e + -52))
      with (Z.pos (digits2_pos m) + e) by lia.
    rewrite Hc. replace (e - (e + -52)) with 52 by lia.
    unfold shr at 1.
    change (4503599627370496 * m)%positive with (Pos.iter xO m 52).
    change (SpecFloat.iter_pos shr_1 52
              (shr_record_of_loc (Z.pos (Pos.iter xO m 52)) loc_Exact))
      with {| shr_m := Z.pos m; shr_r := false; shr_s := false |}.
    cbn [shr_m loc_of_shr_record round_nearest_even shr_record_of_loc Zdigits2].
    replace (e + -52 + 52) with e by lia. rewrite Hc, Z.sub_diag.
    cbn [shr shr_m]. apply Z.leb_le in He. rewrite He.
    by destruct s.
Qed.

(** The difference of a finite float and itself is [+0.0]. *)
Lemma fsub_diag x : is_finite x = true -> fsub x x = zero.
Proof.
  destruct x as [s|s| |s m e]; try done; intros _.
  - by destruct s.
  - unfold fsub, SFsub. by rewrite Z.sub_diag.
Qed.

(** A finite float times [+0.0] is a zero. *)
Lemma fmul_zero x :
  is_finite x = true -> exists b, fmul x zero = S754_zero b.
Proof. destruct x as [s|s| |s m e]; try done; intros _; by eexists. Qed.

Lemma fsub_zero x b :
  is_finite x = true -> feqb (fsub x (S754_zero b)) x = true.
Proof.
  intros Hx. destruct x as [s|s| |s m e]; try done.
  - by destruct s, b.
  - simpl. by apply feqb_refl_finite.
Qed.

Lemma fadd_zero_l x b :
  is_finite x = true -> feqb (fadd (S754_zero b) x) x = true.
Proof.
  intros Hx. destruct x as [s|s| |s m e]; try done.
  - by destruct s, b.
  - simpl. by apply feqb_refl_finite.
Qed.

Lemma fadd_zero_r x b :
  is_finite x = true -> feqb (fadd x (S754_zero b)) x = true.
Proof.
  intros Hx. destruct x as [s|s| |s m e]; try done.
  - by destruct s, b.
  - simpl. by apply feqb_refl_finite.
Qed.

End FloatFacts.

Section Discount.
Import Models Spec.

(** C4, as stated, at a concrete input: one line of 1.2 and a discount of
    10 percent give a discount of 0.12 and a net total of 1.08, whose sum
    is 1.2000000000000002, not the subtotal. *)
Lemma discount_plus_net_counterexample :
  ~ (forall inv p,
       in_percent_range p = true ->
       feqb (fadd (discount_amount inv p) (net_total inv p)) (subtotal inv)
       = true).
Proof.
  intros Hclaim.
  specialize (Hclaim
    {| items := [{| name := "Paracetamol"; mg := "500"; rack := "A1";
                    unit_price := dec 12 1; qty := 1 |}] |}
    (float_of_Z 10) eq_refl).
  vm_compute in Hclaim. discriminate Hclaim.
Qed.

Example discount_plus_net_figures :
  let inv := {| items := [{| name := "Paracetamol"; mg := "500"; rack := "A1";
                             unit_price := dec 12 1; qty := 1 |}] |} in
  subtotal inv = dec 12 1 /\
  discount_amount inv (float_of_Z 10) = dec 12 2 /\
  net_total inv (float_of_Z 10) = dec 108 2 /\
  fadd (dec 12 2) (dec 108 2) = S754_finite false 5404319552844596 (-52) /\
  dec 12 1 = S754_finite false 5404319552844595 (-52).
Proof. vm_compute. repeat split. Qed.

(** C4, amended: for every invoice whose subtotal is a finite float,
    [net_total(0)] equals the subtotal and [net_total(100)] equals 0;
    [net_total(p)] is the subtotal minus [discount_amount(p)], which is
    the subtotal times [p / 100]; and the sum of discount and net total
    equals the subtotal at [p = 0] and at [p = 100]. (In between the sum
    is rounded and can miss the subtotal.) *)
Theorem discount_totals inv :
  is_finite (subtotal inv) = true ->
  is_binary64 (subtotal inv) = true ->
  feqb (net_total inv zero) (subtotal inv) = true /\
  feqb (net_total inv (float_of_Z 100)) zero = true /\
  (forall p, net_total inv p = fsub (subtotal inv) (discount_amount inv p)) /\
  (forall p, discount_amount inv p
             = fmul (subtotal inv) (fdiv p (float_of_Z 100))) /\
  feqb (fadd (discount_amount inv zero) (net_total inv zero)) (subtotal inv)
  = true /\
  feqb (fadd (discount_amount inv (float_of_Z 100))
             (net_total inv (float_of_Z 100))) (subtotal inv) = true.
Proof.
  intros Hfin Hval. unfold net_total, discount_amount.
  rewrite percent_0, percent_100, (fmul_one _ Hfin Hval), (fsub_diag _ Hfin).
  destruct (fmul_zero _ Hfin) as [b ->].
  repeat split.
  - by apply fsub_zero.
  - destruct (subtotal inv) as [s|s| |s m e]; try done.
    + by destruct s, b.
    + simpl. by apply feqb_refl_finite.
  - by apply fadd_zero_r.
Qed.

Lemma discount_totals_witness :
  let inv := add_all [Sample.item Sample.para 10; Sample.item Sample.para 10;
                      Sample.item Sample.ibu 20] in
  subtotal inv = float_of_Z 240 /\
  feqb (net_total inv zero) (subtotal inv) = true /\
  feqb (net_total inv (float_of_Z 100)) zero = true.
Proof.
  cbn zeta. split; [vm_compute; reflexivity|].
  match goal with |- feqb (net_total ?i _) _ = _ /\ _ =>
    destruct (discount_totals i) as (H0 & H100 & _)
  end; [vm_compute; reflexivity | vm_compute; reflexivity | ].
  split; assumption.
Defined.

(** Scenario C: a subtotal of 200.00 and a discount of 10 percent. *)
Example scenario_C :
  let inv := {| items := [{| name := "Paracetamol"; mg := "500"; rack := "A1";
                             unit_price := float_of_Z 5; qty := 40 |}] |} in
  subtotal inv = float_of_Z 200 /\
  discount_amount inv (float_of_Z 10) = float_of_Z 20 /\
  net_total inv (float_of_Z 10) = float_of_Z 180.
Proof. vm_compute. repeat split. Qed.

End Discount.

(* ===================================================================== *)
(** * Numbers that the file keeps *)
(* ===================================================================== *)

Section FileNumbers.
Import Xlsx.

Lemma digits2_pos_bounds p :
  2 ^ (Z.pos (digits2_pos p) - 1) <= Z.pos p < 2 ^ Z.pos (digits2_pos p).
Proof.
  induction p as [p IH|p IH|]; cbn [digits2_pos].
  - rewrite Pos2Z.inj_succ. change (Z.pos p~1) with (2 * Z.pos p + 1).
    replace (Z.succ (Z.pos (digits2_pos p)) - 1)
      with (Z.succ (Z.pos (digits2_pos p) - 1)) by lia.
    rewrite !Z.pow_succ_r by lia.
    generalize dependent (2 ^ (Z.pos (digits2_pos p) - 1)).
    generalize (2 ^ Z.pos (digits2_pos p)). lia.
  - rewrite Pos2Z.inj_succ. change (Z.pos p~0) with (2 * Z.pos p).
    replace (Z.succ (Z.pos (digits2_pos p)) - 1)
      with (Z.succ (Z.pos (digits2_pos p) - 1)) by lia.
    rewrite !Z.pow_succ_r by lia.
    generalize dependent (2 ^ (Z.pos (digits2_pos p) - 1)).
    generalize (2 ^ Z.pos (digits2_pos p)). lia.
  - simpl. lia.
Qed.

Lemma digits2_pos_iter p n :
  digits2_pos (Pos.iter xO p n) = (digits2_pos p + n)%positive.
Proof.
  induction n as [|n IH] using Pos.peano_ind.
  - simpl. lia.
  - rewrite Pos.iter_succ. cbn [digits2_pos]. rewrite IH. lia.
Qed.

Lemma pos_iter_xO p n : Z.pos (Pos.iter xO p n) = Z.pos p * 2 ^ Z.pos n.
Proof.
  induction n as [|n IH] using Pos.peano_ind.
  - simpl. lia.
  - rewrite Pos.iter_succ.
    change (Z.pos (Pos.iter xO p n)~0) with (2 * Z.pos (Pos.iter xO p n)).
    rewrite IH, Pos2Z.inj_succ, Z.pow_succ_r by lia. lia.
Qed.

(** A mantissa of 53 digits with an exponent in range is a float as it
    stands. *)
Lemma binary_round_aux_exact s m e :
  digits2_pos m = 53%positive -> -1074 <= e <= 971 ->
  binary_round_aux prec emax s (Z.pos m) e loc_Exact = S754_finite s m e.
Proof.
  intros Hd He. unfold binary_round_aux, shr_fexp.
  cbn [Zdigits2 shr_record_of_loc]. rewrite Hd.
  replace (fexp prec emax (53 + e) - e) with 0
    by (unfold fexp, emin, prec, emax; lia).
  cbn [shr shr_m loc_of_shr_record round_nearest_even Zdigits2
       shr_record_of_loc]. rewrite Hd.
  replace (fexp prec emax (53 + e) - e) with 0
    by (unfold fexp, emin, prec, emax; lia).
  cbn [shr shr_m].
  replace (e <=? emax - prec) with true; [done|].
  symmetry. apply Z.leb_le. unfold prec, emax. lia.
Qed.

(** An integer of at most 53 binary digits is a float. *)
Lemma float_of_Z_exact p :
  Z.pos p < 2 ^ 53 ->
  exists m e,
    float_of_Z (Z.pos p) = S754_finite false m e /\
    -52 <= e <= 0 /\ Z.pos m = Z.pos p * 2 ^ (- e).
Proof.
  intros Hp. pose proof (digits2_pos_bounds p) as [Hlo _].
  assert (Hd : Z.pos (digits2_pos p) <= 53).
  { destruct (Z.le_gt_cases (Z.pos (digits2_pos p)) 53) as [|Hgt]; [done|].
    assert (2 ^ 53 <= 2 ^ (Z.pos (digits2_pos p) - 1))
      by (apply Z.pow_le_mono_r; lia). lia. }
  unfold float_of_Z, binary_normalize, binary_round, shl_align.
  replace (fexp prec emax (Z.pos (digits2_pos p) + 0) - 0)
    with (Z.pos (digits2_pos p) - 53)
    by (unfold fexp, emin, prec, emax; lia).
  replace (fexp prec emax (Z.pos (digits2_pos p) + 0))
    with (Z.pos (digits2_pos p) - 53)
    by (unfold fexp, emin, prec, emax; lia).
  destruct (Z.pos (digits2_pos p) - 53) as [|q|q] eqn:Eq; [|lia|].
  - exists p, 0. split; [|split; [lia|simpl; lia]].
    apply binary_round_aux_exact; [lia|lia].
  - exists (Pos.iter xO p q), (Z.neg q). split; [|split; [lia|]].
    + apply binary_round_aux_exact; [|lia].
      rewrite digits2_pos_iter. lia.
    + by rewrite pos_iter_xO.
Qed.

Lemma log10_up_spec fuel n d :
  0 < d -> d <= n -> n < d * 10 ^ Z.of_nat fuel ->
  0 <= log10_up fuel n d /\
  d * 10 ^ log10_up fuel n d <= n < d * 10 ^ (log10_up fuel n d + 1).
Proof.
  revert d. induction fuel as [|fuel IH]; intros d Hd Hle Hlt.
  - simpl in Hlt. lia.
  - cbn [log10_up]. destruct (d * 10 <=? n) eqn:E.
    + apply Z.leb_le in E.
      destruct (IH (d * 10)) as (H0 & H1 & H2); [lia|done| |].
      { rewrite Nat2Z.inj_succ, Z.pow_succ_r in Hlt by lia. lia. }
      split; [lia|].
      replace (1 + log10_up fuel n (d * 10) + 1)
        with (Z.succ (log10_up fuel n (d * 10) + 1)) by lia.
      replace (1 + log10_up fuel n (d * 10))
        with (Z.succ (log10_up fuel n (d * 10))) by lia.
      rewrite !Z.pow_succ_r by lia. rewrite Z.pow_add_r in H2 by lia.
      rewrite Z.pow_add_r by lia. lia.
    + apply Z.leb_gt in E. simpl. lia.
Qed.

Lemma exponent10_integer z d :
  0 < d -> 0 < z ->
  0 <= exponent10 (z * d) d /\
  10 ^ exponent10 (z * d) d <= z < 10 ^ (exponent10 (z * d) d + 1).
Proof.
  intros Hd Hz. unfold exponent10.
  assert (Hn : 0 < z * d) by nia.
  replace (d <=? z * d) with true by (symmetry; apply Z.leb_le; nia).
  destruct (log10_up_spec (S (Z.to_nat (Z.log2 (z * d)))) (z * d) d)
    as (H0 & H1 & H2); [done|nia| |].
  { pose proof (Z.log2_nonneg (z * d)) as Hl.
    destruct (Z.log2_spec (z * d) Hn) as [_ Hup].
    rewrite Nat2Z.inj_succ, Z2Nat.id by done.
    assert (2 ^ Z.succ (Z.log2 (z * d)) <= 10 ^ Z.succ (Z.log2 (z * d)))
      by (apply Z.pow_le_mono_l; lia).
    nia. }
  split; [done|]. split; nia.
Qed.

Lemma round_half_even_exact a d : 0 < d -> round_half_even (a * d) d = a.
Proof.
  intros Hd. unfold round_half_even.
  rewrite Z.div_mul, Z.mod_mul by lia.
  change (2 * 0) with 0. destruct (Z.compare_spec 0 d); [lia|done|lia].
Qed.

(** A float whose value is a whole number below [10^16] is read back as
    that number. *)
Lemma reread_integer s m e z :
  (fraction m e).1 = z * (fraction m e).2 -> 0 < z < 10 ^ 16 ->
  reread (S754_finite s m e) = Some (CInt (if s then - z else z)).
Proof.
  intros Hn Hz. cbn [reread].
  assert (Hd : 0 < (fraction m e).2).
  { unfold fraction. destruct (0 <=? e) eqn:E; cbn [snd]; [lia|].
    apply Z.leb_gt in E. apply Z.pow_pos_nonneg; lia. }
  rewrite Hn. destruct (exponent10_integer z _ Hd (proj1 Hz)) as (H0 & H1 & H2).
  set (x := exponent10 (z * (fraction m e).2) (fraction m e).2) in *.
  assert (Hx : x < 16).
  { apply (Z.pow_lt_mono_r_iff 10); lia. }
  assert (HD : digits16 (z * (fraction m e).2) (fraction m e).2
               = (z * 10 ^ (15 - x), x - 15)).
  { unfold digits16. fold x.
    assert (Hlt : z * 10 ^ (15 - x) < 10 ^ 16).
    { replace (10 ^ 16) with (10 ^ (x + 1) * 10 ^ (15 - x))
        by (rewrite <- Z.pow_add_r by lia; f_equal; lia).
      apply Z.mul_lt_mono_pos_r; [|done]. apply Z.pow_pos_nonneg; lia. }
    destruct (0 <=? x - 15) eqn:Ek.
    - apply Z.leb_le in Ek. assert (x = 15) as -> by lia.
      change (15 - 15) with 0 in *. rewrite Z.pow_0_r, !Z.mul_1_r in *.
      rewrite round_half_even_exact by done.
      replace (z =? 10 ^ 16) with false; [done|].
      symmetry. apply Z.eqb_neq. lia.
    - replace (- (x - 15)) with (15 - x) by lia.
      replace (z * (fraction m e).2 * 10 ^ (15 - x))
        with (z * 10 ^ (15 - x) * (fraction m e).2) by lia.
      rewrite round_half_even_exact by done.
      replace (z * 10 ^ (15 - x) =? 10 ^ 16) with false; [done|].
      symmetry. apply Z.eqb_neq. lia. }
  rewrite HD. replace (x - 15 + 15) with x by lia.
  replace (-4 <=? x) with true by (symmetry; apply Z.leb_le; lia).
  replace (x <? 16) with true by (symmetry; apply Z.ltb_lt; lia).
  replace (- (x - 15)) with (15 - x) by lia.
  rewrite Z.mod_mul by (apply Z.pow_nonzero; lia).
  rewrite Z.eqb_refl, orb_true_r. cbn [andb].
  destruct (0 <=? x - 15) eqn:Ek.
  - apply Z.leb_le in Ek. assert (x = 15) as -> by lia.
    change (15 - 15) with 0. by rewrite !Z.pow_0_r, !Z.mul_1_r.
  - by rewrite Z.div_mul by (apply Z.pow_nonzero; lia).
Qed.

(** The file keeps every integer from 0 to [2^53]. *)
Lemma stored_small_int z :
  0 <= z <= 2 ^ 53 -> stored (CInt z) = Some (CInt z).
Proof.
  intros Hz. destruct (Z.eq_dec z (2 ^ 53)) as [->|Hne];
    [vm_compute; reflexivity|].
  destruct z as [|p|p]; [vm_compute; reflexivity| |lia].
  destruct (float_of_Z_exact p) as (m & e & Hf & He & Hm); [lia|].
  cbn [stored]. unfold float_of_int. rewrite Hf.
  apply (reread_integer false).
  - unfold fraction. destruct (0 <=? e) eqn:E.
    + apply Z.leb_le in E. assert (e = 0) as -> by lia.
      cbn [fst snd] in *. simpl in Hm. lia.
    + cbn [fst snd]. exact Hm.
  - split; [lia|]. assert (2 ^ 53 < 10 ^ 16) by (vm_compute; reflexivity). lia.
Qed.

Lemma formats_small_int z : 0 <= z <= 2 ^ 53 -> formats (CInt z) = true.
Proof.
  intros Hz. pose proof (stored_small_int z Hz) as Hs.
  cbn [stored formats] in *. by destruct (float_of_int z).
Qed.

End FileNumbers.

Section FileKept.
Import Xlsx.
Context `{Runtime}.

Lemma stored_formats c : stored c = Some c -> formats c = true.
Proof.
  destruct c as [|s|z|x|b|o]; try done.
  cbn [stored formats]. by destruct (float_of_int z).
Qed.

Lemma reread_sheet_kept ws :
  map_Forall (fun _ c => stored c = Some c) (cells ws) -> reread_sheet ws = ws.
Proof.
  intros Hk. destruct ws as [cs mr mc]. unfold reread_sheet. cbn in *.
  f_equal. apply map_eq. intros i. rewrite lookup_fmap.
  destruct (cs !! i) as [c|] eqn:Ei; [|done]. cbn.
  by rewrite (Hk i c Ei).
Qed.

(** A workbook that the file keeps is read back as it is. *)
Lemma read_back_kept wb : kept wb -> read_back wb = Ok wb.
Proof.
  intros Hk. unfold read_back. rewrite decide_True.
  - f_equal. apply map_eq. intros i. rewrite lookup_fmap.
    destruct (wb !! i) as [ws|] eqn:Ei; [|done]. cbn.
    by rewrite (reread_sheet_kept ws (Hk i ws Ei)).
  - intros i ws Hi j c Hj. apply bool_decide_eq_true.
    rewrite (Hk i ws Hi j c Hj). by eexists.
Qed.

Lemma save_workbook_kept d wb :
  writable d = true -> kept wb ->
  save_workbook d wb = ({| file := Some (Ok wb); writable := true |}, Ok tt).
Proof.
  intros Hw Hk. unfold save_workbook. rewrite Hw, decide_True.
  - by rewrite read_back_kept.
  - intros i ws Hi j c Hj. by apply stored_formats, (Hk i ws Hi j c Hj).
Qed.

Lemma kept_check wb : bool_decide (kept wb) = true -> kept wb.
Proof. apply bool_decide_eq_true. Qed.

Lemma save_workbook_locked d wb :
  writable d = false -> save_workbook d wb = (d, Raise OSError).
Proof. intros Hw. unfold save_workbook. by rewrite Hw. Qed.


End FileKept.

(** ** The inventory store *)

Section ReadRows.
Import Xlsx DataStore Spec.
Context `{Runtime}.

Lemma read_step_raise cm ws rows e :
  fold_left (read_step cm ws) rows (Raise e) = Raise e.
Proof. induction rows as [|row rows IH]; simpl; [done|apply IH]. Qed.

(** [_read_rows] through [collect]: the names are appended in row order
    and the two dictionaries take the entries in row order, a later row
    of the same key replacing an earlier one. *)
Lemma read_rows_collect cm ws rows names records refs :
  fold_left (read_step cm ws) rows (Ok (names, records, refs)) =
  es ← collect cm ws rows;
  Ok (names ++ map (fun e : entry => name e.1.2) es,
      insert_records es records, insert_refs es refs).
Proof.
  revert names records refs.
  induction rows as [|row rows IH]; intros names records refs;
    cbn [fold_left collect].
  - simpl. by rewrite app_nil_r.
  - assert (Hstep : read_step cm ws (Ok (names, records, refs)) row =
                    match read_row cm ws row with
                    | Ok None => Ok (names, records, refs)
                    | Ok (Some (k, r, ref)) =>
                        Ok (names ++ [name r], <[k := r]> records,
                            <[k := ref]> refs)
                    | Raise e => Raise e
                    end).
    { unfold read_step. simpl.
      by destruct (read_row cm ws row) as [[[[k r] ref]|]|e]. }
    rewrite Hstep.
    destruct (read_row cm ws row) as [[[[k r] ref]|]|e]; simpl.
    + rewrite IH. destruct (collect cm ws rows) as [es|e]; simpl; [|done].
      by rewrite <- app_assoc.
    + rewrite IH. by destruct (collect cm ws rows).
    + apply read_step_raise.
Qed.

(** *** The two dictionaries *)

Lemma insert_records_snoc es e m :
  insert_records (es ++ [e]) m = <[e.1.1 := e.1.2]> (insert_records es m).
Proof. unfold insert_records. by rewrite fold_left_app. Qed.

Lemma insert_refs_snoc es e m :
  insert_refs (es ++ [e]) m = <[e.1.1 := e.2]> (insert_refs es m).
Proof. unfold insert_refs. by rewrite fold_left_app. Qed.

(** The key [k] is looked up in what the entries give: the last entry of
    that key decides. *)
Lemma insert_lookup es k :
  (insert_records es ∅ !! k = None /\ insert_refs es ∅ !! k = None /\
   Forall (fun e : entry => e.1.1 <> k) es) \/
  (exists es1 e es2,
     es = es1 ++ e :: es2 /\ e.1.1 = k /\
     Forall (fun e : entry => e.1.1 <> k) es2 /\
     insert_records es ∅ !! k = Some e.1.2 /\
     insert_refs es ∅ !! k = Some e.2).
Proof.
  induction es as [|e es IH] using rev_ind.
  - left. by repeat split.
  - rewrite insert_records_snoc, insert_refs_snoc.
    destruct (decide (e.1.1 = k)) as [E|NE].
    + right. exists es, e, []. rewrite E, !lookup_insert_eq. by repeat split.
    + rewrite !lookup_insert_ne by done.
      destruct IH as [(Hr & Hf & Hall)|(es1 & e1 & es2 & -> & Hk & Hall & Hr & Hf)].
      * left. repeat split; [done|done|].
        apply Forall_app. split; [done|]. by constructor.
      * right. exists es1, e1, (es2 ++ [e]).
        rewrite <- app_assoc. repeat split; try done.
        apply Forall_app. split; [done|]. by constructor.
Qed.

(** *** The header row *)

Lemma detect_columns_headers ws cm :
  _detect_columns ws = Ok cm ->
  forall k i, cm !! k = Some i ->
    i ∈ seq 1 (max_column ws) /\ strip (py_str (value ws 1 i)) = k.
Proof.
  unfold _detect_columns.
  set (step := fun (headers : gmap string nat) idx => _).
  assert (Hfold : forall l (acc : gmap string nat),
    (forall k i, acc !! k = Some i ->
       i ∈ seq 1 (max_column ws) /\ strip (py_str (value ws 1 i)) = k) ->
    (forall i, i ∈ l -> i ∈ seq 1 (max_column ws)) ->
    forall k i, fold_left step l acc !! k = Some i ->
       i ∈ seq 1 (max_column ws) /\ strip (py_str (value ws 1 i)) = k).
  { induction l as [|j l IH]; intros acc Hacc Hl; simpl; [done|].
    apply IH; [|set_solver].
    intros k i. unfold step at 1.
    assert (Hins : forall v, v = value ws 1 j ->
              <[strip (py_str v) := j]> acc !! k = Some i ->
              i ∈ seq 1 (max_column ws) /\ strip (py_str (value ws 1 i)) = k).
    { intros v -> Hlk. destruct (decide (strip (py_str (value ws 1 j)) = k)) as [E|NE].
      - rewrite E, lookup_insert_eq in Hlk. injection Hlk as <-.
        split; [set_solver|done].
      - rewrite lookup_insert_ne in Hlk by done. by apply Hacc. }
    destruct (value ws 1 j) eqn:Ev; try (by apply Hins); by apply Hacc. }
  intros Hdet k i Hlk.
  destruct (filter _ REQUIRED_COLUMNS) in Hdet; [|done].
  injection Hdet as <-. eapply Hfold; [| |exact Hlk]; [by intros|done].
Qed.

(** Two headers stand in two columns. *)
Lemma detect_columns_inj ws cm k1 k2 i :
  _detect_columns ws = Ok cm ->
  cm !! k1 = Some i -> cm !! k2 = Some i -> k1 = k2.
Proof.
  intros Hdet H1 H2.
  destruct (detect_columns_headers _ _ Hdet _ _ H1) as [_ <-].
  by destruct (detect_columns_headers _ _ Hdet _ _ H2) as [_ <-].
Qed.

Lemma detect_columns_required ws cm :
  _detect_columns ws = Ok cm ->
  exists cN cMG cR cS cP cA, columns cm cN cMG cR cS cP cA.
Proof.
  unfold _detect_columns.
  set (headers := fold_left _ _ _).
  destruct (filter _ REQUIRED_COLUMNS) as [|c l] eqn:Hf; [|done].
  intros [= <-].
  assert (Hall : forall c, c ∈ REQUIRED_COLUMNS -> is_Some (headers !! c)).
  { intros c Hc. destruct (headers !! c) eqn:E; [done|].
    assert (c ∈ filter (fun col => headers !! col = None) REQUIRED_COLUMNS)
      as Hin by (apply list_elem_of_filter; done).
    rewrite Hf in Hin. by apply elem_of_nil in Hin. }
  destruct (Hall "Medicine_Name") as [cN ?]; [set_solver|].
  destruct (Hall "MG") as [cMG ?]; [set_solver|].
  destruct (Hall "Rack_Number") as [cR ?]; [set_solver|].
  destruct (Hall "Stock") as [cS ?]; [set_solver|].
  destruct (Hall "Price") as [cP ?]; [set_solver|].
  destruct (Hall "Actual_Price") as [cA ?]; [set_solver|].
  by exists cN, cMG, cR, cS, cP, cA.
Qed.

(** *** One row *)

Lemma read_row_columns cm cN cMG cR cS cP cA ws row :
  columns cm cN cMG cR cS cP cA ->
  read_row cm ws row =
  if is_blank (value ws row cN) then Ok None else
  stock ← _to_int (value ws row cS) 0;
  price_val ← _to_float (value ws row cP) (Some zero);
  actual_price_val ← _to_float (value ws row cA) None;
  Ok (Some (_normalize_name (value ws row cN),
            {| name := py_str (value ws row cN);
               mg := py_str (or_empty (value ws row cMG));
               rack := py_str (or_empty (value ws row cR));
               stock := stock;
               price := match actual_price_val, price_val with
                        | Some p, _ => p
                        | None, Some p => p
                        | None, None => zero
                        end |},
            {| row_index := row; stock_cell_ref := (row, cS) |})).
Proof.
  intros [HN HMG HR HS HP HA]. unfold read_row, col.
  rewrite HN, HMG, HR, HS, HP, HA. simpl.
  by destruct (is_blank (value ws row cN)).
Qed.

(** What an entry says of the row it was read from. *)
Lemma read_row_entry cm cN cMG cR cS cP cA ws row k r ref :
  columns cm cN cMG cR cS cP cA ->
  read_row cm ws row = Ok (Some (k, r, ref)) ->
  is_blank (value ws row cN) = false /\
  k = _normalize_name (value ws row cN) /\
  k = _normalize_name (CStr (name r)) /\
  _to_int (value ws row cS) 0 = Ok (stock r) /\
  ref = {| row_index := row; stock_cell_ref := (row, cS) |}.
Proof.
  intros Hc. rewrite (read_row_columns _ _ _ _ _ _ _ _ _ Hc).
  destruct (is_blank (value ws row cN)); [done|].
  destruct (_to_int (value ws row cS) 0) as [z|]; [|done].
  destruct (_to_float (value ws row cP) (Some zero)) as [pv|]; [|done].
  destruct (_to_float (value ws row cA) None) as [av|]; [|done].
  simpl. intros [= <- <- <-]. by repeat split.
Qed.

Lemma value_set_value ws ref v r c :
  value (set_value ws ref v) r c =
  if decide (ref = (r, c)) then v else value ws r c.
Proof.
  unfold value, set_value. simpl. rewrite lookup_insert.
  by destruct (decide (ref = (r, c))).
Qed.

(** Writing the stock cell of a row changes the stock that is read from
    that row and nothing else. *)
Lemma read_row_set_stock cm cN cMG cR cS cP cA ws r0 z row :
  columns cm cN cMG cR cS cP cA ->
  cS <> cN -> cS <> cMG -> cS <> cR -> cS <> cP -> cS <> cA ->
  read_row cm (set_value ws (r0, cS) (CInt z)) row =
  if decide (row = r0)
  then match read_row cm ws row with
       | Ok (Some (k, r, ref)) => Ok (Some (k, set_stock r z, ref))
       | Ok None => Ok None
       | Raise e =>
           if is_blank (value ws row cN) then Ok None else
           price_val ← _to_float (value ws row cP) (Some zero);
           actual_price_val ← _to_float (value ws row cA) None;
           Ok (Some (_normalize_name (value ws row cN),
                     {| name := py_str (value ws row cN);
                        mg := py_str (or_empty (value ws row cMG));
                        rack := py_str (or_empty (value ws row cR));
                        stock := z;
                        price := match actual_price_val, price_val with
                                 | Some p, _ => p
                                 | None, Some p => p
                                 | None, None => zero
                                 end |},
                     {| row_index := row; stock_cell_ref := (row, cS) |}))
       end
  else read_row cm ws row.
Proof.
  intros Hc ? ? ? ? ?.
  rewrite !(read_row_columns _ _ _ _ _ _ _ _ _ Hc), !value_set_value.
  repeat (rewrite decide_False by congruence).
  destruct (decide (row = r0)) as [->|NE].
  - rewrite decide_True by done.
    destruct (is_blank (value ws r0 cN)); [done|].
    change (_to_int (CInt z) 0) with (Ok z). simpl.
    destruct (_to_int (value ws r0 cS) 0) as [z0|]; simpl; [|done].
    destruct (_to_float (value ws r0 cP) (Some zero)) as [pv|]; [|done].
    by destruct (_to_float (value ws r0 cA) None) as [av|].
  - by rewrite decide_False by congruence.
Qed.

(** *** All rows *)

Lemma collect_entries cm cN cMG cR cS cP cA ws rows es :
  columns cm cN cMG cR cS cP cA ->
  collect cm ws rows = Ok es ->
  Forall (fun e : entry =>
            e.1.1 = _normalize_name (value ws (row_index e.2) cN) /\
            e.1.1 = _normalize_name (CStr (name e.1.2)) /\
            stock_cell_ref e.2 = (row_index e.2, cS) /\
            row_index e.2 ∈ rows /\
            read_row cm ws (row_index e.2) = Ok (Some e)) es.
Proof.
  intros Hc. revert es.
  induction rows as [|row rows IH]; intros es; cbn [collect].
  - intros [= <-]. constructor.
  - destruct (read_row cm ws row) as [o|] eqn:Hrow; [|done]. simpl.
    destruct (collect cm ws rows) as [es'|]; [|done]. simpl.
    intros [= <-]. specialize (IH es' eq_refl).
    assert (Hrest : Forall (fun e : entry =>
            e.1.1 = _normalize_name (value ws (row_index e.2) cN) /\
            e.1.1 = _normalize_name (CStr (name e.1.2)) /\
            stock_cell_ref e.2 = (row_index e.2, cS) /\
            row_index e.2 ∈ row :: rows /\
            read_row cm ws (row_index e.2) = Ok (Some e)) es').
    { eapply Forall_impl; [exact IH|]. simpl.
      intros e (? & ? & ? & ? & ?). repeat split; try done. set_solver. }
    destruct o as [[[k r] ref]|]; [|done].
    constructor; [|done].
    destruct (read_row_entry _ _ _ _ _ _ _ _ _ _ _ _ Hc Hrow)
      as (_ & Hk & Hk' & _ & ->).
    simpl. repeat split; try done. set_solver.
Qed.

Lemma collect_set_stock cm cN cMG cR cS cP cA ws rows es r0 z :
  columns cm cN cMG cR cS cP cA ->
  cS <> cN -> cS <> cMG -> cS <> cR -> cS <> cP -> cS <> cA ->
  collect cm ws rows = Ok es ->
  collect cm (set_value ws (r0, cS) (CInt z)) rows
  = Ok (map (restock r0 z) es).
Proof.
  intros Hc ? ? ? ? ?. revert es.
  induction rows as [|row rows IH]; intros es; cbn [collect].
  - by intros [= <-].
  - rewrite (read_row_set_stock _ _ _ _ _ _ _ _ _ _ _ Hc) by done.
    destruct (read_row cm ws row) as [o|] eqn:Hrow; [|done]. simpl.
    destruct (collect cm ws rows) as [es'|]; [|done]. simpl.
    intros [= <-]. rewrite (IH es' eq_refl).
    destruct o as [[[k r] ref]|].
    + destruct (read_row_entry _ _ _ _ _ _ _ _ _ _ _ _ Hc Hrow)
        as (_ & _ & _ & _ & ->).
      destruct (decide (row = r0)) as [->|NE]; simpl;
        unfold restock at 2; simpl.
      * by rewrite decide_True.
      * by rewrite decide_False.
    + by destruct (decide (row = r0)).
Qed.

Lemma insert_records_last es1 (e : entry) es2 m :
  Forall (fun e' : entry => e'.1.1 <> e.1.1) es2 ->
  insert_records (es1 ++ e :: es2) m !! e.1.1 = Some e.1.2.
Proof.
  induction es2 as [|e2 es2 IH] using rev_ind; intros Hall.
  - by rewrite insert_records_snoc, lookup_insert_eq.
  - apply Forall_app in Hall as [Hall He2].
    apply Forall_inv in He2.
    replace (es1 ++ e :: es2 ++ [e2]) with ((es1 ++ e :: es2) ++ [e2])
      by (by rewrite <- app_assoc).
    rewrite insert_records_snoc, lookup_insert_ne by done. by apply IH.
Qed.

Lemma restock_key r0 z (e : entry) : (restock r0 z e).1.1 = e.1.1.
Proof. unfold restock. by destruct (decide _). Qed.

Lemma restock_ref r0 z (e : entry) : (restock r0 z e).2 = e.2.
Proof. unfold restock. by destruct (decide _). Qed.

Lemma restock_name r0 z (e : entry) :
  name (restock r0 z e).1.2 = name e.1.2.
Proof. unfold restock. by destruct (decide _). Qed.

Lemma insert_refs_restock r0 z es m :
  insert_refs (map (restock r0 z) es) m = insert_refs es m.
Proof.
  revert m. induction es as [|e es IH]; intros m; [done|].
  unfold insert_refs in *. simpl.
  by rewrite restock_key, restock_ref, IH.
Qed.

(** *** A consistent store *)

Lemma consistent_inv st :
  consistent st ->
  exists ws es,
    _workbook st !! sheet_name st = Some ws /\
    _detect_columns ws = Ok (_col_map st) /\
    collect (_col_map st) ws (seq 2 (max_row ws - 1)) = Ok es /\
    _names st = map (fun e : entry => name e.1.2) es /\
    _records st = insert_records es ∅ /\
    _row_refs st = insert_refs es ∅.
Proof.
  unfold consistent, __init__. simpl.
  destruct (_workbook st !! sheet_name st) as [ws|]; [|done].
  destruct (_detect_columns ws) as [cm|] eqn:Hdet; [|done]. simpl.
  unfold _read_rows. rewrite read_rows_collect.
  destruct (collect cm ws _) as [es|] eqn:Hes; [|done]. simpl.
  intros [= Hst]. exists ws, es. rewrite <- Hst. simpl. by rewrite Hes.
Qed.

Lemma consistent_intro st ws es :
  _workbook st !! sheet_name st = Some ws ->
  _detect_columns ws = Ok (_col_map st) ->
  collect (_col_map st) ws (seq 2 (max_row ws - 1)) = Ok es ->
  _names st = map (fun e : entry => name e.1.2) es ->
  _records st = insert_records es ∅ ->
  _row_refs st = insert_refs es ∅ ->
  consistent st.
Proof.
  intros Hws Hdet Hes Hn Hr Hf. unfold consistent, __init__. simpl.
  rewrite Hws, Hdet. simpl. unfold _read_rows.
  rewrite read_rows_collect, Hes. simpl.
  rewrite <- Hn, <- Hr, <- Hf. by destruct st.
Qed.

(** A fresh store is consistent. *)
Lemma init_consistent d sheet st :
  __init__ d sheet = Ok st -> consistent st.
Proof.
  unfold consistent, __init__, load_workbook.
  cbn [file mbind result_bind bind].
  destruct (file d) as [[wb|]|]; [|done|done]. cbn [mbind result_bind bind].
  destruct (wb !! sheet) as [ws|] eqn:Hws; [|done].
  destruct (_detect_columns ws) as [cm|] eqn:Hdet; [|done].
  cbn [mbind result_bind bind].
  destruct (_read_rows cm ws) as [[[names records] refs]|] eqn:Hrows; [|done].
  intros [= <-]. cbn [_workbook sheet_name].
  rewrite Hws, Hdet. cbn [mbind result_bind bind]. by rewrite Hrows.
Qed.

Lemma detect_columns_set_value ws r0 c v :
  r0 <> 1%nat ->
  _detect_columns (set_value ws (r0, c) v) = _detect_columns ws.
Proof.
  intros Hr0. unfold _detect_columns. cbn [max_column set_value].
  assert (Hstep : forall l (acc : gmap string nat),
    fold_left
      (fun (headers : gmap string nat) idx =>
         match value (set_value ws (r0, c) v) 1 idx with
         | CNone => headers
         | v0 => <[strip (py_str v0) := idx]> headers
         end) l acc =
    fold_left
      (fun (headers : gmap string nat) idx =>
         match value ws 1 idx with
         | CNone => headers
         | v0 => <[strip (py_str v0) := idx]> headers
         end) l acc).
  { induction l as [|i l IH]; intros acc; simpl; [done|].
    rewrite value_set_value, decide_False by congruence. apply IH. }
  by rewrite Hstep.
Qed.

(** [reduce_stock] on a consistent store, within the stock: the call
    succeeds, the record of the medicine has its stock lowered, and the
    store, with the stock cell written into its workbook, is consistent. *)
Lemma reduce_stock_consistent st name_ q rec :
  consistent st ->
  get_medicine st name_ = Some rec ->
  0 < q -> q <= stock rec ->
  exists st',
    reduce_stock st name_ q = (st', Ok tt) /\
    consistent st' /\
    sheet_name st' = sheet_name st /\
    _col_map st' = _col_map st /\
    _names st' = _names st /\
    _row_refs st' = _row_refs st /\
    _records st' =
      <[_normalize_name (CStr name_) := set_stock rec (stock rec - q)]>
        (_records st).
Proof.
  intros Hcons Hget Hq0 Hq.
  destruct (consistent_inv _ Hcons) as (ws & es & Hws & Hdet & Hes & Hn & Hr & Hf).
  destruct (detect_columns_required _ _ Hdet)
    as (cN & cMG & cR & cS & cP & cA & Hc).
  pose proof (collect_entries _ _ _ _ _ _ _ _ _ _ Hc Hes) as Hent.
  unfold get_medicine in Hget.
  set (norm := _normalize_name (CStr name_)) in *.
  set (new := stock rec - q).
  destruct (insert_lookup es norm)
    as [(Hnone & _)|(es1 & e0 & es2 & Hsplit & Hk0 & Hall0 & Hr0 & Hf0)].
  { rewrite Hr in Hget. congruence. }
  assert (rec = e0.1.2) as Hrec by (rewrite Hr in Hget; congruence).
  assert (He0 : e0 ∈ es) by (rewrite Hsplit; set_solver).
  rewrite Forall_forall in Hent.
  destruct (Hent e0 He0) as (Hkey0 & _ & Hcell0 & Hrow0 & _).
  eexists. split.
  { unfold reduce_stock. fold norm.
    rewrite (proj2 (Z.leb_gt _ _) Hq0), Hget.
    replace (stock rec - q <? 0) with false by (symmetry; apply Z.ltb_ge; lia).
    rewrite Hf, Hf0. reflexivity. }
  split; [|by repeat split].
  eapply (consistent_intro _
              (set_value ws (stock_cell_ref e0.2) (CInt new))
              (map (restock (row_index e0.2) new) es)); cbn.
  - rewrite lookup_insert_eq. unfold _sheet. by rewrite Hws.
  - rewrite Hcell0. rewrite detect_columns_set_value; [done|].
    apply elem_of_seq in Hrow0. lia.
  - rewrite Hcell0.
      apply (collect_set_stock _ cN cMG cR cS cP cA); try done;
        intros ->;
        [ pose proof (detect_columns_inj _ _ "Stock" "Medicine_Name" _ Hdet
                        (col_stock _ _ _ _ _ _ _ Hc) (col_name _ _ _ _ _ _ _ Hc))
        | pose proof (detect_columns_inj _ _ "Stock" "MG" _ Hdet
                        (col_stock _ _ _ _ _ _ _ Hc) (col_mg _ _ _ _ _ _ _ Hc))
        | pose proof (detect_columns_inj _ _ "Stock" "Rack_Number" _ Hdet
                        (col_stock _ _ _ _ _ _ _ Hc) (col_rack _ _ _ _ _ _ _ Hc))
        | pose proof (detect_columns_inj _ _ "Stock" "Price" _ Hdet
                        (col_stock _ _ _ _ _ _ _ Hc) (col_price _ _ _ _ _ _ _ Hc))
        | pose proof (detect_columns_inj _ _ "Stock" "Actual_Price" _ Hdet
                        (col_stock _ _ _ _ _ _ _ Hc) (col_actual _ _ _ _ _ _ _ Hc)) ];
        done.
  - rewrite Hn, map_map. apply map_ext. intros e. by rewrite restock_name.
  - rewrite Hr. apply map_eq. intros k.
      destruct (insert_lookup es k)
        as [(Hnone & _ & Hall)|(a & e & b & Hsp & Hk & Hall & Hrk & Hfk)].
      * assert (k <> norm) as NE.
        { intros ->. rewrite Forall_forall in Hall. by apply (Hall e0). }
        rewrite lookup_insert_ne, Hnone by done. symmetry.
        destruct (insert_lookup (map (restock (row_index e0.2) new) es) k)
          as [(Hnone' & _)|(a' & e' & b' & Hsp' & Hk' & _)]; [done|].
        exfalso.
        assert (e' ∈ map (restock (row_index e0.2) new) es) as Hin
          by (rewrite Hsp'; set_solver).
        apply list_elem_of_fmap in Hin as (e1 & -> & Hin1).
        rewrite restock_key in Hk'.
        rewrite Forall_forall in Hall. by apply (Hall e1).
      * rewrite Hsp, map_app. cbn [map].
        rewrite <- Hk, <- (restock_key (row_index e0.2) new e).
        rewrite insert_records_last.
        2:{ rewrite Forall_forall in Hall |- *. intros e1 Hin.
            apply list_elem_of_fmap in Hin as (e2 & -> & Hin2).
            rewrite !restock_key, Hk. by apply Hall. }
        rewrite restock_key.
        destruct (decide (e.1.1 = norm)) as [E|NE].
        -- rewrite E, lookup_insert_eq. f_equal.
           assert (e.2 = e0.2) as Href by (rewrite <- Hk, E in Hfk; congruence).
           assert (e.1.2 = rec) as Hrec' by (rewrite <- Hk, E in Hrk; congruence).
           unfold restock. rewrite decide_True by (by rewrite Href).
           cbn. by rewrite Hrec'.
        -- rewrite lookup_insert_ne by done. rewrite <- Hsp, Hk, Hrk.
           f_equal. unfold restock. rewrite decide_False; [done|].
           intros Hrow. apply NE.
           assert (e ∈ es) as Hin by (rewrite Hsp; set_solver).
           destruct (Hent e Hin) as (Hkey & _).
           by rewrite Hkey, Hrow, <- Hkey0.
  - rewrite ?Hf. symmetry. apply insert_refs_restock.
Qed.

(** Every record of a consistent store is filed under its normalized
    name and has a row reference. *)
Lemma consistent_key st k r :
  consistent st -> _records st !! k = Some r ->
  k = _normalize_name (CStr (name r)) /\ is_Some (_row_refs st !! k).
Proof.
  intros Hcons Hlk.
  destruct (consistent_inv _ Hcons) as (ws & es & Hws & Hdet & Hes & Hn & Hr & Hf).
  destruct (detect_columns_required _ _ Hdet)
    as (cN & cMG & cR & cS & cP & cA & Hc).
  pose proof (collect_entries _ _ _ _ _ _ _ _ _ _ Hc Hes) as Hent.
  rewrite Forall_forall in Hent.
  destruct (insert_lookup es k)
    as [(Hnone & _)|(es1 & e & es2 & Hsplit & Hk & _ & Hrk & Hfk)].
  { rewrite Hr in Hlk. congruence. }
  assert (e ∈ es) as Hin by (rewrite Hsplit; set_solver).
  destruct (Hent e Hin) as (_ & Hkey & _).
  rewrite Hr, Hrk in Hlk. injection Hlk as <-.
  split; [congruence|]. rewrite Hf, Hfk. by eexists.
Qed.



End ReadRows.

Section StoreClaims.
Import Xlsx DataStore Spec.

(** C5: [reduce_stock] rejects a quantity that is zero or negative,
    fails with [KeyError] on a name it does not know and with the
    insufficient-stock [ValueError] on a quantity above the stock, in each
    case leaving the store as it was; within the stock it lowers the stock
    of that record, leaves the other records alone and writes the new
    stock into the stock cell of the workbook it holds. The file is out of
    its reach: only [save] writes it. *)
Theorem reduce_stock_outcomes `{Runtime} st name_ q :
  (q <= 0 ->
   reduce_stock st name_ q = (st, Raise (ValueError QuantityNotPositive))) /\
  (0 < q -> get_medicine st name_ = None ->
   reduce_stock st name_ q = (st, Raise (KeyError name_))) /\
  (forall rec, 0 < q -> get_medicine st name_ = Some rec -> stock rec < q ->
   reduce_stock st name_ q =
     (st, Raise (ValueError (InsufficientStock (name rec) (stock rec) q)))) /\
  (forall rec, 0 < q -> get_medicine st name_ = Some rec -> q <= stock rec ->
   consistent st ->
   exists st',
     reduce_stock st name_ q = (st', Ok tt) /\
     get_medicine st' name_ = Some (set_stock rec (stock rec - q)) /\
     (forall other,
        _normalize_name (CStr other) <> _normalize_name (CStr name_) ->
        get_medicine st' other = get_medicine st other) /\
     (exists ref, _row_refs st !! _normalize_name (CStr name_) = Some ref /\
        _workbook st' =
          <[sheet_name st := set_value (_sheet st) (stock_cell_ref ref)
                               (CInt (stock rec - q))]> (_workbook st)) /\
     consistent st').
Proof.
  repeat split.
  - intros Hq. unfold reduce_stock.
    by rewrite (proj2 (Z.leb_le _ _) Hq).
  - intros Hq Hget. unfold reduce_stock, get_medicine in *.
    by rewrite (proj2 (Z.leb_gt _ _) Hq), Hget.
  - intros rec Hq Hget Hlt. unfold reduce_stock, get_medicine in *.
    rewrite (proj2 (Z.leb_gt _ _) Hq), Hget.
    by replace (stock rec - q <? 0) with true by (symmetry; apply Z.ltb_lt; lia).
  - intros rec Hq Hget Hle Hcons.
    destruct (reduce_stock_consistent _ _ _ _ Hcons Hget Hq Hle)
      as (st' & Hred & Hcons' & Hsn & Hcm & Hn & Hf & Hr).
    exists st'. split; [done|]. unfold get_medicine in *. rewrite Hr.
    split; [by rewrite lookup_insert_eq|].
    split; [by intros other NE; rewrite lookup_insert_ne|].
    split; [|done].
    destruct (consistent_key _ _ _ Hcons Hget) as [_ [ref Href]].
    exists ref. split; [done|].
    unfold reduce_stock in Hred.
    rewrite (proj2 (Z.leb_gt _ _) Hq), Hget in Hred.
    replace (stock rec - q <? 0) with false in Hred
      by (symmetry; apply Z.ltb_ge; lia).
    rewrite Href in Hred. by injection Hred as <-.
Qed.

(** C6, as stated, at a concrete input: the sample sheet with a stock of
    seventeen digits, 12345678901234570, decremented by 1. The file is
    written with sixteen significant digits, so what is loaded again is
    12345678901234570 and not 12345678901234569. *)
Lemma decrement_commit_reload_counterexample :
  ~ (forall (rt : Runtime) d st name_ rec q,
       consistent st ->
       get_medicine st name_ = Some rec ->
       0 < q -> q <= stock rec ->
       writable d = true ->
       exists st1 d1 st2,
         reduce_stock st name_ q = (st1, Ok tt) /\
         save d st1 = (d1, Ok tt) /\
         __init__ d1 (sheet_name st) = Ok st2 /\
         (stock <$> get_medicine st2 name_) = Some (stock rec - q)).
Proof.
  intros Hclaim.
  pose (r := {| name := "Paracetamol"; mg := "500"; rack := "A1";
                stock := 12345678901234570; price := float_of_Z 5 |}).
  destruct (Hclaim DecimalRuntime.runtime Sample.wide_disk Sample.wide_store
              "Paracetamol" r 1)
    as (st1 & d1 & st2 & Hred & Hsave & Hload & Hstock);
    [vm_compute; reflexivity|vm_compute; reflexivity|lia|simpl; lia
    |reflexivity|].
  assert (E1 : st1 = (reduce_stock (H := DecimalRuntime.runtime)
                        Sample.wide_store "Paracetamol" 1).1)
    by (by rewrite Hred).
  assert (E2 : d1 = (save (H := DecimalRuntime.runtime) Sample.wide_disk st1).1)
    by (by rewrite Hsave).
  assert (E3 : (stock <$> (st ← __init__ (H := DecimalRuntime.runtime) d1
                                  Config.EXCEL_SHEET_NAME;
                           from_option (get_medicine
                                          (H := DecimalRuntime.runtime)
                                          st "Paracetamol")))
               = Ok (stock r - 1)).
  { change (sheet_name Sample.wide_store) with Config.EXCEL_SHEET_NAME in Hload.
    rewrite Hload. cbn [mbind result_bind bind].
    destruct (get_medicine st2 "Paracetamol") as [r2|]; [|done].
    cbn in Hstock |- *. by injection Hstock as ->. }
  rewrite E2, E1 in E3. vm_compute in E3. discriminate E3.
Qed.


(** C9, as stated, at a concrete input: the sample sheet names a medicine
    "Aspirin " with a space at its end; the query "aspirin" finds its
    record, yet the trimmed query is not, ignoring case, the record's
    name. *)
Lemma lookup_by_untrimmed_name_counterexample :
  ~ (forall (rt : Runtime) st q r,
       consistent st -> (exists k, _records st !! k = Some r) ->
       (get_medicine st q = Some r <-> lower (strip q) = lower (name r))).
Proof.
  intros Hclaim.
  pose (r := {| name := "Aspirin "; mg := "300"; rack := "C3";
                stock := 0; price := zero |}).
  assert (Hfound : get_medicine (H := DecimalRuntime.runtime)
                     Sample.store "aspirin" = Some r)
    by (vm_compute; reflexivity).
  destruct (Hclaim DecimalRuntime.runtime Sample.store "aspirin" r)
    as [Hname _].
  - vm_compute; reflexivity.
  - by eexists.
  - specialize (Hname Hfound). vm_compute in Hname. discriminate Hname.
Qed.

(** C9, amended: a query finds a stored record exactly when the query and
    the record's name are equal once both are trimmed and lower-cased;
    it finds nothing exactly when no stored record has such a name. *)
Theorem get_medicine_normalized `{Runtime} st q :
  consistent st ->
  (forall r, (exists k, _records st !! k = Some r) ->
     (get_medicine st q = Some r <->
      _normalize_name (CStr q) = _normalize_name (CStr (name r)))) /\
  (get_medicine st q = None <->
   forall k r, _records st !! k = Some r ->
     _normalize_name (CStr q) <> _normalize_name (CStr (name r))).
Proof.
  intros Hcons. unfold get_medicine. split.
  - intros r [k Hk].
    destruct (consistent_key _ _ _ Hcons Hk) as [-> _].
    split; [|by intros ->].
    intros Hq. by destruct (consistent_key _ _ _ Hcons Hq) as [? _].
  - split.
    + intros Hnone k r Hk E.
      destruct (consistent_key _ _ _ Hcons Hk) as [-> _].
      rewrite E in Hnone. congruence.
    + intros Hall.
      destruct (_records st !! _normalize_name (CStr q)) as [r|] eqn:E; [|done].
      destruct (consistent_key _ _ _ Hcons E) as [Hkey _].
      by destruct (Hall _ _ E).
Qed.

End StoreClaims.

Section StoreWitnesses.
Import Xlsx DataStore Spec.
Local Existing Instance DecimalRuntime.runtime.

Lemma reduce_stock_outcomes_witness :
  let st := Sample.store in
  consistent st /\
  reduce_stock st "Paracetamol" 0 = (st, Raise (ValueError QuantityNotPositive)) /\
  reduce_stock st "Panadol" 5 = (st, Raise (KeyError "Panadol")) /\
  reduce_stock st "Ibuprofen" 41 =
    (st, Raise (ValueError (InsufficientStock "Ibuprofen" 40 41))) /\
  exists st', reduce_stock st " paracetamol" 30 = (st', Ok tt) /\
              (stock <$> get_medicine st' "Paracetamol") = Some 70.
Proof.
  cbn zeta.
  assert (Hcons : consistent Sample.store) by (vm_compute; reflexivity).
  split; [exact Hcons|].
  split; [exact (proj1 (reduce_stock_outcomes Sample.store "Paracetamol" 0)
                   ltac:(lia))|].
  split; [exact (proj1 (proj2 (reduce_stock_outcomes Sample.store "Panadol" 5))
                   ltac:(lia) ltac:(vm_compute; reflexivity))|].
  split.
  { exact (proj1 (proj2 (proj2 (reduce_stock_outcomes Sample.store "Ibuprofen" 41)))
             {| name := "Ibuprofen"; mg := "200"; rack := "B2";
                stock := 40; price := dec 700 2 |}
             ltac:(lia) ltac:(vm_compute; reflexivity) ltac:(simpl; lia)). }
  destruct (reduce_stock_outcomes Sample.store " paracetamol" 30)
    as (_ & _ & _ & Hok).
  destruct (Hok {| name := "Paracetamol"; mg := "500"; rack := "A1";
                   stock := 100; price := dec 500 2 |})
    as (st' & Hred & Hget & _);
    [lia|vm_compute; reflexivity|simpl; lia|exact Hcons|].
  exists st'. split; [exact Hred|].
  change (get_medicine st' "Paracetamol") with (get_medicine st' " paracetamol").
  rewrite Hget. reflexivity.
Defined.

Lemma get_medicine_normalized_witness :
  consistent Sample.store /\
  (stock <$> get_medicine Sample.store "  IBUPROFEN ") = Some 40 /\
  get_medicine Sample.store "Ibu" = None.
Proof.
  cbn zeta.
  assert (Hcons : consistent Sample.store)
    by (vm_compute; reflexivity).
  destruct (get_medicine_normalized
              Sample.store "  IBUPROFEN " Hcons) as [Hfound _].
  destruct (get_medicine_normalized
              Sample.store "Ibu" Hcons) as [_ Hnone].
  split; [exact Hcons|]. split.
  - pose (r := {| name := "Ibuprofen"; mg := "200"; rack := "B2";
                  stock := 40; price := dec 700 2 |}).
    assert (Hex : exists k, _records Sample.store !! k = Some r)
      by (exists "ibuprofen"; vm_compute; reflexivity).
    assert (Hn : _normalize_name (CStr "  IBUPROFEN ")
                 = _normalize_name (CStr (name r)))
      by (vm_compute; reflexivity).
    rewrite (proj2 (Hfound r Hex) Hn). reflexivity.
  - vm_compute. reflexivity.
Defined.




(** The same on the sample data, by evaluation: the first sample sheet
    holds the price 5.0, which the file gives back as the whole number 5,
    and the stock that is loaded again is the one that was written. *)
Example decrement_commit_reload_sample :
  let '(st1, r1) := reduce_stock Sample.store "Ibuprofen" 15 in
  let '(d1, r2) := save Sample.disk st1 in
  r1 = Ok tt /\ r2 = Ok tt /\
  (stock <$> (st2 ← __init__ d1 Config.EXCEL_SHEET_NAME;
              from_option (get_medicine st2 " ibuprofen"))) = Ok 25 /\
  (stock <$> (st0 ← __init__ Sample.disk Config.EXCEL_SHEET_NAME;
              from_option (get_medicine st0 " ibuprofen"))) = Ok 40 /\
  value (_sheet st1) 2 5 = CFloat (dec 500 2) /\
  (st2 ← __init__ d1 Config.EXCEL_SHEET_NAME; Ok (value (_sheet st2) 2 5))
  = Ok (CInt 5).
Proof. vm_compute. repeat split. Qed.

End StoreWitnesses.

(** ** The session: selection and reservation *)

Section Session.
Import Xlsx Gui Spec.
Import DataStore(ExcelDataStore, record, get_medicine, name, stock).
Import UiMain.
Context `{Runtime}.

(** In a consistent store the display name of a record finds that
    record. *)
Lemma get_medicine_by_name st q rec :
  consistent st -> get_medicine st q = Some rec ->
  get_medicine st (name rec) = Some rec.
Proof.
  intros Hcons Hget. unfold get_medicine in *.
  destruct (consistent_key _ _ _ Hcons Hget) as [Hk _].
  by rewrite <- Hk.
Qed.

Lemma available_stock_eq w st q rec :
  store w = Some st -> consistent st -> get_medicine st q = Some rec ->
  _available_stock w (name rec)
  = Z.max (stock rec - default 0 (added_qty w !! name rec)) 0.
Proof.
  intros Hst Hcons Hget. unfold _available_stock.
  by rewrite Hst, (get_medicine_by_name _ _ _ Hcons Hget).
Qed.

(** What [_select_medicine] leaves behind for a name that is found. *)
Lemma select_medicine_found w st q rec :
  store w = Some st -> consistent st -> get_medicine st q = Some rec ->
  let w' := _select_medicine w q in
  store w' = Some st /\
  invoice w' = invoice w /\
  added_qty w' = added_qty w /\
  selected_name w' = Some (name rec) /\
  qty_spin (ui w') = qty_spin (ui w) /\
  add_button (ui w') = add_button (ui w) /\
  print_button (ui w') = print_button (ui w) /\
  discount_spin (ui w') = discount_spin (ui w) /\
  details (ui w') =
    Some {| mg_label := DataStore.mg rec; rack_label := DataStore.rack rec;
            stock_label :=
              Z.max (stock rec - default 0 (added_qty w !! name rec)) 0;
            price_label := DataStore.price rec |}.
Proof.
  intros Hst Hcons Hget. cbn zeta. unfold _select_medicine.
  rewrite Hst, Hget.
  pose proof (available_stock_eq
                (with_selected_name (Some (name rec)) w) st q rec) as Hav.
  destruct w as [s i a n [? ? ? ? ? ? ? ? ? ? ?]]. cbn in *.
  rewrite Hav by done. by repeat split.
Qed.

(** What [_select_medicine] leaves behind for a name that is not found:
    the selection is cleared, nothing is shown or said. *)
Lemma select_medicine_missing w st q :
  store w = Some st -> get_medicine st q = None ->
  _select_medicine w q = _clear_selection w.
Proof. intros Hst Hget. unfold _select_medicine. by rewrite Hst, Hget. Qed.

(** The two ways an add ends. *)
Lemma add_to_invoice_outcome w st sel rec :
  store w = Some st -> consistent st ->
  selected w = Some sel -> get_medicine st sel = Some rec ->
  let used := default 0 (added_qty w !! name rec) in
  let available := Z.max (stock rec - used) 0 in
  let q := qty_spin (ui w) in
  let '(w', out) := _add_to_invoice w in
  if available <? q
  then w' = w /\
       out = [MessageBox Warning "Insufficient stock"
                (OnlyUnits available (name rec))]
  else out = [] /\
       store w' = Some st /\
       added_qty w' = <[name rec := used + q]> (added_qty w) /\
       invoice w' =
         Models.add_item (invoice w)
           {| Models.name := name rec; Models.mg := DataStore.mg rec;
              Models.rack := DataStore.rack rec;
              Models.unit_price := DataStore.price rec; Models.qty := q |} /\
       selected_name w' = Some (name rec) /\
       qty_spin (ui w') = q /\
       add_button (ui w') = add_button (ui w) /\
       print_button (ui w') = print_button (ui w) /\
       (stock_label <$> details (ui w'))
       = Some (Z.max (stock rec - (used + q)) 0).
Proof.
  intros Hst Hcons Hsel Hget. cbn zeta. unfold _add_to_invoice.
  rewrite Hst, Hsel, Hget, (available_stock_eq _ _ _ _ Hst Hcons Hget).
  destruct (Z.max (stock rec - default 0 (added_qty w !! name rec)) 0
            <? qty_spin (ui w)) eqn:Hlt; [done|].
  set (w1 := _update_totals _).
  assert (Hst1 : store w1 = Some st)
    by (subst w1; destruct w as [s i a n [? ? ? ? ? ? ? ? ? ? ?]]; done).
  destruct (select_medicine_found w1 st (name rec) rec Hst1 Hcons
              (get_medicine_by_name _ _ _ Hcons Hget))
    as (-> & -> & -> & -> & -> & -> & -> & _ & ->).
  subst w1. destruct w as [s i a n [? ? ? ? ? ? ? ? ? ? ?]]. cbn.
  repeat split. by rewrite lookup_insert_eq.
Qed.

(** Two records of a consistent store with one display name are one
    record. *)
Lemma same_name_same_record st k1 k2 r1 r2 :
  consistent st ->
  DataStore._records st !! k1 = Some r1 ->
  DataStore._records st !! k2 = Some r2 ->
  name r1 = name r2 -> r1 = r2.
Proof.
  intros Hcons H1 H2 Hn.
  destruct (consistent_key _ _ _ Hcons H1) as [-> _].
  destruct (consistent_key _ _ _ Hcons H2) as [-> _].
  rewrite Hn in H1. congruence.
Qed.

Lemma spin_set_range v :
  QTY_MIN <= spin_set QTY_MIN QTY_MAX v <= QTY_MAX.
Proof. unfold spin_set, QTY_MIN, QTY_MAX. lia. Qed.

(** One add keeps every ledger entry within the stock of its record. *)
Lemma add_keeps_ledger w st :
  store w = Some st -> consistent st ->
  1 <= qty_spin (ui w) ->
  ledger_within_stock st w ->
  let '(w', out) := _add_to_invoice w in
  store w' = Some st /\ qty_spin (ui w') = qty_spin (ui w) /\
  add_button (ui w') = add_button (ui w) /\
  ledger_within_stock st w'.
Proof.
  intros Hst Hcons Hq Hled.
  destruct (selected w) as [sel|] eqn:Hsel.
  2:{ unfold _add_to_invoice. rewrite Hst, Hsel. done. }
  destruct (get_medicine st sel) as [rec|] eqn:Hget.
  2:{ unfold _add_to_invoice. rewrite Hst, Hsel, Hget. done. }
  pose proof (add_to_invoice_outcome w st sel rec Hst Hcons Hsel Hget) as Hout.
  cbn zeta in Hout. destruct (_add_to_invoice w) as [w' out].
  destruct (Z.max (stock rec - default 0 (added_qty w !! name rec)) 0
            <? qty_spin (ui w)) eqn:Hlt.
  { destruct Hout as [-> _]. done. }
  destruct Hout as (_ & Hst' & Hadd & _ & _ & Hq' & Hb & _).
  split; [done|]. split; [done|]. split; [done|].
  apply Z.ltb_ge in Hlt.
  intros k r v Hr. rewrite Hadd.
  destruct (decide (name rec = name r)) as [E|NE].
  - rewrite E, lookup_insert_eq. intros [= <-].
    assert (rec = r) as ->
      by (eapply same_name_same_record; eauto).
    destruct (added_qty w !! name r) as [u|] eqn:Hu; simpl in *.
    + specialize (Hled _ _ _ Hr Hu). lia.
    + lia.
  - rewrite lookup_insert_ne by done. intros Hv. by eapply (Hled k r v).
Qed.

Lemma run_app w d evs1 evs2 :
  run w d (evs1 ++ evs2) =
  let '(w1, d1, out1) := run w d evs1 in
  let '(w2, d2, out2) := run w1 d1 evs2 in
  (w2, d2, out1 ++ out2).
Proof.
  revert w d. induction evs1 as [|ev evs1 IH]; intros w d; simpl.
  - by destruct (run w d evs2) as [[? ?] ?].
  - destruct (handle w d ev) as [[w1 d1] out1]. rewrite IH.
    destruct (run w1 d1 evs1) as [[w2 d2] out2].
    destruct (run w2 d2 evs2) as [[w3 d3] out3].
    by rewrite app_assoc.
Qed.

(** C1: in a session on a loaded store whose ledger is within the stock
    (as the empty ledger of a new invoice is), after any sequence of
    add-to-cart operations, whatever quantities are asked for, the store
    and the file are as before and no medicine has more reserved in the
    ledger than its record has in stock; with a stock that is not
    negative this also holds of the quantity that the ledger answers for
    a medicine without an entry. *)
Theorem reserved_never_exceeds_stock w d st qs :
  store w = Some st -> consistent st ->
  ledger_within_stock st w ->
  let '(w', d', out) := run w d (add_attempts qs) in
  store w' = Some st /\ d' = d /\
  ledger_within_stock st w' /\
  (forall k r, DataStore._records st !! k = Some r -> 0 <= stock r ->
     reserved w' (name r) <= stock r).
Proof.
  intros Hst Hcons Hled.
  assert (Hrun :
    let '(w', d', out) := run w d (add_attempts qs) in
    store w' = Some st /\ d' = d /\ ledger_within_stock st w').
  { revert w Hst Hled. induction qs as [|q qs IH]; intros w Hst Hled.
    - done.
    - change (add_attempts (q :: qs))
        with ([QtyChanged q; AddClicked] ++ add_attempts qs).
      rewrite run_app.
      set (w1 := on_ui (with_qty_spin (spin_set QTY_MIN QTY_MAX q)) w).
      assert (Hw1 : store w1 = Some st /\ ledger_within_stock st w1 /\
                    1 <= qty_spin (ui w1)).
      { pose proof (spin_set_range q) as Hr. unfold QTY_MIN in Hr at 1.
        subst w1. destruct w as [s i a n [? ? ? ? ? ? ? ? ? ? ?]].
        cbn in *. repeat split; [done|done|lia]. }
      destruct Hw1 as (Hst1 & Hled1 & Hq1).
      pose proof (add_keeps_ledger w1 st Hst1 Hcons Hq1 Hled1) as Hadd.
      cbn [run handle]. fold w1.
      destruct (add_button (ui w1)).
      + destruct (_add_to_invoice w1) as [w2 out2].
        destruct Hadd as (Hst2 & _ & _ & Hled2).
        specialize (IH w2 Hst2 Hled2).
        destruct (run w2 d (add_attempts qs)) as [[w3 d3] out3]. done.
      + specialize (IH w1 Hst1 Hled1).
        destruct (run w1 d (add_attempts qs)) as [[w3 d3] out3]. done. }
  destruct (run w d (add_attempts qs)) as [[w' d'] out].
  destruct Hrun as (Hst' & Hd & Hled').
  repeat split; try done.
  intros k r Hr H0. unfold reserved.
  destruct (added_qty w' !! name r) as [v|] eqn:Hv; simpl; [|done].
  by eapply (Hled' k r v).
Qed.

(** *** Selection *)

(** C8, amended: selecting a medicine that is found shows as available
    stock the record's stock minus what the ledger holds for it, but not
    less than 0 (so exactly that difference whenever the reservation is
    within the stock); a name that is not found clears the selection.
    [_select_medicine] itself, which the completer calls, says nothing
    then; the "Not found" message comes from the Enter key of the search
    box. *)
Theorem select_medicine_exposes w d st q :
  store w = Some st -> consistent st ->
  (forall rec, get_medicine st q = Some rec ->
     let w' := _select_medicine w q in
     selected_name w' = Some (name rec) /\
     (stock_label <$> details (ui w'))
     = Some (Z.max (stock rec - reserved w (name rec)) 0) /\
     (reserved w (name rec) <= stock rec ->
      (stock_label <$> details (ui w'))
      = Some (stock rec - reserved w (name rec)))) /\
  (get_medicine st q = None ->
     handle w d (Activated q) = (_clear_selection w, d, []) /\
     selected_name (_clear_selection w) = None /\
     details (ui (_clear_selection w)) = None) /\
  (strip (search_input (ui w)) = q -> q <> "" ->
     (get_medicine st q = None ->
      handle w d ReturnPressed =
        (_clear_selection w, d,
         [MessageBox Information "Not found"
            (Text "Medicine not found in Excel.")])) /\
     (forall rec, get_medicine st q = Some rec ->
      handle w d ReturnPressed = (_select_medicine w (name rec), d, []))).
Proof.
  intros Hst Hcons. split; [|split].
  - intros rec Hget. cbn zeta.
    destruct (select_medicine_found w st q rec Hst Hcons Hget)
      as (_ & _ & _ & Hsel & _ & _ & _ & _ & Hdet).
    split; [done|]. rewrite Hdet. unfold reserved. simpl.
    split; [done|]. intros Hle. f_equal. lia.
  - intros Hget. cbn [handle].
    rewrite (select_medicine_missing _ _ _ Hst Hget).
    by destruct w as [s i a n [? ? ? ? ? ? ? ? ? ? ?]].
  - intros Hq Hne. cbn [handle]. unfold _on_search_enter.
    rewrite Hq, Hst.
    destruct (String.eqb_spec q "") as [->|_]; [done|].
    split.
    + by intros ->.
    + by intros rec ->.
Qed.

(** *** Checkout with a printer that is not available *)

(** C2, first window: when the printer is not valid, [_on_print] leaves
    the window (store and its records, invoice, ledger) and the file as
    they were, and with a loaded store and a non-empty invoice its one
    message is the critical "Printer Error". *)
Lemma on_print_printer_invalid w d :
  let '(w', d', out) := _on_print w d false in
  w' = w /\ d' = d /\
  (forall st, store w = Some st -> Models.items (invoice w) <> [] ->
     out = [MessageBox Critical "Printer Error"
              (Text "Printer not available.")]).
Proof.
  unfold _on_print.
  destruct (store w) as [st|]; [|done].
  destruct (Models.items (invoice w)) as [|it its] eqn:Hits; [done|].
  simpl. by repeat split.
Qed.

End Session.

Section SecondWindow.
Import Xlsx Gui Spec.
Context `{Runtime}.

(** C2, second window: when [print_receipt] answers [False],
    [_on_print_clicked] leaves the window and the file as they were and
    its last message is the critical "Print Failed". *)
Lemma on_print_clicked_failed w d valid valid_after :
  valid && valid_after = false ->
  UiWindow.invoice_items w <> [] ->
  let '(w', d', out) := UiWindow._on_print_clicked w d valid valid_after in
  w' = w /\ d' = d /\
  last out = Some (MessageBox Critical "Print Failed"
                     (Text "Printer is not available or failed to print.")).
Proof.
  intros Hv Hne. unfold UiWindow._on_print_clicked.
  destruct (UiWindow.invoice_items w) as [|it its]; [done|].
  unfold Printing.print_receipt.
  destruct valid; simpl in *; [subst valid_after|]; simpl; done.
Qed.

End SecondWindow.

(** ** Every store of a session is consistent *)

Section Reachable.
Import Xlsx Gui Spec.
Import DataStore(ExcelDataStore, record, get_medicine, name, stock).
Import UiMain.
Context `{Runtime}.

Lemma reduce_stock_keeps_consistent st name_ q :
  consistent st -> consistent (DataStore.reduce_stock st name_ q).1.
Proof.
  intros Hcons.
  destruct (Z.leb_spec q 0) as [Hq|Hq].
  { unfold DataStore.reduce_stock. by rewrite (proj2 (Z.leb_le _ _) Hq). }
  destruct (get_medicine st name_) as [rec|] eqn:Hget.
  2:{ unfold DataStore.reduce_stock, get_medicine in *.
      by rewrite (proj2 (Z.leb_gt _ _) Hq), Hget. }
  destruct (Z.ltb_spec (stock rec - q) 0) as [Hlt|Hge].
  { unfold DataStore.reduce_stock, get_medicine in *.
    rewrite (proj2 (Z.leb_gt _ _) Hq), Hget.
    by rewrite (proj2 (Z.ltb_lt _ _) Hlt). }
  destruct (reduce_stock_consistent st name_ q rec Hcons Hget)
    as (st' & -> & Hcons' & _); [lia|lia|done].
Qed.

Lemma reduce_all_keeps_consistent st its :
  consistent st -> consistent (reduce_all st its).1.
Proof.
  revert st. induction its as [|it its IH]; intros st Hcons; simpl; [done|].
  pose proof (reduce_stock_keeps_consistent st (Models.name it) (Models.qty it)
                Hcons) as Hstep.
  destruct (DataStore.reduce_stock st (Models.name it) (Models.qty it))
    as [st1 [[]|e]]; simpl in *; [by apply IH|done].
Qed.

Lemma load_store_consistent w d :
  store_consistent w -> store_consistent (_load_store w d).1.
Proof.
  intros Hw st. unfold _load_store.
  destruct (DataStore.__init__ d Config.EXCEL_SHEET_NAME) as [st'|e] eqn:Hinit.
  - pose proof (init_consistent _ _ _ Hinit) as Hcons.
    destruct (DataStore.self_check st');
      destruct w as [s i a n [? ? ? ? ? ? ? ? ? ? ?]]; cbn; congruence.
  - destruct w as [s i a n [? ? ? ? ? ? ? ? ? ? ?]]; cbn. apply Hw.
Qed.

Lemma clear_invoice_consistent w d :
  store_consistent w -> store_consistent (_clear_invoice w d).1.
Proof.
  intros Hw. unfold _clear_invoice.
  set (w1 := _clear_selection _).
  assert (Hw1 : store_consistent w1).
  { subst w1. intros st. destruct w as [s i a n [? ? ? ? ? ? ? ? ? ? ?]]; cbn.
    apply Hw. }
  destruct (store w1); [by apply load_store_consistent|done].
Qed.

Lemma select_medicine_store w q : store (_select_medicine w q) = store w.
Proof.
  unfold _select_medicine. destruct (store w) as [st|] eqn:Hst; [|done].
  destruct (DataStore.get_medicine st q);
    destruct w as [s i a n [? ? ? ? ? ? ? ? ? ? ?]]; cbn in *; congruence.
Qed.

Lemma add_to_invoice_store w : store (_add_to_invoice w).1 = store w.
Proof.
  unfold _add_to_invoice. destruct (store w) as [st|] eqn:Hst; [|done].
  destruct (selected w); [|done].
  destruct (DataStore.get_medicine st s); [|done].
  destruct (_ <? _); [done|]. cbn [fst]. rewrite select_medicine_store.
  destruct w as [? ? ? ? [? ? ? ? ? ? ? ? ? ? ?]]; cbn in *; congruence.
Qed.

Lemma on_ui_store f w : store (on_ui f w) = store w.
Proof. by destruct w. Qed.

Lemma clear_selection_store w : store (_clear_selection w) = store w.
Proof. by destruct w. Qed.

Lemma on_search_text_store w text : store (_on_search_text w text) = store w.
Proof.
  unfold _on_search_text.
  destruct (String.eqb text ""); [apply clear_selection_store|].
  destruct (store w) as [st|] eqn:Hst; [|done].
  destruct (DataStore.get_medicine st text); [|done].
  by rewrite select_medicine_store.
Qed.

Lemma on_search_enter_store w : store (_on_search_enter w).1 = store w.
Proof.
  unfold _on_search_enter. destruct (String.eqb _ ""); [done|].
  destruct (store w) as [st|] eqn:Hst; [|done].
  destruct (DataStore.get_medicine st _); cbn [fst].
  - by rewrite select_medicine_store.
  - by rewrite clear_selection_store.
Qed.

Lemma same_store_consistent w w' :
  store w' = store w -> store_consistent w -> store_consistent w'.
Proof. intros Hs Hw st Hst. apply Hw. congruence. Qed.

Lemma handle_keeps_consistent w d ev :
  store_consistent w -> store_consistent (handle w d ev).1.1.
Proof.
  intros Hw. destruct ev; cbn [handle].
  - eapply same_store_consistent; [|exact Hw]. cbn [fst].
    by rewrite on_search_text_store, on_ui_store.
  - pose proof (on_search_enter_store w) as Hs.
    destruct (_on_search_enter w) as [w' out]. cbn [fst] in *.
    by eapply same_store_consistent.
  - eapply same_store_consistent; [|exact Hw]. cbn [fst].
    apply select_medicine_store.
  - eapply same_store_consistent; [|exact Hw]. apply on_ui_store.
  - eapply same_store_consistent; [|exact Hw]. cbn [fst].
    unfold _update_totals. by rewrite !on_ui_store.
  - eapply same_store_consistent; [|exact Hw]. apply on_ui_store.
  - eapply same_store_consistent; [|exact Hw]. apply on_ui_store.
  - destruct (add_button (ui w)); [|done].
    pose proof (add_to_invoice_store w) as Hs.
    destruct (_add_to_invoice w) as [w' out]. cbn [fst] in *.
    by eapply same_store_consistent.
  - destruct (print_button (ui w)); [|done]. unfold _on_print.
    destruct (store w) as [st0|] eqn:Hst0; [|done].
    destruct (Models.items (invoice w)) as [|it its] eqn:Hits; [done|].
    destruct printer_valid; cbn [negb]; [|done].
    pose proof (reduce_all_keeps_consistent st0 (it :: its) (Hw _ Hst0)) as Hred.
    destruct (reduce_all st0 (it :: its)) as [st1 r]. cbn [fst] in Hred.
    set (w1 := with_store (Some st1) w).
    assert (Hw1 : store_consistent w1).
    { subst w1. intros st. destruct w. cbn. congruence. }
    destruct r as [[]|e]; [|done].
    destruct (DataStore.save d st1) as [d1 [[]|e]]; [|done].
    pose proof (clear_invoice_consistent w1 d1 Hw1) as Hc.
    by destruct (_clear_invoice w1 d1) as [w2 out2].
  - pose proof (clear_invoice_consistent w d Hw) as Hc.
    by destruct (_clear_invoice w d) as [w' out].
Qed.

(** Whatever the user does from the start of the program on, the store of
    the window is consistent. *)
Lemma session_store_consistent d0 d evs :
  store_consistent (run (__init__ d0).1 d evs).1.1.
Proof.
  assert (Hinit : store_consistent (__init__ d0).1).
  { unfold __init__. apply load_store_consistent. by intros st. }
  revert Hinit. generalize (__init__ d0).1. intros w. revert w d.
  induction evs as [|ev evs IH]; intros w d Hw; simpl; [done|].
  pose proof (handle_keeps_consistent w d ev Hw) as Hstep.
  destruct (handle w d ev) as [[w1 d1] out1]. cbn [fst] in Hstep.
  specialize (IH w1 d1 Hstep).
  by destruct (run w1 d1 evs) as [[w2 d2] out2].
Qed.

End Reachable.

(** ** The lines of a session's invoice *)

Section SessionInvoice.
Import Xlsx Gui Spec.
Import DataStore(ExcelDataStore, record, get_medicine, name, stock).
Import UiMain.
Context `{Runtime}.

Lemma isspace_lower_char c : isspace (lower_char c) = isspace c.
Proof. by destruct c as [[] [] [] [] [] [] [] []]. Qed.

Lemma lower_lstrip s : lower (lstrip s) = lstrip (lower s).
Proof.
  induction s as [|c s IH]; simpl; [done|].
  rewrite isspace_lower_char. by destruct (isspace c).
Qed.

Lemma lower_rstrip s : lower (rstrip s) = rstrip (lower s).
Proof.
  induction s as [|c s IH]; simpl; [done|].
  rewrite <- IH, isspace_lower_char.
  destruct (rstrip s); simpl; [by destruct (isspace c)|done].
Qed.

(** Names that differ at most in case have one normalized form. *)
Lemma same_ignoring_case_normalized a b :
  same_ignoring_case a b ->
  DataStore._normalize_name (CStr a) = DataStore._normalize_name (CStr b).
Proof.
  unfold same_ignoring_case, DataStore._normalize_name, strip. simpl.
  intros Hab. by rewrite !lower_rstrip, !lower_lstrip, Hab.
Qed.

Lemma on_ui_invoice f w : invoice (on_ui f w) = invoice w.
Proof. by destruct w. Qed.

Lemma clear_selection_invoice w : invoice (_clear_selection w) = invoice w.
Proof. by destruct w. Qed.

Lemma select_medicine_invoice w q : invoice (_select_medicine w q) = invoice w.
Proof.
  unfold _select_medicine. destruct (store w) as [st|]; [|done].
  destruct (DataStore.get_medicine st q); by destruct w.
Qed.

Lemma on_search_text_invoice w text :
  invoice (_on_search_text w text) = invoice w.
Proof.
  unfold _on_search_text.
  destruct (String.eqb text ""); [apply clear_selection_invoice|].
  destruct (store w) as [st|]; [|done].
  destruct (DataStore.get_medicine st text); [|done].
  by rewrite select_medicine_invoice.
Qed.

Lemma on_search_enter_invoice w : invoice (_on_search_enter w).1 = invoice w.
Proof.
  unfold _on_search_enter. destruct (String.eqb _ ""); [done|].
  destruct (store w) as [st|]; [|done].
  destruct (DataStore.get_medicine st _); cbn [fst].
  - by rewrite select_medicine_invoice.
  - by rewrite clear_selection_invoice.
Qed.

Lemma same_invoice_of_store w w' :
  store w' = store w -> invoice w' = invoice w ->
  invoice_of_store w -> invoice_of_store w'.
Proof. unfold invoice_of_store. by intros -> ->. Qed.

(** [reduce_stock] keeps the names of the records. *)
Lemma reduce_stock_names st name_ q n :
  (exists k r, DataStore._records st !! k = Some r /\ name r = n) ->
  exists k r,
    DataStore._records (DataStore.reduce_stock st name_ q).1 !! k = Some r /\
    name r = n.
Proof.
  intros (k & r & Hk & Hn). unfold DataStore.reduce_stock.
  destruct (q <=? 0); [by eauto|].
  destruct (DataStore._records st !! DataStore._normalize_name (CStr name_))
    as [rec|] eqn:Hrec; [|by eauto].
  destruct (stock rec - q <? 0); [by eauto|].
  assert (Hnew : exists r',
    <[DataStore._normalize_name (CStr name_) :=
        DataStore.set_stock rec (stock rec - q)]> (DataStore._records st) !! k
    = Some r' /\ name r' = n).
  { destruct (decide (DataStore._normalize_name (CStr name_) = k)) as [E|NE].
    - rewrite E, lookup_insert_eq. eexists. split; [done|]. simpl.
      rewrite E in Hrec. congruence.
    - rewrite lookup_insert_ne by done. eauto. }
  destruct Hnew as (r' & ? & ?).
  destruct (DataStore._row_refs st !! DataStore._normalize_name (CStr name_));
    simpl; eauto.
Qed.

Lemma reduce_all_names st its n :
  (exists k r, DataStore._records st !! k = Some r /\ name r = n) ->
  exists k r,
    DataStore._records (reduce_all st its).1 !! k = Some r /\ name r = n.
Proof.
  revert st. induction its as [|it its IH]; intros st Hn; simpl; [done|].
  pose proof (reduce_stock_names st (Models.name it) (Models.qty it) n Hn) as Hs.
  destruct (DataStore.reduce_stock st (Models.name it) (Models.qty it))
    as [st1 [[]|e]]; simpl in *; [by apply IH|done].
Qed.

Lemma clear_invoice_empty w d :
  Models.items (invoice (_clear_invoice w d).1) = [].
Proof.
  unfold _clear_invoice. set (w1 := _clear_selection _).
  assert (Hw1 : Models.items (invoice w1) = [])
    by (subst w1; by destruct w as [? ? ? ? [? ? ? ? ? ? ? ? ? ? ?]]).
  destruct (store w1); [|done]. unfold _load_store.
  destruct (DataStore.__init__ d Config.EXCEL_SHEET_NAME) as [st'|exc].
  - destruct (DataStore.self_check st');
      by destruct w1 as [? ? ? ? [? ? ? ? ? ? ? ? ? ? ?]].
  - by destruct w1 as [? ? ? ? [? ? ? ? ? ? ? ? ? ? ?]].
Qed.

Lemma empty_invoice_of_store w :
  Models.items (invoice w) = [] -> invoice_of_store w.
Proof. intros Hw. unfold invoice_of_store. rewrite Hw. split; [constructor|by left]. Qed.

Lemma handle_keeps_invoice_of_store w d ev :
  store_consistent w -> invoice_of_store w ->
  invoice_of_store (handle w d ev).1.1.
Proof.
  intros Hcons Hw. destruct ev; cbn [handle].
  - eapply same_invoice_of_store; [| |exact Hw]; cbn [fst].
    + by rewrite on_search_text_store, on_ui_store.
    + by rewrite on_search_text_invoice, on_ui_invoice.
  - pose proof (on_search_enter_store w) as Hs.
    pose proof (on_search_enter_invoice w) as Hi.
    destruct (_on_search_enter w) as [w' out]. cbn [fst] in *.
    by eapply same_invoice_of_store.
  - eapply same_invoice_of_store; [| |exact Hw]; cbn [fst].
    + apply select_medicine_store.
    + apply select_medicine_invoice.
  - eapply same_invoice_of_store; [| |exact Hw];
      [apply on_ui_store|apply on_ui_invoice].
  - eapply same_invoice_of_store; [| |exact Hw]; cbn [fst]; unfold _update_totals.
    + by rewrite !on_ui_store.
    + by rewrite !on_ui_invoice.
  - eapply same_invoice_of_store; [| |exact Hw];
      [apply on_ui_store|apply on_ui_invoice].
  - eapply same_invoice_of_store; [| |exact Hw];
      [apply on_ui_store|apply on_ui_invoice].
  - destruct (add_button (ui w)); [|done].
    destruct (store w) as [st|] eqn:Hst.
    2:{ unfold _add_to_invoice. by rewrite Hst. }
    destruct (selected w) as [sel|] eqn:Hsel.
    2:{ unfold _add_to_invoice. by rewrite Hst, Hsel. }
    destruct (get_medicine st sel) as [rec|] eqn:Hget.
    2:{ unfold _add_to_invoice. by rewrite Hst, Hsel, Hget. }
    pose proof (add_to_invoice_outcome w st sel rec Hst (Hcons _ Hst) Hsel Hget)
      as Hout. cbn zeta in Hout.
    destruct (_add_to_invoice w) as [w' out]. cbn [fst].
    destruct (_ <? _); [by destruct Hout as [-> _]|].
    destruct Hout as (_ & Hst' & _ & Hinv & _).
    destruct Hw as [Hnd Hnames]. unfold invoice_of_store.
    rewrite Hinv, Hst'. cbn [Models.items Models.add_item].
    rewrite add_item_to_names. cbn [Models.name].
    assert (Hold : forall n, n ∈ map Models.name (Models.items (invoice w)) ->
              exists k r, DataStore._records st !! k = Some r /\ name r = n).
    { intros n Hn. destruct Hnames as [Hempty|(st0 & Hst0 & Hall)].
      - rewrite Hempty in Hn. by apply elem_of_nil in Hn.
      - rewrite Hst in Hst0. injection Hst0 as <-. by apply Hall. }
    case_bool_decide as Hin.
    + split; [done|]. right. eauto.
    + split.
      * apply NoDup_app. split; [done|]. split; [|apply NoDup_singleton].
        intros x Hx ->%list_elem_of_singleton. done.
      * right. exists st. split; [done|].
        intros n [Hn| ->%list_elem_of_singleton]%elem_of_app; [by apply Hold|].
        unfold get_medicine in Hget. eauto.
  - destruct (print_button (ui w)); [|done]. unfold _on_print.
    destruct (store w) as [st0|] eqn:Hst0; [|done].
    destruct (Models.items (invoice w)) as [|it its] eqn:Hits; [done|].
    destruct printer_valid; cbn [negb]; [|done].
    assert (Hkeep : forall n, n ∈ map Models.name (it :: its) ->
              exists k r,
                DataStore._records (reduce_all st0 (it :: its)).1 !! k = Some r /\
                name r = n).
    { intros n Hn. apply reduce_all_names.
      destruct Hw as [_ [Hempty|(st & Hst & Hall)]]; [congruence|].
      rewrite Hst0 in Hst. injection Hst as <-. apply Hall. by rewrite Hits. }
    destruct (reduce_all st0 (it :: its)) as [st1 r]. cbn [fst] in Hkeep.
    set (w1 := with_store (Some st1) w).
    assert (Hw1 : invoice_of_store w1).
    { destruct Hw as [Hnd _]. subst w1. unfold invoice_of_store.
      destruct w as [? inv ? ? ?]. cbn in *. rewrite Hits in *.
      split; [done|]. right. eauto. }
    destruct r as [[]|e]; [|done].
    destruct (DataStore.save d st1) as [d1 [[]|e]]; [|done].
    pose proof (clear_invoice_empty w1 d1) as Hc.
    destruct (_clear_invoice w1 d1) as [w2 out2].
    by apply empty_invoice_of_store.
  - pose proof (clear_invoice_empty w d) as Hc.
    destruct (_clear_invoice w d) as [w' out].
    by apply empty_invoice_of_store.
Qed.

(** Whatever the user does from the start of the program on, no two lines
    of the invoice have names that differ at most in letter case: every
    line carries the display name of a record of the store, and the store
    holds one record per normalized name. *)
Lemma session_lines_differ_beyond_case d0 d evs i j a b :
  let w := (run (__init__ d0).1 d evs).1.1 in
  Models.items (invoice w) !! i = Some a ->
  Models.items (invoice w) !! j = Some b ->
  same_ignoring_case (Models.name a) (Models.name b) ->
  i = j.
Proof.
  cbn zeta.
  assert (Hinv : store_consistent (run (__init__ d0).1 d evs).1.1 /\
                 invoice_of_store (run (__init__ d0).1 d evs).1.1).
  { assert (Hinit : store_consistent (__init__ d0).1 /\
                    invoice_of_store (__init__ d0).1).
    { split.
      - unfold __init__. apply load_store_consistent. by intros st.
      - apply empty_invoice_of_store. unfold __init__, _load_store.
        destruct (DataStore.__init__ d0 Config.EXCEL_SHEET_NAME) as [st'|e];
          [by destruct (DataStore.self_check st')|done]. }
    revert Hinit. generalize (__init__ d0).1. intros w. revert w d.
    induction evs as [|ev evs IH]; intros w d [Hc Hw]; simpl; [done|].
    pose proof (handle_keeps_consistent w d ev Hc) as Hc1.
    pose proof (handle_keeps_invoice_of_store w d ev Hc Hw) as Hw1.
    destruct (handle w d ev) as [[w1 d1] out1]. cbn [fst] in *.
    specialize (IH w1 d1 (conj Hc1 Hw1)).
    by destruct (run w1 d1 evs) as [[w2 d2] out2]. }
  destruct Hinv as [Hcons [Hnd Hnames]].
  set (w := (run (__init__ d0).1 d evs).1.1) in *.
  intros Ha Hb Hsame.
  destruct Hnames as [Hempty|(st & Hst & Hall)].
  { rewrite Hempty in Ha. by rewrite lookup_nil in Ha. }
  assert (Hna : Models.name a ∈ map Models.name (Models.items (invoice w))).
  { apply list_elem_of_fmap_2, list_elem_of_lookup. eauto. }
  assert (Hnb : Models.name b ∈ map Models.name (Models.items (invoice w))).
  { apply list_elem_of_fmap_2, list_elem_of_lookup. eauto. }
  destruct (Hall _ Hna) as (ka & ra & Hka & Hra).
  destruct (Hall _ Hnb) as (kb & rb & Hkb & Hrb).
  destruct (consistent_key _ _ _ (Hcons _ Hst) Hka) as [Eka _].
  destruct (consistent_key _ _ _ (Hcons _ Hst) Hkb) as [Ekb _].
  assert (ka = kb) as <-.
  { rewrite Eka, Ekb, Hra, Hrb. by apply same_ignoring_case_normalized. }
  assert (Models.name a = Models.name b) as Hab by congruence.
  eapply NoDup_lookup; [exact Hnd| |].
  - by rewrite list_lookup_fmap, Ha.
  - by rewrite list_lookup_fmap, Hb, Hab.
Qed.

End SessionInvoice.

Section Checkout.
Import Xlsx Gui Spec.
Context `{Runtime}.

(** C2: a checkout whose printer is not available is aborted before any
    stock is touched. In the first window ([_on_print], the printer not
    valid) and in the second ([_on_print_clicked], [print_receipt]
    answering [False]) the window is left as it was, so every record's
    stock, the invoice's items and the reservation ledger are unchanged,
    the file is not written, and the print-failure message is shown. *)
Theorem print_failure_aborts_checkout :
  (forall w d st,
     UiMain.store w = Some st -> Models.items (UiMain.invoice w) <> [] ->
     let '(w', d', out) := UiMain._on_print w d false in
     w' = w /\ d' = d /\
     UiMain.store w' = Some st /\
     UiMain.invoice w' = UiMain.invoice w /\
     UiMain.added_qty w' = UiMain.added_qty w /\
     out = [MessageBox Critical "Printer Error"
              (Text "Printer not available.")]) /\
  (forall w d valid valid_after,
     valid && valid_after = false -> UiWindow.invoice_items w <> [] ->
     let '(w', d', out) := UiWindow._on_print_clicked w d valid valid_after in
     w' = w /\ d' = d /\
     UiWindow.medicines_by_name w' = UiWindow.medicines_by_name w /\
     UiWindow.invoice_items w' = UiWindow.invoice_items w /\
     UiWindow.invoice_quantities w' = UiWindow.invoice_quantities w /\
     last out = Some (MessageBox Critical "Print Failed"
                        (Text "Printer is not available or failed to print."))).
Proof.
  split.
  - intros w d st Hst Hne.
    pose proof (on_print_printer_invalid w d) as Hp.
    destruct (UiMain._on_print w d false) as [[w' d'] out].
    destruct Hp as (-> & -> & Hout). repeat split; try done. by eapply Hout.
  - intros w d valid valid_after Hv Hne.
    pose proof (on_print_clicked_failed w d valid valid_after Hv Hne) as Hp.
    destruct (UiWindow._on_print_clicked w d valid valid_after) as [[w' d'] out].
    destruct Hp as (-> & -> & Hout). by repeat split.
Qed.

End Checkout.

Section GracefulLoad.
Import Xlsx Gui Spec.
Import DataStore(ExcelDataStore, record, get_medicine, name, stock, price,
                 read_row, _to_int, _to_float, _normalize_name).
Context `{Runtime}.

Lemma to_int_default v d : no_int v -> _to_int v d = Ok d.
Proof.
  unfold _to_int. intros [Hb|[He|[why He]]].
  - by rewrite Hb.
  - rewrite He. by destruct (is_blank v).
  - rewrite He. by destruct (is_blank v).
Qed.

Lemma to_float_default v d : no_float v -> _to_float v d = Ok d.
Proof.
  unfold _to_float. intros [Hb|[He|[why He]]].
  - by rewrite Hb.
  - rewrite He. by destruct (is_blank v).
  - rewrite He. by destruct (is_blank v).
Qed.

(** The conversions raise nothing but [TypeError], [ValueError] and
    [OverflowError]. *)
Lemma py_int_raises v e :
  py_int v = Raise e ->
  e = TypeError \/ e = ValueError BadLiteral \/ e = OverflowError.
Proof.
  destruct v as [|s|z|f|b|o]; simpl; try (intros [= <-]; tauto); try done.
  - destruct (int_of_str s); simpl; [done|]. intros [= <-]. tauto.
  - destruct f; simpl; try done; intros [= <-]; tauto.
Qed.

Lemma py_float_raises v e :
  py_float v = Raise e ->
  e = TypeError \/ e = ValueError BadLiteral \/ e = OverflowError.
Proof.
  destruct v as [|s|z|f|b|o]; simpl; try (intros [= <-]; tauto); try done.
  - destruct (float_of_str s); simpl; [done|]. intros [= <-]. tauto.
  - unfold float_of_int. destruct (float_of_Z z); try done.
    intros [= <-]. tauto.
Qed.

Lemma to_int_ok v d :
  py_int v <> Raise OverflowError -> exists z, _to_int v d = Ok z.
Proof.
  intros Hno. unfold _to_int. destruct (is_blank v); [by eexists|].
  destruct (py_int v) as [z|e] eqn:E; [by eexists|].
  destruct (py_int_raises _ _ E) as [->|[->| ->]];
    [by eexists|by eexists|congruence].
Qed.

Lemma to_float_ok v d :
  py_float v <> Raise OverflowError -> exists o, _to_float v d = Ok o.
Proof.
  intros Hno. unfold _to_float. destruct (is_blank v); [by eexists|].
  destruct (py_float v) as [z|e] eqn:E; [by eexists|].
  destruct (py_float_raises _ _ E) as [->|[->| ->]];
    [by eexists|by eexists|congruence].
Qed.

Lemma field_columns cm cN cMG cR cS cP cA ws row :
  columns cm cN cMG cR cS cP cA ->
  field cm ws row "Medicine_Name" = value ws row cN /\
  field cm ws row "Stock" = value ws row cS /\
  field cm ws row "Price" = value ws row cP /\
  field cm ws row "Actual_Price" = value ws row cA.
Proof. intros [HN _ _ HS HP HA]. unfold field. by rewrite HN, HS, HP, HA. Qed.

(** A row without overflow is read; a stock that is empty or not a number
    is read as 0, and so is a price: the record then carries the override
    price, or 0 when that is empty or not a number either. *)
Lemma read_row_tolerant cm cN cMG cR cS cP cA ws row :
  columns cm cN cMG cR cS cP cA ->
  no_overflow cm ws row ->
  is_blank (field cm ws row "Medicine_Name") = false ->
  exists rec ref,
    read_row cm ws row =
      Ok (Some (_normalize_name (field cm ws row "Medicine_Name"), rec, ref)) /\
    (no_int (field cm ws row "Stock") -> stock rec = 0) /\
    (no_float (field cm ws row "Price") ->
     forall av, _to_float (field cm ws row "Actual_Price") None = Ok av ->
       price rec = default zero av).
Proof.
  intros Hc (Hs & Hp & Ha) Hname.
  destruct (field_columns _ _ _ _ _ _ _ ws row Hc) as (En & Es & Ep & Ea).
  rewrite En in *. rewrite Es in *. rewrite Ep in *. rewrite Ea in *.
  rewrite (read_row_columns _ _ _ _ _ _ _ _ _ Hc), Hname.
  destruct (to_int_ok _ 0 Hs) as [z Hz].
  destruct (to_float_ok _ (Some zero) Hp) as [pv Hpv].
  destruct (to_float_ok _ None Ha) as [av Hav].
  rewrite Hz, Hpv, Hav. simpl. eexists _, _. split; [done|]. simpl. split.
  - intros Hno. rewrite (to_int_default _ 0 Hno) in Hz. congruence.
  - intros Hnop av' Hav'.
    rewrite (to_float_default _ _ Hnop) in Hpv.
    injection Hpv as <-. injection Hav' as <-.
    by destruct av.
Qed.

(** When every row is read, all of them are collected. *)
Lemma collect_all cm ws rows :
  (forall row, row ∈ rows -> exists o, read_row cm ws row = Ok o) ->
  exists es,
    collect cm ws rows = Ok es /\
    forall row e, row ∈ rows -> read_row cm ws row = Ok (Some e) -> e ∈ es.
Proof.
  induction rows as [|row rows IH]; intros Hall; cbn [collect].
  - exists []. split; [done|]. intros ? ? Hin. by apply elem_of_nil in Hin.
  - destruct (Hall row) as [o Ho]; [set_solver|].
    destruct IH as (es & Hes & Hin); [intros; apply Hall; set_solver|].
    rewrite Ho, Hes. simpl. eexists. split; [done|].
    intros row' e [->|Hin']%elem_of_cons Hrow'.
    + rewrite Ho in Hrow'. injection Hrow' as ->. set_solver.
    + specialize (Hin _ _ Hin' Hrow'). destruct o; set_solver.
Qed.

(** A medicine whose record has no stock: nothing is available and an
    add of any quantity ends with the insufficient-stock warning and
    changes nothing but the quantity box. *)
Lemma no_stock_no_add w d st sel rec qs :
  UiMain.store w = Some st -> consistent st ->
  UiMain.selected w = Some sel -> get_medicine st sel = Some rec ->
  stock rec = 0 -> 0 <= reserved w (name rec) ->
  UiMain._available_stock w (name rec) = 0 /\
  let '(w', d', out) := UiMain.run w d (add_attempts qs) in
  UiMain.store w' = Some st /\ d' = d /\
  UiMain.invoice w' = UiMain.invoice w /\
  UiMain.added_qty w' = UiMain.added_qty w /\
  Forall (fun o => o = MessageBox Warning "Insufficient stock"
                        (OnlyUnits 0 (name rec))) out /\
  (UiMain.add_button (UiMain.ui w) = true -> length out = length qs).
Proof.
  intros Hst Hcons Hsel Hget Hzero Hres.
  split.
  { rewrite (available_stock_eq _ _ _ _ Hst Hcons Hget), Hzero.
    unfold reserved in Hres. lia. }
  revert w Hst Hsel Hres.
  induction qs as [|q qs IH]; intros w Hst Hsel Hres.
  { simpl. repeat split; try done. }
  change (add_attempts (q :: qs))
    with ([UiMain.QtyChanged q; UiMain.AddClicked] ++ add_attempts qs).
  rewrite run_app.
  set (w1 := UiMain.on_ui
               (UiMain.with_qty_spin
                  (spin_set UiMain.QTY_MIN UiMain.QTY_MAX q)) w).
  assert (Hw1 : UiMain.store w1 = Some st /\ UiMain.selected w1 = Some sel /\
                reserved w1 (name rec) = reserved w (name rec) /\
                UiMain.invoice w1 = UiMain.invoice w /\
                UiMain.added_qty w1 = UiMain.added_qty w /\
                UiMain.add_button (UiMain.ui w1) = UiMain.add_button (UiMain.ui w) /\
                1 <= UiMain.qty_spin (UiMain.ui w1)).
  { pose proof (spin_set_range q) as Hr. unfold UiMain.QTY_MIN in Hr at 1.
    subst w1. destruct w as [s i a n [? ? ? ? ? ? ? ? ? ? ?]].
    cbn in *. repeat split; try done. lia. }
  destruct Hw1 as (Hst1 & Hsel1 & Hres1 & Hinv1 & Hadd1 & Hbtn1 & Hq1).
  pose proof (add_to_invoice_outcome w1 st sel rec Hst1 Hcons Hsel1 Hget) as Hout.
  cbn zeta in Hout. cbn [UiMain.run UiMain.handle]. fold w1.
  assert (Hav : Z.max (stock rec - default 0 (UiMain.added_qty w1 !! name rec)) 0 = 0).
  { unfold reserved in *. rewrite Hzero. lia. }
  rewrite Hav in Hout.
  replace (0 <? UiMain.qty_spin (UiMain.ui w1)) with true in Hout
    by (symmetry; apply Z.ltb_lt; lia).
  destruct (UiMain.add_button (UiMain.ui w1)) eqn:Hbtn.
  - destruct (UiMain._add_to_invoice w1) as [w2 out2].
    destruct Hout as [-> ->].
    specialize (IH w1 Hst1 Hsel1 ltac:(by rewrite Hres1)).
    destruct (UiMain.run w1 d (add_attempts qs)) as [[w3 d3] out3].
    destruct IH as (? & ? & ? & ? & ? & Hlen).
    repeat split; try congruence.
    + constructor; [done|]. done.
    + intros _. simpl. f_equal. apply Hlen. congruence.
  - specialize (IH w1 Hst1 Hsel1 ltac:(by rewrite Hres1)).
    destruct (UiMain.run w1 d (add_attempts qs)) as [[w3 d3] out3].
    destruct IH as (? & ? & ? & ? & ? & Hlen).
    repeat split; try congruence. done.
Qed.

(** The fields that are empty or not a number, by what they hold: the
    empty cell, the empty text, a text that [int] (or [float]) cannot
    read, an object that is no number (a date), and for [int] the float
    [nan]. *)
Lemma no_int_cases v :
  no_int v <->
  v = CNone \/ (exists s, v = CStr s /\ (s = "" \/ int_of_str s = None)) \/
  v = CFloat S754_nan \/ exists shown, v = COther shown.
Proof.
  unfold no_int. destruct v as [|s|z|f|b|o]; cbn [is_blank py_int].
  - split; [tauto|]. by left.
  - split.
    + intros Hs. right. left. exists s. split; [done|].
      destruct Hs as [Hs|[Hs|[why Hs]]].
      * left. by apply String.eqb_eq.
      * by destruct (int_of_str s).
      * right. by destruct (int_of_str s).
    + intros [Hs|[(s' & [= <-] & [->|Hs])|[Hs|[o Hs]]]]; try done.
      * by left.
      * right. right. exists BadLiteral. by rewrite Hs.
  - split; [intros [?|[?|[? ?]]]; done|].
    intros [?|[(? & ? & _)|[?|[? ?]]]]; done.
  - split.
    + intros [?|[Hf|[why Hf]]]; [done| |].
      * by destruct f.
      * right. right. left. by destruct f.
    + intros [?|[(? & ? & _)|[[= ->]|[? ?]]]]; try done.
      right. right. by exists BadLiteral.
  - split; [intros [?|[?|[? ?]]]; done|].
    intros [?|[(? & ? & _)|[?|[? ?]]]]; done.
  - split; [intros _; right; right; right; by exists o|]. intros _. by right; left.
Qed.

Lemma no_float_cases v :
  no_float v <->
  v = CNone \/ (exists s, v = CStr s /\ (s = "" \/ float_of_str s = None)) \/
  exists shown, v = COther shown.
Proof.
  unfold no_float. destruct v as [|s|z|f|b|o]; cbn [is_blank py_float].
  - split; [tauto|]. by left.
  - split.
    + intros Hs. right. left. exists s. split; [done|].
      destruct Hs as [Hs|[Hs|[why Hs]]].
      * left. by apply String.eqb_eq.
      * by destruct (float_of_str s).
      * right. by destruct (float_of_str s).
    + intros [Hs|[(s' & [= <-] & [->|Hs])|[o Hs]]]; try done.
      * by left.
      * right. right. exists BadLiteral. by rewrite Hs.
  - unfold float_of_int. split.
    + intros [?|[Hf|[why Hf]]]; [done| |]; by destruct (float_of_Z z).
    + intros [?|[(? & ? & _)|[? ?]]]; done.
  - split; [intros [?|[?|[? ?]]]; done|].
    intros [?|[(? & ? & _)|[? ?]]]; done.
  - split; [intros [?|[?|[? ?]]]; done|].
    intros [?|[(? & ? & _)|[? ?]]]; done.
  - split; [intros _; right; right; by exists o|]. intros _. by right; left.
Qed.

(** A field that holds a number is read as that number. *)
Lemma to_int_number v d z :
  is_blank v = false -> py_int v = Ok z -> _to_int v d = Ok z.
Proof. intros Hb Hv. unfold _to_int. by rewrite Hb, Hv. Qed.

Lemma to_float_number v d x :
  is_blank v = false -> py_float v = Ok x -> _to_float v d = Ok (Some x).
Proof. intros Hb Hv. unfold _to_float. by rewrite Hb, Hv. Qed.

(** What a named row without overflow is read as, field by field: the
    stock is the number of the stock field, and 0 when that is empty or
    not a number; the price is the number of the override field when
    there is one, else the number of the price field, and 0 when that is
    empty or not a number. *)
Lemma read_row_fields cm cN cMG cR cS cP cA ws row :
  columns cm cN cMG cR cS cP cA ->
  no_overflow cm ws row ->
  is_blank (field cm ws row "Medicine_Name") = false ->
  exists rec ref,
    read_row cm ws row =
      Ok (Some (_normalize_name (field cm ws row "Medicine_Name"), rec, ref)) /\
    name rec = py_str (field cm ws row "Medicine_Name") /\
    (no_int (field cm ws row "Stock") -> stock rec = 0) /\
    (forall z, is_blank (field cm ws row "Stock") = false ->
       py_int (field cm ws row "Stock") = Ok z -> stock rec = z) /\
    (forall a, is_blank (field cm ws row "Actual_Price") = false ->
       py_float (field cm ws row "Actual_Price") = Ok a -> price rec = a) /\
    (no_float (field cm ws row "Actual_Price") ->
     (no_float (field cm ws row "Price") -> price rec = zero) /\
     (forall p, is_blank (field cm ws row "Price") = false ->
        py_float (field cm ws row "Price") = Ok p -> price rec = p)).
Proof.
  intros Hc (Hs & Hp & Ha) Hname.
  destruct (field_columns _ _ _ _ _ _ _ ws row Hc) as (En & Es & Ep & Ea).
  rewrite En in *. rewrite Es in *. rewrite Ep in *. rewrite Ea in *.
  rewrite (read_row_columns _ _ _ _ _ _ _ _ _ Hc), Hname.
  destruct (to_int_ok _ 0 Hs) as [z Hz].
  destruct (to_float_ok _ (Some zero) Hp) as [pv Hpv].
  destruct (to_float_ok _ None Ha) as [av Hav].
  rewrite Hz, Hpv, Hav. cbn [mbind result_bind bind].
  eexists _, _. split; [done|]. cbn [name stock price].
  split; [done|]. split; [|split; [|split]].
  - intros Hno. rewrite (to_int_default _ 0 Hno) in Hz. congruence.
  - intros z' Hb Hv. rewrite (to_int_number _ 0 z' Hb Hv) in Hz. congruence.
  - intros a Hb Hv. rewrite (to_float_number _ None a Hb Hv) in Hav.
    by injection Hav as <-.
  - intros Hno. rewrite (to_float_default _ None Hno) in Hav.
    injection Hav as <-. split.
    + intros Hnop. rewrite (to_float_default _ _ Hnop) in Hpv.
      by injection Hpv as <-.
    + intros p Hb Hv. rewrite (to_float_number _ (Some zero) p Hb Hv) in Hpv.
      by injection Hpv as <-.
Qed.

End GracefulLoad.

(** ** The properties on the sample data *)

Section OnSampleData.
Import Xlsx Gui Spec.
Local Existing Instance DecimalRuntime.runtime.

Lemma sample_store_loaded : Sample.loaded = Ok Sample.store.
Proof. vm_compute. reflexivity. Qed.

Lemma sample_store_consistent : consistent Sample.store.
Proof. vm_compute. reflexivity. Qed.

Lemma reserved_never_exceeds_stock_witness :
  let w := Sample.window_selected in
  UiMain.store w = Some Sample.store /\
  consistent Sample.store /\
  ledger_within_stock Sample.store w /\
  let '(w', d', out) :=
    UiMain.run w Sample.disk (add_attempts [10; 95; 90; 1]) in
  UiMain.store w' = Some Sample.store /\ d' = Sample.disk /\
  ledger_within_stock Sample.store w' /\
  (forall k r, DataStore._records Sample.store !! k = Some r ->
     0 <= DataStore.stock r -> reserved w' (DataStore.name r) <= DataStore.stock r).
Proof.
  cbn zeta.
  assert (Hst : UiMain.store Sample.window_selected = Some Sample.store)
    by (vm_compute; reflexivity).
  assert (Hled : ledger_within_stock Sample.store Sample.window_selected).
  { intros k r v _ Hv.
    assert (Hempty : UiMain.added_qty Sample.window_selected = ∅)
      by (vm_compute; reflexivity).
    rewrite Hempty, lookup_empty in Hv. discriminate Hv. }
  split; [exact Hst|]. split; [exact sample_store_consistent|].
  split; [exact Hled|].
  exact (reserved_never_exceeds_stock Sample.window_selected Sample.disk
           Sample.store [10; 95; 90; 1] Hst sample_store_consistent Hled).
Defined.

(** Scenario A: with a stock of 100, adding 10 leaves 90 available; a
    further add of 95 is refused with the insufficient-stock warning that
    names 90, and 90 stay available. *)
Example scenario_A :
  let '(w1, _, out1) :=
    UiMain.run Sample.window_selected Sample.disk (add_attempts [10]) in
  let '(w2, _, out2) := UiMain.run w1 Sample.disk (add_attempts [95]) in
  out1 = [] /\
  (UiMain.stock_label <$> UiMain.details (UiMain.ui w1)) = Some 90 /\
  out2 = [MessageBox Warning "Insufficient stock" (OnlyUnits 90 "Paracetamol")] /\
  (UiMain.stock_label <$> UiMain.details (UiMain.ui w2)) = Some 90 /\
  reserved w2 "Paracetamol" = 10.
Proof. vm_compute. repeat split. Qed.

(** Scenario B: adding Paracetamol twice, 10 each time, gives one line of
    quantity 20 and line total 100.00. *)
Example scenario_B :
  let '(w, _, _) :=
    UiMain.run Sample.window_selected Sample.disk (add_attempts [10; 10]) in
  map line1 (Models.items (UiMain.invoice w)) = [("Paracetamol", 20)] /\
  map Models.line_total (Models.items (UiMain.invoice w)) = [float_of_Z 100].
Proof. vm_compute. repeat split. Qed.

Lemma print_failure_aborts_checkout_witness :
  Models.items (UiMain.invoice Sample.window_with_item) <> [] /\
  UiWindow.invoice_items Sample.window2_with_item <> [] /\
  (let '(w', d', out) := UiMain._on_print Sample.window_with_item Sample.disk false in
   w' = Sample.window_with_item /\ d' = Sample.disk /\
   out = [MessageBox Critical "Printer Error" (Text "Printer not available.")]) /\
  (let '(w', d', out) :=
     UiWindow._on_print_clicked Sample.window2_with_item Sample.disk true false in
   w' = Sample.window2_with_item /\ d' = Sample.disk).
Proof.
  destruct print_failure_aborts_checkout as [H1 H2].
  assert (Hne1 : Models.items (UiMain.invoice Sample.window_with_item) <> [])
    by (vm_compute; discriminate).
  assert (Hne2 : UiWindow.invoice_items Sample.window2_with_item <> [])
    by (vm_compute; discriminate).
  split; [exact Hne1|]. split; [exact Hne2|]. split.
  - specialize (H1 Sample.window_with_item Sample.disk Sample.store
                  ltac:(vm_compute; reflexivity) Hne1).
    destruct (UiMain._on_print Sample.window_with_item Sample.disk false)
      as [[w' d'] out].
    destruct H1 as (? & ? & _ & _ & _ & ?).
  split; [assumption|split; assumption].
  - specialize (H2 Sample.window2_with_item Sample.disk true false eq_refl Hne2).
    destruct (UiWindow._on_print_clicked Sample.window2_with_item Sample.disk
                true false) as [[w' d'] out].
    destruct H2 as (? & ? & _). split; assumption.
Defined.

(** Scenario D: a checkout with an invalid printer changes neither stock
    nor invoice and reports the printer error; the same checkout with a
    valid printer lowers the stock in the file. *)
Example scenario_D :
  let '(w1, d1, out1) :=
    UiMain.handle Sample.window_with_item Sample.disk (UiMain.PrintClicked false) in
  let '(w2, d2, out2) :=
    UiMain.handle Sample.window_with_item Sample.disk (UiMain.PrintClicked true) in
  w1 = Sample.window_with_item /\ d1 = Sample.disk /\
  out1 = [MessageBox Critical "Printer Error" (Text "Printer not available.")] /\
  (DataStore.stock <$>
     (st ← from_option (UiMain.store w2);
      from_option (DataStore.get_medicine st "Paracetamol"))) = Ok 90 /\
  (DataStore.stock <$>
     (st ← DataStore.__init__ d2 Config.EXCEL_SHEET_NAME;
      from_option (DataStore.get_medicine st "Paracetamol"))) = Ok 90 /\
  Models.items (UiMain.invoice w2) = [] /\ UiMain.added_qty w2 = ∅.
Proof. vm_compute. repeat split. Qed.

(** C8, as stated, at concrete inputs: after a checkout whose save failed
    (the file being locked) the ledger holds 30 of Ibuprofen against a
    stock of 10, and selecting it shows 0 available, not -20; and choosing
    a name that the store does not know clears the selection without any
    message. *)
Lemma select_medicine_counterexample :
  ~ (forall (rt : Runtime) w st q rec,
       UiMain.store w = Some st -> consistent st ->
       DataStore.get_medicine st q = Some rec ->
       (UiMain.stock_label <$>
          UiMain.details (UiMain.ui (UiMain._select_medicine w q)))
       = Some (DataStore.stock rec - reserved w (DataStore.name rec))) /\
  ~ (forall (rt : Runtime) w d st q,
       UiMain.store w = Some st -> DataStore.get_medicine st q = None ->
       let '(w', _, out) := UiMain.handle w d (UiMain.Activated q) in
       UiMain.selected_name w' = None /\
       exists i m, MessageBox i "Not found" m ∈ out).
Proof.
  split.
  - intros Hshown.
    assert (Hst : UiMain.store Sample.window_unsaved = Some Sample.store_unsaved)
      by (vm_compute; reflexivity).
    assert (Hcons : consistent Sample.store_unsaved)
      by (vm_compute; reflexivity).
    assert (Hget : exists rec,
               DataStore.get_medicine Sample.store_unsaved "Ibuprofen" = Some rec /\
               DataStore.stock rec = 10 /\ DataStore.name rec = "Ibuprofen")
      by (vm_compute; eexists; repeat split).
    destruct Hget as (rec & Hget & Hstock & Hname).
    pose proof (Hshown DecimalRuntime.runtime Sample.window_unsaved
                  Sample.store_unsaved "Ibuprofen" rec Hst Hcons Hget) as Hlabel.
    rewrite Hstock, Hname in Hlabel.
    vm_compute in Hlabel. discriminate Hlabel.
  - intros Hsignal.
    pose proof (Hsignal DecimalRuntime.runtime Sample.window_selected Sample.disk
                  Sample.store "Panadol"
                  ltac:(vm_compute; reflexivity)
                  ltac:(vm_compute; reflexivity)) as Hout.
    vm_compute in Hout. destruct Hout as (_ & i & m & Hin).
    by apply elem_of_nil in Hin.
Qed.

(** Typing a name that the store does not know leaves the selection where
    it was and says nothing. *)
Example typing_unknown_name_keeps_selection :
  UiMain.selected_name Sample.window_selected = Some "Paracetamol" /\
  let '(w, _, out) :=
    UiMain.handle Sample.window_selected Sample.disk
      (UiMain.TextChanged "Paracetamolx") in
  UiMain.selected_name w = Some "Paracetamol" /\ out = [].
Proof. vm_compute. repeat split. Qed.

(** After a checkout whose save failed the stock in memory is lowered and
    the ledger is still there: what is shown as available is 0, not the
    difference. *)
Example available_stock_is_clamped :
  let '(w, _, out) :=
    UiMain.run Sample.window Sample.locked_disk
      [UiMain.Activated "Ibuprofen"; UiMain.QtyChanged 30; UiMain.AddClicked;
       UiMain.PrintClicked true; UiMain.Activated "Ibuprofen"] in
  last out = Some (MessageBox Critical "Excel Error"
                     (Failed "Failed to update stock" OSError)) /\
  (DataStore.stock <$>
     (st ← from_option (UiMain.store w);
      from_option (DataStore.get_medicine st "Ibuprofen"))) = Ok 10 /\
  reserved w "Ibuprofen" = 30 /\
  (UiMain.stock_label <$> UiMain.details (UiMain.ui w)) = Some 0.
Proof. vm_compute. repeat split. Qed.

Lemma select_medicine_exposes_witness :
  let w := Sample.window_with_item in
  UiMain.store w = Some Sample.store /\ consistent Sample.store /\
  (UiMain.stock_label <$>
     UiMain.details (UiMain.ui (UiMain._select_medicine w " PARACETAMOL ")))
  = Some 90 /\
  UiMain.handle w Sample.disk (UiMain.Activated "Panadol")
  = (UiMain._clear_selection w, Sample.disk, []) /\
  UiMain.handle Sample.window_typed Sample.disk UiMain.ReturnPressed
  = (UiMain._clear_selection Sample.window_typed, Sample.disk,
     [MessageBox Information "Not found" (Text "Medicine not found in Excel.")]).
Proof.
  cbn zeta.
  assert (Hst : UiMain.store Sample.window_with_item = Some Sample.store)
    by (vm_compute; reflexivity).
  assert (Hst' : UiMain.store Sample.window_typed = Some Sample.store)
    by (vm_compute; reflexivity).
  split; [exact Hst|]. split; [exact sample_store_consistent|].
  destruct (select_medicine_exposes Sample.window_with_item Sample.disk
              Sample.store " PARACETAMOL " Hst sample_store_consistent)
    as (Hfound & _ & _).
  destruct (select_medicine_exposes Sample.window_with_item Sample.disk
              Sample.store "Panadol" Hst sample_store_consistent)
    as (_ & Hmissing & _).
  destruct (select_medicine_exposes Sample.window_typed Sample.disk
              Sample.store "Panadol" Hst' sample_store_consistent)
    as (_ & _ & Henter).
  split; [|split].
  - destruct (Hfound {| DataStore.name := "Paracetamol"; DataStore.mg := "500";
                        DataStore.rack := "A1"; DataStore.stock := 100;
                        DataStore.price := dec 500 2 |}
                ltac:(vm_compute; reflexivity)) as (_ & Hlabel & _).
    rewrite Hlabel. vm_compute. reflexivity.
  - exact (proj1 (Hmissing ltac:(vm_compute; reflexivity))).
  - exact (proj1 (Henter ltac:(vm_compute; reflexivity) ltac:(discriminate))
             ltac:(vm_compute; reflexivity)).
Defined.

Lemma sample_columns :
  DataStore._detect_columns Sample.sheet = Ok (DataStore._col_map Sample.store).
Proof. vm_compute. reflexivity. Qed.

(** Scenario E: the sample row of Aspirin has a blank stock; the window
    shows 0 available for it and an add of 1 is refused. *)
Example scenario_E :
  let '(w, _, out) :=
    UiMain.run Sample.window_aspirin Sample.disk (add_attempts [1]) in
  UiMain.selected_name Sample.window_aspirin = Some "Aspirin " /\
  (UiMain.stock_label <$> UiMain.details (UiMain.ui Sample.window_aspirin))
  = Some 0 /\
  out = [MessageBox Warning "Insufficient stock" (OnlyUnits 0 "Aspirin ")] /\
  Models.items (UiMain.invoice w) = [].
Proof. vm_compute. repeat split. Qed.

End OnSampleData.

(* ===================================================================== *)
(** * The invoice, line by line *)
(* ===================================================================== *)

Section InvoiceLines.
Import Models Spec Vocab.

Lemma fold_add_total l a : fold_left Z.add l a = a + total l.
Proof.
  revert a. induction l as [|x l IH]; intros a; simpl; [lia|].
  rewrite IH. unfold total. simpl. lia.
Qed.

Lemma total_app l1 l2 : total (l1 ++ l2) = total l1 + total l2.
Proof. unfold total. induction l1; simpl; lia. Qed.

Lemma total_qty_add_item inv a :
  total_qty (add_item inv a) = total_qty inv + qty a.
Proof.
  unfold total_qty, add_item. simpl. rewrite !fold_add_total.
  induction (items inv) as [|x its IH]; simpl.
  - unfold total. simpl. lia.
  - destruct (String.eqb (name x) (name a)); unfold total in *; simpl in *; lia.
Qed.

(** Merging keeps the number of units: the invoice's total quantity is the
    sum of the quantities of all the adds. *)
Theorem total_qty_is_sum_of_adds adds :
  total_qty (add_all adds) = total (map qty adds).
Proof.
  induction adds as [|a adds IH] using rev_ind.
  - reflexivity.
  - rewrite add_all_snoc, total_qty_add_item, IH, map_app, total_app.
    unfold total. simpl. lia.
Qed.

Lemma firsts_elem l x : x ∈ firsts l <-> x ∈ l.
Proof.
  induction l as [|y l IH]; simpl; [done|].
  rewrite !elem_of_cons, list_elem_of_filter, IH.
  destruct (decide (x = y)); naive_solver.
Qed.

Lemma firsts_NoDup l : NoDup (firsts l).
Proof.
  induction l as [|y l IH]; simpl; [constructor|].
  constructor.
  - rewrite list_elem_of_filter. naive_solver.
  - by apply NoDup_filter.
Qed.

Lemma firsts_snoc l x :
  firsts (l ++ [x]) = if bool_decide (x ∈ l) then firsts l else firsts l ++ [x].
Proof.
  induction l as [|y l IH]; [done|].
  cbn [app firsts]. rewrite IH.
  destruct (decide (x = y)) as [->|Hne].
  - rewrite (bool_decide_eq_true_2 (y ∈ y :: l)) by apply list_elem_of_here.
    case_bool_decide; [done|].
    rewrite filter_app, filter_cons_False, filter_nil, app_nil_r; [done|].
    by intros [].
  - case_bool_decide as Hin.
    + rewrite (bool_decide_eq_true_2 (x ∈ y :: l)); [done|].
      by apply list_elem_of_further.
    + rewrite (bool_decide_eq_false_2 (x ∈ y :: l)).
      * by rewrite filter_app, filter_cons_True, filter_nil.
      * by intros [?|?]%elem_of_cons.
Qed.

Lemma first_add_snoc n adds a :
  first_add n (adds ++ [a]) =
  match first_add n adds with
  | Some x => Some x
  | None => if String.eqb (name a) n then Some a else None
  end.
Proof.
  unfold first_add. induction adds as [|x adds IH]; simpl.
  - done.
  - by destruct (String.eqb (name x) n).
Qed.

Lemma first_add_Some n adds a :
  first_add n adds = Some a -> name a = n /\ a ∈ adds.
Proof.
  unfold first_add. intros [Hin Heq]%find_some.
  apply String.eqb_eq in Heq. split; [done|]. by apply list_elem_of_In.
Qed.

Lemma first_add_None n adds :
  first_add n adds = None <-> n ∉ map name adds.
Proof.
  unfold first_add. induction adds as [|x adds IH]; simpl.
  - split; [intros _ ?%elem_of_nil|]; done.
  - destruct (String.eqb (name x) n) eqn:E.
    + apply String.eqb_eq in E. split; [done|]. intros []. set_solver.
    + apply String.eqb_neq in E. rewrite IH. set_solver.
Qed.

Lemma add_item_to_present its a :
  NoDup (map name its) -> name a ∈ map name its ->
  add_item_to its a =
  map (fun it => if String.eqb (name it) (name a) then add_qty it (qty a) else it)
      its.
Proof.
  induction its as [|x its IH]; simpl; intros Hnd Hin.
  - by apply elem_of_nil in Hin.
  - apply NoDup_cons in Hnd as [Hx Hnd].
    destruct (String.eqb (name x) (name a)) eqn:E.
    + apply String.eqb_eq in E. f_equal.
      rewrite <- (map_id its) at 1. apply map_ext_in. intros it Hit.
      destruct (String.eqb (name it) (name a)) eqn:E'; [|done].
      apply String.eqb_eq in E'. exfalso. apply Hx. rewrite E, <- E'.
      apply (list_elem_of_fmap_2 name).
      by apply list_elem_of_In.
    + apply String.eqb_neq in E. f_equal. apply IH; [done|]. set_solver.
Qed.

Lemma add_item_to_absent its a :
  name a ∉ map name its -> add_item_to its a = its ++ [a].
Proof.
  induction its as [|x its IH]; simpl; intros Hin; [done|].
  destruct (String.eqb (name x) (name a)) eqn:E.
  - apply String.eqb_eq in E. set_solver.
  - f_equal. apply IH. set_solver.
Qed.

Lemma omap_ext_in {A B} (f g : A -> option B) (l : list A) :
  (forall n, n ∈ l -> f n = g n) -> omap f l = omap g l.
Proof.
  intros Hfg. induction l as [|n l IHl]; [done|].
  cbn [omap list_omap]. rewrite (Hfg n) by apply list_elem_of_here.
  rewrite IHl; [done|]. intros ? ?. apply Hfg. by apply list_elem_of_further.
Qed.

Lemma map_omap {A B C} (h : B -> C) (f : A -> option B) (l : list A) :
  map h (omap f l) = omap (fun n => h <$> f n) l.
Proof.
  induction l as [|n l IHl]; [done|].
  cbn [omap list_omap]. destruct (f n); cbn; by rewrite IHl.
Qed.

(** After any sequence of adds the invoice is, line for line: one line for
    each name in the order in which the names were first added, with the
    strength, rack and unit price of the first add made under the name (a
    later add does not change them) and the quantity of all adds made
    under it. *)
Theorem invoice_lines_are_first_adds adds :
  items (add_all adds) = omap (merged_line adds) (firsts (map name adds)).
Proof.
  induction adds as [|a adds IH] using rev_ind; [done|].
  rewrite add_all_snoc. unfold add_item. cbn [items].
  rewrite map_app. cbn [map]. rewrite firsts_snoc.
  assert (Hnames : map name (items (add_all adds)) = firsts (map name adds)).
  { rewrite IH. clear IH.
    assert (Hall : forall n, n ∈ firsts (map name adds) ->
                     exists it, merged_line adds n = Some it /\ name it = n).
    { intros n Hn. apply (proj1 (firsts_elem _ _)) in Hn. unfold merged_line.
      destruct (first_add n adds) as [x|] eqn:E.
      - apply first_add_Some in E as [E _]. by eexists.
      - apply first_add_None in E. destruct (E Hn). }
    induction (firsts (map name adds)) as [|n l IHl]; [done|].
    destruct (Hall n) as (it & Hit & Hname); [set_solver|].
    cbn [omap list_omap]. rewrite Hit. cbn [map]. rewrite Hname. f_equal.
    apply IHl. intros ? ?. apply Hall. set_solver. }
  case_bool_decide as Hin.
  - rewrite add_item_to_present.
    2:{ rewrite Hnames. apply firsts_NoDup. }
    2:{ rewrite Hnames. by apply (proj2 (firsts_elem _ _)). }
    rewrite IH.
    rewrite map_omap. apply omap_ext_in. intros n Hn. unfold merged_line.
    rewrite first_add_snoc, added_for_snoc.
    destruct (first_add n adds) as [x|] eqn:E.
    + apply first_add_Some in E as [E _]. cbn. rewrite E.
      rewrite (String.eqb_sym n). destruct (String.eqb (name a) n); [done|].
      by rewrite Z.add_0_r.
    + apply first_add_None in E. apply (proj1 (firsts_elem _ _)) in Hn. destruct (E Hn).
  - rewrite add_item_to_absent by (rewrite Hnames, firsts_elem; done).
    rewrite omap_app, IH. f_equal.
    + apply omap_ext_in. intros n Hn. unfold merged_line.
      rewrite first_add_snoc, added_for_snoc.
      destruct (first_add n adds) as [x|] eqn:E.
      * destruct (String.eqb (name a) n) eqn:E'.
        -- apply String.eqb_eq in E'. apply (proj1 (firsts_elem _ _)) in Hn.
           congruence.
        -- by rewrite Z.add_0_r.
      * apply first_add_None in E. apply (proj1 (firsts_elem _ _)) in Hn. destruct (E Hn).
    + cbn [omap list_omap]. unfold merged_line.
      rewrite first_add_snoc, added_for_snoc.
      assert (E : first_add (name a) adds = None) by by apply first_add_None.
      rewrite E, String.eqb_refl. cbn.
      assert (E0 : added_for (name a) adds = 0).
      { unfold added_for. clear -Hin. induction adds as [|x adds IHa]; [done|].
        rewrite filter_cons_False by set_solver. apply IHa. set_solver. }
      rewrite E0. by destruct a.
Qed.

End InvoiceLines.

(* ===================================================================== *)
(** * The store: loading, looking up, decrementing, saving *)
(* ===================================================================== *)

Section Headers.
Import Xlsx DataStore Spec Vocab.
Context `{Runtime}.

Lemma detect_step ws (m : gmap string nat) idx :
  match value ws 1 idx with
  | CNone => m
  | v => <[strip (py_str v) := idx]> m
  end
  = match header ws idx with Some h => <[h := idx]> m | None => m end.
Proof. unfold header. by destruct (value ws 1 idx). Qed.

Lemma headers_fold_Some ws n k i :
  fold_left
    (fun (headers : gmap string nat) idx =>
       match value ws 1 idx with
       | CNone => headers
       | v => <[strip (py_str v) := idx]> headers
       end) (seq 1 n) ∅ !! k = Some i <->
  (1 <= i <= n)%nat /\ header ws i = Some k /\
  forall j, (i < j <= n)%nat -> header ws j <> Some k.
Proof.
  revert i. induction n as [|n IH]; intros i.
  - simpl. rewrite lookup_empty. split; [done|]. intros [? _]. lia.
  - rewrite seq_S, fold_left_app. cbn [fold_left]. rewrite detect_step.
    replace (1 + n)%nat with (S n) by lia.
    destruct (header ws (S n)) as [h|] eqn:Eh.
    + destruct (decide (h = k)) as [->|Hne].
      * rewrite lookup_insert_eq. split.
        -- intros [= <-]. split; [lia|]. split; [done|]. intros j ?. lia.
        -- intros (Hi & Hk & Hlast). f_equal.
           destruct (decide (i = S n)) as [->|Hi']; [done|].
           destruct (Hlast (S n)); [lia|done].
      * rewrite lookup_insert_ne by done. rewrite IH. split.
        -- intros (Hi & Hk & Hlast). split; [lia|]. split; [done|].
           intros j Hj. destruct (decide (j = S n)) as [->|Hj'].
           ++ rewrite Eh. congruence.
           ++ apply Hlast. lia.
        -- intros (Hi & Hk & Hlast).
           assert (i <> S n) by (intros ->; congruence).
           split; [lia|]. split; [done|]. intros j Hj. apply Hlast. lia.
    + rewrite IH. split.
      * intros (Hi & Hk & Hlast). split; [lia|]. split; [done|].
        intros j Hj. destruct (decide (j = S n)) as [->|Hj'].
        -- rewrite Eh. congruence.
        -- apply Hlast. lia.
      * intros (Hi & Hk & Hlast).
        assert (i <> S n) by (intros ->; congruence).
        split; [lia|]. split; [done|]. intros j Hj. apply Hlast. lia.
Qed.

Lemma headers_fold_None ws n k :
  fold_left
    (fun (headers : gmap string nat) idx =>
       match value ws 1 idx with
       | CNone => headers
       | v => <[strip (py_str v) := idx]> headers
       end) (seq 1 n) ∅ !! k = None <->
  forall i, (1 <= i <= n)%nat -> header ws i <> Some k.
Proof.
  induction n as [|n IH].
  - simpl. rewrite lookup_empty. split; [|done]. intros _ i ?. lia.
  - rewrite seq_S, fold_left_app. cbn [fold_left]. rewrite detect_step.
    replace (1 + n)%nat with (S n) by lia.
    destruct (header ws (S n)) as [h|] eqn:Eh.
    + destruct (decide (h = k)) as [->|Hne].
      * rewrite lookup_insert_eq. split; [done|].
        intros Hall. destruct (Hall (S n)); [lia|done].
      * rewrite lookup_insert_ne by done. rewrite IH. split.
        -- intros Hall i Hi. destruct (decide (i = S n)) as [->|Hi'].
           ++ rewrite Eh. congruence.
           ++ apply Hall. lia.
        -- intros Hall i Hi. apply Hall. lia.
    + rewrite IH. split.
      * intros Hall i Hi. destruct (decide (i = S n)) as [->|Hi'].
        -- rewrite Eh. congruence.
        -- apply Hall. lia.
      * intros Hall i Hi. apply Hall. lia.
Qed.

Lemma headers_elem ws k :
  k ∈ headers ws <->
  exists i, (1 <= i <= max_column ws)%nat /\ header ws i = Some k.
Proof.
  unfold headers. rewrite list_elem_of_omap. split.
  - intros (i & Hi & Hk). exists i. split; [|done].
    apply list_elem_of_In, in_seq in Hi. lia.
  - intros (i & Hi & Hk). exists i. split; [|done].
    apply list_elem_of_In, in_seq. lia.
Qed.

Lemma detect_columns_missing ws :
  missing_columns ws <> [] ->
  _detect_columns ws = Raise (ValueError (MissingColumns (missing_columns ws))).
Proof.
  intros Hne. unfold _detect_columns.
  set (m := fold_left _ _ _).
  assert (Hmiss : filter (fun col => m !! col = None) REQUIRED_COLUMNS
                  = missing_columns ws).
  { unfold missing_columns. apply list_filter_iff. intros k.
    unfold m. rewrite headers_fold_None, headers_elem. split.
    - intros Hall (i & Hi & Hk). by apply (Hall i).
    - intros Hno i Hi Hk. apply Hno. by exists i. }
  rewrite Hmiss. by destruct (missing_columns ws).
Qed.

(** [_detect_columns] raises with the list of the required columns that
    no header names, in the order of [REQUIRED_COLUMNS]; when none is
    missing it maps every header of the sheet (a stripped, non-empty cell
    of row 1) to its column, the rightmost column when a header stands in
    several. *)
Theorem detect_columns_outcome ws :
  (missing_columns ws <> [] ->
   _detect_columns ws = Raise (ValueError (MissingColumns (missing_columns ws)))) /\
  (missing_columns ws = [] ->
   exists cm, _detect_columns ws = Ok cm /\
     forall k i, cm !! k = Some i <->
       (1 <= i <= max_column ws)%nat /\ header ws i = Some k /\
       forall j, (i < j <= max_column ws)%nat -> header ws j <> Some k).
Proof.
  unfold _detect_columns.
  set (m := fold_left _ _ _).
  assert (Hmiss : filter (fun col => m !! col = None) REQUIRED_COLUMNS
                  = missing_columns ws).
  { unfold missing_columns. apply list_filter_iff. intros k.
    unfold m. rewrite headers_fold_None, headers_elem. split.
    - intros Hall (i & Hi & Hk). by apply (Hall i).
    - intros Hno i Hi Hk. apply Hno. by exists i. }
  rewrite Hmiss. split.
  - intros Hne. by destruct (missing_columns ws).
  - intros ->. exists m. split; [done|]. intros k i. apply headers_fold_Some.
Qed.

End Headers.

Section Loading.
Import Xlsx DataStore Spec Vocab.
Context `{Runtime}.

Lemma to_int_cases v d :
  (exists z, _to_int v d = Ok z /\ py_int v <> Raise OverflowError) \/
  (_to_int v d = Raise OverflowError /\ py_int v = Raise OverflowError).
Proof.
  unfold _to_int. destruct (py_int v) as [z|e] eqn:E.
  - left. destruct (is_blank v); eexists; split; done.
  - destruct (py_int_raises _ _ E) as [->|[->| ->]].
    + left. destruct (is_blank v); eexists; split; done.
    + left. destruct (is_blank v); eexists; split; done.
    + destruct v as [|s|z|f|b|o]; simpl in *; try done.
      * by destruct (int_of_str s).
      * by right.
Qed.

Lemma to_float_cases v d :
  (exists o, _to_float v d = Ok o /\ py_float v <> Raise OverflowError) \/
  (_to_float v d = Raise OverflowError /\ py_float v = Raise OverflowError).
Proof.
  unfold _to_float. destruct (py_float v) as [z|e] eqn:E.
  - left. destruct (is_blank v); eexists; split; done.
  - destruct (py_float_raises _ _ E) as [->|[->| ->]].
    + left. destruct (is_blank v); eexists; split; done.
    + left. destruct (is_blank v); eexists; split; done.
    + destruct v as [|s|z|f|b|o]; simpl in *; try done.
      * by destruct (float_of_str s).
      * by right.
Qed.

(** A named row is read unless one of its three numbers overflows, and
    then the row raises [OverflowError]. *)
Lemma read_row_named cm cN cMG cR cS cP cA ws row :
  columns cm cN cMG cR cS cP cA ->
  is_blank (field cm ws row "Medicine_Name") = false ->
  (no_overflow cm ws row /\ exists e, read_row cm ws row = Ok (Some e)) \/
  (~ no_overflow cm ws row /\ read_row cm ws row = Raise OverflowError).
Proof.
  intros Hc Hname. unfold no_overflow.
  destruct (field_columns _ _ _ _ _ _ _ ws row Hc) as (En & Es & Ep & Ea).
  rewrite En in Hname. rewrite Es, Ep, Ea.
  rewrite (read_row_columns _ _ _ _ _ _ _ _ _ Hc), Hname.
  destruct (to_int_cases (value ws row cS) 0) as [(z & -> & Hz)|[-> Hz]];
    cbn [mbind result_bind bind]; [|right; split; [tauto|done]].
  destruct (to_float_cases (value ws row cP) (Some zero))
    as [(p & -> & Hp)|[-> Hp]];
    cbn [mbind result_bind bind]; [|right; split; [tauto|done]].
  destruct (to_float_cases (value ws row cA) None) as [(a & -> & Ha)|[-> Ha]];
    cbn [mbind result_bind bind]; [|right; split; [tauto|done]].
  left. split; [done|]. by eexists.
Qed.

Lemma read_row_unnamed cm cN cMG cR cS cP cA ws row :
  columns cm cN cMG cR cS cP cA ->
  is_blank (field cm ws row "Medicine_Name") = true ->
  read_row cm ws row = Ok None.
Proof.
  intros Hc Hname.
  destruct (field_columns _ _ _ _ _ _ _ ws row Hc) as (En & _).
  rewrite En in Hname.
  by rewrite (read_row_columns _ _ _ _ _ _ _ _ _ Hc), Hname.
Qed.

Lemma collect_raise cm ws rows e :
  collect cm ws rows = Raise e ->
  exists row, row ∈ rows /\ read_row cm ws row = Raise e.
Proof.
  induction rows as [|row rows IH]; cbn [collect]; [done|].
  destruct (read_row cm ws row) as [o|e'] eqn:Er; cbn [mbind result_bind bind].
  - destruct (collect cm ws rows) as [es|e'] eqn:Ec;
      cbn [mbind result_bind bind]; [done|].
    intros [= ->]. destruct IH as (row' & Hin & Hr); [done|].
    exists row'. split; [by apply list_elem_of_further|done].
  - intros [= ->]. exists row. split; [apply list_elem_of_here|done].
Qed.

Lemma collect_ok cm ws rows es :
  collect cm ws rows = Ok es ->
  forall row, row ∈ rows -> exists o, read_row cm ws row = Ok o.
Proof.
  revert es. induction rows as [|row rows IH]; intros es; cbn [collect].
  - intros _ row Hin. by apply elem_of_nil in Hin.
  - destruct (read_row cm ws row) as [o|e'] eqn:Er;
      cbn [mbind result_bind bind]; [|done].
    destruct (collect cm ws rows) as [es'|e'] eqn:Ec;
      cbn [mbind result_bind bind]; [|done].
    intros _ row' [->|Hin]%elem_of_cons; [by eexists|]. by eapply IH.
Qed.

Lemma init_unfold d sheet wb ws cm :
  file d = Some (Ok wb) -> wb !! sheet = Some ws -> _detect_columns ws = Ok cm ->
  __init__ d sheet =
  es ← collect cm ws (data_rows ws);
  Ok {| sheet_name := sheet; _workbook := wb; _col_map := cm;
        _names := map (fun e : entry => name e.1.2) es;
        _records := insert_records es ∅; _row_refs := insert_refs es ∅ |}.
Proof.
  intros Hfile Hws Hdet. unfold __init__, load_workbook. rewrite Hfile.
  cbn [mbind result_bind bind]. rewrite Hws, Hdet.
  cbn [mbind result_bind bind]. unfold _read_rows.
  rewrite read_rows_collect. fold (data_rows ws).
  by destruct (collect cm ws (data_rows ws)).
Qed.

(** How a load ends. Without the file it raises [FileNotFoundError]; on a
    file that cannot be read, what the reading raises;
    without the sheet, the sheet-not-found [ValueError]; with a required
    column missing, the [ValueError] that lists the missing columns.
    Otherwise it succeeds exactly when no named row holds a number that
    overflows (an infinite stock, a price beyond the range of a float),
    and [OverflowError] is the one exception that the rows can raise. The
    store then holds the workbook of the file. *)
Theorem load_outcome d sheet :
  (file d = None -> __init__ d sheet = Raise FileNotFoundError) /\
  (forall e, file d = Some (Raise e) -> __init__ d sheet = Raise e) /\
  (forall wb, file d = Some (Ok wb) -> wb !! sheet = None ->
     __init__ d sheet = Raise (ValueError (SheetNotFound sheet))) /\
  (forall wb ws, file d = Some (Ok wb) -> wb !! sheet = Some ws ->
     missing_columns ws <> [] ->
     __init__ d sheet =
       Raise (ValueError (MissingColumns (missing_columns ws)))) /\
  (forall wb ws cm, file d = Some (Ok wb) -> wb !! sheet = Some ws ->
     _detect_columns ws = Ok cm ->
     ((forall row, named cm ws row -> no_overflow cm ws row) ->
      exists st, __init__ d sheet = Ok st /\ _workbook st = wb /\
                 sheet_name st = sheet /\ _col_map st = cm) /\
     (~ (forall row, named cm ws row -> no_overflow cm ws row) ->
      __init__ d sheet = Raise OverflowError) /\
     (forall st, __init__ d sheet = Ok st ->
        forall row, named cm ws row -> no_overflow cm ws row)).
Proof.
  split; [|split; [|split; [|split]]].
  - intros Hfile. unfold __init__, load_workbook. by rewrite Hfile.
  - intros e Hfile. unfold __init__, load_workbook. by rewrite Hfile.
  - intros wb Hfile Hws. unfold __init__, load_workbook. rewrite Hfile.
    cbn [mbind result_bind bind]. by rewrite Hws.
  - intros wb ws Hfile Hws Hmiss. unfold __init__, load_workbook.
    rewrite Hfile. cbn [mbind result_bind bind]. rewrite Hws.
    by rewrite (detect_columns_missing ws Hmiss).
  - intros wb ws cm Hfile Hws Hdet.
    rewrite (init_unfold _ _ _ _ _ Hfile Hws Hdet).
    destruct (detect_columns_required _ _ Hdet)
      as (cN & cMG & cR & cS & cP & cA & Hc).
    assert (Hrow : forall row, row ∈ data_rows ws ->
              (exists o, read_row cm ws row = Ok o) \/
              (named cm ws row /\ ~ no_overflow cm ws row /\
               read_row cm ws row = Raise OverflowError)).
    { intros row Hin.
      destruct (is_blank (field cm ws row "Medicine_Name")) eqn:Hb.
      - left. exists None. by eapply read_row_unnamed.
      - destruct (read_row_named _ _ _ _ _ _ _ ws row Hc Hb)
          as [[_ [e ->]]|[Hno Hr]]; [left; by eexists|].
        right. split; [done|]. done. }
    assert (Hok : forall es, collect cm ws (data_rows ws) = Ok es ->
              forall row, named cm ws row -> no_overflow cm ws row).
    { intros es Hes row [Hin Hb].
      destruct (collect_ok _ _ _ _ Hes row Hin) as [o Ho].
      destruct (read_row_named _ _ _ _ _ _ _ ws row Hc Hb)
        as [[Hno _]|[_ Hr]]; [done|congruence]. }
    split; [|split].
    + intros Hall.
      destruct (collect cm ws (data_rows ws)) as [es|e] eqn:Hes.
      * cbn [mbind result_bind bind]. eexists. split; [done|]. done.
      * destruct (collect_raise _ _ _ _ Hes) as (row & Hin & Hr).
        destruct (Hrow row Hin) as [[o Ho]|(Hn & Hno & _)]; [congruence|].
        destruct (Hno (Hall row Hn)).
    + intros Hnot.
      destruct (collect cm ws (data_rows ws)) as [es|e] eqn:Hes.
      * destruct (Hnot (Hok es eq_refl)).
      * destruct (collect_raise _ _ _ _ Hes) as (row & Hin & Hr).
        cbn [mbind result_bind bind].
        destruct (Hrow row Hin) as [[o Ho]|(_ & _ & Hr')]; congruence.
    + intros st. destruct (collect cm ws (data_rows ws)) as [es|e] eqn:Hes.
      * intros _. by apply (Hok es).
      * done.
Qed.

Lemma consistent_self_check st : consistent st -> self_check st = true.
Proof.
  intros Hcons.
  destruct (consistent_inv _ Hcons) as (ws & es & _ & Hdet & _).
  destruct (detect_columns_required _ _ Hdet)
    as (cN & cMG & cR & cS & cP & cA & [E1 E2 E3 E4 E5 E6]).
  unfold self_check, REQUIRED_COLUMNS. cbn [forallb].
  by rewrite E1, E2, E3, E4, E5, E6.
Qed.

(** A store that was loaded passes its own [self_check], and goes on
    passing it whatever is decremented. *)
Theorem self_check_holds_after_load d sheet st ops :
  __init__ d sheet = Ok st ->
  self_check st = true /\ self_check (reduce_many st ops) = true.
Proof.
  intros Hinit.
  pose proof (init_consistent _ _ _ Hinit) as Hcons.
  split; [by apply consistent_self_check|]. apply consistent_self_check.
  clear Hinit. revert st Hcons. unfold reduce_many.
  induction ops as [|op ops IH]; intros st Hcons; [done|].
  cbn [fold_left]. apply IH. by apply reduce_stock_keeps_consistent.
Qed.

End Loading.

Section Rows.
Import Xlsx DataStore Spec Vocab.
Context `{Runtime}.

Lemma collect_mem cm ws rows es row e :
  collect cm ws rows = Ok es -> row ∈ rows ->
  read_row cm ws row = Ok (Some e) -> e ∈ es.
Proof.
  revert es. induction rows as [|r rows IH]; intros es; cbn [collect].
  - intros _ Hin. by apply elem_of_nil in Hin.
  - destruct (read_row cm ws r) as [o|] eqn:Er;
      cbn [mbind result_bind bind]; [|done].
    destruct (collect cm ws rows) as [es'|] eqn:Ec;
      cbn [mbind result_bind bind]; [|done].
    intros [= <-] [->|Hin]%elem_of_cons Hrow.
    + rewrite Er in Hrow. injection Hrow as ->. apply list_elem_of_here.
    + specialize (IH es' eq_refl Hin Hrow).
      destruct o; [by apply list_elem_of_further|done].
Qed.

Lemma collect_split cm cN cMG cR cS cP cA ws rows es1 (e : entry) es2 :
  columns cm cN cMG cR cS cP cA ->
  collect cm ws rows = Ok (es1 ++ e :: es2) ->
  exists rows1 rows2,
    rows = rows1 ++ row_index e.2 :: rows2 /\
    collect cm ws rows1 = Ok es1 /\ collect cm ws rows2 = Ok es2.
Proof.
  intros Hc. revert es1.
  induction rows as [|r rows IH]; intros es1; cbn [collect].
  - intros [= Hnil]. by destruct es1.
  - destruct (read_row cm ws r) as [o|] eqn:Er;
      cbn [mbind result_bind bind]; [|done].
    destruct (collect cm ws rows) as [es'|] eqn:Ec;
      cbn [mbind result_bind bind]; [|done].
    intros [= Heq]. destruct o as [e0|].
    + destruct es1 as [|e1 es1].
      * cbn in Heq. injection Heq as -> ->.
        destruct e as [[k rec] ref].
        destruct (read_row_entry _ _ _ _ _ _ _ _ _ _ _ _ Hc Er)
          as (_ & _ & _ & _ & ->).
        exists [], rows. by cbn.
      * cbn in Heq. injection Heq as -> ->.
        destruct (IH es1 eq_refl) as (rows1 & rows2 & -> & H1 & H2).
        exists (r :: rows1), rows2. split; [done|]. split; [|done].
        cbn [collect]. by rewrite Er, H1.
    + subst es'. destruct (IH es1 eq_refl) as (rows1 & rows2 & -> & H1 & H2).
      exists (r :: rows1), rows2. split; [done|]. split; [|done].
      cbn [collect]. by rewrite Er, H1.
Qed.

Lemma seq_split a n l1 x l2 :
  seq a n = l1 ++ x :: l2 -> forall y, y ∈ l1 ++ x :: l2 -> (x < y)%nat -> y ∈ l2.
Proof.
  revert a l1. induction n as [|n IH]; intros a l1; cbn [seq].
  - by destruct l1.
  - destruct l1 as [|z l1]; cbn; intros [= <- Hrest] y.
    + intros [->|Hy]%elem_of_cons Hlt; [lia|done].
    + intros [->|Hy]%elem_of_cons Hlt.
      * assert (x ∈ seq (S a) n) as Hx by (rewrite Hrest; set_solver).
        apply elem_of_seq in Hx. lia.
      * by apply (IH _ _ Hrest).
Qed.

Lemma sheet_of_consistent st ws :
  _workbook st !! sheet_name st = Some ws -> _sheet st = ws.
Proof. unfold _sheet. by intros ->. Qed.

(** The rows of a consistent store: what its tables hold, row by row. *)
Lemma consistent_rows st :
  consistent st ->
  exists es cN cMG cR cS cP cA,
    columns (_col_map st) cN cMG cR cS cP cA /\
    collect (_col_map st) (_sheet st) (data_rows (_sheet st)) = Ok es /\
    _names st = map (fun e : entry => name e.1.2) es /\
    _records st = insert_records es ∅ /\
    _row_refs st = insert_refs es ∅.
Proof.
  intros Hcons.
  destruct (consistent_inv _ Hcons) as (ws & es & Hws & Hdet & Hes & Hn & Hr & Hf).
  destruct (detect_columns_required _ _ Hdet)
    as (cN & cMG & cR & cS & cP & cA & Hc).
  rewrite (sheet_of_consistent _ _ Hws).
  by exists es, cN, cMG, cR, cS, cP, cA.
Qed.

Lemma entry_named cm cN cMG cR cS cP cA ws rows es (e : entry) :
  columns cm cN cMG cR cS cP cA ->
  collect cm ws rows = Ok es -> e ∈ es ->
  row_index e.2 ∈ rows /\
  is_blank (field cm ws (row_index e.2) "Medicine_Name") = false /\
  key_of cm ws (row_index e.2) = e.1.1 /\
  e.1.1 = _normalize_name (CStr (name e.1.2)) /\
  stock_cell_ref e.2 = (row_index e.2, cS) /\
  read_row cm ws (row_index e.2) = Ok (Some e).
Proof.
  intros Hc Hes Hin.
  pose proof (collect_entries _ _ _ _ _ _ _ _ _ _ Hc Hes) as Hent.
  rewrite Forall_forall in Hent.
  destruct (Hent e Hin) as (Hk & Hk' & Hcell & Hrow & Hrd).
  destruct (field_columns _ _ _ _ _ _ _ ws (row_index e.2) Hc) as (En & _).
  destruct e as [[k rec] ref].
  destruct (read_row_entry _ _ _ _ _ _ _ _ _ _ _ _ Hc Hrd) as (Hb & _).
  unfold key_of. rewrite En. by repeat split.
Qed.

Lemma named_entry cm cN cMG cR cS cP cA ws es row :
  columns cm cN cMG cR cS cP cA ->
  collect cm ws (data_rows ws) = Ok es -> named cm ws row ->
  exists e : entry,
    e ∈ es /\ read_row cm ws row = Ok (Some e) /\
    e.1.1 = key_of cm ws row /\
    e.2 = {| row_index := row; stock_cell_ref := (row, cS) |}.
Proof.
  intros Hc Hes [Hin Hb].
  destruct (collect_ok _ _ _ _ Hes row Hin) as [o Ho].
  destruct (read_row_named _ _ _ _ _ _ _ ws row Hc Hb)
    as [[_ [e He]]|[_ Hr]]; [|congruence].
  exists e. split; [by eapply collect_mem|]. split; [done|].
  destruct (field_columns _ _ _ _ _ _ _ ws row Hc) as (En & _).
  destruct e as [[k rec] ref].
  destruct (read_row_entry _ _ _ _ _ _ _ _ _ _ _ _ Hc He)
    as (_ & -> & _ & _ & ->).
  unfold key_of. by rewrite En.
Qed.

(** The record filed under the key of a named row is read from that row
    or from a later row of the same key. *)
Lemma filed_from_row st row :
  consistent st -> named (_col_map st) (_sheet st) row ->
  exists row' rec' ref',
    (row <= row')%nat /\ named (_col_map st) (_sheet st) row' /\
    key_of (_col_map st) (_sheet st) row'
    = key_of (_col_map st) (_sheet st) row /\
    read_row (_col_map st) (_sheet st) row'
    = Ok (Some (key_of (_col_map st) (_sheet st) row, rec', ref')) /\
    _records st !! key_of (_col_map st) (_sheet st) row = Some rec'.
Proof.
  intros Hcons Hnamed.
  destruct (consistent_rows _ Hcons)
    as (es & cN & cMG & cR & cS & cP & cA & Hc & Hes & Hn & Hr & Hf).
  destruct (named_entry _ _ _ _ _ _ _ _ _ _ Hc Hes Hnamed)
    as (e & Hin & Hrd & Hk & Href).
  destruct (insert_lookup es (key_of (_col_map st) (_sheet st) row))
    as [(_ & _ & Hall)|(es1 & e' & es2 & Hsplit & Hk' & Hall & Hr' & Hf')].
  { rewrite Forall_forall in Hall. destruct (Hall e Hin Hk). }
  assert (Hin' : e' ∈ es) by (rewrite Hsplit; set_solver).
  destruct (entry_named _ _ _ _ _ _ _ _ _ _ _ Hc Hes Hin')
    as (Hrow' & Hb' & Hkey' & _ & _ & Hrd').
  exists (row_index e'.2), e'.1.2, e'.2.
  split; [|split; [by split|split; [congruence|split]]].
  - destruct (Nat.le_gt_cases row (row_index e'.2)) as [|Hlt]; [done|].
    exfalso. rewrite Hsplit in Hes.
    destruct (collect_split _ _ _ _ _ _ _ _ _ _ _ _ Hc Hes)
      as (rows1 & rows2 & Hrows & _ & Hes2).
    assert (Hin2 : row ∈ rows2).
    { apply (seq_split _ _ _ _ _ Hrows); [|lia].
      rewrite <- Hrows. apply Hnamed. }
    pose proof (collect_mem _ _ _ _ _ _ Hes2 Hin2 Hrd) as He2.
    rewrite Forall_forall in Hall. destruct (Hall e He2 Hk).
  - rewrite Hrd'. by destruct e' as [[k rec] ref]; cbn in *; subst k.
  - by rewrite Hr.
Qed.

(** When several rows carry the same medicine (names equal once trimmed
    and lower-cased) the last of them in the sheet wins: lookups give its
    record, and its stock cell is the one that a decrement writes. A name
    that no row carries is not found. *)
Theorem last_row_of_a_name_wins st q :
  consistent st ->
  let ws := _sheet st in
  let cm := _col_map st in
  let key := _normalize_name (CStr q) in
  (forall row,
     named cm ws row -> key_of cm ws row = key ->
     (forall row', named cm ws row' -> key_of cm ws row' = key ->
                   (row' <= row)%nat) ->
     exists rec cS,
       cm !! "Stock" = Some cS /\
       read_row cm ws row =
         Ok (Some (key, rec, {| row_index := row;
                                stock_cell_ref := (row, cS) |})) /\
       get_medicine st q = Some rec /\
       _row_refs st !! key =
         Some {| row_index := row; stock_cell_ref := (row, cS) |}) /\
  ((forall row, named cm ws row -> key_of cm ws row <> key) ->
   get_medicine st q = None).
Proof.
  intros Hcons ws cm key.
  destruct (consistent_rows _ Hcons)
    as (es & cN & cMG & cR & cS & cP & cA & Hc & Hes & Hn & Hr & Hf).
  fold ws cm in Hc, Hes.
  split.
  - intros row Hnamed Hkey Hmax.
    destruct (named_entry _ _ _ _ _ _ _ _ _ _ Hc Hes Hnamed)
      as (e & Hin & Hrd & Hk & Href).
    rewrite Hkey in Hk.
    exists e.1.2, cS. split; [apply Hc|].
    destruct (insert_lookup es key)
      as [(_ & _ & Hall)|(es1 & e' & es2 & Hsplit & Hk' & Hall & Hr' & Hf')].
    { rewrite Forall_forall in Hall. destruct (Hall e Hin Hk). }
    assert (Hin' : e' ∈ es) by (rewrite Hsplit; set_solver).
    destruct (entry_named _ _ _ _ _ _ _ _ _ _ _ Hc Hes Hin')
      as (Hrow' & Hb' & Hkey' & _ & _ & Hrd').
    assert (Hle : (row_index e'.2 <= row)%nat).
    { apply Hmax; [by split|congruence]. }
    assert (Heq : e' = e).
    { destruct (decide (row_index e'.2 = row)) as [E|NE].
      - rewrite E in Hrd'. congruence.
      - exfalso. rewrite Hsplit in Hes.
        destruct (collect_split _ _ _ _ _ _ _ _ _ _ _ _ Hc Hes)
          as (rows1 & rows2 & Hrows & _ & Hes2).
        assert (Hin2 : row ∈ rows2).
        { apply (seq_split _ _ _ _ _ Hrows); [|lia].
          rewrite <- Hrows. apply Hnamed. }
        pose proof (collect_mem _ _ _ _ _ _ Hes2 Hin2 Hrd) as He2.
        rewrite Forall_forall in Hall. destruct (Hall e He2 Hk). }
    subst e'. rewrite <- Href.
    split; [|split].
    + rewrite Hrd. by destruct e as [[k rec] ref]; cbn in *; subst k.
    + unfold get_medicine. fold key. by rewrite Hr.
    + by rewrite Hf.
  - intros Hnone. unfold get_medicine. fold key. rewrite Hr.
    destruct (insert_lookup es key)
      as [(Hnone' & _)|(es1 & e' & es2 & Hsplit & Hk' & _)]; [done|].
    assert (Hin' : e' ∈ es) by (rewrite Hsplit; set_solver).
    destruct (entry_named _ _ _ _ _ _ _ _ _ _ _ Hc Hes Hin')
      as (Hrow' & Hb' & Hkey' & _).
    destruct (Hnone (row_index e'.2)); [by split|congruence].
Qed.

Lemma collect_length cm cN cMG cR cS cP cA ws rows es :
  columns cm cN cMG cR cS cP cA ->
  collect cm ws rows = Ok es ->
  length es =
  length (filter (fun row => is_blank (field cm ws row "Medicine_Name") = false)
                 rows).
Proof.
  intros Hc. revert es. induction rows as [|r rows IH]; intros es; cbn [collect].
  - by intros [= <-].
  - destruct (read_row cm ws r) as [o|] eqn:Er;
      cbn [mbind result_bind bind]; [|done].
    destruct (collect cm ws rows) as [es'|] eqn:Ec;
      cbn [mbind result_bind bind]; [|done].
    intros [= <-].
    destruct (is_blank (field cm ws r "Medicine_Name")) eqn:Hb.
    + rewrite (read_row_unnamed _ _ _ _ _ _ _ _ _ Hc Hb) in Er.
      injection Er as <-. rewrite filter_cons_False by (by rewrite Hb).
      by apply IH.
    + destruct (read_row_named _ _ _ _ _ _ _ ws r Hc Hb)
        as [[_ [e He]]|[_ Hr]]; [|congruence].
      rewrite He in Er. injection Er as <-.
      rewrite filter_cons_True by done. cbn. f_equal. by apply IH.
Qed.

(** The names that the store hands to the completer and its lookup fit
    together: every name offered is found (under a record whose name is
    the same once trimmed and lower-cased), every record in the store is
    offered under its name, and there is one name per named row of the
    sheet, rows of the same medicine included. *)
Theorem names_and_lookup_agree st :
  consistent st ->
  (forall n, n ∈ get_all_names st ->
     exists r, get_medicine st n = Some r /\
       _normalize_name (CStr (name r)) = _normalize_name (CStr n)) /\
  (forall k r, _records st !! k = Some r -> name r ∈ get_all_names st) /\
  length (get_all_names st) =
  length (filter (fun row => is_blank (field (_col_map st) (_sheet st) row
                                         "Medicine_Name") = false)
                 (data_rows (_sheet st))).
Proof.
  intros Hcons.
  destruct (consistent_rows _ Hcons)
    as (es & cN & cMG & cR & cS & cP & cA & Hc & Hes & Hn & Hr & Hf).
  unfold get_all_names. split; [|split].
  - intros n Hin. rewrite Hn in Hin.
    apply list_elem_of_fmap in Hin as (e & -> & Hin).
    destruct (entry_named _ _ _ _ _ _ _ _ _ _ _ Hc Hes Hin)
      as (_ & _ & _ & Hkey & _).
    destruct (insert_lookup es e.1.1)
      as [(_ & _ & Hall)|(es1 & e' & es2 & Hsplit & Hk' & _ & Hr' & _)].
    { rewrite Forall_forall in Hall. by destruct (Hall e Hin). }
    assert (Hin' : e' ∈ es) by (rewrite Hsplit; set_solver).
    destruct (entry_named _ _ _ _ _ _ _ _ _ _ _ Hc Hes Hin')
      as (_ & _ & _ & Hkey' & _).
    exists e'.1.2. unfold get_medicine. rewrite <- Hkey, Hr, Hr'.
    split; [done|]. congruence.
  - intros k r Hlk. rewrite Hr in Hlk.
    destruct (insert_lookup es k)
      as [(Hnone & _)|(es1 & e' & es2 & Hsplit & Hk' & _ & Hr' & _)];
      [congruence|].
    rewrite Hr' in Hlk. injection Hlk as <-. rewrite Hn.
    apply (list_elem_of_fmap_2 (fun e : entry => name e.1.2)).
    rewrite Hsplit. set_solver.
  - rewrite Hn, length_map. by eapply collect_length.
Qed.

End Rows.

Section Decrements.
Import Xlsx DataStore Spec Vocab.
Context `{Runtime}.

(** The store after a successful decrement. *)
Lemma reduce_stock_cases st n q :
  consistent st ->
  let k := _normalize_name (CStr n) in
  (reduce_stock st n q).1 = st /\
  (q <= 0 \/ _records st !! k = None \/
   exists rec, _records st !! k = Some rec /\ stock rec < q) \/
  exists rec ref,
    0 < q /\ _records st !! k = Some rec /\ q <= stock rec /\
    _row_refs st !! k = Some ref /\
    reduce_stock st n q =
      ({| sheet_name := sheet_name st;
          _workbook :=
            <[sheet_name st :=
                set_value (_sheet st) (stock_cell_ref ref)
                          (CInt (stock rec - q))]> (_workbook st);
          _col_map := _col_map st; _names := _names st;
          _records := <[k := set_stock rec (stock rec - q)]> (_records st);
          _row_refs := _row_refs st |}, Ok tt).
Proof.
  intros Hcons k. unfold reduce_stock. fold k.
  destruct (Z.leb_spec q 0) as [Hq|Hq]; [left; split; [done|tauto]|].
  destruct (_records st !! k) as [rec|] eqn:Hrec; [|left; split; [done|tauto]].
  destruct (Z.ltb_spec (stock rec - q) 0) as [Hlt|Hge].
  { left. split; [done|]. right. right. exists rec. split; [done|lia]. }
  destruct (consistent_key _ _ _ Hcons Hrec) as [_ [ref Href]].
  right. exists rec, ref. rewrite Href. repeat split; try done. lia.
Qed.

Lemma set_value_twice ws ref v1 v2 :
  set_value (set_value ws ref v1) ref v2 = set_value ws ref v2.
Proof. unfold set_value. cbn. by rewrite insert_insert_eq. Qed.

Lemma set_value_commute ws ref1 ref2 v1 v2 :
  ref1 <> ref2 ->
  set_value (set_value ws ref1 v1) ref2 v2
  = set_value (set_value ws ref2 v2) ref1 v1.
Proof. intros Hne. unfold set_value. cbn. by rewrite insert_insert_ne. Qed.

(** Two decrements of the same medicine, one after the other, are one
    decrement by the sum. *)
Theorem reduce_stock_twice_is_once st n1 n2 q1 q2 rec :
  consistent st ->
  get_medicine st n1 = Some rec ->
  _normalize_name (CStr n2) = _normalize_name (CStr n1) ->
  0 < q1 -> 0 < q2 -> q1 + q2 <= stock rec ->
  reduce_stock (reduce_stock st n1 q1).1 n2 q2 = reduce_stock st n1 (q1 + q2).
Proof.
  intros Hcons Hget Hkey Hq1 Hq2 Hsum. unfold get_medicine in Hget.
  destruct (consistent_key _ _ _ Hcons Hget) as [_ [ref Href]].
  unfold reduce_stock at 2 3. rewrite Hget, Href.
  rewrite (proj2 (Z.leb_gt q1 0) Hq1), (proj2 (Z.leb_gt (q1 + q2) 0)) by lia.
  rewrite (proj2 (Z.ltb_ge (stock rec - q1) 0)) by lia.
  rewrite (proj2 (Z.ltb_ge (stock rec - (q1 + q2)) 0)) by lia.
  cbn [fst]. unfold reduce_stock, _sheet. rewrite Hkey.
  cbn [sheet_name _workbook _col_map _names _records _row_refs].
  rewrite (proj2 (Z.leb_gt q2 0) Hq2), !lookup_insert_eq, Href.
  cbn [stock set_stock default].
  rewrite (proj2 (Z.ltb_ge (stock rec - q1 - q2) 0)) by lia.
  rewrite !insert_insert_eq. cbn [default from_option id].
  rewrite set_value_twice. unfold set_stock. cbn [name mg rack stock price].
  replace (stock rec - q1 - q2) with (stock rec - (q1 + q2)) by lia.
  reflexivity.
Qed.

Lemma refs_of_two_keys st k1 k2 ref1 ref2 :
  consistent st -> k1 <> k2 ->
  _row_refs st !! k1 = Some ref1 -> _row_refs st !! k2 = Some ref2 ->
  stock_cell_ref ref1 <> stock_cell_ref ref2.
Proof.
  intros Hcons Hne H1 H2.
  destruct (consistent_rows _ Hcons)
    as (es & cN & cMG & cR & cS & cP & cA & Hc & Hes & Hn & Hr & Hf).
  rewrite Hf in H1, H2.
  destruct (insert_lookup es k1)
    as [(_ & Hn1 & _)|(a1 & e1 & b1 & Hs1 & Hk1 & _ & _ & Hf1)]; [congruence|].
  destruct (insert_lookup es k2)
    as [(_ & Hn2 & _)|(a2 & e2 & b2 & Hs2 & Hk2 & _ & _ & Hf2)]; [congruence|].
  assert (Hin1 : e1 ∈ es) by (rewrite Hs1; set_solver).
  assert (Hin2 : e2 ∈ es) by (rewrite Hs2; set_solver).
  destruct (entry_named _ _ _ _ _ _ _ _ _ _ _ Hc Hes Hin1)
    as (_ & _ & Hkey1 & _ & Hcell1 & _).
  destruct (entry_named _ _ _ _ _ _ _ _ _ _ _ Hc Hes Hin2)
    as (_ & _ & Hkey2 & _ & Hcell2 & _).
  rewrite H1 in Hf1. rewrite H2 in Hf2.
  injection Hf1 as ->. injection Hf2 as ->.
  rewrite Hcell1, Hcell2. intros [= Hrow]. apply Hne.
  by rewrite <- Hk1, <- Hk2, <- Hkey1, <- Hkey2, Hrow.
Qed.

(** Decrements of two different medicines can be made in either order:
    the store ends the same, whether they succeed or raise. *)
Theorem reduce_stock_commutes st n1 n2 q1 q2 :
  consistent st ->
  _normalize_name (CStr n1) <> _normalize_name (CStr n2) ->
  (reduce_stock (reduce_stock st n1 q1).1 n2 q2).1
  = (reduce_stock (reduce_stock st n2 q2).1 n1 q1).1.
Proof.
  intros Hcons Hne.
  set (k1 := _normalize_name (CStr n1)) in *.
  set (k2 := _normalize_name (CStr n2)) in *.
  assert (Hfail : forall st' n q,
            let k := _normalize_name (CStr n) in
            (q <= 0 \/ _records st' !! k = None \/
             exists rec, _records st' !! k = Some rec /\ stock rec < q) ->
            (reduce_stock st' n q).1 = st').
  { intros st' n q k Hf. unfold reduce_stock. fold k.
    destruct (Z.leb_spec q 0) as [Hq|Hq]; [done|].
    destruct Hf as [?|[->|(rec & -> & Hlt)]]; [lia|done|].
    by rewrite (proj2 (Z.ltb_lt (stock rec - q) 0)) by lia. }
  destruct (reduce_stock_cases st n1 q1 Hcons)
    as [[E1 F1]|(rec1 & ref1 & Hq1 & Hr1 & Hs1 & Hf1 & E1)];
  destruct (reduce_stock_cases st n2 q2 Hcons)
    as [[E2 F2]|(rec2 & ref2 & Hq2 & Hr2 & Hs2 & Hf2 & E2)];
    fold k1 in F1 || fold k1 in Hr1, Hf1, E1;
    fold k2 in F2 || fold k2 in Hr2, Hf2, E2.
  - by rewrite E1, E2, E1.
  - rewrite E1, E2. cbn [fst]. symmetry. apply Hfail. fold k1.
    cbn [_records]. rewrite lookup_insert_ne by done. exact F1.
  - rewrite E2, E1. cbn [fst]. apply Hfail. fold k2.
    cbn [_records]. rewrite lookup_insert_ne by done. exact F2.
  - rewrite E1, E2. cbn [fst]. unfold reduce_stock, _sheet. fold k1 k2.
    cbn [sheet_name _workbook _col_map _names _records _row_refs].
    rewrite (proj2 (Z.leb_gt q1 0) Hq1), (proj2 (Z.leb_gt q2 0) Hq2).
    rewrite !lookup_insert_eq.
    rewrite (lookup_insert_ne _ k1 k2), (lookup_insert_ne _ k2 k1) by done.
    rewrite Hr1, Hr2, Hf1, Hf2. cbn [default from_option id].
    rewrite (proj2 (Z.ltb_ge (stock rec1 - q1) 0)) by lia.
    rewrite (proj2 (Z.ltb_ge (stock rec2 - q2) 0)) by lia.
    cbn [fst]. rewrite !insert_insert_eq.
    rewrite (insert_insert_ne _ k2 k1) by done. f_equal. f_equal.
    apply set_value_commute. by eapply refs_of_two_keys.
Qed.






End Decrements.

(* ===================================================================== *)
(** * The window over a whole session *)
(* ===================================================================== *)

Section Frames.
Import Xlsx Gui Spec Vocab.
Import DataStore(ExcelDataStore, record, get_medicine, name, stock).
Import UiMain.
Context `{Runtime}.

Ltac window w := destruct w as [? ? ? ? [? ? ? ? ? ? ? ? ? ? ?]].

Lemma on_ui_added f w : added_qty (on_ui f w) = added_qty w.
Proof. by destruct w. Qed.

Lemma on_ui_selected f w : selected_name (on_ui f w) = selected_name w.
Proof. by destruct w. Qed.

(** What choosing a medicine leaves alone. *)
Lemma select_medicine_frame w q :
  let w' := _select_medicine w q in
  store w' = store w /\ invoice w' = invoice w /\ added_qty w' = added_qty w /\
  qty_spin (ui w') = qty_spin (ui w) /\
  add_button (ui w') = add_button (ui w) /\
  print_button (ui w') = print_button (ui w) /\
  search_input (ui w') = search_input (ui w).
Proof.
  cbn zeta. unfold _select_medicine.
  destruct (store w) as [st|] eqn:Hst; [|by rewrite Hst].
  destruct (DataStore.get_medicine st q); window w; cbn in *; by subst.
Qed.

Lemma clear_selection_frame w :
  let w' := _clear_selection w in
  store w' = store w /\ invoice w' = invoice w /\ added_qty w' = added_qty w /\
  qty_spin (ui w') = qty_spin (ui w) /\
  add_button (ui w') = add_button (ui w) /\
  print_button (ui w') = print_button (ui w) /\
  search_input (ui w') = search_input (ui w) /\
  selected_name w' = None.
Proof. by window w. Qed.

Lemma on_search_text_frame w text :
  let w' := _on_search_text w text in
  store w' = store w /\ invoice w' = invoice w /\ added_qty w' = added_qty w /\
  qty_spin (ui w') = qty_spin (ui w) /\
  add_button (ui w') = add_button (ui w) /\
  print_button (ui w') = print_button (ui w).
Proof.
  cbn zeta. unfold _on_search_text.
  destruct (String.eqb text "").
  { destruct (clear_selection_frame w) as (? & ? & ? & ? & ? & ? & _).
    repeat split; congruence. }
  destruct (store w) as [st|] eqn:Hst; [|done].
  destruct (DataStore.get_medicine st text) as [r|]; [|done].
  destruct (select_medicine_frame w (name r)) as (? & ? & ? & ? & ? & ? & _).
  repeat split; congruence.
Qed.

Lemma on_search_enter_frame w :
  let w' := (_on_search_enter w).1 in
  store w' = store w /\ invoice w' = invoice w /\ added_qty w' = added_qty w /\
  qty_spin (ui w') = qty_spin (ui w) /\
  add_button (ui w') = add_button (ui w) /\
  print_button (ui w') = print_button (ui w).
Proof.
  cbn zeta. unfold _on_search_enter.
  destruct (String.eqb _ ""); [done|].
  destruct (store w) as [st|] eqn:Hst; [|done].
  destruct (DataStore.get_medicine st _) as [r|]; cbn [fst].
  - destruct (select_medicine_frame w (name r)) as (? & ? & ? & ? & ? & ? & _).
    repeat split; congruence.
  - destruct (clear_selection_frame w) as (? & ? & ? & ? & ? & ? & _).
    repeat split; congruence.
Qed.

(** Choosing a medicine selects a name that the store finds. *)
Lemma select_medicine_selection w q :
  store_consistent w -> selection_found w ->
  selection_found (_select_medicine w q).
Proof.
  intros Hcons Hsel. unfold _select_medicine.
  destruct (store w) as [st|] eqn:Hst; [|done].
  destruct (get_medicine st q) as [r|] eqn:Hget.
  - intros n Hn. exists st, r.
    assert (Hn' : n = name r) by (window w; cbn in *; congruence).
    subst n. split; [by window w|].
    split; [|done]. eapply get_medicine_by_name; [by apply Hcons|done].
  - intros n Hn. by window w.
Qed.

Lemma clear_selection_selection w : selection_found (_clear_selection w).
Proof. intros n Hn. by window w. Qed.

(** What an add does to the invoice and the ledger, when it does
    anything. *)
Lemma add_to_invoice_shape w :
  let '(w', out) := _add_to_invoice w in
  (w' = w /\ out <> []) \/
  exists st sel rec,
    store w = Some st /\ selected w = Some sel /\
    get_medicine st sel = Some rec /\
    _available_stock w (name rec) >= qty_spin (ui w) /\
    out = [] /\
    w' = _select_medicine
           (_update_totals (_refresh_table
              (with_added_qty
                 (<[name rec := default 0 (added_qty w !! name rec)
                                + qty_spin (ui w)]> (added_qty w))
                 (with_invoice
                    (Models.add_item (invoice w)
                       {| Models.name := name rec; Models.mg := DataStore.mg rec;
                          Models.rack := DataStore.rack rec;
                          Models.unit_price := DataStore.price rec;
                          Models.qty := qty_spin (ui w) |}) w))))
           (name rec).
Proof.
  unfold _add_to_invoice.
  destruct (store w) as [st|] eqn:Hst; [|by left].
  destruct (selected w) as [sel|] eqn:Hsel; [|by left].
  destruct (get_medicine st sel) as [rec|] eqn:Hget; [|by left].
  destruct (Z.ltb_spec (_available_stock w (name rec)) (qty_spin (ui w)));
    [by left|].
  right. exists st, sel, rec.
  split; [done|]. split; [done|]. split; [done|]. split; [lia|].
  split; [done|]. by destruct w.
Qed.

Lemma add_to_invoice_frame w :
  let w' := (_add_to_invoice w).1 in
  store w' = store w /\ qty_spin (ui w') = qty_spin (ui w) /\
  add_button (ui w') = add_button (ui w) /\
  print_button (ui w') = print_button (ui w).
Proof.
  cbn zeta. pose proof (add_to_invoice_shape w) as Hs.
  destruct (_add_to_invoice w) as [w' out]. cbn [fst].
  destruct Hs as [[-> _]|(st & sel & rec & _ & _ & _ & _ & _ & ->)]; [done|].
  match goal with |- context [_select_medicine ?x ?q] =>
    destruct (select_medicine_frame x q) as (-> & _ & _ & -> & -> & -> & _)
  end.
  by window w.
Qed.

End Frames.

Section Reload.
Import Xlsx Gui Spec Vocab.
Import DataStore(ExcelDataStore, record, get_medicine, name, stock).
Import UiMain.
Context `{Runtime}.

Ltac window w := destruct w as [? ? ? ? [? ? ? ? ? ? ? ? ? ? ?]].

Lemma init_sheet_name d sheet st :
  DataStore.__init__ d sheet = Ok st -> DataStore.sheet_name st = sheet.
Proof.
  unfold DataStore.__init__.
  destruct (load_workbook d) as [wb|]; cbn [mbind result_bind bind]; [|done].
  destruct (wb !! sheet); [|done].
  destruct (DataStore._detect_columns _); cbn [mbind result_bind bind]; [|done].
  destruct (DataStore._read_rows _ _) as [[[? ?] ?]|];
    cbn [mbind result_bind bind]; [|done].
  by intros [= <-].
Qed.

Lemma load_store_eq w d :
  _load_store w d =
  match DataStore.__init__ d Config.EXCEL_SHEET_NAME with
  | Ok st =>
      (on_ui (with_name_model (DataStore.get_all_names st))
             (with_store (Some st) w), [])
  | Raise e =>
      (on_ui (fun u => with_name_model []
                (with_print_button false (with_add_button false u))) w,
       [MessageBox Critical "Excel Error" (Failed "Failed to load Excel" e)])
  end.
Proof.
  unfold _load_store.
  destruct (DataStore.__init__ d Config.EXCEL_SHEET_NAME) as [st|e] eqn:Hinit;
    [|done].
  by rewrite (consistent_self_check _ (init_consistent _ _ _ Hinit)).
Qed.

Lemma clear_invoice_eq w d :
  let w1 :=
    _clear_selection
      (_update_totals
         (on_ui (with_discount_spin zero)
            (on_ui (with_table [])
               (with_added_qty ∅ (with_invoice Models.empty w))))) in
  _clear_invoice w d =
  match store w with
  | Some _ => _load_store w1 d
  | None => (w1, [])
  end.
Proof. cbn zeta. unfold _clear_invoice. by window w. Qed.

(** The window after [_clear_invoice]. *)
Lemma clear_invoice_fields w d :
  let '(w', out) := _clear_invoice w d in
  Models.items (invoice w') = [] /\ added_qty w' = ∅ /\
  selected_name w' = None /\ details (ui w') = None /\
  qty_spin (ui w') = qty_spin (ui w) /\
  discount_spin (ui w') = zero /\ table (ui w') = [] /\
  search_input (ui w') = search_input (ui w) /\
  match store w with
  | None =>
      store w' = None /\ out = [] /\
      add_button (ui w') = add_button (ui w) /\
      print_button (ui w') = print_button (ui w)
  | Some st =>
      match DataStore.__init__ d Config.EXCEL_SHEET_NAME with
      | Ok st' =>
          store w' = Some st' /\ out = [] /\
          add_button (ui w') = add_button (ui w) /\
          print_button (ui w') = print_button (ui w) /\
          name_model (ui w') = DataStore.get_all_names st'
      | Raise e =>
          store w' = Some st /\
          out = [MessageBox Critical "Excel Error"
                   (Failed "Failed to load Excel" e)] /\
          add_button (ui w') = false /\ print_button (ui w') = false /\
          name_model (ui w') = []
      end
  end.
Proof.
  rewrite clear_invoice_eq. cbn zeta.
  destruct (store w) as [st|] eqn:Hst.
  - rewrite load_store_eq.
    destruct (DataStore.__init__ d Config.EXCEL_SHEET_NAME) as [st'|e];
      window w; cbn in *; subst; by repeat split.
  - window w; cbn in *; subst; by repeat split.
Qed.

End Reload.

Section Sound.
Import Xlsx Gui Spec Vocab.
Import DataStore(ExcelDataStore, record, get_medicine, name, stock).
Import UiMain.
Context `{Runtime}.

Ltac window w := destruct w as [? ? ? ? [? ? ? ? ? ? ? ? ? ? ?]].

Lemma reduce_stock_sheet st n q :
  DataStore.sheet_name (DataStore.reduce_stock st n q).1 = DataStore.sheet_name st.
Proof.
  unfold DataStore.reduce_stock. destruct (q <=? 0); [done|].
  destruct (DataStore._records st !! _) as [rec|]; [|done].
  destruct (stock rec - q <? 0); [done|].
  by destruct (DataStore._row_refs st !! _).
Qed.

Lemma reduce_all_sheet st its :
  DataStore.sheet_name (reduce_all st its).1 = DataStore.sheet_name st.
Proof.
  revert st. induction its as [|it its IH]; intros st; cbn [reduce_all]; [done|].
  pose proof (reduce_stock_sheet st (Models.name it) (Models.qty it)) as Hs.
  destruct (DataStore.reduce_stock st (Models.name it) (Models.qty it))
    as [st1 [[]|e]]; cbn [fst] in *; [|done].
  by rewrite IH.
Qed.

Lemma found_by_name st n :
  consistent st ->
  (exists k r, DataStore._records st !! k = Some r /\ name r = n) ->
  exists r, get_medicine st n = Some r /\ name r = n.
Proof.
  intros Hcons (k & r & Hk & Hn). exists r. split; [|done].
  destruct (consistent_key _ _ _ Hcons Hk) as [-> _].
  unfold get_medicine. by rewrite <- Hn.
Qed.

Lemma selection_found_reduced w st0 its :
  store w = Some st0 -> consistent st0 -> selection_found w ->
  selection_found (with_store (Some (reduce_all st0 its).1) w).
Proof.
  intros Hst Hcons Hsel n Hn.
  assert (Hn' : selected_name w = Some n) by (by window w).
  destruct (Hsel n Hn') as (st & r & Hst' & Hget & Hname).
  rewrite Hst in Hst'. injection Hst' as <-.
  destruct (found_by_name (reduce_all st0 its).1 n) as (r' & Hget' & Hname').
  { by apply reduce_all_keeps_consistent. }
  { apply reduce_all_names. unfold get_medicine in Hget. eauto. }
  exists (reduce_all st0 its).1, r'. split; [by window w|done].
Qed.

Lemma on_ui_selection f w : selection_found w -> selection_found (on_ui f w).
Proof.
  intros Hsel n Hn. destruct (Hsel n) as (st & r & ? & ? & ?); [by destruct w|].
  exists st, r. by destruct w.
Qed.

Lemma on_ui_consistent f w : store_consistent w -> store_consistent (on_ui f w).
Proof. intros Hc st Hst. apply Hc. by destruct w. Qed.

Lemma on_search_text_selection w text :
  store_consistent w -> selection_found w ->
  selection_found (_on_search_text w text).
Proof.
  intros Hcons Hsel. unfold _on_search_text.
  destruct (String.eqb text ""); [apply clear_selection_selection|].
  destruct (store w) as [st|] eqn:Hst; [|done].
  destruct (get_medicine st text); [|done].
  by apply select_medicine_selection.
Qed.

Lemma on_search_enter_selection w :
  store_consistent w -> selection_found w ->
  selection_found (_on_search_enter w).1.
Proof.
  intros Hcons Hsel. unfold _on_search_enter.
  destruct (String.eqb _ ""); [done|].
  destruct (store w) as [st|] eqn:Hst; [|done].
  destruct (get_medicine st _); cbn [fst].
  - by apply select_medicine_selection.
  - apply clear_selection_selection.
Qed.

(** A step that changes neither the store, nor the invoice, nor the
    ledger, nor the buttons. *)
Lemma sound_view w w' :
  sound w ->
  store w' = store w -> invoice w' = invoice w -> added_qty w' = added_qty w ->
  QTY_MIN <= qty_spin (ui w') <= QTY_MAX ->
  add_button (ui w') = add_button (ui w) ->
  print_button (ui w') = print_button (ui w) ->
  selection_found w' -> sound w'.
Proof.
  intros [S1 S2 S3 S4 S5 S6 S7 S8] Hst Hinv Hadd Hspin Hab Hpb Hsel.
  constructor.
  - intros st. rewrite Hst. apply S1.
  - intros st. rewrite Hst. apply S2.
  - by eapply same_invoice_of_store.
  - intros n. rewrite Hadd, Hinv. apply S4.
  - intros n q. rewrite Hadd. apply S5.
  - done.
  - done.
  - rewrite Hst, Hinv, Hab, Hpb. apply S8.
Qed.

Lemma sound_cleared w' :
  store_consistent w' ->
  (forall st, store w' = Some st ->
     DataStore.sheet_name st = Config.EXCEL_SHEET_NAME) ->
  Models.items (invoice w') = [] -> added_qty w' = ∅ ->
  selected_name w' = None ->
  QTY_MIN <= qty_spin (ui w') <= QTY_MAX ->
  (store w' = None ->
   add_button (ui w') = false /\ print_button (ui w') = false) ->
  sound w'.
Proof.
  intros Hc Hs Hinv Hadd Hsel Hspin Hno. constructor; try done.
  - by apply empty_invoice_of_store.
  - intros n. by rewrite Hadd, Hinv, lookup_empty.
  - intros n q. by rewrite Hadd, lookup_empty.
  - intros n. by rewrite Hsel.
  - intros Hnone. split; [done|]. by apply Hno.
Qed.

Lemma clear_invoice_sound w d :
  sound w -> sound (_clear_invoice w d).1.
Proof.
  intros Hw. pose proof (clear_invoice_fields w d) as Hf.
  pose proof (clear_invoice_consistent w d (sound_store _ Hw)) as Hc.
  destruct (_clear_invoice w d) as [w' out]. cbn [fst] in *.
  destruct Hf as (Hinv & Hadd & Hsel & _ & Hspin & _ & _ & _ & Hstore).
  apply sound_cleared; try done.
  - intros st' Hst'. destruct (store w) as [st|] eqn:Hst.
    + destruct (DataStore.__init__ d Config.EXCEL_SHEET_NAME) as [st1|e] eqn:Hi.
      * destruct Hstore as (Hs & _). rewrite Hs in Hst'. injection Hst' as <-.
        by eapply init_sheet_name.
      * destruct Hstore as (Hs & _). rewrite Hs in Hst'. injection Hst' as <-.
        by apply (sound_sheet _ Hw).
    + destruct Hstore as (Hs & _). congruence.
  - rewrite Hspin. apply (sound_spin _ Hw).
  - intros Hnone. destruct (store w) as [st|] eqn:Hst.
    + destruct (DataStore.__init__ d Config.EXCEL_SHEET_NAME) as [st1|e];
        destruct Hstore as (Hs & ?); [congruence|tauto].
    + destruct Hstore as (_ & _ & -> & ->).
      by destruct (sound_no_store _ Hw Hst) as (_ & ? & ?).
Qed.

Lemma add_to_invoice_sound w :
  sound w -> sound (_add_to_invoice w).1.
Proof.
  intros Hw. pose proof (add_to_invoice_shape w) as Hs.
  pose proof (add_to_invoice_frame w) as (Hst' & Hspin' & Hab' & Hpb').
  assert (Hcons' : store_consistent (_add_to_invoice w).1)
    by (eapply same_store_consistent; [exact Hst'|apply Hw]).
  destruct (_add_to_invoice w) as [w' out]. cbn [fst] in *.
  destruct Hs as [[-> _]|(st & sel & rec & Hst & Hsel & Hget & Havail & _ & Hw')];
    [done|].
  set (q := qty_spin (ui w)) in *.
  assert (Hq : 1 <= q) by (pose proof (sound_spin _ Hw); unfold QTY_MIN in *; lia).
  assert (Hadded : added_qty w' =
            <[name rec := default 0 (added_qty w !! name rec) + q]> (added_qty w)).
  { rewrite Hw'.
    match goal with |- context [_select_medicine ?x ?n] =>
      destruct (select_medicine_frame x n) as (_ & _ & -> & _) end.
    by window w. }
  assert (Hitems : invoice w' =
            Models.add_item (invoice w)
              {| Models.name := name rec; Models.mg := DataStore.mg rec;
                 Models.rack := DataStore.rack rec;
                 Models.unit_price := DataStore.price rec; Models.qty := q |}).
  { rewrite Hw'.
    match goal with |- context [_select_medicine ?x ?n] =>
      destruct (select_medicine_frame x n) as (_ & -> & _) end.
    by window w. }
  constructor; try done.
  - intros st1. rewrite Hst'. apply (sound_sheet _ Hw).
  - destruct (sound_invoice _ Hw) as [Hnd Hnames]. unfold invoice_of_store.
    rewrite Hitems, Hst', Hst. cbn [Models.items Models.add_item].
    rewrite add_item_to_names. cbn [Models.name].
    assert (Hold : forall n, n ∈ map Models.name (Models.items (invoice w)) ->
              exists k r, DataStore._records st !! k = Some r /\ name r = n).
    { intros n Hn. destruct Hnames as [Hempty|(st0 & Hst0 & Hall)].
      - rewrite Hempty in Hn. by apply elem_of_nil in Hn.
      - rewrite Hst in Hst0. injection Hst0 as <-. by apply Hall. }
    case_bool_decide as Hin.
    + split; [done|]. right. eauto.
    + split.
      * apply NoDup_app. split; [done|]. split; [|apply NoDup_singleton].
        intros x Hx ->%list_elem_of_singleton. done.
      * right. exists st. split; [done|].
        intros n [Hn| ->%list_elem_of_singleton]%elem_of_app; [by apply Hold|].
        unfold get_medicine in Hget. eauto.
  - intros n. rewrite Hadded, Hitems. cbn [Models.items Models.add_item].
    rewrite qty_of_add_item_to. cbn [Models.name Models.qty].
    destruct (String.eqb (name rec) n) eqn:E.
    + apply String.eqb_eq in E. subst n. rewrite lookup_insert_eq.
      by rewrite (sound_ledger _ Hw).
    + apply String.eqb_neq in E. rewrite lookup_insert_ne by done.
      apply (sound_ledger _ Hw).
  - intros n v. rewrite Hadded.
    destruct (decide (name rec = n)) as [<-|Hne].
    + rewrite lookup_insert_eq. intros [= <-].
      destruct (added_qty w !! name rec) as [v0|] eqn:E; cbn; [|lia].
      pose proof (sound_entries _ Hw _ _ E). lia.
    + rewrite lookup_insert_ne by done. apply (sound_entries _ Hw).
  - rewrite Hspin'. apply (sound_spin _ Hw).
  - rewrite Hw'. apply select_medicine_selection.
    + intros st1 Hst1. apply (sound_store _ Hw). by window w.
    + intros n Hn. destruct (sound_selection _ Hw n) as (st1 & r & ? & ? & ?);
        [by window w|].
      exists st1, r. by window w.
  - rewrite Hst', Hst. done.
Qed.

End Sound.

Section Checkout.
Import Xlsx Gui Spec Vocab.
Import DataStore(ExcelDataStore, record, get_medicine, name, stock).
Import UiMain.
Context `{Runtime}.

Ltac window w := destruct w as [? ? ? ? [? ? ? ? ? ? ? ? ? ? ?]].




(** [_on_print] with a store, lines and a printer, as far as the loop. *)
Lemma on_print_eq w d st :
  store w = Some st -> Models.items (invoice w) <> [] ->
  _on_print w d true =
  let '(st1, r) := reduce_all st (Models.items (invoice w)) in
  let w1 := with_store (Some st1) w in
  match r with
  | Raise exc =>
      (w1, d, [PrintJob (_build_receipt w);
               MessageBox Critical "Excel Error"
                 (Failed "Failed to update stock" exc)])
  | Ok _ =>
      let '(d1, saved) := DataStore.save d st1 in
      match saved with
      | Ok _ =>
          ((_clear_invoice w1 d1).1, d1,
           [PrintJob (_build_receipt w);
            MessageBox Information "Printed"
              (Text "Receipt sent to printer and stock updated.")]
           ++ (_clear_invoice w1 d1).2)
      | Raise exc =>
          (w1, d1, [PrintJob (_build_receipt w);
                    MessageBox Critical "Excel Error"
                      (Failed "Failed to update stock" exc)])
      end
  end.
Proof.
  intros Hst Hits. unfold _on_print. rewrite Hst.
  destruct (Models.items (invoice w)) as [|it its] eqn:Hi; [done|].
  cbn [negb]. destruct (reduce_all st (it :: its)) as [st1 [[]|e]]; [|done].
  destruct (DataStore.save d st1) as [d1 [[]|e]]; [|done].
  by destruct (_clear_invoice _ _).
Qed.

(** The window after the loop, whether or not the loop succeeded. *)
Lemma sound_reduced w st :
  sound w -> store w = Some st ->
  sound (with_store (Some (reduce_all st (Models.items (invoice w))).1) w).
Proof.
  intros Hw Hst.
  set (st1 := (reduce_all st (Models.items (invoice w))).1).
  pose proof (reduce_all_keeps_consistent st (Models.items (invoice w))
                (sound_store _ Hw _ Hst)) as Hcons1. fold st1 in Hcons1.
  constructor.
  - intros st'. window w. cbn. by intros [= <-].
  - intros st'. window w. cbn. intros [= <-]. subst st1.
    rewrite reduce_all_sheet. by apply (sound_sheet _ Hw).
  - destruct (sound_invoice _ Hw) as [Hnd Hnames]. split; [by window w|].
    destruct Hnames as [Hempty|(st0 & Hst0 & Hall)]; [left; by window w|].
    right. exists st1. split; [by window w|].
    rewrite Hst in Hst0. injection Hst0 as <-.
    intros n Hn. apply reduce_all_names. apply Hall. by window w.
  - intros n. pose proof (sound_ledger _ Hw n). by window w.
  - intros n q. pose proof (sound_entries _ Hw n q). by window w.
  - pose proof (sound_spin _ Hw). by window w.
  - apply selection_found_reduced; [done|by apply (sound_store _ Hw)|apply Hw].
  - by window w.
Qed.

Lemma on_print_sound w d printer_valid :
  sound w -> sound (_on_print w d printer_valid).1.1.
Proof.
  intros Hw. destruct printer_valid.
  2:{ pose proof (on_print_printer_invalid w d) as Hp.
      destruct (_on_print w d false) as [[w' d'] out]. by destruct Hp as [-> _]. }
  destruct (store w) as [st|] eqn:Hst.
  2:{ unfold _on_print. by rewrite Hst. }
  destruct (Models.items (invoice w)) as [|it its] eqn:Hits.
  { unfold _on_print. by rewrite Hst, Hits. }
  rewrite (on_print_eq w d st Hst) by (by rewrite Hits).
  pose proof (sound_reduced w st Hw Hst) as Hw1. rewrite Hits in *.
  destruct (reduce_all st (it :: its)) as [st1 [[]|e]]; cbn [fst] in *; [|done].
  destruct (DataStore.save d st1) as [d1 [[]|e]]; cbn [fst]; [|done].
  by apply clear_invoice_sound.
Qed.

(** Whatever the user does, the window stays sound. *)
Lemma handle_sound w d ev : sound w -> sound (handle w d ev).1.1.
Proof.
  intros Hw. destruct ev as [text| |nm|v|v|s|s| |pv|]; cbn [handle fst].
  - destruct (on_search_text_frame (on_ui (with_search_input text) w) text)
      as (Hs & Hi & Ha & Hq & Hab & Hpb).
    apply (sound_view w); try done.
    + rewrite Hs. by destruct w.
    + rewrite Hi. by destruct w.
    + rewrite Ha. by destruct w.
    + rewrite Hq. pose proof (sound_spin _ Hw). by window w.
    + rewrite Hab. by window w.
    + rewrite Hpb. by window w.
    + apply on_search_text_selection.
      * apply on_ui_consistent, Hw.
      * apply on_ui_selection, Hw.
  - destruct (on_search_enter_frame w) as (Hs & Hi & Ha & Hq & Hab & Hpb).
    pose proof (on_search_enter_selection w (sound_store _ Hw)
                  (sound_selection _ Hw)) as Hsel.
    destruct (_on_search_enter w) as [w' out]. cbn [fst] in *.
    apply (sound_view w); try done. rewrite Hq. apply Hw.
  - destruct (select_medicine_frame w nm) as (Hs & Hi & Ha & Hq & Hab & Hpb & _).
    apply (sound_view w); try done.
    + rewrite Hq. apply Hw.
    + apply select_medicine_selection; apply Hw.
  - apply (sound_view w); try done; try (by window w).
    + assert (Hq : qty_spin (ui (on_ui (with_qty_spin (spin_set QTY_MIN QTY_MAX v)) w))
                   = spin_set QTY_MIN QTY_MAX v) by (by window w).
      rewrite Hq. apply spin_set_range.
    + apply on_ui_selection, Hw.
  - apply (sound_view w); try done; try (by window w).
    + pose proof (sound_spin _ Hw). by window w.
    + unfold _update_totals. apply on_ui_selection, on_ui_selection, Hw.
  - apply (sound_view w); try done; try (by window w).
    + pose proof (sound_spin _ Hw). by window w.
    + apply on_ui_selection, Hw.
  - apply (sound_view w); try done; try (by window w).
    + pose proof (sound_spin _ Hw). by window w.
    + apply on_ui_selection, Hw.
  - destruct (add_button (ui w)); [|done].
    pose proof (add_to_invoice_sound w Hw).
    by destruct (_add_to_invoice w).
  - destruct (print_button (ui w)); [|done]. by apply on_print_sound.
  - pose proof (clear_invoice_sound w d Hw).
    by destruct (_clear_invoice w d).
Qed.

Lemma init_sound d0 : sound (__init__ d0).1.
Proof.
  unfold __init__. rewrite load_store_eq.
  destruct (DataStore.__init__ d0 Config.EXCEL_SHEET_NAME) as [st|e] eqn:Hinit;
    cbn [fst].
  - apply sound_cleared; try done.
    + intros st'. cbn. intros [= <-]. by eapply init_consistent.
    + intros st'. cbn. intros [= <-]. by eapply init_sheet_name.
  - apply sound_cleared; try done.
Qed.

Lemma run_sound w d evs : sound w -> sound (run w d evs).1.1.
Proof.
  revert w d. induction evs as [|ev evs IH]; intros w d Hw; cbn [run]; [done|].
  pose proof (handle_sound w d ev Hw) as Hstep.
  destruct (handle w d ev) as [[w1 d1] out1]. cbn [fst] in Hstep.
  specialize (IH w1 d1 Hstep).
  by destruct (run w1 d1 evs) as [[w2 d2] out2].
Qed.

End Checkout.

Section Ready.
Import Xlsx Gui Spec Vocab.
Import DataStore(ExcelDataStore, record, get_medicine, name, stock).
Import UiMain.
Context `{Runtime}.

Ltac window w := destruct w as [? ? ? ? [? ? ? ? ? ? ? ? ? ? ?]].













End Ready.

Section SessionTheorems.
Import Xlsx Gui Spec Vocab.
Import DataStore(ExcelDataStore, record, get_medicine, name, stock).
Import UiMain.
Context `{Runtime}.

Ltac window w := destruct w as [? ? ? ? [? ? ? ? ? ? ? ? ? ? ?]].

Ltac not_among :=
  let Hin := fresh "Hin" in
  intros Hin;
  repeat (apply elem_of_cons in Hin as [Hin|Hin]; [discriminate Hin|]);
  by apply elem_of_nil in Hin.

Lemma clear_invoice_outputs w d :
  (_clear_invoice w d).2 = [] \/
  exists e, (_clear_invoice w d).2 =
            [MessageBox Critical "Excel Error" (Failed "Failed to load Excel" e)].
Proof.
  pose proof (clear_invoice_fields w d) as Hf.
  destruct (_clear_invoice w d) as [w' out]. cbn [snd].
  destruct Hf as (_ & _ & _ & _ & _ & _ & _ & _ & Hs).
  destruct (store w).
  - destruct (DataStore.__init__ d Config.EXCEL_SHEET_NAME) as [st'|exc].
    + left. tauto.
    + right. exists exc. tauto.
  - left. tauto.
Qed.

Lemma run_outputs (P : output Models.InvoiceItem -> Prop) w d evs :
  (forall w d ev, sound w -> Forall P (handle w d ev).2) ->
  sound w -> Forall P (run w d evs).2.
Proof.
  intros Hstep. revert w d.
  induction evs as [|ev evs IH]; intros w d Hw; cbn [run]; [constructor|].
  pose proof (Hstep w d ev Hw) as Hout.
  pose proof (handle_sound w d ev Hw) as Hw1.
  destruct (handle w d ev) as [[w1 d1] out1]. cbn [fst snd] in *.
  specialize (IH w1 d1 Hw1).
  destruct (run w1 d1 evs) as [[w2 d2] out2]. cbn [snd] in *.
  by apply Forall_app.
Qed.

(** Whatever the user does from the start of the program on, the ledger
    and the invoice agree: the ledger holds an entry exactly for the names
    on the invoice, each line appears once, and the quantity of a line is
    the reservation of its name, at least 1. *)
Theorem ledger_and_invoice_agree d0 d evs :
  let w := (run (__init__ d0).1 d evs).1.1 in
  (forall n, added_qty w !! n = qty_of n (Models.items (invoice w))) /\
  NoDup (map Models.name (Models.items (invoice w))) /\
  (forall it, it ∈ Models.items (invoice w) ->
     1 <= Models.qty it /\ reserved w (Models.name it) = Models.qty it).
Proof.
  cbn zeta. pose proof (run_sound _ d evs (init_sound d0)) as Hw.
  set (w := (run (__init__ d0).1 d evs).1.1) in *.
  destruct (sound_invoice _ Hw) as [Hnd _].
  split; [apply Hw|]. split; [done|].
  intros it Hin.
  assert (Hled : added_qty w !! Models.name it = Some (Models.qty it)).
  { rewrite (sound_ledger _ Hw). by apply qty_of_elem. }
  split; [by apply (sound_entries _ Hw _ _ Hled)|].
  unfold reserved. by rewrite Hled.
Qed.

Lemma selected_is_selected_name w sel :
  selected w = Some sel -> selected_name w = Some sel.
Proof.
  unfold selected. destruct (selected_name w) as [n|]; [|done].
  destruct (String.eqb n ""); [done|]. by intros [= ->].
Qed.

Lemma handle_never_missing w d ev :
  sound w ->
  Forall (fun o => o <> MessageBox Warning "Missing"
                          (Text "Selected medicine not found."))
         (handle w d ev).2.
Proof.
  intros Hw. destruct ev as [text| |nm|v|v|s|s| |pv|]; cbn [handle snd];
    try by constructor.
  - unfold _on_search_enter. destruct (String.eqb _ ""); [by constructor|].
    destruct (store w) as [st|]; [|by constructor].
    destruct (get_medicine st _); by repeat constructor.
  - destruct (add_button (ui w)); [|by constructor].
    unfold _add_to_invoice.
    destruct (store w) as [st|] eqn:Hst; [|by repeat constructor].
    destruct (selected w) as [sel|] eqn:Hsel; [|by repeat constructor].
    destruct (sound_selection _ Hw sel (selected_is_selected_name _ _ Hsel))
      as (st' & r & Hst' & Hget & _).
    rewrite Hst in Hst'. injection Hst' as <-. rewrite Hget.
    destruct (_ <? _); by repeat constructor.
  - destruct (print_button (ui w)); [|by constructor].
    destruct pv.
    2:{ unfold _on_print. destruct (store w); [|by repeat constructor].
        destruct (Models.items _); by repeat constructor. }
    destruct (store w) as [st|] eqn:Hst.
    2:{ unfold _on_print. rewrite Hst. by repeat constructor. }
    destruct (Models.items (invoice w)) as [|it its] eqn:Hits.
    { unfold _on_print. rewrite Hst, Hits. by repeat constructor. }
    rewrite (on_print_eq w d st Hst) by (by rewrite Hits).
    destruct (reduce_all st _) as [st1 [[]|e]]; [|by repeat constructor].
    destruct (DataStore.save d st1) as [d1 [[]|e]]; [|by repeat constructor].
    cbn [snd].
    destruct (clear_invoice_outputs (with_store (Some st1) w) d1)
      as [->|[e ->]]; by repeat constructor.
  - destruct (clear_invoice_outputs w d) as [Ho|[e Ho]];
      destruct (_clear_invoice w d) as [w' out]; cbn [snd] in *; subst out;
      by repeat constructor.
Qed.

(** Whatever the user does from the start of the program on, the selected
    name is the name of a record that the store finds under it, so the
    warning "Selected medicine not found." of [_add_to_invoice] is never
    shown. *)
Theorem selected_medicine_is_always_found d0 d evs :
  let '(w, _, out) := run (__init__ d0).1 d evs in
  (forall n, selected_name w = Some n ->
     exists st r, store w = Some st /\ get_medicine st n = Some r /\
                  name r = n) /\
  MessageBox Warning "Missing" (Text "Selected medicine not found.") ∉ out.
Proof.
  pose proof (run_sound _ d evs (init_sound d0)) as Hw.
  pose proof (run_outputs _ _ d evs handle_never_missing (init_sound d0)) as Ho.
  destruct (run (__init__ d0).1 d evs) as [[w d'] out]. cbn [fst snd] in *.
  split; [apply Hw|]. intros Hin. rewrite Forall_forall in Ho.
  by apply (Ho _ Hin).
Qed.

End SessionTheorems.

Section CheckoutTheorems.
Import Xlsx Gui Spec Vocab.
Import DataStore(ExcelDataStore, record, get_medicine, name, stock).
Import UiMain.
Context `{Runtime}.

Ltac window w := destruct w as [? ? ? ? [? ? ? ? ? ? ? ? ? ? ?]].

(** A window without a store, its buttons disabled. *)
Lemma handle_without_store w d ev :
  store w = None -> Models.items (invoice w) = [] -> added_qty w = ∅ ->
  add_button (ui w) = false -> print_button (ui w) = false ->
  let '(w', d', out) := handle w d ev in
  store w' = None /\ Models.items (invoice w') = [] /\ added_qty w' = ∅ /\
  add_button (ui w') = false /\ print_button (ui w') = false /\
  d' = d /\ out = [].
Proof.
  intros Hst Hinv Ha Hab Hpb.
  destruct ev as [text| |nm|v|v|s|s| |pv|]; cbn [handle].
  - unfold _on_search_text. destruct (String.eqb text "").
    + window w; cbn in *; by subst.
    + assert (E : store (on_ui (with_search_input text) w) = None)
        by (by window w).
      rewrite E. window w; cbn in *; by subst.
  - unfold _on_search_enter. rewrite Hst. by destruct (String.eqb _ "").
  - unfold _select_medicine. by rewrite Hst.
  - window w; cbn in *; by subst.
  - window w; cbn in *; by subst.
  - window w; cbn in *; by subst.
  - window w; cbn in *; by subst.
  - by rewrite Hab.
  - by rewrite Hpb.
  - rewrite clear_invoice_eq, Hst. cbn zeta. window w; cbn in *; by subst.
Qed.

(** When the workbook cannot be loaded at the start, the window shows the
    error and stays without a store for good: whatever the user does
    afterwards, nothing is added, nothing is printed, no message is shown,
    the file is not touched and no new load is tried, also when the file
    has become readable in the meantime. *)
Theorem failed_start_is_inert d0 e d evs :
  DataStore.__init__ d0 Config.EXCEL_SHEET_NAME = Raise e ->
  (__init__ d0).2 =
    [MessageBox Critical "Excel Error" (Failed "Failed to load Excel" e)] /\
  let '(w, d', out) := run (__init__ d0).1 d evs in
  store w = None /\ Models.items (invoice w) = [] /\ added_qty w = ∅ /\
  add_button (ui w) = false /\ print_button (ui w) = false /\
  d' = d /\ out = [].
Proof.
  intros Hinit. unfold __init__. rewrite load_store_eq, Hinit. cbn [fst snd].
  split; [done|].
  match goal with |- context [run ?w0 d evs] => set (w := w0) end.
  assert (Hw : store w = None /\ Models.items (invoice w) = [] /\
               added_qty w = ∅ /\ add_button (ui w) = false /\
               print_button (ui w) = false) by done.
  clearbody w. revert w d Hw.
  induction evs as [|ev evs IH]; intros w d (Hst & Hinv & Ha & Hab & Hpb);
    cbn [run]; [done|].
  pose proof (handle_without_store w d ev Hst Hinv Ha Hab Hpb) as Hstep.
  destruct (handle w d ev) as [[w1 d1] out1].
  destruct Hstep as (Hst1 & Hinv1 & Ha1 & Hab1 & Hpb1 & -> & ->).
  specialize (IH w1 d (conj Hst1 (conj Hinv1 (conj Ha1 (conj Hab1 Hpb1))))).
  by destruct (run w1 d evs) as [[w2 d2] out2].
Qed.




(** "Clear" empties the invoice and the ledger, sets the discount to 0,
    drops the selection and reads the workbook again: stocks lowered in
    memory but not saved are forgotten. When the workbook can no longer be
    read the old store stays, the error is shown, and both buttons are
    disabled. A window without a store stays without one. *)
Theorem clear_starts_afresh w d :
  let '(w', d', out) := handle w d ClearClicked in
  d' = d /\
  Models.items (invoice w') = [] /\ added_qty w' = ∅ /\
  selected_name w' = None /\ details (ui w') = None /\
  discount_spin (ui w') = zero /\ table (ui w') = [] /\
  (store w = None -> store w' = None /\ out = []) /\
  (forall st st', store w = Some st ->
     DataStore.__init__ d Config.EXCEL_SHEET_NAME = Ok st' ->
     store w' = Some st' /\ out = [] /\
     name_model (ui w') = DataStore.get_all_names st' /\
     add_button (ui w') = add_button (ui w) /\
     print_button (ui w') = print_button (ui w)) /\
  (forall st e, store w = Some st ->
     DataStore.__init__ d Config.EXCEL_SHEET_NAME = Raise e ->
     store w' = Some st /\
     out = [MessageBox Critical "Excel Error"
              (Failed "Failed to load Excel" e)] /\
     add_button (ui w') = false /\ print_button (ui w') = false).
Proof.
  cbn [handle]. pose proof (clear_invoice_fields w d) as Hf.
  destruct (_clear_invoice w d) as [w' out].
  destruct Hf as (Hinv & Hadd & Hsel & Hdet & _ & Hdisc & Htab & _ & Hs).
  do 7 (split; [done|]). split; [|split].
  - intros Hst. rewrite Hst in Hs. tauto.
  - intros st st' Hst Hinit. rewrite Hst, Hinit in Hs. tauto.
  - intros st e Hst Hinit. rewrite Hst, Hinit in Hs. tauto.
Qed.

End CheckoutTheorems.

Section WholeSession.
Import Xlsx Gui Spec Vocab.
Import DataStore(ExcelDataStore, record, get_medicine, name, stock).
Import UiMain.
Context `{Runtime}.


End WholeSession.

(* ===================================================================== *)
(** * The second loader and the second window *)
(* ===================================================================== *)

Section TwoLoaders.
Import Xlsx Spec Vocab.
Context `{Runtime}.

Lemma repo_headers_fold ws n k :
  k <> "None" ->
  fold_left
    (fun (headers : gmap string nat) idx =>
       <[strip (py_str (value ws 1 idx)) := idx]> headers) (seq 1 n) ∅ !! k
  = fold_left
      (fun (headers : gmap string nat) idx =>
         match value ws 1 idx with
         | CNone => headers
         | v => <[strip (py_str v) := idx]> headers
         end) (seq 1 n) ∅ !! k.
Proof.
  intros Hk. induction n as [|n IH]; [done|].
  rewrite seq_S, !fold_left_app. cbn [fold_left].
  destruct (value ws 1 (1 + n)) as [|s|z|f|b|o] eqn:Ev.
  - rewrite lookup_insert_ne; [done|]. by vm_compute.
  - destruct (decide (strip (py_str (CStr s)) = k)) as [<-|Hne];
      [by rewrite !lookup_insert_eq|by rewrite !lookup_insert_ne].
  - destruct (decide (strip (py_str (CInt z)) = k)) as [<-|Hne];
      [by rewrite !lookup_insert_eq|by rewrite !lookup_insert_ne].
  - destruct (decide (strip (py_str (CFloat f)) = k)) as [<-|Hne];
      [by rewrite !lookup_insert_eq|by rewrite !lookup_insert_ne].
  - destruct (decide (strip (py_str (CBool b)) = k)) as [<-|Hne];
      [by rewrite !lookup_insert_eq|by rewrite !lookup_insert_ne].
  - destruct (decide (strip (py_str (COther o)) = k)) as [<-|Hne];
      [by rewrite !lookup_insert_eq|by rewrite !lookup_insert_ne].
Qed.

Lemma detectors_agree ws :
  match DataStore._detect_columns ws, ExcelRepo._detect_columns ws with
  | Ok cm, Ok cols =>
      columns cm (ExcelRepo.name cols) (ExcelRepo.mg cols)
        (ExcelRepo.rack_number cols) (ExcelRepo.stock cols)
        (ExcelRepo.price cols) (ExcelRepo.actual_price cols)
  | Raise e1, Raise e2 =>
      exists l1 l2,
        e1 = ValueError (MissingColumns l1) /\
        e2 = ValueError (MissingColumns l2) /\ l1 ≡ₚ l2
  | _, _ => False
  end.
Proof.
  pose proof (detect_columns_required ws) as Hreq.
  unfold DataStore._detect_columns, ExcelRepo._detect_columns in *.
  set (m1 := fold_left _ (seq 1 (max_column ws)) ∅) in *.
  set (m2 := fold_left _ (seq 1 (max_column ws)) ∅).
  assert (Hm : forall k, k <> "None" -> m2 !! k = m1 !! k).
  { intros k Hk. subst m1 m2. by apply repo_headers_fold. }
  assert (E1 : m2 !! "Medicine_Name" = m1 !! "Medicine_Name") by by apply Hm.
  assert (E2 : m2 !! "MG" = m1 !! "MG") by by apply Hm.
  assert (E3 : m2 !! "Rack_Number" = m1 !! "Rack_Number") by by apply Hm.
  assert (E4 : m2 !! "Stock" = m1 !! "Stock") by by apply Hm.
  assert (E5 : m2 !! "Price" = m1 !! "Price") by by apply Hm.
  assert (E6 : m2 !! "Actual_Price" = m1 !! "Actual_Price") by by apply Hm.
  assert (Hmiss : filter (fun col => m1 !! col = None) DataStore.REQUIRED_COLUMNS
                  ≡ₚ filter (fun col => m2 !! col = None) ExcelRepo.required).
  { assert (E : filter (fun col => m2 !! col = None) ExcelRepo.required
                = filter (fun col => m1 !! col = None) ExcelRepo.required).
    { unfold ExcelRepo.required. rewrite !filter_cons, !filter_nil.
      by rewrite E1, E2, E3, E4, E5, E6. }
    rewrite E. apply filter_Permutation.
    unfold DataStore.REQUIRED_COLUMNS, ExcelRepo.required. solve_Permutation. }
  rewrite E1, E2, E3, E4, E5, E6.
  destruct (filter (fun col => m1 !! col = None) DataStore.REQUIRED_COLUMNS)
    as [|c1 l1] eqn:H1.
  - apply Permutation_nil in Hmiss. rewrite Hmiss.
    destruct (Hreq m1 eq_refl) as (cN & cMG & cR & cS & cP & cA & Hc).
    destruct Hc as [C1 C2 C3 C4 C5 C6].
    rewrite C1, C2, C3, C4, C5, C6. by constructor.
  - destruct (filter (fun col => m2 !! col = None) ExcelRepo.required)
      as [|c2 l2] eqn:H2.
    { symmetry in Hmiss. apply Permutation_nil in Hmiss. discriminate Hmiss. }
    by eexists _, _.
Qed.

(** The two detectors of the header row agree: [ExcelRepository] finds its
    six columns exactly when [ExcelDataStore] finds its column map, and
    then at the same indexes; and when columns are missing both raise the
    [ValueError] that lists the same columns, each in the order of its
    own list of required columns. *)
Theorem column_detectors_agree ws :
  (forall cm, DataStore._detect_columns ws = Ok cm ->
     exists cols,
       ExcelRepo._detect_columns ws = Ok cols /\
       columns cm (ExcelRepo.name cols) (ExcelRepo.mg cols)
         (ExcelRepo.rack_number cols) (ExcelRepo.stock cols)
         (ExcelRepo.price cols) (ExcelRepo.actual_price cols)) /\
  (forall cols, ExcelRepo._detect_columns ws = Ok cols ->
     exists cm,
       DataStore._detect_columns ws = Ok cm /\
       columns cm (ExcelRepo.name cols) (ExcelRepo.mg cols)
         (ExcelRepo.rack_number cols) (ExcelRepo.stock cols)
         (ExcelRepo.price cols) (ExcelRepo.actual_price cols)) /\
  (forall e, DataStore._detect_columns ws = Raise e ->
     exists l1 l2,
       e = ValueError (MissingColumns l1) /\
       ExcelRepo._detect_columns ws = Raise (ValueError (MissingColumns l2)) /\
       l1 ≡ₚ l2).
Proof.
  pose proof (detectors_agree ws) as Hag.
  destruct (DataStore._detect_columns ws) as [cm|e1],
           (ExcelRepo._detect_columns ws) as [cols|e2]; try done.
  - split; [|split]; [| |done].
    + intros ? [= <-]. by exists cols.
    + intros ? [= <-]. by exists cm.
  - destruct Hag as (l1 & l2 & -> & -> & Hperm).
    split; [done|]. split; [done|]. intros ? [= <-]. by exists l1, l2.
Qed.

End TwoLoaders.

Section TwoReaders.
Import Xlsx Spec Vocab.
Context `{Runtime}.

Lemma truthy_not_blank v : truthy v = true -> is_blank v = false.
Proof.
  destruct v as [|s|z|f|b|o]; cbn; try done.
  by destruct (String.eqb s "").
Qed.

Lemma blank_not_truthy v : is_blank v = true -> truthy v = false.
Proof.
  destruct v as [|s|z|f|b|o]; cbn; try done. by intros ->.
Qed.

Lemma list_medicines_rows repo :
  ExcelRepo.list_medicines repo
  = medicines_of (ExcelRepo._columns repo) (ExcelRepo._sheet repo)
      (data_rows (ExcelRepo._sheet repo)).
Proof.
  unfold ExcelRepo.list_medicines, data_rows.
  set (cols := ExcelRepo._columns repo). set (ws := ExcelRepo._sheet repo).
  set (step := fun acc row => _).
  assert (Hraise : forall rows e, fold_left step rows (Raise e) = Raise e).
  { induction rows as [|r rows IH]; intros e; [done|]. cbn. apply IH. }
  assert (Hfold : forall rows acc,
            fold_left step rows (Ok acc)
            = ms ← medicines_of cols ws rows; Ok (acc ++ ms)).
  { induction rows as [|r rows IH]; intros acc; cbn [fold_left medicines_of].
    - cbn. by rewrite app_nil_r.
    - unfold step at 2. cbn [mbind result_bind bind].
      destruct (ExcelRepo.medicine_of_row cols ws r) as [[m|]|e];
        cbn [mbind result_bind bind].
      + rewrite IH. destruct (medicines_of cols ws rows); cbn; [|done].
        by rewrite <- app_assoc.
      + rewrite IH. by destruct (medicines_of cols ws rows).
      + apply Hraise. }
  rewrite Hfold. by destruct (medicines_of cols ws _).
Qed.

(** One row, read by both. *)
Lemma readers_agree_row cm cols ws row :
  columns cm (ExcelRepo.name cols) (ExcelRepo.mg cols)
    (ExcelRepo.rack_number cols) (ExcelRepo.stock cols)
    (ExcelRepo.price cols) (ExcelRepo.actual_price cols) ->
  truthy (value ws row (ExcelRepo.name cols)) = true ->
  match DataStore.read_row cm ws row, ExcelRepo.medicine_of_row cols ws row with
  | Ok (Some e), Ok (Some m) => same_medicine m e.1.2
  | Raise e1, Raise e2 => e1 = e2
  | _, _ => False
  end.
Proof.
  intros Hc Ht. rewrite (read_row_columns _ _ _ _ _ _ _ _ _ Hc).
  unfold ExcelRepo.medicine_of_row.
  rewrite (truthy_not_blank _ Ht), Ht. cbn [negb].
  change (ExcelRepo._to_int) with (DataStore._to_int).
  change (ExcelRepo._to_float) with (DataStore._to_float).
  destruct (DataStore._to_int _ 0) as [z|e]; cbn [mbind result_bind bind];
    [|done].
  destruct (DataStore._to_float _ (Some zero)) as [p|e];
    cbn [mbind result_bind bind]; [|done].
  destruct (DataStore._to_float _ None) as [a|e];
    cbn [mbind result_bind bind]; [|done].
  unfold same_medicine, Medicine.effective_price. cbn.
  repeat split; by destruct a, p.
Qed.

(** A sheet whose names are all truthy is read alike by the two loaders:
    [list_medicines] gives, row for row and in the same order, medicines
    with the name, strength, rack, stock and charged price of the records
    that [_read_rows] collects, and both raise the same exception when a
    number overflows. *)
Theorem loaders_agree cm repo :
  let cols := ExcelRepo._columns repo in
  let ws := ExcelRepo._sheet repo in
  columns cm (ExcelRepo.name cols) (ExcelRepo.mg cols)
    (ExcelRepo.rack_number cols) (ExcelRepo.stock cols)
    (ExcelRepo.price cols) (ExcelRepo.actual_price cols) ->
  (forall row, named cm ws row ->
     truthy (field cm ws row "Medicine_Name") = true) ->
  match collect cm ws (data_rows ws), ExcelRepo.list_medicines repo with
  | Ok es, Ok ms => Forall2 same_medicine ms (map (fun e : entry => e.1.2) es)
  | Raise e1, Raise e2 => e1 = e2
  | _, _ => False
  end.
Proof.
  cbn zeta. intros Hc Hall. rewrite list_medicines_rows.
  set (cols := ExcelRepo._columns repo) in *.
  set (ws := ExcelRepo._sheet repo) in *.
  assert (Hrows : forall row, row ∈ data_rows ws ->
            is_blank (value ws row (ExcelRepo.name cols)) = false ->
            truthy (value ws row (ExcelRepo.name cols)) = true).
  { intros row Hin Hb.
    destruct (field_columns _ _ _ _ _ _ _ ws row Hc) as (En & _).
    rewrite <- En in *. by apply Hall. }
  clear Hall. induction (data_rows ws) as [|row rows IH];
    cbn [collect medicines_of]; [constructor|].
  destruct (is_blank (value ws row (ExcelRepo.name cols))) eqn:Hb.
  - assert (E1 : DataStore.read_row cm ws row = Ok None).
    { by rewrite (read_row_columns _ _ _ _ _ _ _ _ _ Hc), Hb. }
    assert (E2 : ExcelRepo.medicine_of_row cols ws row = Ok None).
    { unfold ExcelRepo.medicine_of_row. by rewrite (blank_not_truthy _ Hb). }
    rewrite E1, E2. cbn [mbind result_bind bind].
    specialize (IH (fun r Hr => Hrows r (list_elem_of_further _ _ _ Hr))).
    destruct (collect cm ws rows), (medicines_of cols ws rows); done.
  - pose proof (readers_agree_row cm cols ws row Hc
                  (Hrows row (list_elem_of_here _ _) Hb)) as Hrow.
    specialize (IH (fun r Hr => Hrows r (list_elem_of_further _ _ _ Hr))).
    destruct (DataStore.read_row cm ws row) as [[e|]|e1],
             (ExcelRepo.medicine_of_row cols ws row) as [[m|]|e2];
      try done; cbn [mbind result_bind bind].
    destruct (collect cm ws rows), (medicines_of cols ws rows); try done;
      cbn [mbind result_bind bind].
    by constructor.
Qed.

(** Where the loaders part: a row whose name cell is a zero or [False] is
    no medicine for [list_medicines], which skips whatever is falsy, but
    is one for [_read_rows], which skips only the empty cell and the
    empty text. *)
Theorem zero_named_row_is_read_by_one_loader cm cols ws row :
  columns cm (ExcelRepo.name cols) (ExcelRepo.mg cols)
    (ExcelRepo.rack_number cols) (ExcelRepo.stock cols)
    (ExcelRepo.price cols) (ExcelRepo.actual_price cols) ->
  truthy (value ws row (ExcelRepo.name cols)) = false ->
  is_blank (value ws row (ExcelRepo.name cols)) = false ->
  no_overflow cm ws row ->
  ExcelRepo.medicine_of_row cols ws row = Ok None /\
  exists k r ref,
    DataStore.read_row cm ws row = Ok (Some (k, r, ref)) /\
    DataStore.name r = py_str (value ws row (ExcelRepo.name cols)).
Proof.
  intros Hc Ht Hb Hno. split.
  { unfold ExcelRepo.medicine_of_row. by rewrite Ht. }
  destruct (field_columns _ _ _ _ _ _ _ ws row Hc) as (En & _).
  destruct (read_row_named _ _ _ _ _ _ _ ws row Hc) as [[_ [e He]]|[Hn _]];
    [by rewrite En| |done].
  destruct e as [[k r] ref]. exists k, r, ref. split; [done|].
  rewrite (read_row_columns _ _ _ _ _ _ _ _ _ Hc), Hb in He.
  destruct (DataStore._to_int _ 0); cbn [mbind result_bind bind] in He; [|done].
  destruct (DataStore._to_float _ (Some zero));
    cbn [mbind result_bind bind] in He; [|done].
  destruct (DataStore._to_float _ None);
    cbn [mbind result_bind bind] in He; [|done].
  by injection He as _ <- _.
Qed.

End TwoReaders.

Section SavingStock.
Import Xlsx Spec Vocab.
Context `{Runtime}.

Lemma repo_init d sheet repo :
  ExcelRepo.__init__ d sheet = Ok repo ->
  exists wb ws cm,
    file d = Some (Ok wb) /\ wb !! sheet = Some ws /\
    ExcelRepo._workbook repo = wb /\ ExcelRepo.sheet_name repo = sheet /\
    ExcelRepo._sheet repo = ws /\
    ExcelRepo._detect_columns ws = Ok (ExcelRepo._columns repo) /\
    DataStore._detect_columns ws = Ok cm /\
    columns cm (ExcelRepo.name (ExcelRepo._columns repo))
      (ExcelRepo.mg (ExcelRepo._columns repo))
      (ExcelRepo.rack_number (ExcelRepo._columns repo))
      (ExcelRepo.stock (ExcelRepo._columns repo))
      (ExcelRepo.price (ExcelRepo._columns repo))
      (ExcelRepo.actual_price (ExcelRepo._columns repo)).
Proof.
  unfold ExcelRepo.__init__, load_workbook.
  destruct (file d) as [[wb|]|]; cbn [mbind result_bind bind]; [|done|done].
  destruct (wb !! sheet) as [ws|] eqn:Hws; [|done].
  destruct (ExcelRepo._detect_columns ws) as [cols|] eqn:Hdet;
    cbn [mbind result_bind bind]; [|done].
  intros [= <-].
  pose proof (detectors_agree ws) as Hc. rewrite Hdet in Hc.
  destruct (DataStore._detect_columns ws) as [cm|] eqn:Hcm; [|done].
  exists wb, ws, cm. unfold ExcelRepo._sheet. cbn. rewrite Hws.
  do 7 (split; [done|]). exact Hc.
Qed.

Lemma repo_name_not_stock ws cm cols :
  DataStore._detect_columns ws = Ok cm ->
  columns cm (ExcelRepo.name cols) (ExcelRepo.mg cols)
    (ExcelRepo.rack_number cols) (ExcelRepo.stock cols)
    (ExcelRepo.price cols) (ExcelRepo.actual_price cols) ->
  ExcelRepo.stock cols <> ExcelRepo.name cols /\
  ExcelRepo.stock cols <> ExcelRepo.mg cols /\
  ExcelRepo.stock cols <> ExcelRepo.rack_number cols /\
  ExcelRepo.stock cols <> ExcelRepo.price cols /\
  ExcelRepo.stock cols <> ExcelRepo.actual_price cols.
Proof.
  intros Hdet [C1 C2 C3 C4 C5 C6].
  repeat split; intros E; rewrite E in C4;
    match goal with
    | Hk : cm !! ?k = Some ?i |- _ =>
        lazymatch k with
        | "Stock" => fail
        | _ => pose proof (detect_columns_inj _ _ "Stock" k _ Hdet C4 Hk) as Habs;
               discriminate Habs
        end
    end.
Qed.

(** The sheet after the loop of [save_stock_updates]. *)
Lemma stock_updates_fold upd cN cS rows sheet :
  cS <> cN ->
  let sheet' :=
    fold_left
      (fun sheet row =>
         match ExcelRepo.updated_stock upd (value sheet row cN) with
         | Some v => set_value sheet (row, cS) (CInt v)
         | None => sheet
         end) rows sheet in
  max_row sheet' = max_row sheet /\ max_column sheet' = max_column sheet /\
  forall row c,
    value sheet' row c =
    if decide (c = cS /\ row ∈ rows)
    then match ExcelRepo.updated_stock upd (value sheet row cN) with
         | Some v => CInt v
         | None => value sheet row c
         end
    else value sheet row c.
Proof.
  intros Hne. cbn zeta. revert sheet.
  induction rows as [|r rows IH]; intros sheet; cbn [fold_left].
  - split; [done|]. split; [done|]. intros row c.
    rewrite decide_False; [done|]. intros [_ Hin]. by apply elem_of_nil in Hin.
  - set (s1 := match ExcelRepo.updated_stock upd (value sheet r cN) with
               | Some v => set_value sheet (r, cS) (CInt v)
               | None => sheet
               end).
    destruct (IH s1) as (Hr & Hc & Hv).
    assert (Hs1 : max_row s1 = max_row sheet /\ max_column s1 = max_column sheet /\
              forall row c,
                value s1 row c =
                if decide (c = cS /\ row = r)
                then match ExcelRepo.updated_stock upd (value sheet row cN) with
                     | Some v => CInt v
                     | None => value sheet row c
                     end
                else value sheet row c).
    { subst s1. destruct (ExcelRepo.updated_stock upd (value sheet r cN))
        as [v|] eqn:Eu.
      - split; [done|]. split; [done|]. intros row c.
        rewrite value_set_value.
        destruct (decide ((r, cS) = (row, c))) as [[= <- <-]|Hn].
        + rewrite decide_True by done. by rewrite Eu.
        + rewrite decide_False; [done|]. intros [-> ->]. done.
      - split; [done|]. split; [done|]. intros row c.
        destruct (decide (c = cS /\ row = r)) as [[-> ->]|]; [|done].
        by rewrite Eu. }
    destruct Hs1 as (Hr1 & Hc1 & Hv1).
    split; [congruence|]. split; [congruence|].
    intros row c. rewrite Hv.
    assert (HcN : value s1 row cN = value sheet row cN).
    { rewrite Hv1. rewrite decide_False; [done|]. intros [E _]. by apply Hne. }
    rewrite HcN, Hv1.
    destruct (decide (c = cS /\ row ∈ r :: rows)) as [[-> Hin]|Hn].
    + destruct (decide (cS = cS /\ row ∈ rows)) as [_|Hn1].
      * destruct (ExcelRepo.updated_stock upd (value sheet row cN)); [done|].
        by destruct (decide (cS = cS /\ row = r)).
      * apply elem_of_cons in Hin as [->|Hin]; [|tauto].
        by rewrite decide_True.
    + rewrite decide_False by (intros [-> Hin]; apply Hn; split; [done|];
                               by apply list_elem_of_further).
      rewrite decide_False; [done|].
      intros [-> ->]. apply Hn. split; [done|]. apply list_elem_of_here.
Qed.

(** What [save_stock_updates] writes. In every row below the header whose
    name cell is a text found among the updates, the stock cell becomes
    the new level, in all such rows when a name stands in several; every
    other cell stays as it was, also the stock of a row whose name cell is
    a number. Then the workbook is saved: a file that can be written and
    keeps the workbook as it is then holds it; when the file cannot be
    written the save raises [OSError] and the file is as before, while the
    sheet in memory is already changed. *)
Theorem save_stock_updates_cells d0 sheet repo d upd :
  ExcelRepo.__init__ d0 sheet = Ok repo ->
  let ws := ExcelRepo._sheet repo in
  let cols := ExcelRepo._columns repo in
  let '(repo', d', r) := ExcelRepo.save_stock_updates repo d upd in
  (forall row c,
     value (ExcelRepo._sheet repo') row c =
     if decide (c = ExcelRepo.stock cols /\ row ∈ data_rows ws)
     then match ExcelRepo.updated_stock upd
                  (value ws row (ExcelRepo.name cols)) with
          | Some v => CInt v
          | None => value ws row c
          end
     else value ws row c) /\
  ExcelRepo._columns repo' = cols /\
  (d', r) = save_workbook d (ExcelRepo._workbook repo') /\
  (writable d = true -> kept (ExcelRepo._workbook repo') ->
   r = Ok tt /\ file d' = Some (Ok (ExcelRepo._workbook repo'))) /\
  (writable d = false -> r = Raise OSError /\ d' = d).
Proof.
  intros Hinit. cbn zeta.
  destruct (repo_init _ _ _ Hinit)
    as (wb & ws & cm & _ & _ & _ & _ & Hsheet & _ & Hcm & Hc).
  destruct (repo_name_not_stock _ _ _ Hcm Hc) as (Hne & _).
  unfold ExcelRepo.save_stock_updates.
  match goal with |- context [fold_left ?f ?rows ?s] =>
    destruct (stock_updates_fold upd (ExcelRepo.name (ExcelRepo._columns repo))
                (ExcelRepo.stock (ExcelRepo._columns repo)) rows s Hne)
      as (_ & _ & Hv);
    set (sheet' := fold_left f rows s) in *
  end.
  cbn [ExcelRepo._workbook ExcelRepo.sheet_name].
  destruct (save_workbook d _) as [d1 r1] eqn:Hsave.
  cbn [ExcelRepo._workbook ExcelRepo._columns].
  split; [|split; [done|split; [done|split]]].
  - intros row c.
    unfold ExcelRepo._sheet at 1. cbn. rewrite lookup_insert_eq. cbn. apply Hv.
  - intros Hd Hk. rewrite (save_workbook_kept d _ Hd Hk) in Hsave.
    by injection Hsave as <- <-.
  - intros Hd. rewrite (save_workbook_locked d _ Hd) in Hsave.
    by injection Hsave as <- <-.
Qed.

End SavingStock.

Section SecondWindowSession.
Import Xlsx Gui Spec Vocab.
Import UiWindow UiWindowEvents.
Context `{Runtime}.

Ltac window w := destruct w as [? ? ? ? ? [? ? ? ? ? ?]].

Lemma qty_of_add_or_update n its m q :
  UiWindowEvents.qty_of n (add_or_update its m q) =
  if String.eqb (Medicine.name m) n
  then Some (default 0 (UiWindowEvents.qty_of n its) + q)
  else UiWindowEvents.qty_of n its.
Proof.
  induction its as [|x its IH]; cbn [add_or_update UiWindowEvents.qty_of].
  - cbn. by destruct (String.eqb (Medicine.name m) n).
  - destruct (String.eqb (Medicine.name (Medicine.medicine x)) (Medicine.name m))
      eqn:E.
    + apply String.eqb_eq in E. cbn [UiWindowEvents.qty_of add_quantity
        Medicine.medicine Medicine.quantity]. rewrite E.
      by destruct (String.eqb (Medicine.name m) n).
    + cbn [UiWindowEvents.qty_of]. rewrite IH.
      destruct (String.eqb (Medicine.name (Medicine.medicine x)) n) eqn:E';
        [|done].
      apply String.eqb_eq in E'. apply String.eqb_neq in E.
      rewrite <- E'. apply not_eq_sym in E. apply String.eqb_neq in E.
      by rewrite E.
Qed.

Lemma by_name_keys medicines n m :
  by_name medicines !! n = Some m -> Medicine.name m = n.
Proof.
  unfold by_name.
  assert (Hgen : forall (acc : gmap string Medicine.Medicine),
            (forall n m, acc !! n = Some m -> Medicine.name m = n) ->
            fold_left (fun acc med => <[Medicine.name med := med]> acc)
                      medicines acc !! n = Some m -> Medicine.name m = n).
  { induction medicines as [|x l IH]; intros acc Hacc; cbn [fold_left].
    - apply Hacc.
    - apply IH. intros n' m'.
      destruct (decide (Medicine.name x = n')) as [<-|Hne].
      + rewrite lookup_insert_eq. by intros [= <-].
      + rewrite lookup_insert_ne by done. apply Hacc. }
  apply Hgen. intros n' m'. by rewrite lookup_empty.
Qed.

Lemma load_inventory_fields w d :
  let '(w', out) := _load_inventory w d in
  (exists medicines, medicines_by_name w' = by_name medicines) /\
  selected_medicine w' = None /\
  invoice_items w' = invoice_items w /\
  invoice_quantities w' = invoice_quantities w /\
  qty_spin (ui w') = qty_spin (ui w).
Proof.
  unfold _load_inventory.
  destruct (ExcelRepo.__init__ d Config.EXCEL_SHEET_NAME) as [repo|e].
  - destruct (ExcelRepo.list_medicines repo) as [ms|e]; window w; cbn.
    + split; [by exists ms|done].
    + split; [by exists []|done].
  - window w; cbn. split; [by exists []|done].
Qed.

Lemma selected_sound w nm :
  (forall n m, medicines_by_name w !! n = Some m -> Medicine.name m = n) ->
  forall m, selected_medicine (_on_medicine_selected w nm) = Some m ->
    medicines_by_name (_on_medicine_selected w nm) !! Medicine.name m = Some m.
Proof.
  intros Hkeys m. unfold _on_medicine_selected.
  destruct (medicines_by_name w !! nm) as [m0|] eqn:E.
  - pose proof (Hkeys _ _ E) as Hn. window w. cbn in *. intros [= <-].
    by rewrite Hn.
  - by window w.
Qed.

Lemma medicine_selected_frame w nm :
  let w' := _on_medicine_selected w nm in
  medicines_by_name w' = medicines_by_name w /\
  invoice_items w' = invoice_items w /\
  invoice_quantities w' = invoice_quantities w /\
  qty_spin (ui w') = qty_spin (ui w) /\ repo w' = repo w.
Proof.
  cbn zeta. unfold _on_medicine_selected.
  destruct (medicines_by_name w !! nm) eqn:E; window w; cbn in *; by subst.
Qed.

Lemma sound_view2 w w' :
  UiWindowEvents.sound w ->
  medicines_by_name w' = medicines_by_name w ->
  invoice_items w' = invoice_items w ->
  invoice_quantities w' = invoice_quantities w ->
  QTY_MIN <= qty_spin (ui w') <= QTY_MAX ->
  (forall m, selected_medicine w' = Some m ->
     medicines_by_name w' !! Medicine.name m = Some m) ->
  UiWindowEvents.sound w'.
Proof.
  intros [S1 S2 S3 S4 S5] Hm Hi Hq Hspin Hsel. constructor.
  - rewrite Hm. apply S1.
  - done.
  - intros n. rewrite Hq, Hi. apply S3.
  - intros n v. rewrite Hq, Hm. apply S4.
  - done.
Qed.

Lemma sound_loaded w :
  (exists medicines, medicines_by_name w = by_name medicines) ->
  selected_medicine w = None -> invoice_items w = [] ->
  invoice_quantities w = ∅ -> QTY_MIN <= qty_spin (ui w) <= QTY_MAX ->
  UiWindowEvents.sound w.
Proof.
  intros [ms Hm] Hsel Hi Hq Hspin. constructor.
  - rewrite Hm. apply by_name_keys.
  - by rewrite Hsel.
  - intros n. by rewrite Hq, Hi, lookup_empty.
  - intros n v. by rewrite Hq, lookup_empty.
  - done.
Qed.

Lemma add_clicked_sound w :
  UiWindowEvents.sound w -> UiWindowEvents.sound (_on_add_clicked w).1.
Proof.
  intros Hw. unfold _on_add_clicked.
  destruct (selected_medicine w) as [m|] eqn:Hsel; [|done].
  destruct (Z.ltb_spec (_available_stock w m) (qty_spin (ui w))) as [|Hle];
    [done|]. cbn [fst].
  set (q := qty_spin (ui w)) in *.
  pose proof (sound_selected _ Hw m Hsel) as Hm.
  assert (Hq : 1 <= q)
    by (pose proof (UiWindowEvents.sound_spin _ Hw); unfold QTY_MIN in *; lia).
  assert (Hused : default 0 (invoice_quantities w !! Medicine.name m) + q
                  <= Medicine.stock m).
  { unfold _available_stock in Hle. lia. }
  match goal with |- UiWindowEvents.sound (_on_medicine_selected ?x ?n) =>
    set (w2 := x);
    destruct (medicine_selected_frame w2 n) as (Hm' & Hi' & Hq' & Hspin' & _)
  end.
  assert (Hm2 : medicines_by_name w2 = medicines_by_name w)
    by (subst w2; by window w).
  assert (Hi2 : invoice_items w2 = add_or_update (invoice_items w) m q)
    by (subst w2; by window w).
  assert (Hq2 : invoice_quantities w2 =
            <[Medicine.name m :=
                default 0 (invoice_quantities w !! Medicine.name m) + q]>
              (invoice_quantities w))
    by (subst w2; by window w).
  assert (Hs2 : qty_spin (ui w2) = q) by (subst w2; by window w).
  constructor.
  - rewrite Hm', Hm2. apply Hw.
  - apply selected_sound. rewrite Hm2. apply Hw.
  - intros n. rewrite Hq', Hi', Hq2, Hi2, qty_of_add_or_update.
    destruct (String.eqb (Medicine.name m) n) eqn:E.
    + apply String.eqb_eq in E. subst n. rewrite lookup_insert_eq.
      by rewrite (UiWindowEvents.sound_ledger _ Hw).
    + apply String.eqb_neq in E. rewrite lookup_insert_ne by done.
      apply (UiWindowEvents.sound_ledger _ Hw).
  - intros n v. rewrite Hq', Hm', Hq2, Hm2.
    destruct (decide (Medicine.name m = n)) as [<-|Hne].
    + rewrite lookup_insert_eq. intros [= <-]. exists m. split; [done|].
      split; [|done].
      destruct (invoice_quantities w !! Medicine.name m) as [v0|] eqn:E;
        cbn; [|lia].
      destruct (UiWindowEvents.sound_entries _ Hw _ _ E) as (? & _ & ? & _). lia.
    + rewrite lookup_insert_ne by done. apply (UiWindowEvents.sound_entries _ Hw).
  - rewrite Hspin', Hs2. apply (UiWindowEvents.sound_spin _ Hw).
Qed.

Lemma persist_frame w d :
  let '(w', d', r) := _persist_stock_changes w d in
  medicines_by_name w' = medicines_by_name w /\
  invoice_items w' = invoice_items w /\
  invoice_quantities w' = invoice_quantities w /\
  selected_medicine w' = selected_medicine w /\ ui w' = ui w.
Proof.
  unfold _persist_stock_changes. destruct (repo w) as [rp|]; [|done].
  destruct (ExcelRepo.save_stock_updates rp d _) as [[rp' d'] r].
  by window w.
Qed.

Lemma reset_invoice_sound w d :
  UiWindowEvents.sound w -> UiWindowEvents.sound (_reset_invoice w d).1.
Proof.
  intros Hw. unfold _reset_invoice.
  match goal with |- context [_load_inventory ?x d] =>
    pose proof (load_inventory_fields x d) as Hf;
    assert (Hx : invoice_items x = [] /\ invoice_quantities x = ∅ /\
                 qty_spin (ui x) = qty_spin (ui w)) by (by window w);
    destruct (_load_inventory x d) as [w' out]
  end.
  destruct Hf as (Hm & Hsel & Hi & Hq & Hspin).
  destruct Hx as (Hi0 & Hq0 & Hs0). cbn [fst].
  apply sound_loaded; try done; try congruence.
  rewrite Hspin, Hs0. apply (UiWindowEvents.sound_spin _ Hw).
Qed.

Lemma print_clicked_sound w d valid valid_after :
  UiWindowEvents.sound w ->
  UiWindowEvents.sound (_on_print_clicked w d valid valid_after).1.1.
Proof.
  intros Hw. unfold _on_print_clicked.
  destruct (invoice_items w) as [|it its] eqn:Hits; [done|].
  destruct (Printing.print_receipt _ _ _ _ _) as [jobs success].
  destruct success; cbn [negb]; [|done].
  pose proof (persist_frame w d) as Hp.
  destruct (_persist_stock_changes w d) as [[w1 d1] r].
  destruct Hp as (Hm & Hi & Hq & Hsel & Hui).
  assert (Hw1 : UiWindowEvents.sound w1).
  { apply (sound_view2 w); try done.
    - rewrite Hui. apply (UiWindowEvents.sound_spin _ Hw).
    - intros m. rewrite Hsel, Hm. apply Hw. }
  destruct r as [[]|e]; [|done].
  pose proof (reset_invoice_sound w1 d1 Hw1) as Hr.
  by destruct (_reset_invoice w1 d1) as [w2 out].
Qed.

Lemma handle_sound2 w d ev :
  UiWindowEvents.sound w -> UiWindowEvents.sound (UiWindowEvents.handle w d ev).1.1.
Proof.
  intros Hw. destruct ev as [text|nm|v|v| |valid valid_after];
    cbn [UiWindowEvents.handle fst].
  - unfold _on_search_text_changed.
    destruct (medicines_by_name w !! text); [|done].
    destruct (medicine_selected_frame w text) as (Hm & Hi & Hq & Hs & _).
    apply (sound_view2 w); try done.
    + rewrite Hs. apply Hw.
    + apply selected_sound, Hw.
  - destruct (medicine_selected_frame w nm) as (Hm & Hi & Hq & Hs & _).
    apply (sound_view2 w); try done.
    + rewrite Hs. apply Hw.
    + apply selected_sound, Hw.
  - apply (sound_view2 w); try done; try (by window w).
    + assert (Hq : qty_spin (ui (on_ui (with_qty_spin (spin_set QTY_MIN QTY_MAX v)) w))
                   = spin_set QTY_MIN QTY_MAX v) by (by window w).
      rewrite Hq. unfold spin_set, QTY_MIN, QTY_MAX. lia.
    + pose proof (sound_selected _ Hw). by window w.
  - apply (sound_view2 w); try done; try (by window w).
    + pose proof (UiWindowEvents.sound_spin _ Hw). by window w.
    + pose proof (sound_selected _ Hw). by window w.
  - pose proof (add_clicked_sound w Hw). by destruct (_on_add_clicked w).
  - by apply print_clicked_sound.
Qed.

Lemma init_sound2 d0 : UiWindowEvents.sound (UiWindow.__init__ d0).1.
Proof.
  unfold UiWindow.__init__.
  match goal with |- context [_load_inventory ?x d0] =>
    pose proof (load_inventory_fields x d0) as Hf;
    destruct (_load_inventory x d0) as [w' out]
  end.
  destruct Hf as (Hm & Hsel & Hi & Hq & Hspin). cbn [fst].
  apply sound_loaded; try done. rewrite Hspin. cbn. unfold QTY_MIN, QTY_MAX. lia.
Qed.

(** In the second window too, whatever the user does from the start on:
    the medicines are filed under their own names, the selected medicine
    is one of them, the ledger holds for each name the quantity of its
    invoice line, and no reservation is above the stock of its medicine
    (nor below 1). *)
Theorem second_window_reservations d0 d evs :
  let w := (UiWindowEvents.run (UiWindow.__init__ d0).1 d evs).1.1 in
  (forall n m, medicines_by_name w !! n = Some m -> Medicine.name m = n) /\
  (forall m, selected_medicine w = Some m ->
     medicines_by_name w !! Medicine.name m = Some m) /\
  (forall n, invoice_quantities w !! n
             = UiWindowEvents.qty_of n (invoice_items w)) /\
  (forall n v, invoice_quantities w !! n = Some v ->
     exists m, medicines_by_name w !! n = Some m /\
               1 <= v <= Medicine.stock m).
Proof.
  cbn zeta.
  assert (Hrun : forall w d,
            UiWindowEvents.sound w ->
            UiWindowEvents.sound (UiWindowEvents.run w d evs).1.1).
  { induction evs as [|ev evs IH]; intros w d' Hw; cbn [UiWindowEvents.run];
      [done|].
    pose proof (handle_sound2 w d' ev Hw) as Hstep.
    destruct (UiWindowEvents.handle w d' ev) as [[w1 d1] out1].
    specialize (IH w1 d1 Hstep).
    by destruct (UiWindowEvents.run w1 d1 evs) as [[w2 d2] out2]. }
  destruct (Hrun _ d (init_sound2 d0)) as [S1 S2 S3 S4 S5].
  by repeat split.
Qed.

End SecondWindowSession.

Section SecondWindowCheckout.
Import Xlsx Gui Spec Vocab.
Import UiWindow UiWindowEvents.
Context `{Runtime}.

Ltac window w := destruct w as [? ? ? ? ? [? ? ? ? ? ?]].

(** The new levels that [_persist_stock_changes] computes. *)
Lemma new_levels_lookup (quantities : gmap string Z)
    (medicines : gmap string Medicine.Medicine) n :
  (forall k m, medicines !! k = Some m -> Medicine.name m = k) ->
  map_fold
    (fun _ (med : Medicine.Medicine) (new_levels : gmap string Z) =>
       <[Medicine.name med :=
           Z.max (Medicine.stock med
                  - default 0 (quantities !! Medicine.name med)) 0]>
         new_levels) ∅ medicines !! n
  = (fun m => Z.max (Medicine.stock m - default 0 (quantities !! n)) 0)
      <$> medicines !! n.
Proof.
  revert n. apply (map_fold_weak_ind
    (fun (r : gmap string Z) (m : gmap string Medicine.Medicine) =>
       forall n, (forall k x, m !! k = Some x -> Medicine.name x = k) ->
         r !! n = (fun x => Z.max (Medicine.stock x
                                   - default 0 (quantities !! n)) 0)
                    <$> m !! n)).
  - intros n _. by rewrite !lookup_empty.
  - intros i x m r Hi IH n Hkeys.
    assert (Hx : Medicine.name x = i) by (apply Hkeys; by rewrite lookup_insert_eq).
    rewrite Hx. destruct (decide (i = n)) as [<-|Hne].
    + by rewrite !lookup_insert_eq.
    + rewrite !lookup_insert_ne by done. apply IH.
      intros k y Hk. apply Hkeys. rewrite lookup_insert_ne; [done|].
      intros <-. congruence.
Qed.

(** What a checkout of the second window writes. With a repository as it
    was loaded: in every row below the header whose name cell is the text
    of a medicine's name, the stock cell becomes the stock of that medicine
    minus what the ledger holds for it, and 0 when that would be negative;
    this is done for every medicine of the inventory, on the invoice or not,
    and the other cells stay as they were. Then the workbook is saved (a
    file that can be written and keeps the workbook as it is then holds
    it), the medicines, the invoice and the ledger of the window being
    left alone. *)
Theorem persist_stock_changes_levels d0 w rp d :
  ExcelRepo.__init__ d0 Config.EXCEL_SHEET_NAME = Ok rp ->
  repo w = Some rp ->
  (forall n m, medicines_by_name w !! n = Some m -> Medicine.name m = n) ->
  let ws := ExcelRepo._sheet rp in
  let cols := ExcelRepo._columns rp in
  let '(w', d', r) := _persist_stock_changes w d in
  (exists rp', repo w' = Some rp' /\
     (forall row c,
        value (ExcelRepo._sheet rp') row c =
        if decide (c = ExcelRepo.stock cols /\ row ∈ data_rows ws)
        then match value ws row (ExcelRepo.name cols) with
             | CStr s =>
                 match medicines_by_name w !! s with
                 | Some m =>
                     CInt (Z.max (Medicine.stock m - UiWindowEvents.reserved w s) 0)
                 | None => value ws row c
                 end
             | _ => value ws row c
             end
        else value ws row c) /\
     (d', r) = save_workbook d (ExcelRepo._workbook rp') /\
     (writable d = true -> kept (ExcelRepo._workbook rp') ->
      r = Ok tt /\ file d' = Some (Ok (ExcelRepo._workbook rp'))) /\
     (writable d = false -> r = Raise OSError /\ d' = d)) /\
  medicines_by_name w' = medicines_by_name w /\
  invoice_items w' = invoice_items w /\
  invoice_quantities w' = invoice_quantities w.
Proof.
  intros Hinit Hrepo Hkeys. cbn zeta.
  pose proof (persist_frame w d) as Hf.
  unfold _persist_stock_changes in *. rewrite Hrepo in *.
  set (upd := map_fold _ ∅ (medicines_by_name w)) in *.
  destruct (repo_init _ _ _ Hinit)
    as (wb & ws & cm & _ & _ & _ & _ & Hsheet & _ & Hcm & Hc).
  destruct (repo_name_not_stock _ _ _ Hcm Hc) as (Hne & _).
  unfold ExcelRepo.save_stock_updates in *.
  match goal with |- context [fold_left ?f ?rows ?s] =>
    destruct (stock_updates_fold upd (ExcelRepo.name (ExcelRepo._columns rp))
                (ExcelRepo.stock (ExcelRepo._columns rp)) rows s Hne)
      as (_ & _ & Hv);
    set (sheet' := fold_left f rows s) in *
  end.
  cbn [ExcelRepo._workbook ExcelRepo.sheet_name] in *.
  assert (Hcells : forall row c,
    value sheet' row c =
    if decide (c = ExcelRepo.stock (ExcelRepo._columns rp)
               /\ row ∈ data_rows (ExcelRepo._sheet rp))
    then match value (ExcelRepo._sheet rp) row
                 (ExcelRepo.name (ExcelRepo._columns rp)) with
         | CStr s =>
             match medicines_by_name w !! s with
             | Some m =>
                 CInt (Z.max (Medicine.stock m - UiWindowEvents.reserved w s) 0)
             | None => value (ExcelRepo._sheet rp) row c
             end
         | _ => value (ExcelRepo._sheet rp) row c
         end
    else value (ExcelRepo._sheet rp) row c).
  { intros row c. rewrite Hv.
    destruct (decide (c = _ /\ _)) as [_|]; [|done].
    unfold ExcelRepo.updated_stock.
    destruct (value (ExcelRepo._sheet rp) row _) as [|s| | | |]; try done.
    subst upd. rewrite (new_levels_lookup _ _ s Hkeys).
    by destruct (medicines_by_name w !! s). }
  destruct (save_workbook d _) as [d1 r1] eqn:Hsave.
  destruct Hf as (? & ? & ? & _). split; [|done].
  eexists. split; [by window w|].
  cbn [ExcelRepo._workbook ExcelRepo._columns].
  split; [|split; [done|split]].
  - intros row c. unfold ExcelRepo._sheet at 1. cbn.
    rewrite lookup_insert_eq. cbn. apply Hcells.
  - intros Hd Hk. rewrite (save_workbook_kept d _ Hd Hk) in Hsave.
    by injection Hsave as <- <-.
  - intros Hd. rewrite (save_workbook_locked d _ Hd) in Hsave.
    by injection Hsave as <- <-.
Qed.

End SecondWindowCheckout.

(* ===================================================================== *)
(** * A load that meets fields without a number *)
(* ===================================================================== *)

Section TolerantLoad.
Import Xlsx Gui Spec Vocab.
Import DataStore(ExcelDataStore, record, get_medicine, name, stock, price,
                 read_row, _to_int, _to_float, _normalize_name).
Context `{Runtime}.

(** C7: loading a sheet none of whose numeric fields overflows succeeds,
    whatever else the fields hold. A field is empty or not a number when
    it is the empty cell, the empty text, a text that the conversion
    cannot read or an object such as a date (and, for the stock, the float
    [nan]). Every row with a name yields its record: the stock is the
    number of the stock field, and 0 when that field is empty or not a
    number; the price is the number of the override field when there is
    one, else the number of the price field, and 0 when that is empty or
    not a number. The store finds under the name of the record the record
    of the last row that carries this name (trimmed, lower-cased), so the
    record itself when no later row does: a row with bad fields takes
    nothing from the others. For a medicine so loaded with stock 0 the
    window shows 0 available, and every add-to-cart attempt for it ends
    with the insufficient-stock warning and leaves invoice and ledger as
    they were. *)
Theorem blank_fields_default_to_zero d wb ws cm :
  file d = Some (Ok wb) ->
  wb !! Config.EXCEL_SHEET_NAME = Some ws ->
  DataStore._detect_columns ws = Ok cm ->
  (forall row, row ∈ data_rows ws -> no_overflow cm ws row) ->
  (forall v, no_int v <->
     v = CNone \/ (exists s, v = CStr s /\ (s = "" \/ int_of_str s = None)) \/
     v = CFloat S754_nan \/ exists shown, v = COther shown) /\
  (forall v, no_float v <->
     v = CNone \/ (exists s, v = CStr s /\ (s = "" \/ float_of_str s = None)) \/
     exists shown, v = COther shown) /\
  exists st,
    DataStore.__init__ d Config.EXCEL_SHEET_NAME = Ok st /\
    forall row,
      row ∈ data_rows ws ->
      is_blank (field cm ws row "Medicine_Name") = false ->
      exists rec ref,
        read_row cm ws row = Ok (Some (key_of cm ws row, rec, ref)) /\
        name rec = py_str (field cm ws row "Medicine_Name") /\
        (no_int (field cm ws row "Stock") -> stock rec = 0) /\
        (forall z, is_blank (field cm ws row "Stock") = false ->
           py_int (field cm ws row "Stock") = Ok z -> stock rec = z) /\
        (forall a, is_blank (field cm ws row "Actual_Price") = false ->
           py_float (field cm ws row "Actual_Price") = Ok a ->
           price rec = a) /\
        (no_float (field cm ws row "Actual_Price") ->
         (no_float (field cm ws row "Price") -> price rec = zero) /\
         (forall p, is_blank (field cm ws row "Price") = false ->
            py_float (field cm ws row "Price") = Ok p -> price rec = p)) /\
        (exists row' rec' ref',
           (row <= row')%nat /\ named cm ws row' /\
           read_row cm ws row' = Ok (Some (key_of cm ws row, rec', ref')) /\
           get_medicine st (name rec) = Some rec') /\
        ((forall row', named cm ws row' ->
            key_of cm ws row' = key_of cm ws row -> (row' <= row)%nat) ->
         get_medicine st (name rec) = Some rec) /\
        (stock rec = 0 ->
         forall w d' sel qs,
           UiMain.store w = Some st ->
           UiMain.selected w = Some sel -> get_medicine st sel = Some rec ->
           0 <= reserved w (name rec) ->
           UiMain._available_stock w (name rec) = 0 /\
           let '(w', d'', out) := UiMain.run w d' (add_attempts qs) in
           UiMain.invoice w' = UiMain.invoice w /\
           UiMain.added_qty w' = UiMain.added_qty w /\
           Forall (fun o => o = MessageBox Warning "Insufficient stock"
                                 (OnlyUnits 0 (name rec))) out /\
           (UiMain.add_button (UiMain.ui w) = true ->
            length out = length qs)).
Proof.
  intros Hfile Hws Hdet Hno.
  split; [apply no_int_cases|]. split; [apply no_float_cases|].
  destruct (detect_columns_required _ _ Hdet)
    as (cN & cMG & cR & cS & cP & cA & Hc).
  assert (Hread : forall row, row ∈ data_rows ws ->
                    exists o, read_row cm ws row = Ok o).
  { intros row Hrow.
    destruct (is_blank (field cm ws row "Medicine_Name")) eqn:Hb.
    - exists None. rewrite (read_row_columns _ _ _ _ _ _ _ _ _ Hc).
      destruct (field_columns _ _ _ _ _ _ _ ws row Hc) as (En & _).
      by rewrite <- En, Hb.
    - destruct (read_row_fields _ _ _ _ _ _ _ _ _ Hc (Hno _ Hrow) Hb)
        as (rec & ref & -> & _). by eexists. }
  destruct (collect_all _ _ _ Hread) as (es & Hes & Hin).
  pose (st := {| DataStore.sheet_name := Config.EXCEL_SHEET_NAME;
                 DataStore._workbook := wb; DataStore._col_map := cm;
                 DataStore._names := map (fun e : entry => name e.1.2) es;
                 DataStore._records := insert_records es ∅;
                 DataStore._row_refs := insert_refs es ∅ |}).
  assert (Hinit : DataStore.__init__ d Config.EXCEL_SHEET_NAME = Ok st).
  { rewrite (init_unfold _ _ _ _ _ Hfile Hws Hdet). by rewrite Hes. }
  exists st. split; [exact Hinit|].
  pose proof (init_consistent _ _ _ Hinit) as Hcons.
  assert (Hsheet : DataStore._sheet st = ws).
  { unfold DataStore._sheet. cbn. by rewrite Hws. }
  intros row Hrow Hb.
  destruct (read_row_fields _ _ _ _ _ _ _ _ _ Hc (Hno _ Hrow) Hb)
    as (rec & ref & Hrd & Hname & Hstock & Hstock' & Hover & Hprice).
  fold (key_of cm ws row) in Hrd.
  exists rec, ref. do 6 (split; [done|]).
  assert (Hkey : _normalize_name (CStr (name rec)) = key_of cm ws row).
  { rewrite Hname. reflexivity. }
  destruct (filed_from_row st row Hcons) as
    (row' & rec' & ref' & Hle & Hnamed' & Hkey' & Hrd' & Hrec').
  { rewrite Hsheet. by split. }
  rewrite Hsheet in *. cbn [DataStore._col_map st] in *.
  assert (Hget : get_medicine st (name rec) = Some rec').
  { unfold get_medicine. by rewrite Hkey. }
  split; [by exists row', rec', ref'|]. split.
  - intros Hlast.
    assert (row' = row) as ->.
    { apply Nat.le_antisymm; [by apply Hlast|done]. }
    rewrite Hrd in Hrd'. rewrite Hget. f_equal. congruence.
  - intros Hzero w d' sel qs Hst Hsel Hget' Hres.
    destruct (no_stock_no_add w d' st sel rec qs Hst Hcons Hsel Hget' Hzero Hres)
      as [Hav Hrun].
    split; [done|].
    destruct (UiMain.run w d' (add_attempts qs)) as [[w' d''] out].
    by destruct Hrun as (_ & _ & ? & ? & ? & ?).
Qed.

End TolerantLoad.

Section TolerantLoadOnSample.
Import Xlsx Gui Spec Vocab.
Local Existing Instance DecimalRuntime.runtime.

Lemma sample_rows row :
  row ∈ data_rows Sample.sheet ->
  (row = 2 \/ row = 3 \/ row = 4 \/ row = 5 \/ row = 6)%nat.
Proof.
  change (data_rows Sample.sheet) with (seq 2 5). intros Hrow.
  apply elem_of_seq in Hrow. lia.
Qed.

Lemma sample_last_row row :
  (row = 2 \/ row = 4)%nat ->
  forall row',
    named (DataStore._col_map Sample.store) Sample.sheet row' ->
    key_of (DataStore._col_map Sample.store) Sample.sheet row'
    = key_of (DataStore._col_map Sample.store) Sample.sheet row ->
    (row' <= row)%nat.
Proof.
  intros Hrow row' [Hin Hb] Hkey.
  destruct (sample_rows row' Hin) as [->|[->|[->|[->| ->]]]];
    destruct Hrow as [-> | ->]; try lia;
    try (vm_compute in Hkey; discriminate Hkey);
    vm_compute in Hb; discriminate Hb.
Qed.

Lemma blank_fields_default_to_zero_witness :
  let cm := DataStore._col_map Sample.store in
  (forall row, row ∈ data_rows Sample.sheet -> no_overflow cm Sample.sheet row) /\
  no_int (field cm Sample.sheet 4 "Stock") /\
  no_float (field cm Sample.sheet 4 "Price") /\
  no_float (field cm Sample.sheet 4 "Actual_Price") /\
  exists st rec ref rec2 ref2,
    DataStore.__init__ Sample.disk Config.EXCEL_SHEET_NAME = Ok st /\
    DataStore.read_row cm Sample.sheet 4 = Ok (Some ("aspirin", rec, ref)) /\
    DataStore.stock rec = 0 /\ DataStore.price rec = zero /\
    DataStore.get_medicine st (DataStore.name rec) = Some rec /\
    DataStore.read_row cm Sample.sheet 2
    = Ok (Some ("paracetamol", rec2, ref2)) /\
    DataStore.stock rec2 = 100 /\ DataStore.price rec2 = dec 500 2 /\
    DataStore.get_medicine st (DataStore.name rec2) = Some rec2 /\
    UiMain._available_stock Sample.window_aspirin (DataStore.name rec) = 0 /\
    let '(w', _, out) :=
      UiMain.run Sample.window_aspirin Sample.disk (add_attempts [1; 5]) in
    UiMain.invoice w' = UiMain.invoice Sample.window_aspirin /\
    UiMain.added_qty w' = UiMain.added_qty Sample.window_aspirin /\
    Forall (fun o => o = MessageBox Warning "Insufficient stock"
                          (OnlyUnits 0 (DataStore.name rec))) out /\
    (UiMain.add_button (UiMain.ui Sample.window_aspirin) = true ->
     length out = 2%nat).
Proof.
  cbn zeta.
  assert (Hno : forall row, row ∈ data_rows Sample.sheet ->
                  no_overflow (DataStore._col_map Sample.store) Sample.sheet row).
  { intros row Hrow.
    destruct (sample_rows row Hrow) as [->|[->|[->|[->| ->]]]];
      (repeat split; vm_compute; discriminate). }
  assert (Hs : no_int (field (DataStore._col_map Sample.store) Sample.sheet 4 "Stock"))
    by (left; vm_compute; reflexivity).
  assert (Hp : no_float (field (DataStore._col_map Sample.store) Sample.sheet 4 "Price"))
    by (right; right; eexists; vm_compute; reflexivity).
  assert (Ha : no_float (field (DataStore._col_map Sample.store) Sample.sheet 4
                           "Actual_Price"))
    by (left; vm_compute; reflexivity).
  assert (Ha2 : no_float (field (DataStore._col_map Sample.store) Sample.sheet 2
                            "Actual_Price"))
    by (left; vm_compute; reflexivity).
  split; [exact Hno|]. split; [exact Hs|]. split; [exact Hp|]. split; [exact Ha|].
  destruct (blank_fields_default_to_zero Sample.disk
              {[ Config.EXCEL_SHEET_NAME := Sample.sheet ]} Sample.sheet
              (DataStore._col_map Sample.store)
              eq_refl ltac:(vm_compute; reflexivity) sample_columns Hno)
    as (_ & _ & st & Hinit & Hrows).
  assert (Hrow4 : 4%nat ∈ data_rows Sample.sheet).
  { change (data_rows Sample.sheet) with (seq 2 5). apply elem_of_seq. lia. }
  assert (Hrow2 : 2%nat ∈ data_rows Sample.sheet).
  { change (data_rows Sample.sheet) with (seq 2 5). apply elem_of_seq. lia. }
  destruct (Hrows 4%nat Hrow4 ltac:(vm_compute; reflexivity))
    as (rec & ref & Hrd & _ & Hstock & _ & _ & Hprice & _ & Hfound & Hwindow).
  destruct (Hrows 2%nat Hrow2 ltac:(vm_compute; reflexivity))
    as (rec2 & ref2 & Hrd2 & _ & _ & Hstock2 & _ & Hprice2 & _ & Hfound2 & _).
  change (key_of (DataStore._col_map Sample.store) Sample.sheet 4)
    with "aspirin" in Hrd.
  change (key_of (DataStore._col_map Sample.store) Sample.sheet 2)
    with "paracetamol" in Hrd2.
  assert (Hst : st = Sample.store).
  { pose proof sample_store_loaded as Hl. unfold Sample.loaded in Hl.
    rewrite Hinit in Hl.
    exact (f_equal (fun r => match r with Ok s => s | Raise _ => st end) Hl). }
  assert (Hrec : rec = {| DataStore.name := "Aspirin "; DataStore.mg := "300";
                          DataStore.rack := "C3"; DataStore.stock := 0;
                          DataStore.price := zero |}).
  { assert (Hrd' : DataStore.read_row (DataStore._col_map Sample.store)
                     Sample.sheet 4
                   = Ok (Some ("aspirin",
                               {| DataStore.name := "Aspirin "; DataStore.mg := "300";
                                  DataStore.rack := "C3"; DataStore.stock := 0;
                                  DataStore.price := zero |},
                               {| DataStore.row_index := 4;
                                  DataStore.stock_cell_ref := (4, 4)%nat |})))
      by (vm_compute; reflexivity).
    rewrite Hrd in Hrd'. by injection Hrd'. }
  exists st, rec, ref, rec2, ref2.
  split; [exact Hinit|]. split; [exact Hrd|].
  split; [exact (Hstock Hs)|].
  split; [exact (proj1 (Hprice Ha) Hp)|].
  split; [exact (Hfound (sample_last_row 4 ltac:(by right)))|].
  split; [exact Hrd2|].
  split; [exact (Hstock2 100 ltac:(vm_compute; reflexivity)
                   ltac:(vm_compute; reflexivity))|].
  split; [exact (proj2 (Hprice2 Ha2) (dec 500 2) ltac:(vm_compute; reflexivity)
                   ltac:(vm_compute; reflexivity))|].
  split; [exact (Hfound2 (sample_last_row 2 ltac:(by left)))|].
  apply (Hwindow (Hstock Hs) Sample.window_aspirin Sample.disk "Aspirin " [1; 5]).
  - rewrite Hst. vm_compute. reflexivity.
  - vm_compute. reflexivity.
  - rewrite Hst, Hrec. vm_compute. reflexivity.
  - rewrite Hrec. vm_compute. discriminate.
Defined.

End TolerantLoadOnSample.

(* ===================================================================== *)
(** * The properties on the sample data *)
(* ===================================================================== *)

Section OnTheShelf.
Import Xlsx Gui Spec Vocab.
Local Existing Instance DecimalRuntime.runtime.

Example detect_columns_examples :
  missing_columns Shelf.incomplete = ["MG"; "Rack_Number"; "Actual_Price"] /\
  DataStore._detect_columns Shelf.incomplete
  = Raise (ValueError (MissingColumns ["MG"; "Rack_Number"; "Actual_Price"])) /\
  (DataStore._col_map Shelf.doubled_store) !! "Stock" = Some 7%nat /\
  (DataStore._col_map Shelf.doubled_store) !! "MG" = Some 2%nat.
Proof. vm_compute. repeat split. Qed.

Example load_examples :
  DataStore.__init__ Shelf.no_file "Medicines" = Raise FileNotFoundError /\
  DataStore.__init__ Sample.disk "Stock" = Raise (ValueError (SheetNotFound "Stock")) /\
  DataStore.__init__
    {| file := Some (Ok {[ "Medicines" := Shelf.overflowing ]});
       writable := true |}
    "Medicines" = Raise OverflowError.
Proof. vm_compute. repeat split. Qed.

(** What the file makes of numbers. A price of 0.30000000000000004 comes
    back as 0.3, the price 5.0 as the whole number 5, a stock of seventeen
    digits as the nearest float of sixteen; 7.25 and 40 come back as they
    are. A workbook with an infinite price is written, but the file cannot
    be loaded any more; with a whole number that no float can hold the
    save raises [OverflowError] and leaves a file that cannot be loaded. *)
Example file_examples :
  stored (CFloat (S754_finite false 5404319552844596 (-54)))
  = Some (CFloat (S754_finite false 5404319552844595 (-54))) /\
  stored (CFloat (dec 500 2)) = Some (CInt 5) /\
  stored (CInt 12345678901234569)
  = Some (CFloat (S754_finite false 6172839450617285 1)) /\
  stored (CFloat (dec 725 2)) = Some (CFloat (dec 725 2)) /\
  stored (CInt 40) = Some (CInt 40) /\
  (let '(d, r) := save_workbook Sample.disk Shelf.endless in
   r = Ok tt /\
   DataStore.__init__ d Config.EXCEL_SHEET_NAME = Raise (ValueError BadLiteral)) /\
  (let '(d, r) :=
     save_workbook Sample.disk Shelf.huge in
   r = Raise OverflowError /\
   DataStore.__init__ d Config.EXCEL_SHEET_NAME = Raise unfinished_archive).
Proof. vm_compute. repeat split. Qed.

Lemma doubled_store_loaded :
  DataStore.__init__ Shelf.doubled_disk Config.EXCEL_SHEET_NAME
  = Ok Shelf.doubled_store.
Proof. vm_compute. reflexivity. Qed.

Lemma doubled_store_consistent : consistent Shelf.doubled_store.
Proof. vm_compute. reflexivity. Qed.

Lemma self_check_holds_after_load_witness :
  DataStore.__init__ Sample.disk Config.EXCEL_SHEET_NAME = Ok Sample.store /\
  DataStore.self_check Sample.store = true /\
  DataStore.self_check
    (reduce_many Sample.store [("Ibuprofen", 15); ("Panadol", 1)]) = true.
Proof.
  split; [exact sample_store_loaded|].
  exact (self_check_holds_after_load Sample.disk Config.EXCEL_SHEET_NAME
           Sample.store [("Ibuprofen", 15); ("Panadol", 1)] sample_store_loaded).
Defined.

Lemma last_row_of_a_name_wins_witness :
  let st := Shelf.doubled_store in
  let cm := DataStore._col_map st in
  consistent st /\
  named cm (DataStore._sheet st) 2 /\ key_of cm (DataStore._sheet st) 2 = "paracetamol" /\
  named cm (DataStore._sheet st) 4 /\ key_of cm (DataStore._sheet st) 4 = "paracetamol" /\
  (DataStore.name <$> DataStore.get_medicine st "Paracetamol")
  = Some " PARACETAMOL" /\
  (DataStore.stock <$> DataStore.get_medicine st "Paracetamol") = Some 30 /\
  (DataStore.stock_cell_ref <$> DataStore._row_refs st !! "paracetamol")
  = Some (4, 7)%nat /\
  DataStore.get_medicine st "Panadol" = None.
Proof.
  cbn zeta.
  assert (Hsheet : DataStore._sheet Shelf.doubled_store = Shelf.doubled)
    by (vm_compute; reflexivity).
  assert (Hrows : data_rows Shelf.doubled = [2; 3; 4]%nat) by reflexivity.
  assert (Hn2 : named (DataStore._col_map Shelf.doubled_store)
                  (DataStore._sheet Shelf.doubled_store) 2).
  { rewrite Hsheet. split; [|vm_compute; reflexivity].
    change (data_rows Shelf.doubled) with (seq 2 3). apply elem_of_seq. lia. }
  assert (Hn4 : named (DataStore._col_map Shelf.doubled_store)
                  (DataStore._sheet Shelf.doubled_store) 4).
  { rewrite Hsheet. split; [|vm_compute; reflexivity].
    change (data_rows Shelf.doubled) with (seq 2 3). apply elem_of_seq. lia. }
  assert (Hk2 : key_of (DataStore._col_map Shelf.doubled_store)
                  (DataStore._sheet Shelf.doubled_store) 2 = "paracetamol")
    by (vm_compute; reflexivity).
  assert (Hk4 : key_of (DataStore._col_map Shelf.doubled_store)
                  (DataStore._sheet Shelf.doubled_store) 4 = "paracetamol")
    by (vm_compute; reflexivity).
  split; [exact doubled_store_consistent|].
  split; [exact Hn2|]. split; [exact Hk2|]. split; [exact Hn4|].
  split; [exact Hk4|].
  destruct (last_row_of_a_name_wins Shelf.doubled_store "Paracetamol"
              doubled_store_consistent) as [Hlast _].
  destruct (last_row_of_a_name_wins Shelf.doubled_store "Panadol"
              doubled_store_consistent) as [_ Hnone].
  destruct (Hlast 4%nat Hn4 Hk4) as (rec & cS & Hcs & Hrd & Hget & Href).
  { intros row' [Hin _] _. rewrite Hsheet, Hrows in Hin.
    apply list_elem_of_In in Hin. simpl in Hin. lia. }
  assert (HcS : cS = 7%nat).
  { assert (E : DataStore._col_map Shelf.doubled_store !! "Stock" = Some 7%nat)
      by (vm_compute; reflexivity).
    rewrite E in Hcs. by injection Hcs. }
  subst cS.
  assert (Hrec : DataStore.read_row (DataStore._col_map Shelf.doubled_store)
                   (DataStore._sheet Shelf.doubled_store) 4
                 = Ok (Some ("paracetamol",
                     {| DataStore.name := " PARACETAMOL"; DataStore.mg := "650";
                        DataStore.rack := "A2"; DataStore.stock := 30;
                        DataStore.price := dec 600 2 |},
                     {| DataStore.row_index := 4;
                        DataStore.stock_cell_ref := (4, 7)%nat |})))
    by (vm_compute; reflexivity).
  rewrite Hrd in Hrec. injection Hrec as ->.
  rewrite Hget. change (DataStore._normalize_name (CStr "Paracetamol"))
    with "paracetamol" in Href. rewrite Href.
  split; [reflexivity|]. split; [reflexivity|]. split; [reflexivity|].
  apply Hnone. intros row [Hin _] Hkey. rewrite Hsheet, Hrows in Hin.
  apply list_elem_of_In in Hin. simpl in Hin.
  destruct Hin as [<-|[<-|[<-|[]]]]; vm_compute in Hkey; discriminate Hkey.
Defined.

Lemma names_and_lookup_agree_witness :
  let st := Shelf.doubled_store in
  consistent st /\
  DataStore.get_all_names st = ["Paracetamol"; "Ibuprofen"; " PARACETAMOL"] /\
  (forall n, n ∈ DataStore.get_all_names st ->
     exists r, DataStore.get_medicine st n = Some r /\
       DataStore._normalize_name (CStr (DataStore.name r))
       = DataStore._normalize_name (CStr n)) /\
  (forall k r, DataStore._records st !! k = Some r ->
     DataStore.name r ∈ DataStore.get_all_names st) /\
  length (DataStore.get_all_names st) = 3%nat.
Proof.
  cbn zeta.
  destruct (names_and_lookup_agree Shelf.doubled_store doubled_store_consistent)
    as (Hfound & Hoffered & Hlen).
  split; [exact doubled_store_consistent|].
  split; [vm_compute; reflexivity|].
  split; [exact Hfound|]. split; [exact Hoffered|].
  rewrite Hlen. vm_compute. reflexivity.
Defined.

Lemma reduce_stock_twice_is_once_witness :
  let st := Sample.store in
  consistent st /\
  (DataStore.stock <$> DataStore.get_medicine st "Ibuprofen") = Some 40 /\
  DataStore.reduce_stock (DataStore.reduce_stock st "Ibuprofen" 15).1
    " ibuprofen" 25
  = DataStore.reduce_stock st "Ibuprofen" 40.
Proof.
  cbn zeta. split; [exact sample_store_consistent|].
  split; [vm_compute; reflexivity|].
  assert (Hget : exists rec,
            DataStore.get_medicine Sample.store "Ibuprofen" = Some rec /\
            DataStore.stock rec = 40)
    by (vm_compute; eexists; split; reflexivity).
  destruct Hget as (rec & Hget & Hstock).
  apply (reduce_stock_twice_is_once Sample.store "Ibuprofen" " ibuprofen" 15 25
           rec sample_store_consistent Hget).
  - vm_compute. reflexivity.
  - lia.
  - lia.
  - rewrite Hstock. lia.
Defined.

Lemma reduce_stock_commutes_witness :
  let st := Sample.store in
  consistent st /\
  (DataStore.reduce_stock (DataStore.reduce_stock st "Ibuprofen" 15).1
     "Paracetamol" 200).1
  = (DataStore.reduce_stock (DataStore.reduce_stock st "Paracetamol" 200).1
       "Ibuprofen" 15).1 /\
  (DataStore.reduce_stock (DataStore.reduce_stock st "Ibuprofen" 15).1
     "Paracetamol" 20).1
  = (DataStore.reduce_stock (DataStore.reduce_stock st "Paracetamol" 20).1
       "Ibuprofen" 15).1.
Proof.
  cbn zeta. split; [exact sample_store_consistent|]. split.
  - apply (reduce_stock_commutes Sample.store "Ibuprofen" "Paracetamol" 15 200
             sample_store_consistent).
    vm_compute. discriminate.
  - apply (reduce_stock_commutes Sample.store "Ibuprofen" "Paracetamol" 15 20
             sample_store_consistent).
    vm_compute. discriminate.
Defined.




(** Without those two conditions the loaded store can differ from the one
    that was saved: the sample sheet holds the price 5.0, which the file
    gives back as the whole number 5, so the workbook that is loaded again
    is another one, though it gives the same records for Paracetamol and
    for Ibuprofen. *)
Example save_then_load_examples :
  let st := reduce_many Sample.store [("Ibuprofen", 15)] in
  let '(d', r) := DataStore.save Sample.disk st in
  r = Ok tt /\
  value (DataStore._sheet st) 2 5 = CFloat (dec 500 2) /\
  ((fun st' => value (DataStore._sheet st') 2 5)
     <$> DataStore.__init__ d' Config.EXCEL_SHEET_NAME) = Ok (CInt 5) /\
  ((fun st' => DataStore.get_medicine st' "Paracetamol")
     <$> DataStore.__init__ d' Config.EXCEL_SHEET_NAME)
  = Ok (DataStore.get_medicine st "Paracetamol") /\
  ((fun st' => DataStore.get_medicine st' "Ibuprofen")
     <$> DataStore.__init__ d' Config.EXCEL_SHEET_NAME)
  = Ok (DataStore.get_medicine st "Ibuprofen").
Proof. vm_compute. repeat split. Qed.

Lemma failed_start_is_inert_witness :
  DataStore.__init__ Shelf.no_file Config.EXCEL_SHEET_NAME
  = Raise FileNotFoundError /\
  (UiMain.__init__ Shelf.no_file).2 =
    [MessageBox Critical "Excel Error"
       (Failed "Failed to load Excel" FileNotFoundError)] /\
  let '(w, d', out) :=
    UiMain.run (UiMain.__init__ Shelf.no_file).1 Sample.disk
      [UiMain.TextChanged "Paracetamol"; UiMain.ReturnPressed;
       UiMain.AddClicked; UiMain.PrintClicked true; UiMain.ClearClicked;
       UiMain.Activated "Ibuprofen"; UiMain.AddClicked] in
  UiMain.store w = None /\ Models.items (UiMain.invoice w) = [] /\
  UiMain.added_qty w = ∅ /\
  UiMain.add_button (UiMain.ui w) = false /\
  UiMain.print_button (UiMain.ui w) = false /\
  d' = Sample.disk /\ out = [].
Proof.
  assert (Hinit : DataStore.__init__ Shelf.no_file Config.EXCEL_SHEET_NAME
                  = Raise FileNotFoundError) by reflexivity.
  split; [exact Hinit|].
  exact (failed_start_is_inert Shelf.no_file FileNotFoundError Sample.disk
           [UiMain.TextChanged "Paracetamol"; UiMain.ReturnPressed;
            UiMain.AddClicked; UiMain.PrintClicked true; UiMain.ClearClicked;
            UiMain.Activated "Ibuprofen"; UiMain.AddClicked] Hinit).
Defined.




(** The checkout of 30 Ibuprofen out of 40, on the sample file: 10 are
    left in the file that was saved; and on the locked file 10 are left in
    memory while the file still says 40. *)
Example checkout_examples :
  let '(w1, d1, _) := UiMain._on_print Shelf.window_thirty Sample.disk true in
  let '(w2, d2, _) :=
    UiMain._on_print Shelf.window_thirty Sample.locked_disk true in
  (DataStore.stock <$>
     (st ← DataStore.__init__ d1 Config.EXCEL_SHEET_NAME;
      from_option (DataStore.get_medicine st "Ibuprofen"))) = Ok 10 /\
  (DataStore.stock <$>
     (st ← from_option (UiMain.store w2);
      from_option (DataStore.get_medicine st "Ibuprofen"))) = Ok 10 /\
  (DataStore.stock <$>
     (st ← DataStore.__init__ d2 Config.EXCEL_SHEET_NAME;
      from_option (DataStore.get_medicine st "Ibuprofen"))) = Ok 40.
Proof. vm_compute. repeat split. Qed.


(** Why the file has to keep the workbook. With a whole number in the
    sheet that no float can hold, the save of a checkout raises
    [OverflowError] though the file can be written: the stocks in memory
    are lowered while the ledger stays, so the 30 units of Ibuprofen that
    are reserved stand against a stock of 10, nothing is given as
    available, and a second checkout, on a locked file, fails on the stock
    before it comes to save. *)
Example unwritable_number_examples :
  let '(w, d, out) :=
    UiMain.run (UiMain.__init__ Shelf.huge_disk).1 Shelf.huge_disk
      (Shelf.thirty_ibuprofen ++ [UiMain.PrintClicked true]) in
  writable Shelf.huge_disk = true /\
  last out = Some (MessageBox Critical "Excel Error"
                     (Failed "Failed to update stock" OverflowError)) /\
  reserved w "Ibuprofen" = 30 /\
  (DataStore.stock <$>
     (st ← from_option (UiMain.store w);
      from_option (DataStore.get_medicine st "Ibuprofen"))) = Ok 10 /\
  UiMain._available_stock w "Ibuprofen" = 0 /\
  DataStore.__init__ d Config.EXCEL_SHEET_NAME = Raise unfinished_archive /\
  exists e,
    (UiMain._on_print w {| file := file d; writable := false |} true).2
    = [PrintJob (UiMain._build_receipt w);
       MessageBox Critical "Excel Error" (Failed "Failed to update stock" e)] /\
    e <> OSError.
Proof. vm_compute. repeat split. eexists. split; [reflexivity|discriminate]. Qed.

Lemma sample_repo_loaded :
  ExcelRepo.__init__ Sample.disk Config.EXCEL_SHEET_NAME = Ok Shelf.repo.
Proof. vm_compute. reflexivity. Qed.

Lemma sample_repo_columns :
  columns (DataStore._col_map Sample.store)
    (ExcelRepo.name (ExcelRepo._columns Shelf.repo))
    (ExcelRepo.mg (ExcelRepo._columns Shelf.repo))
    (ExcelRepo.rack_number (ExcelRepo._columns Shelf.repo))
    (ExcelRepo.stock (ExcelRepo._columns Shelf.repo))
    (ExcelRepo.price (ExcelRepo._columns Shelf.repo))
    (ExcelRepo.actual_price (ExcelRepo._columns Shelf.repo)).
Proof. constructor; vm_compute; reflexivity. Qed.

Lemma loaders_agree_witness :
  let cm := DataStore._col_map Sample.store in
  (forall row, named cm (ExcelRepo._sheet Shelf.repo) row ->
     truthy (field cm (ExcelRepo._sheet Shelf.repo) row "Medicine_Name") = true) /\
  exists es ms,
    collect cm (ExcelRepo._sheet Shelf.repo)
      (data_rows (ExcelRepo._sheet Shelf.repo)) = Ok es /\
    ExcelRepo.list_medicines Shelf.repo = Ok ms /\
    length ms = 4%nat /\
    Forall2 same_medicine ms (map (fun e : entry => e.1.2) es).
Proof.
  cbn zeta.
  assert (Hsheet : ExcelRepo._sheet Shelf.repo = Sample.sheet)
    by (vm_compute; reflexivity).
  assert (Hall : forall row,
            named (DataStore._col_map Sample.store)
              (ExcelRepo._sheet Shelf.repo) row ->
            truthy (field (DataStore._col_map Sample.store)
                      (ExcelRepo._sheet Shelf.repo) row "Medicine_Name") = true).
  { intros row [Hin Hb]. rewrite Hsheet in *.
    change (data_rows Sample.sheet) with (seq 2 5) in Hin.
    apply elem_of_seq in Hin.
    assert (row = 2 \/ row = 3 \/ row = 4 \/ row = 5 \/ row = 6)%nat
      as [->|[->|[->|[->| ->]]]] by lia;
      try (vm_compute; reflexivity).
    vm_compute in Hb. discriminate Hb. }
  split; [exact Hall|].
  pose proof (loaders_agree (DataStore._col_map Sample.store) Shelf.repo
                sample_repo_columns Hall) as T.
  assert (Hlen : (length <$> ExcelRepo.list_medicines Shelf.repo) = Ok 4%nat)
    by (vm_compute; reflexivity).
  destruct (collect _ _ _) as [es|e1];
    destruct (ExcelRepo.list_medicines Shelf.repo) as [ms|e2];
    try (destruct T; fail); try discriminate Hlen.
  exists es, ms. split; [reflexivity|]. split; [reflexivity|].
  split; [by injection Hlen|exact T].
Defined.

Lemma zero_named_row_is_read_by_one_loader_witness :
  let cm := DataStore._col_map Sample.store in
  let cols := ExcelRepo._columns Shelf.repo in
  value Shelf.zero_named 5 (ExcelRepo.name cols) = CInt 0 /\
  no_overflow cm Shelf.zero_named 5 /\
  ExcelRepo.medicine_of_row cols Shelf.zero_named 5 = Ok None /\
  exists k r ref,
    DataStore.read_row cm Shelf.zero_named 5 = Ok (Some (k, r, ref)) /\
    DataStore.name r = "0".
Proof.
  cbn zeta.
  assert (Hv : value Shelf.zero_named 5
                 (ExcelRepo.name (ExcelRepo._columns Shelf.repo)) = CInt 0)
    by (vm_compute; reflexivity).
  assert (Hno : no_overflow (DataStore._col_map Sample.store)
                  Shelf.zero_named 5)
    by (repeat split; vm_compute; discriminate).
  split; [exact Hv|]. split; [exact Hno|].
  destruct (zero_named_row_is_read_by_one_loader
              (DataStore._col_map Sample.store)
              (ExcelRepo._columns Shelf.repo) Shelf.zero_named 5
              sample_repo_columns)
    as (Hrepo & k & r & ref & Hrd & Hname);
    [by rewrite Hv|by rewrite Hv|exact Hno|].
  split; [exact Hrepo|]. exists k, r, ref. split; [exact Hrd|].
  rewrite Hname, Hv. reflexivity.
Defined.

Lemma plain_repo_loaded :
  ExcelRepo.__init__ Sample.plain_disk Config.EXCEL_SHEET_NAME
  = Ok Shelf.plain_repo.
Proof. vm_compute. reflexivity. Qed.

Lemma save_stock_updates_cells_witness :
  let upd : gmap string Z := {[ "Paracetamol" := 70; "Aspirin" := 5 ]} in
  ExcelRepo.__init__ Sample.disk Config.EXCEL_SHEET_NAME = Ok Shelf.repo /\
  ExcelRepo.__init__ Sample.plain_disk Config.EXCEL_SHEET_NAME
  = Ok Shelf.plain_repo /\
  (let '(repo', d', r) :=
     ExcelRepo.save_stock_updates Shelf.repo Sample.locked_disk upd in
   value (ExcelRepo._sheet repo') 2 4 = CInt 70 /\
   value (ExcelRepo._sheet repo') 3 4 = CInt 40 /\
   value (ExcelRepo._sheet repo') 4 4 = CNone /\
   r = Raise OSError /\ d' = Sample.locked_disk) /\
  (let '(repo', d', r) :=
     ExcelRepo.save_stock_updates Shelf.plain_repo Sample.plain_disk upd in
   value (ExcelRepo._sheet repo') 2 4 = CInt 70 /\
   value (ExcelRepo._sheet repo') 3 4 = CInt 40 /\
   kept (ExcelRepo._workbook repo') /\
   r = Ok tt /\ file d' = Some (Ok (ExcelRepo._workbook repo'))).
Proof.
  cbn zeta. split; [exact sample_repo_loaded|].
  split; [exact plain_repo_loaded|]. split.
  - pose proof (save_stock_updates_cells Sample.disk Config.EXCEL_SHEET_NAME
                  Shelf.repo Sample.locked_disk
                  {[ "Paracetamol" := 70; "Aspirin" := 5 ]} sample_repo_loaded)
      as T. cbn zeta in T.
    destruct (ExcelRepo.save_stock_updates _ _ _) as [[repo' d'] r].
    destruct T as (Hcells & _ & _ & _ & Hl).
    rewrite !Hcells. destruct (Hl eq_refl) as [-> ->].
    repeat split; vm_compute; reflexivity.
  - pose proof (save_stock_updates_cells Sample.plain_disk
                  Config.EXCEL_SHEET_NAME Shelf.plain_repo Sample.plain_disk
                  {[ "Paracetamol" := 70; "Aspirin" := 5 ]} plain_repo_loaded)
      as T. cbn zeta in T.
    destruct (ExcelRepo.save_stock_updates _ _ _) as [[repo' d'] r] eqn:E.
    destruct T as (Hcells & _ & _ & Hw & _).
    assert (Hk : kept (ExcelRepo._workbook repo')).
    { replace repo' with
        (ExcelRepo.save_stock_updates Shelf.plain_repo Sample.plain_disk
           {[ "Paracetamol" := 70; "Aspirin" := 5 ]}).1.1 by (by rewrite E).
      apply kept_check. vm_compute. reflexivity. }
    rewrite !Hcells. destruct (Hw eq_refl Hk) as [-> ->].
    repeat split; [vm_compute; reflexivity..|exact Hk].
Defined.

Lemma persist_stock_changes_levels_witness :
  let w := Sample.window2_with_item in
  let v := Shelf.plain_window2_with_item in
  ExcelRepo.__init__ Sample.disk Config.EXCEL_SHEET_NAME = Ok Shelf.repo /\
  UiWindow.repo w = Some Shelf.repo /\
  UiWindowEvents.reserved w "Paracetamol" = 10 /\
  ExcelRepo.__init__ Sample.plain_disk Config.EXCEL_SHEET_NAME
  = Ok Shelf.plain_repo /\
  UiWindow.repo v = Some Shelf.plain_repo /\
  UiWindowEvents.reserved v "Paracetamol" = 10 /\
  (let '(w', d', r) := UiWindow._persist_stock_changes w Sample.locked_disk in
   exists rp',
     UiWindow.repo w' = Some rp' /\
     value (ExcelRepo._sheet rp') 2 4 = CInt 90 /\
     value (ExcelRepo._sheet rp') 3 4 = CInt 40 /\
     value (ExcelRepo._sheet rp') 6 4 = CInt 0 /\
     value (ExcelRepo._sheet rp') 5 4 = CNone /\
     value (ExcelRepo._sheet rp') 4 4 = CInt 0 /\
     r = Raise OSError /\ d' = Sample.locked_disk /\
     UiWindow.invoice_items w' = UiWindow.invoice_items w) /\
  (let '(v', d', r) := UiWindow._persist_stock_changes v Sample.plain_disk in
   exists rp',
     UiWindow.repo v' = Some rp' /\
     value (ExcelRepo._sheet rp') 2 4 = CInt 90 /\
     value (ExcelRepo._sheet rp') 3 4 = CInt 40 /\
     kept (ExcelRepo._workbook rp') /\
     r = Ok tt /\ file d' = Some (Ok (ExcelRepo._workbook rp')) /\
     UiWindow.invoice_items v' = UiWindow.invoice_items v).
Proof.
  cbn zeta.
  assert (Hrepo : UiWindow.repo Sample.window2_with_item = Some Shelf.repo)
    by (vm_compute; reflexivity).
  assert (Hplain : UiWindow.repo Shelf.plain_window2_with_item
                   = Some Shelf.plain_repo) by (vm_compute; reflexivity).
  split; [exact sample_repo_loaded|]. split; [exact Hrepo|].
  split; [vm_compute; reflexivity|].
  split; [exact plain_repo_loaded|]. split; [exact Hplain|].
  split; [vm_compute; reflexivity|]. split.
  - pose proof (persist_stock_changes_levels Sample.disk
                  Sample.window2_with_item Shelf.repo Sample.locked_disk
                  sample_repo_loaded Hrepo) as T.
    cbn zeta in T.
    destruct (UiWindow._persist_stock_changes _ _) as [[w' d'] r].
    destruct T as ((rp' & Hrp & Hcells & _ & _ & Hl) & _ & Hitems & _).
    { intros n m Hm.
      assert (Hkeys : map_Forall (fun n m => Medicine.name m = n)
                        (UiWindow.medicines_by_name Sample.window2_with_item)).
      { apply map_Forall_to_list. vm_compute. repeat constructor. }
      exact (Hkeys n m Hm). }
    exists rp'. split; [exact Hrp|]. rewrite !Hcells.
    destruct (Hl eq_refl) as [-> ->].
    repeat split; [vm_compute; reflexivity..|exact Hitems].
  - pose proof (persist_stock_changes_levels Sample.plain_disk
                  Shelf.plain_window2_with_item Shelf.plain_repo
                  Sample.plain_disk plain_repo_loaded Hplain) as T.
    cbn zeta in T.
    destruct (UiWindow._persist_stock_changes _ _) as [[v' d'] r] eqn:E.
    destruct T as ((rp' & Hrp & Hcells & _ & Hw & _) & _ & Hitems & _).
    { intros n m Hm.
      assert (Hkeys : map_Forall (fun n m => Medicine.name m = n)
                        (UiWindow.medicines_by_name
                           Shelf.plain_window2_with_item)).
      { apply map_Forall_to_list. vm_compute. repeat constructor. }
      exact (Hkeys n m Hm). }
    assert (Hk : kept (ExcelRepo._workbook rp')).
    { assert (Hv : UiWindow.repo
                     (UiWindow._persist_stock_changes
                        Shelf.plain_window2_with_item Sample.plain_disk).1.1
                   = Some rp') by (by rewrite E).
      assert (Hc : from_option
                     (UiWindow.repo
                        (UiWindow._persist_stock_changes
                           Shelf.plain_window2_with_item Sample.plain_disk).1.1)
                   = Ok rp') by (by rewrite Hv).
      apply (f_equal (fun x => match x with
                               | Ok rp => bool_decide (kept (ExcelRepo._workbook rp))
                               | Raise _ => true
                               end)) in Hc.
      apply kept_check. rewrite <- Hc. vm_compute. reflexivity. }
    exists rp'. split; [exact Hrp|]. rewrite !Hcells.
    destruct (Hw eq_refl Hk) as [-> ->].
    repeat split; [vm_compute; reflexivity..|exact Hk|exact Hitems].
Defined.

Example second_window_examples :
  let '(w, d, out) :=
    UiWindowEvents.run (UiWindow.__init__ Sample.disk).1 Sample.disk
      [UiWindowEvents.TextChanged "paracetamol";
       UiWindowEvents.AddClicked;
       UiWindowEvents.TextChanged "Paracetamol";
       UiWindowEvents.QtyChanged 60; UiWindowEvents.AddClicked;
       UiWindowEvents.AddClicked] in
  map line2 (UiWindow.invoice_items w) = [("Paracetamol", 60)] /\
  UiWindowEvents.reserved w "Paracetamol" = 60 /\
  length out = 2%nat.
Proof. vm_compute. repeat split. Qed.

End OnTheShelf.
